(** * Tax-return document pipeline: a shallow embedding of the TypeScript sources

    The development follows the layout of the repository:

    - [JS]: the fragment of the JavaScript runtime the sources rely on
      (numbers with [NaN] and the infinities, dynamically typed values,
      truthiness, ASCII case mapping, exceptions as a result type);
    - [StateTaxData]: [lib/state-tax-data] (the 2024 state table);
    - [StateTaxCalculations]: [lib/state-tax-calculations.ts];
    - [EnhancedTaxCalculations]: [lib/enhanced-tax-calculations];
    - [StateDetection]: [lib/state-detection];
    - [Prisma]: the persisted entities and the queries the routes issue;
    - [DocumentRoute]: [app/api/documents/[id]/route.ts] (GET, DELETE);
    - [ProcessRoute]: the document processing endpoint (POST);
    - [CurrentIncomeRoute], [CleanupRoute]: the routes that list and that
      clean up the income entries of a tax return;
    - [Migration], [Integrity]: the cascade-delete migration and the
      foreign key it installs;
    - [StatusStream]: [app/api/documents/[id]/status-stream/route.ts] (GET).

    Amounts are exact rationals ([Q]): JavaScript's binary64 rounding is
    not part of the model.  Strings are byte strings; case mapping and
    white space are those of the ASCII range.  Objects used as tables are
    finite maps over their own keys: keys inherited from
    [Object.prototype] are not part of the model.  Reads of the database
    do not fail by themselves; writes fail as Prisma documents (a missing
    row, a broken foreign key, a value that does not fit its column). *)

From Stdlib Require Import ZArith QArith Qround Qminmax Qabs Lqa String Ascii List Lia.
From stdpp Require Import base option gmap strings list.
Import ListNotations.

Local Open Scope string_scope.

(* ===================================================================== *)
(** * The JavaScript fragment *)
(* ===================================================================== *)

Module JS.

(** A JavaScript [number]: a finite value or one of the three specials. *)
Inductive number : Type :=
| Fin (q : Q)
| NaN
| PosInf
| NegInf.

(** A dynamically typed value ([any]). *)
#[warnings="-register-all"]
Inductive value : Type :=
| Null
| Undefined
| Bool (b : bool)
| Num (n : number)
| Str (s : string)
| Obj (fields : list (string * value))
| Arr (items : list value).

(** A plain object used as a record of loosely typed fields
    ([extractedData]). *)
Abbreviation object := (gmap string value).

(** [o[field]]: a missing property reads as [undefined]. *)
Definition get (o : object) (field : string) : value :=
  match o !! field with
  | Some v => v
  | None => Undefined
  end.

Definition Qeqb0 (q : Q) : bool := Qeq_bool q 0.

(** [isNaN(n)] on a number. *)
Definition isNaN (n : number) : bool :=
  match n with
  | NaN => true
  | _ => false
  end.

(** [Number.isFinite(n)]. *)
Definition isFinite (n : number) : bool :=
  match n with
  | Fin _ => true
  | _ => false
  end.

(** A number that is neither finite nor NaN. *)
Definition infinite (n : number) : Prop := n = PosInf \/ n = NegInf.

(** Truthiness of a number: [0] and [NaN] are falsy. *)
Definition truthy_number (n : number) : bool :=
  match n with
  | Fin q => negb (Qeqb0 q)
  | NaN => false
  | PosInf | NegInf => true
  end.

(** Truthiness ([!!v]). *)
Definition truthy (v : value) : bool :=
  match v with
  | Null | Undefined => false
  | Bool b => b
  | Num n => truthy_number n
  | Str s => negb (String.eqb s "")
  | Obj _ | Arr _ => true
  end.

(** [a || b] on values. *)
Definition or (a b : value) : value := if truthy a then a else b.

(** [n || 0] on numbers. *)
Definition or0 (n : number) : number :=
  if truthy_number n then n else Fin 0.

(** [n > 0]. *)
Definition gt0 (n : number) : bool :=
  match n with
  | Fin q => negb (Qle_bool q 0)
  | PosInf => true
  | NaN | NegInf => false
  end.

(** [Math.round]: the nearest integer, ties towards +infinity. *)
Definition Math_round (x : Q) : Z := Qfloor (x + (1 # 2)).

(** [Math.max] and [Math.abs] on finite numbers. *)
Definition Math_max (x y : Q) : Q := Qmax x y.
Definition Math_abs (x : Q) : Q := Qabs x.

(** ASCII case mapping, the part of [toUpperCase]/[toLowerCase] the
    sources exercise (state codes, filing statuses, error messages). *)
Definition upper_ascii (c : ascii) : ascii :=
  let n := nat_of_ascii c in
  if (97 <=? n)%nat && (n <=? 122)%nat then ascii_of_nat (n - 32) else c.

Definition lower_ascii (c : ascii) : ascii :=
  let n := nat_of_ascii c in
  if (65 <=? n)%nat && (n <=? 90)%nat then ascii_of_nat (n + 32) else c.

Fixpoint map_string (f : ascii -> ascii) (s : string) : string :=
  match s with
  | EmptyString => EmptyString
  | String c rest => String (f c) (map_string f rest)
  end.

Definition toUpperCase : string -> string := map_string upper_ascii.
Definition toLowerCase : string -> string := map_string lower_ascii.

(** [s.replace(/_/g, '')]. *)
Fixpoint strip_underscores (s : string) : string :=
  match s with
  | EmptyString => EmptyString
  | String c rest =>
      if Ascii.eqb c "_"%char then strip_underscores rest
      else String c (strip_underscores rest)
  end.

(** [s.includes(needle)]. *)
Fixpoint includes (needle s : string) : bool :=
  String.prefix needle s ||
  match s with
  | EmptyString => false
  | String _ rest => includes needle rest
  end.

(** [s.startsWith(p)]. *)
Definition startsWith (p s : string) : bool := String.prefix p s.

(** [s.trim()] for ASCII white space. *)
Definition isSpace (c : ascii) : bool :=
  let n := nat_of_ascii c in
  ((9 <=? n)%nat && (n <=? 13)%nat) || (n =? 32)%nat.

Fixpoint trimStart (s : string) : string :=
  match s with
  | String c rest => if isSpace c then trimStart rest else s
  | EmptyString => s
  end.

Fixpoint trimEnd (s : string) : string :=
  match s with
  | EmptyString => EmptyString
  | String c rest =>
      match trimEnd rest with
      | EmptyString => if isSpace c then EmptyString else String c EmptyString
      | kept => String c kept
      end
  end.

Definition trim (s : string) : string := trimEnd (trimStart s).

(** ** Regular expressions

    The fragment the sources use: greedy repetition of a character class,
    sequencing, one capture group, an optional group, [\b] and [$].
    [exec] is [String.prototype.match] without the [g] flag, returning the
    text of capture group 1 of the leftmost match. *)
Inductive regex : Type :=
| Chars (class : ascii -> bool) (least : nat) (most : option nat)
| Then (first second : regex)
| Group (inner : regex)
| Maybe (inner : regex)
| Boundary
| EndOfInput.

Definition isUpper (c : ascii) : bool :=
  let n := nat_of_ascii c in (65 <=? n)%nat && (n <=? 90)%nat.
Definition isLower (c : ascii) : bool :=
  let n := nat_of_ascii c in (97 <=? n)%nat && (n <=? 122)%nat.
Definition isDigit (c : ascii) : bool :=
  let n := nat_of_ascii c in (48 <=? n)%nat && (n <=? 57)%nat.
Definition isWord (c : ascii) : bool :=
  isUpper c || isLower c || isDigit c || Ascii.eqb c "_"%char.

Definition Lit (c : ascii) : regex := Chars (Ascii.eqb c) 1 (Some 1).

Record cursor : Type := {
  previous : option ascii;
  remaining : string;
  captured : option string
}.

Definition mayTakeMore (most : option nat) : bool :=
  match most with
  | Some O => false
  | _ => true
  end.

(** Greedy repetition with backtracking: take as many characters as the
    bounds allow, giving one back at a time while the rest fails. *)
Fixpoint repeatChars {R} (class : ascii -> bool) (least : nat)
  (most : option nat) (capture : option string) (prev : option ascii)
  (s : string) (k : cursor -> option R) : option R :=
  let stop :=
    match least with
    | O => k {| previous := prev; remaining := s; captured := capture |}
    | S _ => None
    end in
  match s with
  | String c rest =>
      if class c && mayTakeMore most
      then
        match repeatChars class (Nat.pred least) (Nat.pred <$> most) capture
                (Some c) rest k with
        | Some r => Some r
        | None => stop
        end
      else stop
  | EmptyString => stop
  end.

Definition atBoundary (prev : option ascii) (s : string) : bool :=
  let before := match prev with Some c => isWord c | None => false end in
  let after := match s with String c _ => isWord c | EmptyString => false end in
  xorb before after.

(** The text read between two positions: [to] is a suffix of [from]. *)
Definition consumed (from to : string) : string :=
  String.substring 0 (String.length from - String.length to) from.

Fixpoint matchAt {R} (r : regex) (at_ : cursor) (k : cursor -> option R)
  : option R :=
  match r with
  | Chars class least most =>
      repeatChars class least most (captured at_) (previous at_)
        (remaining at_) k
  | Then first second => matchAt first at_ (fun mid => matchAt second mid k)
  | Group inner =>
      matchAt inner at_
        (fun after =>
           k {| previous := previous after;
                remaining := remaining after;
                captured := Some (consumed (remaining at_) (remaining after)) |})
  | Maybe inner =>
      match matchAt inner at_ k with
      | Some r => Some r
      | None => k at_
      end
  | Boundary =>
      if atBoundary (previous at_) (remaining at_) then k at_ else None
  | EndOfInput =>
      match remaining at_ with
      | EmptyString => k at_
      | String _ _ => None
      end
  end.

(** The leftmost match: try every start position in turn. *)
Fixpoint search (r : regex) (prev : option ascii) (s : string)
  : option (option string) :=
  match matchAt r {| previous := prev; remaining := s; captured := None |}
          (fun final => Some (captured final)) with
  | Some capture => Some capture
  | None =>
      match s with
      | String c rest => search r (Some c) rest
      | EmptyString => None
      end
  end.

(** [s.match(r)] followed by the test [match && match[1]]: the text of
    group 1 when there is a match and the group is not empty. *)
Definition exec (r : regex) (s : string) : option string :=
  match search r None s with
  | Some (Some text) => if String.eqb text "" then None else Some text
  | _ => None
  end.

(** Exceptions: a computation returns a value or throws an [Error]
    carrying a message. *)
Inductive Result (A : Type) : Type :=
| Ok (a : A)
| Throw (message : string).
Arguments Ok {A} a.
Arguments Throw {A} message.

Definition bind {A B} (r : Result A) (k : A -> Result B) : Result B :=
  match r with
  | Ok a => k a
  | Throw e => Throw e
  end.

(** [try { body } catch (error) { handler }]. *)
Definition try_catch {A} (body : Result A) (handler : string -> Result A)
  : Result A :=
  match body with
  | Ok a => Ok a
  | Throw e => handler e
  end.

(** Built-ins of the runtime that read or produce text.  They are not
    code of the repository: the sources are embedded over any runtime. *)
Class Runtime : Type := {
  (** [parseFloat(s)] *)
  parseFloat : string -> number;
  (** [n.toLocaleString()] *)
  toLocaleString : Q -> string;
  (** [n.toFixed(digits)] *)
  toFixed : Q -> nat -> string;
  (** [String(v)], also the conversion inside a template literal *)
  toString : value -> string;
  (** [Number(v)], the coercion [Math.max] and [Math.min] apply *)
  toNumber : value -> number
}.

(** [v.field] on a dynamically typed value: reading a property of [null]
    or [undefined] throws a [TypeError]; primitives and arrays have none
    of the fields read by the sources. *)
Fixpoint lookupField (fields : list (string * value)) (field : string)
  : value :=
  match fields with
  | [] => Undefined
  | (name, v) :: rest =>
      if String.eqb name field then v else lookupField rest field
  end.

Definition property (v : value) (field : string) : Result value :=
  match v with
  | Null | Undefined =>
      Throw ("Cannot read properties of null (reading '" ++ field ++ "')")
  | Obj fields => Ok (lookupField fields field)
  | _ => Ok Undefined
  end.

(** [Math.max(a, b)] and [Math.min(a, b)] on numbers. *)
Definition number_max (a b : number) : number :=
  match a, b with
  | NaN, _ | _, NaN => NaN
  | PosInf, _ | _, PosInf => PosInf
  | NegInf, other | other, NegInf => other
  | Fin x, Fin y => Fin (Qmax x y)
  end.

Definition number_min (a b : number) : number :=
  match a, b with
  | NaN, _ | _, NaN => NaN
  | NegInf, _ | _, NegInf => NegInf
  | PosInf, other | other, PosInf => other
  | Fin x, Fin y => Fin (Qmin x y)
  end.

(** [n < q] for a finite [q]. *)
Definition number_ltQ (n : number) (q : Q) : bool :=
  match n with
  | Fin x => negb (Qle_bool q x)
  | NegInf => true
  | NaN | PosInf => false
  end.

End JS.

(** Sequencing of throwing computations, written [x ← c; k]. *)
#[global] Instance Result_ret : MRet JS.Result := @JS.Ok.
#[global] Instance Result_bind : MBind JS.Result := fun A B k r => JS.bind r k.

(** A dependent as the calculators see it ([any[]] in the sources: only
  the length of the list and the two eligibility flags are read). *)
Record Dependent : Type := mkDependent {
dependentTaxReturnId : string;
qualifiesForCTC : bool;
qualifiesForEITC : bool
}.


(* ===================================================================== *)
(** * An executable runtime for ASCII decimal text *)
(* ===================================================================== *)

(** The examples run the embedded code on this instance of [JS.Runtime].
    Numbers are read and printed exactly (no rounding to binary64), with
    en-US grouping for [toLocaleString]. *)
Module ReferenceRuntime.

Local Open Scope Q_scope.

Definition isDigit : ascii -> bool := JS.isDigit.

Definition skipSpaces : string -> string := JS.trimStart.

(** The leading digits of [s], as their values, and what follows them. *)
Fixpoint takeDigits (s : string) : list Z * string :=
  match s with
  | String c rest =>
      if isDigit c
      then let '(digits, tail) := takeDigits rest in
           ((Z.of_nat (nat_of_ascii c) - 48)%Z :: digits, tail)
      else ([], s)
  | EmptyString => ([], s)
  end.

Definition digitsValue (digits : list Z) : Z :=
  fold_left (fun acc digit => (acc * 10 + digit)%Z) digits 0%Z.

Definition takeSign (s : string) : bool * string :=
  match s with
  | String "-" rest => (true, rest)
  | String "+" rest => (false, rest)
  | _ => (false, s)
  end.

Definition pow10 (e : Z) : Q := Qpower 10 e.

(** [parseFloat]: the longest prefix that is a decimal literal. *)
Definition parseFloat (text : string) : JS.number :=
  let '(negative, body) := takeSign (skipSpaces text) in
  if String.prefix "Infinity" body
  then (if negative then JS.NegInf else JS.PosInf)
  else
    let '(whole, afterWhole) := takeDigits body in
    let '(fraction, afterFraction) :=
      match afterWhole with
      | String "." rest => takeDigits rest
      | _ => ([], afterWhole)
      end in
    match whole, fraction with
    | [], [] => JS.NaN
    | _, _ =>
        let exponent :=
          match afterFraction with
          | String c rest =>
              if Ascii.eqb c "e" || Ascii.eqb c "E"
              then let '(minus, digits) := takeSign rest in
                   match takeDigits digits with
                   | ([], _) => 0%Z
                   | (ds, _) => if minus then (- digitsValue ds)%Z
                                else digitsValue ds
                   end
              else 0%Z
          | EmptyString => 0%Z
          end in
        let mantissa :=
          inject_Z (digitsValue (whole ++ fraction)%list) *
          pow10 (- Z.of_nat (length fraction)) in
        let magnitude := mantissa * pow10 exponent in
        JS.Fin (Qred (if negative then - magnitude else magnitude))
    end.

(** Decimal digits of a natural number. *)
Definition digitChar (d : N) : ascii := ascii_of_N (48 + d).

Fixpoint digitsFuel (fuel : nat) (n : N) (acc : string) : string :=
  match fuel with
  | O => acc
  | S fuel' =>
      let acc' := String (digitChar (n mod 10)) acc in
      if (n <? 10)%N then acc' else digitsFuel fuel' (n / 10) acc'
  end.

Definition decimal (n : N) : string :=
  digitsFuel (S (N.to_nat (N.log2 n))) n "".

(** [n] written with at least [width] digits. *)
Fixpoint padded (width : nat) (n : N) : string :=
  match width with
  | O => ""
  | S width' => padded width' (n / 10) ++ String (digitChar (n mod 10)) ""
  end.

Fixpoint groupedFuel (fuel : nat) (n : N) : string :=
  match fuel with
  | O => decimal n
  | S fuel' =>
      if (n <? 1000)%N then decimal n
      else groupedFuel fuel' (n / 1000) ++ "," ++ padded 3 (n mod 1000)
  end.

Definition grouped (n : N) : string :=
  groupedFuel (S (N.to_nat (N.log2 n))) n.

(** The nearest natural number to [|q| * 10^digits]. *)
Definition scaled (q : Q) (digits : nat) : N :=
  Z.to_N (JS.Math_round (Qabs q * pow10 (Z.of_nat digits))).

Fixpoint dropTrailingZeros (s : string) : string :=
  match s with
  | EmptyString => EmptyString
  | String c rest =>
      match dropTrailingZeros rest with
      | EmptyString => if Ascii.eqb c "0" then EmptyString else String c ""
      | kept => String c kept
      end
  end.

Definition minus (q : Q) : string :=
  if Qle_bool 0 q then "" else "-".

Definition toFixed (q : Q) (digits : nat) : string :=
  let n := scaled q digits in
  let unit := (10 ^ N.of_nat digits)%N in
  minus q ++ decimal (n / unit) ++
  match digits with
  | O => ""
  | _ => "." ++ padded digits (n mod unit)
  end.

Definition toLocaleString (q : Q) : string :=
  let n := scaled q 3 in
  let fraction := dropTrailingZeros (padded 3 (n mod 1000)) in
  (if (n =? 0)%N then "" else minus q) ++ grouped (n / 1000) ++
  match fraction with
  | EmptyString => ""
  | _ => "." ++ fraction
  end.

Definition numberText (n : JS.number) : string :=
  match n with
  | JS.NaN => "NaN"
  | JS.PosInf => "Infinity"
  | JS.NegInf => "-Infinity"
  | JS.Fin q =>
      let scaledValue := scaled q 17 in
      let unit := (10 ^ 17)%N in
      let fraction := dropTrailingZeros (padded 17 (scaledValue mod unit)) in
      (if (scaledValue =? 0)%N then "" else minus q) ++
      decimal (scaledValue / unit) ++
      match fraction with
      | EmptyString => ""
      | _ => "." ++ fraction
      end
  end.

Fixpoint toString (v : JS.value) : string :=
  match v with
  | JS.Null => "null"
  | JS.Undefined => "undefined"
  | JS.Bool true => "true"
  | JS.Bool false => "false"
  | JS.Num n => numberText n
  | JS.Str s => s
  | JS.Obj _ => "[object Object]"
  | JS.Arr items =>
      (fix join (elements : list JS.value) : string :=
         match elements with
         | [] => ""
         | element :: rest =>
             let text :=
               match element with
               | JS.Null | JS.Undefined => ""
               | _ => toString element
               end in
             match rest with
             | [] => text
             | _ => text ++ "," ++ join rest
             end
         end) items
  end.

(** [Number(s)]: the whole trimmed text must be a decimal literal; the
    empty text is 0. *)
Definition wholeNumber (text : string) : JS.number :=
  let body := JS.trim text in
  if String.eqb body "" then JS.Fin 0
  else
    let '(negative, unsigned) := takeSign body in
    if String.eqb unsigned "Infinity"
    then (if negative then JS.NegInf else JS.PosInf)
    else if forallb (fun c => isDigit c || Ascii.eqb c ".")
              (list_ascii_of_string unsigned)
    then parseFloat body
    else JS.NaN.

Definition toNumber (v : JS.value) : JS.number :=
  match v with
  | JS.Null => JS.Fin 0
  | JS.Undefined => JS.NaN
  | JS.Bool true => JS.Fin 1
  | JS.Bool false => JS.Fin 0
  | JS.Num n => n
  | JS.Str s => wholeNumber s
  | JS.Obj _ => JS.NaN
  | JS.Arr [] => JS.Fin 0
  | JS.Arr [JS.Num n] => n
  | JS.Arr [JS.Str s] => wholeNumber s
  | JS.Arr _ => JS.NaN
  end.

#[global] Instance runtime : JS.Runtime := {
  JS.parseFloat := parseFloat;
  JS.toLocaleString := toLocaleString;
  JS.toFixed := toFixed;
  JS.toString := toString;
  JS.toNumber := toNumber
}.

End ReferenceRuntime.
(* ===================================================================== *)
(** * lib/state-tax-data *)
(* ===================================================================== *)

Module StateTaxData.

Local Open Scope Q_scope.

(** [max] of a bracket: a finite ceiling or [Infinity]. *)
Inductive ceiling : Type :=
| Upto (q : Q)
| Infinity.

Record StateTaxBracket : Type := Bracket {
  min : Q;
  max : ceiling;
  rate : Q
}.

Record StateStandardDeduction : Type := {
  single : Q;
  marriedFilingJointly : Q;
  marriedFilingSeparately : Q;
  headOfHousehold : Q;
  qualifyingSurvivingSpouse : option Q
}.

Record StateTaxInfo : Type := {
  stateName : string;
  stateCode : string;
  hasIncomeTax : bool;
  brackets : gmap string (list StateTaxBracket);
  standardDeduction : StateStandardDeduction;
  personalExemption : option Q;
  notes : option string
}.

Definition CA : StateTaxInfo :=
  {| stateName := "California"; stateCode := "CA"; hasIncomeTax := true;
     brackets := list_to_map [
       ("single", [
          Bracket 0 (Upto 10099) 0.01;
          Bracket 10100 (Upto 23942) 0.02;
          Bracket 23943 (Upto 37788) 0.04;
          Bracket 37789 (Upto 52455) 0.06;
          Bracket 52456 (Upto 66295) 0.08;
          Bracket 66296 (Upto 338639) 0.093;
          Bracket 338640 (Upto 406364) 0.103;
          Bracket 406365 (Upto 677278) 0.113;
          Bracket 677279 Infinity 0.123 ]);
       ("marriedfilingjointly", [
          Bracket 0 (Upto 20198) 0.01;
          Bracket 20199 (Upto 47884) 0.02;
          Bracket 47885 (Upto 75576) 0.04;
          Bracket 75577 (Upto 104910) 0.06;
          Bracket 104911 (Upto 132590) 0.08;
          Bracket 132591 (Upto 677278) 0.093;
          Bracket 677279 (Upto 812728) 0.103;
          Bracket 812729 (Upto 1354556) 0.113;
          Bracket 1354557 Infinity 0.123 ]);
       ("marriedfilingseparately", [
          Bracket 0 (Upto 10099) 0.01;
          Bracket 10100 (Upto 23942) 0.02;
          Bracket 23943 (Upto 37788) 0.04;
          Bracket 37789 (Upto 52455) 0.06;
          Bracket 52456 (Upto 66295) 0.08;
          Bracket 66296 (Upto 338639) 0.093;
          Bracket 338640 (Upto 406364) 0.103;
          Bracket 406365 (Upto 677278) 0.113;
          Bracket 677279 Infinity 0.123 ]);
       ("headofhousehold", [
          Bracket 0 (Upto 20212) 0.01;
          Bracket 20213 (Upto 47887) 0.02;
          Bracket 47888 (Upto 61214) 0.04;
          Bracket 61215 (Upto 75768) 0.06;
          Bracket 75769 (Upto 90563) 0.08;
          Bracket 90564 (Upto 460547) 0.093;
          Bracket 460548 (Upto 552658) 0.103;
          Bracket 552659 (Upto 921095) 0.113;
          Bracket 921096 Infinity 0.123 ]) ];
     standardDeduction :=
       {| single := 5202; marriedFilingJointly := 10404;
          marriedFilingSeparately := 5202; headOfHousehold := 10404;
          qualifyingSurvivingSpouse := None |};
     personalExemption := None;
     notes := None |}.

Definition NY : StateTaxInfo :=
  {| stateName := "New York"; stateCode := "NY"; hasIncomeTax := true;
     brackets := list_to_map [
       ("single", [
          Bracket 0 (Upto 8500) 0.04;
          Bracket 8501 (Upto 11700) 0.045;
          Bracket 11701 (Upto 13900) 0.0525;
          Bracket 13901 (Upto 80650) 0.055;
          Bracket 80651 (Upto 215400) 0.06;
          Bracket 215401 (Upto 1077550) 0.0685;
          Bracket 1077551 (Upto 5000000) 0.0965;
          Bracket 5000001 (Upto 25000000) 0.103;
          Bracket 25000001 Infinity 0.109 ]);
       ("marriedfilingjointly", [
          Bracket 0 (Upto 17150) 0.04;
          Bracket 17151 (Upto 23600) 0.045;
          Bracket 23601 (Upto 27900) 0.0525;
          Bracket 27901 (Upto 161550) 0.055;
          Bracket 161551 (Upto 323200) 0.06;
          Bracket 323201 (Upto 2155350) 0.0685;
          Bracket 2155351 (Upto 5000000) 0.0965;
          Bracket 5000001 (Upto 25000000) 0.103;
          Bracket 25000001 Infinity 0.109 ]);
       ("marriedfilingseparately", [
          Bracket 0 (Upto 8500) 0.04;
          Bracket 8501 (Upto 11700) 0.045;
          Bracket 11701 (Upto 13900) 0.0525;
          Bracket 13901 (Upto 80650) 0.055;
          Bracket 80651 (Upto 215400) 0.06;
          Bracket 215401 (Upto 1077550) 0.0685;
          Bracket 1077551 (Upto 5000000) 0.0965;
          Bracket 5000001 (Upto 25000000) 0.103;
          Bracket 25000001 Infinity 0.109 ]);
       ("headofhousehold", [
          Bracket 0 (Upto 12800) 0.04;
          Bracket 12801 (Upto 17650) 0.045;
          Bracket 17651 (Upto 20900) 0.0525;
          Bracket 20901 (Upto 107650) 0.055;
          Bracket 107651 (Upto 269300) 0.06;
          Bracket 269301 (Upto 1616450) 0.0685;
          Bracket 1616451 (Upto 5000000) 0.0965;
          Bracket 5000001 (Upto 25000000) 0.103;
          Bracket 25000001 Infinity 0.109 ]) ];
     standardDeduction :=
       {| single := 8000; marriedFilingJointly := 16050;
          marriedFilingSeparately := 8000; headOfHousehold := 11200;
          qualifyingSurvivingSpouse := None |};
     personalExemption := None;
     notes := None |}.

Definition TX : StateTaxInfo :=
  {| stateName := "Texas"; stateCode := "TX"; hasIncomeTax := false;
     brackets := ∅;
     standardDeduction :=
       {| single := 0; marriedFilingJointly := 0;
          marriedFilingSeparately := 0; headOfHousehold := 0;
          qualifyingSurvivingSpouse := None |};
     personalExemption := None;
     notes := Some "Texas has no state income tax" |}.

Definition FL : StateTaxInfo :=
  {| stateName := "Florida"; stateCode := "FL"; hasIncomeTax := false;
     brackets := ∅;
     standardDeduction :=
       {| single := 0; marriedFilingJointly := 0;
          marriedFilingSeparately := 0; headOfHousehold := 0;
          qualifyingSurvivingSpouse := None |};
     personalExemption := None;
     notes := Some "Florida has no state income tax" |}.

Definition IL : StateTaxInfo :=
  {| stateName := "Illinois"; stateCode := "IL"; hasIncomeTax := true;
     brackets := list_to_map [
       ("single", [
          Bracket 0 Infinity 0.0495 ]);
       ("marriedfilingjointly", [
          Bracket 0 Infinity 0.0495 ]);
       ("marriedfilingseparately", [
          Bracket 0 Infinity 0.0495 ]);
       ("headofhousehold", [
          Bracket 0 Infinity 0.0495 ]) ];
     standardDeduction :=
       {| single := 2425; marriedFilingJointly := 4850;
          marriedFilingSeparately := 2425; headOfHousehold := 2425;
          qualifyingSurvivingSpouse := None |};
     personalExemption := Some 2775;
     notes := None |}.

Definition PA : StateTaxInfo :=
  {| stateName := "Pennsylvania"; stateCode := "PA"; hasIncomeTax := true;
     brackets := list_to_map [
       ("single", [
          Bracket 0 Infinity 0.0307 ]);
       ("marriedfilingjointly", [
          Bracket 0 Infinity 0.0307 ]);
       ("marriedfilingseparately", [
          Bracket 0 Infinity 0.0307 ]);
       ("headofhousehold", [
          Bracket 0 Infinity 0.0307 ]) ];
     standardDeduction :=
       {| single := 0; marriedFilingJointly := 0;
          marriedFilingSeparately := 0; headOfHousehold := 0;
          qualifyingSurvivingSpouse := None |};
     personalExemption := None;
     notes := None |}.

Definition OH : StateTaxInfo :=
  {| stateName := "Ohio"; stateCode := "OH"; hasIncomeTax := true;
     brackets := list_to_map [
       ("single", [
          Bracket 0 (Upto 26050) 0.0;
          Bracket 26051 (Upto 46100) 0.0285;
          Bracket 46101 (Upto 92150) 0.0333;
          Bracket 92151 (Upto 115300) 0.0380;
          Bracket 115301 Infinity 0.0399 ]);
       ("marriedfilingjointly", [
          Bracket 0 (Upto 26050) 0.0;
          Bracket 26051 (Upto 46100) 0.0285;
          Bracket 46101 (Upto 92150) 0.0333;
          Bracket 92151 (Upto 115300) 0.0380;
          Bracket 115301 Infinity 0.0399 ]);
       ("marriedfilingseparately", [
          Bracket 0 (Upto 26050) 0.0;
          Bracket 26051 (Upto 46100) 0.0285;
          Bracket 46101 (Upto 92150) 0.0333;
          Bracket 92151 (Upto 115300) 0.0380;
          Bracket 115301 Infinity 0.0399 ]);
       ("headofhousehold", [
          Bracket 0 (Upto 26050) 0.0;
          Bracket 26051 (Upto 46100) 0.0285;
          Bracket 46101 (Upto 92150) 0.0333;
          Bracket 92151 (Upto 115300) 0.0380;
          Bracket 115301 Infinity 0.0399 ]) ];
     standardDeduction :=
       {| single := 0; marriedFilingJointly := 0;
          marriedFilingSeparately := 0; headOfHousehold := 0;
          qualifyingSurvivingSpouse := None |};
     personalExemption := None;
     notes := None |}.

Definition GA : StateTaxInfo :=
  {| stateName := "Georgia"; stateCode := "GA"; hasIncomeTax := true;
     brackets := list_to_map [
       ("single", [
          Bracket 0 (Upto 750) 0.01;
          Bracket 751 (Upto 2250) 0.02;
          Bracket 2251 (Upto 3750) 0.03;
          Bracket 3751 (Upto 5250) 0.04;
          Bracket 5251 (Upto 7000) 0.05;
          Bracket 7001 Infinity 0.0575 ]);
       ("marriedfilingjointly", [
          Bracket 0 (Upto 1000) 0.01;
          Bracket 1001 (Upto 3000) 0.02;
          Bracket 3001 (Upto 5000) 0.03;
          Bracket 5001 (Upto 7000) 0.04;
          Bracket 7001 (Upto 10000) 0.05;
          Bracket 10001 Infinity 0.0575 ]);
       ("marriedfilingseparately", [
          Bracket 0 (Upto 500) 0.01;
          Bracket 501 (Upto 1500) 0.02;
          Bracket 1501 (Upto 2500) 0.03;
          Bracket 2501 (Upto 3500) 0.04;
          Bracket 3501 (Upto 5000) 0.05;
          Bracket 5001 Infinity 0.0575 ]);
       ("headofhousehold", [
          Bracket 0 (Upto 1000) 0.01;
          Bracket 1001 (Upto 3000) 0.02;
          Bracket 3001 (Upto 5000) 0.03;
          Bracket 5001 (Upto 7000) 0.04;
          Bracket 7001 (Upto 10000) 0.05;
          Bracket 10001 Infinity 0.0575 ]) ];
     standardDeduction :=
       {| single := 12000; marriedFilingJointly := 24000;
          marriedFilingSeparately := 12000; headOfHousehold := 18000;
          qualifyingSurvivingSpouse := None |};
     personalExemption := Some 2700;
     notes := None |}.

Definition NC : StateTaxInfo :=
  {| stateName := "North Carolina"; stateCode := "NC"; hasIncomeTax := true;
     brackets := list_to_map [
       ("single", [
          Bracket 0 Infinity 0.0475 ]);
       ("marriedfilingjointly", [
          Bracket 0 Infinity 0.0475 ]);
       ("marriedfilingseparately", [
          Bracket 0 Infinity 0.0475 ]);
       ("headofhousehold", [
          Bracket 0 Infinity 0.0475 ]) ];
     standardDeduction :=
       {| single := 12750; marriedFilingJointly := 25500;
          marriedFilingSeparately := 12750; headOfHousehold := 19125;
          qualifyingSurvivingSpouse := None |};
     personalExemption := None;
     notes := None |}.

Definition MI : StateTaxInfo :=
  {| stateName := "Michigan"; stateCode := "MI"; hasIncomeTax := true;
     brackets := list_to_map [
       ("single", [
          Bracket 0 Infinity 0.0425 ]);
       ("marriedfilingjointly", [
          Bracket 0 Infinity 0.0425 ]);
       ("marriedfilingseparately", [
          Bracket 0 Infinity 0.0425 ]);
       ("headofhousehold", [
          Bracket 0 Infinity 0.0425 ]) ];
     standardDeduction :=
       {| single := 5100; marriedFilingJointly := 10200;
          marriedFilingSeparately := 5100; headOfHousehold := 5100;
          qualifyingSurvivingSpouse := None |};
     personalExemption := Some 5100;
     notes := None |}.

Definition WA : StateTaxInfo :=
  {| stateName := "Washington"; stateCode := "WA"; hasIncomeTax := false;
     brackets := ∅;
     standardDeduction :=
       {| single := 0; marriedFilingJointly := 0;
          marriedFilingSeparately := 0; headOfHousehold := 0;
          qualifyingSurvivingSpouse := None |};
     personalExemption := None;
     notes := Some "Washington has no state income tax" |}.

Definition NV : StateTaxInfo :=
  {| stateName := "Nevada"; stateCode := "NV"; hasIncomeTax := false;
     brackets := ∅;
     standardDeduction :=
       {| single := 0; marriedFilingJointly := 0;
          marriedFilingSeparately := 0; headOfHousehold := 0;
          qualifyingSurvivingSpouse := None |};
     personalExemption := None;
     notes := Some "Nevada has no state income tax" |}.

Definition SD : StateTaxInfo :=
  {| stateName := "South Dakota"; stateCode := "SD"; hasIncomeTax := false;
     brackets := ∅;
     standardDeduction :=
       {| single := 0; marriedFilingJointly := 0;
          marriedFilingSeparately := 0; headOfHousehold := 0;
          qualifyingSurvivingSpouse := None |};
     personalExemption := None;
     notes := Some "South Dakota has no state income tax" |}.

Definition TN : StateTaxInfo :=
  {| stateName := "Tennessee"; stateCode := "TN"; hasIncomeTax := false;
     brackets := ∅;
     standardDeduction :=
       {| single := 0; marriedFilingJointly := 0;
          marriedFilingSeparately := 0; headOfHousehold := 0;
          qualifyingSurvivingSpouse := None |};
     personalExemption := None;
     notes := Some "Tennessee has no state income tax (as of 2021)" |}.

Definition WY : StateTaxInfo :=
  {| stateName := "Wyoming"; stateCode := "WY"; hasIncomeTax := false;
     brackets := ∅;
     standardDeduction :=
       {| single := 0; marriedFilingJointly := 0;
          marriedFilingSeparately := 0; headOfHousehold := 0;
          qualifyingSurvivingSpouse := None |};
     personalExemption := None;
     notes := Some "Wyoming has no state income tax" |}.

Definition UT : StateTaxInfo :=
  {| stateName := "Utah"; stateCode := "UT"; hasIncomeTax := true;
     brackets := list_to_map [
       ("single", [
          Bracket 0 Infinity 0.0485 ]);
       ("marriedfilingjointly", [
          Bracket 0 Infinity 0.0485 ]);
       ("marriedfilingseparately", [
          Bracket 0 Infinity 0.0485 ]);
       ("headofhousehold", [
          Bracket 0 Infinity 0.0485 ]) ];
     standardDeduction :=
       {| single := 3100; marriedFilingJointly := 6200;
          marriedFilingSeparately := 3100; headOfHousehold := 4550;
          qualifyingSurvivingSpouse := None |};
     personalExemption := Some 1941;
     notes := Some "Utah has a flat 4.85% income tax rate with state-specific standard deductions" |}.

Definition AZ : StateTaxInfo :=
  {| stateName := "Arizona"; stateCode := "AZ"; hasIncomeTax := true;
     brackets := list_to_map [
       ("single", [
          Bracket 0 (Upto 29200) 0.0255;
          Bracket 29201 (Upto 73400) 0.0288;
          Bracket 73401 (Upto 146800) 0.0336;
          Bracket 146801 (Upto 366200) 0.0424;
          Bracket 366201 Infinity 0.045 ]);
       ("marriedfilingjointly", [
          Bracket 0 (Upto 58400) 0.0255;
          Bracket 58401 (Upto 146800) 0.0288;
          Bracket 146801 (Upto 293600) 0.0336;
          Bracket 293601 (Upto 732400) 0.0424;
          Bracket 732401 Infinity 0.045 ]);
       ("marriedfilingseparately", [
          Bracket 0 (Upto 29200) 0.0255;
          Bracket 29201 (Upto 73400) 0.0288;
          Bracket 73401 (Upto 146800) 0.0336;
          Bracket 146801 (Upto 366200) 0.0424;
          Bracket 366201 Infinity 0.045 ]);
       ("headofhousehold", [
          Bracket 0 (Upto 43850) 0.0255;
          Bracket 43851 (Upto 110100) 0.0288;
          Bracket 110101 (Upto 220200) 0.0336;
          Bracket 220201 (Upto 549300) 0.0424;
          Bracket 549301 Infinity 0.045 ]) ];
     standardDeduction :=
       {| single := 14600; marriedFilingJointly := 29200;
          marriedFilingSeparately := 14600; headOfHousehold := 21900;
          qualifyingSurvivingSpouse := None |};
     personalExemption := Some 2400;
     notes := Some "Arizona has progressive tax brackets ranging from 2.55% to 4.5%" |}.

Definition STATE_TAX_LIST : list (string * StateTaxInfo) :=
  [ ("CA", CA);
    ("NY", NY);
    ("TX", TX);
    ("FL", FL);
    ("IL", IL);
    ("PA", PA);
    ("OH", OH);
    ("GA", GA);
    ("NC", NC);
    ("MI", MI);
    ("WA", WA);
    ("NV", NV);
    ("SD", SD);
    ("TN", TN);
    ("WY", WY);
    ("UT", UT);
    ("AZ", AZ) ].

Definition STATE_TAX_DATA : gmap string StateTaxInfo :=
  list_to_map STATE_TAX_LIST.

(** [getStateInfo]: [STATE_TAX_DATA[stateCode?.toUpperCase()]]. *)
Definition getStateInfo (stateCode : string) : option StateTaxInfo :=
  STATE_TAX_DATA !! JS.toUpperCase stateCode.

(** [Object.values(STATE_TAX_DATA)]: the states in the order of the
    table. *)
Definition values : list StateTaxInfo := map snd STATE_TAX_LIST.

(** [Object.values(STATE_TAX_DATA).filter(state => state.hasIncomeTax)] *)
Definition getStatesWithIncomeTax : list StateTaxInfo :=
  List.filter hasIncomeTax values.

(** [Object.values(STATE_TAX_DATA).filter(state => !state.hasIncomeTax)] *)
Definition getStatesWithoutIncomeTax : list StateTaxInfo :=
  List.filter (fun state => negb (hasIncomeTax state)) values.

End StateTaxData.

(* ===================================================================== *)
(** * lib/state-tax-calculations.ts *)
(* ===================================================================== *)

Module StateTaxCalculations.

Module D := StateTaxData.

Local Open Scope Q_scope.

Record StateTaxCalculationResult : Type := {
  stateCode : string;
  stateName : string;
  hasIncomeTax : bool;
  stateStandardDeduction : Q;
  stateItemizedDeduction : Q;
  stateTaxableIncome : Q;
  stateTaxLiability : Q;
  statePersonalExemption : Q;
  stateEffectiveRate : Q;
  stateMarginalRate : Q;
  notes : option string
}.

(** [filingStatus.toLowerCase().replace(/_/g, '')], the key of the
    bracket table. *)
Definition bracketKey (filingStatus : string) : string :=
  JS.strip_underscores (JS.toLowerCase filingStatus).

(** [Math.min(taxableIncome, bracket.max)]. *)
Definition Math_min (taxableIncome : Q) (bracketMax : D.ceiling) : Q :=
  match bracketMax with
  | D.Upto m => Qmin taxableIncome m
  | D.Infinity => taxableIncome
  end.

(** One pass of the body of the bracket loop: [tax += taxableInThisBracket
    * bracket.rate]. *)
Definition accumulate (taxableIncome : Q) (tax : Q) (bracket : D.StateTaxBracket)
  : Q :=
  let taxableInThisBracket :=
    Math_min taxableIncome (D.max bracket) - D.min bracket in
  tax + taxableInThisBracket * D.rate bracket.

(** [for (const bracket of brackets) { if (taxableIncome <= bracket.min)
    break; ... }] *)
Fixpoint bracketLoop (taxableIncome : Q) (brackets : list D.StateTaxBracket)
  (tax : Q) : Q :=
  match brackets with
  | [] => tax
  | bracket :: rest =>
      if Qle_bool taxableIncome (D.min bracket) then tax
      else bracketLoop taxableIncome rest (accumulate taxableIncome tax bracket)
  end.

(** [Math.round(tax * 100) / 100]. *)
Definition roundToCents (tax : Q) : Q :=
  inject_Z (JS.Math_round (tax * 100)) / 100.

Definition calculateStateTaxLiability
  (taxableIncome : Q) (filingStatus stateCode : string) : Q :=
  match D.getStateInfo stateCode with
  | None => 0
  | Some stateInfo =>
      if negb (D.hasIncomeTax stateInfo) then 0
      else
        match D.brackets stateInfo !! bracketKey filingStatus with
        | None => 0
        | Some [] => 0
        | Some brackets => roundToCents (bracketLoop taxableIncome brackets 0)
        end
  end.

(** [a || b] on an optional number: [undefined] and [0] fall through. *)
Definition orElse (a : option Q) (b : Q) : Q :=
  match a with
  | Some q => if Qeq_bool q 0 then b else q
  | None => b
  end.

Definition getStateStandardDeduction (filingStatus stateCode : string) : Q :=
  match D.getStateInfo stateCode with
  | None => 0
  | Some stateInfo =>
      if negb (D.hasIncomeTax stateInfo) then 0
      else
        let status := bracketKey filingStatus in
        let sd := D.standardDeduction stateInfo in
        if String.eqb status "single" then D.single sd
        else if String.eqb status "marriedfilingjointly"
        then D.marriedFilingJointly sd
        else if String.eqb status "marriedfilingseparately"
        then D.marriedFilingSeparately sd
        else if String.eqb status "headofhousehold"
        then D.headOfHousehold sd
        else if String.eqb status "qualifyingsurvivingspouse"
        then orElse (D.qualifyingSurvivingSpouse sd) (D.marriedFilingJointly sd)
        else D.single sd
  end.

Definition getStatePersonalExemption (stateCode : string) : Q :=
  match D.getStateInfo stateCode with
  | None => 0
  | Some stateInfo => orElse (D.personalExemption stateInfo) 0
  end.

(** The marginal-rate loop of [calculateStateTax]. *)
Definition marginalRateLoop (stateTaxableIncome : Q)
  (brackets : list D.StateTaxBracket) : Q :=
  fold_left
    (fun marginalRate bracket =>
       if Qle_bool stateTaxableIncome (D.min bracket) then marginalRate
       else D.rate bracket * 100)
    brackets 0.

(** [dependents?.length || 0]. *)
Definition dependentCount (dependents : list Dependent) : Q :=
  inject_Z (Z.of_nat (length dependents)).

Definition calculateStateTax
  (adjustedGrossIncome : Q) (filingStatus stateCode : string)
  (stateItemizedDeductions : option Q) (dependents : option (list Dependent))
  : JS.Result StateTaxCalculationResult :=
  let stateItemizedDeductions := default 0 stateItemizedDeductions in
  let dependents := default [] dependents in
  match D.getStateInfo stateCode with
  | None => JS.Throw ("Unsupported state: " ++ stateCode)
  | Some stateInfo =>
      let exemption := getStatePersonalExemption stateCode in
      let result :=
        {| stateCode := D.stateCode stateInfo;
           stateName := D.stateName stateInfo;
           hasIncomeTax := D.hasIncomeTax stateInfo;
           stateStandardDeduction := 0;
           stateItemizedDeduction := stateItemizedDeductions;
           stateTaxableIncome := 0;
           stateTaxLiability := 0;
           statePersonalExemption := exemption;
           stateEffectiveRate := 0;
           stateMarginalRate := 0;
           notes := D.notes stateInfo |} in
      if negb (D.hasIncomeTax stateInfo) then JS.Ok result
      else
        let standard := getStateStandardDeduction filingStatus stateCode in
        let stateDeduction := JS.Math_max standard stateItemizedDeductions in
        let personalExemptionTotal :=
          exemption * (1 + dependentCount dependents) in
        let taxable :=
          JS.Math_max 0
            (adjustedGrossIncome - stateDeduction - personalExemptionTotal) in
        let liability :=
          calculateStateTaxLiability taxable filingStatus stateCode in
        let effective :=
          if Qle_bool adjustedGrossIncome 0 then 0
          else (liability / adjustedGrossIncome) * 100 in
        let marginal :=
          match D.brackets stateInfo !! bracketKey filingStatus with
          | Some brackets => marginalRateLoop taxable brackets
          | None => 0
          end in
        JS.Ok
          {| stateCode := D.stateCode stateInfo;
             stateName := D.stateName stateInfo;
             hasIncomeTax := D.hasIncomeTax stateInfo;
             stateStandardDeduction := standard;
             stateItemizedDeduction := stateItemizedDeductions;
             stateTaxableIncome := taxable;
             stateTaxLiability := liability;
             statePersonalExemption := exemption;
             stateEffectiveRate := effective;
             stateMarginalRate := marginal;
             notes := D.notes stateInfo |}
  end.

Record CombinedTaxResult : Type := {
  federalTaxableIncome : Q;
  federalTaxLiability : Q;
  federalEffectiveRate : Q;
  federalMarginalRate : Q;
  stateTax : StateTaxCalculationResult;
  totalTaxLiability : Q;
  totalEffectiveRate : Q;
  totalCredits : Q;
  totalWithholdings : Q;
  finalTax : Q;
  refundAmount : Q;
  amountOwed : Q
}.

Definition calculateCombinedTax
  (adjustedGrossIncome federalTaxableIncome federalTaxLiability
     federalEffectiveRate federalMarginalRate : Q)
  (filingStatus stateCode : string)
  (stateItemizedDeductions : option Q) (dependents : option (list Dependent))
  (totalCredits totalWithholdings : option Q)
  : JS.Result CombinedTaxResult :=
  let stateItemizedDeductions := default 0 stateItemizedDeductions in
  let dependents := default [] dependents in
  let totalCredits := default 0 totalCredits in
  let totalWithholdings := default 0 totalWithholdings in
  stateTax ← calculateStateTax adjustedGrossIncome filingStatus stateCode
               (Some stateItemizedDeductions) (Some dependents);
  let totalTaxLiability := federalTaxLiability + stateTaxLiability stateTax in
  let totalEffectiveRate :=
    if Qle_bool adjustedGrossIncome 0 then 0
    else (totalTaxLiability / adjustedGrossIncome) * 100 in
  let finalTax := totalTaxLiability - totalCredits - totalWithholdings in
  let refundAmount :=
    if Qle_bool 0 finalTax then 0 else JS.Math_abs finalTax in
  let amountOwed := if Qle_bool finalTax 0 then 0 else finalTax in
  JS.Ok
    {| federalTaxableIncome := federalTaxableIncome;
       federalTaxLiability := federalTaxLiability;
       federalEffectiveRate := federalEffectiveRate;
       federalMarginalRate := federalMarginalRate;
       stateTax := stateTax;
       totalTaxLiability := totalTaxLiability;
       totalEffectiveRate := totalEffectiveRate;
       totalCredits := totalCredits;
       totalWithholdings := totalWithholdings;
       finalTax := finalTax;
       refundAmount := refundAmount;
       amountOwed := amountOwed |}.

(** ** The marginal accumulation in the words of the specification *)

Definition Qltb (x y : Q) : bool :=
  match x ?= y with
  | Lt => true
  | _ => false
  end.

(** The sum, over all brackets whose floor lies below the income, of
    [(min(income, bracket.max) - bracket.min) * rate]. *)
Definition marginalSum (taxableIncome : Q) (brackets : list D.StateTaxBracket)
  : Q :=
  fold_left (accumulate taxableIncome)
    (List.filter (fun bracket => Qltb (D.min bracket) taxableIncome) brackets)
    0.

(** An ascending table: the floors never decrease along the list. *)
Fixpoint ascending (brackets : list D.StateTaxBracket) : bool :=
  match brackets with
  | [] => true
  | bracket :: rest =>
      match rest with
      | [] => true
      | next :: _ => Qle_bool (D.min bracket) (D.min next) && ascending rest
      end
  end.

(** ** The summary of a state *)

Module Summary.
Record StateTaxSummary : Type := {
  stateInfo : option D.StateTaxInfo;
  hasFlatTax : bool;
  topMarginalRate : Q;
  hasStandardDeduction : bool
}.
End Summary.

(** [Math.max(...rates)] of a list that is not empty. *)
Definition maxRate (first : Q) (others : list Q) : Q :=
  fold_left JS.Math_max others first.

Definition getStateTaxSummary (stateCode : string) : Summary.StateTaxSummary :=
  let stateInfo := D.getStateInfo stateCode in
  match stateInfo with
  | None =>
      {| Summary.stateInfo := stateInfo; Summary.hasFlatTax := false;
         Summary.topMarginalRate := 0;
         Summary.hasStandardDeduction := false |}
  | Some info =>
      if negb (D.hasIncomeTax info)
      then {| Summary.stateInfo := stateInfo; Summary.hasFlatTax := false;
              Summary.topMarginalRate := 0;
              Summary.hasStandardDeduction := false |}
      else
        let singleBrackets := default [] (D.brackets info !! "single") in
        let hasFlatTax :=
          match singleBrackets with
          | [bracket] => Qltb 0 (D.rate bracket)
          | _ => false
          end in
        let topMarginalRate :=
          match singleBrackets with
          | [] => 0
          | bracket :: others =>
              maxRate (D.rate bracket) (map D.rate others) * 100
          end in
        {| Summary.stateInfo := stateInfo;
           Summary.hasFlatTax := hasFlatTax;
           Summary.topMarginalRate := topMarginalRate;
           Summary.hasStandardDeduction :=
             Qltb 0 (D.single (D.standardDeduction info)) |}
  end.

(** ** Well-formedness of the table

    What the calculation relies on without checking it: rates are not
    negative, a bracket's ceiling is not below its floor, and deductions
    and exemptions are not negative. *)

Definition wellFormed (bracket : D.StateTaxBracket) : bool :=
  Qle_bool 0 (D.rate bracket) &&
  match D.max bracket with
  | D.Upto ceiling => Qle_bool (D.min bracket) ceiling
  | D.Infinity => true
  end.

(** The keys the [brackets] objects of the table have. *)
Definition bracketKeys : list string :=
  ["single"; "marriedfilingjointly"; "marriedfilingseparately";
   "headofhousehold"].

Definition nonnegOption (q : option Q) : bool :=
  match q with
  | Some x => Qle_bool 0 x
  | None => true
  end.

Definition nonnegDeductions (stateInfo : D.StateTaxInfo) : bool :=
  let sd := D.standardDeduction stateInfo in
  Qle_bool 0 (D.single sd) && Qle_bool 0 (D.marriedFilingJointly sd)
  && Qle_bool 0 (D.marriedFilingSeparately sd)
  && Qle_bool 0 (D.headOfHousehold sd)
  && nonnegOption (D.qualifyingSurvivingSpouse sd)
  && nonnegOption (D.personalExemption stateInfo).

End StateTaxCalculations.

(* ===================================================================== *)
(** * lib/tax-calculations (federal calculator, imported) *)
(* ===================================================================== *)

Module TaxCalculations.

(** Modelled from the spec: the module [lib/tax-calculations] is not among
    the sources.  [TaxCalculationResult] lists the fields its importers
    read; the three imported functions are the operations of the class
    [Federal], each of which may throw. *)
Record TaxCalculationResult : Type := {
  grossIncome : Q;
  adjustedGrossIncome : Q;
  standardDeduction : Q;
  itemizedDeduction : Q;
  taxableIncome : Q;
  taxLiability : Q;
  childTaxCredit : Q;
  earnedIncomeCredit : Q;
  totalCredits : Q;
  totalWithholdings : Q;
  finalTax : Q;
  refundAmount : Q;
  amountOwed : Q;
  effectiveRate : Q;
  marginalRate : Q
}.

Class Federal : Type := {
  calculateTaxLiability : Q -> string -> JS.Result Q;
  getStandardDeduction : string -> JS.Result Q;
  calculateTaxReturn :
    Q -> string -> list Dependent -> Q -> option Q ->
    JS.Result TaxCalculationResult
}.

End TaxCalculations.

(* ===================================================================== *)
(** * lib/enhanced-tax-calculations *)
(* ===================================================================== *)

Module EnhancedTaxCalculations.

Module T := TaxCalculations.
Module S := StateTaxCalculations.

Local Open Scope Q_scope.

Inductive Method : Type := standard | itemized.

Module Comparison.
Record DeductionComparison : Type := {
  standardDeduction : Q;
  itemizedDeduction : Q;
  standardTaxLiability : Q;
  itemizedTaxLiability : Q;
  recommendedMethod : Method;
  taxSavings : Q;
  effectiveStandardRate : Q;
  effectiveItemizedRate : Q
}.
End Comparison.
Module C := Comparison.

Module Enhanced.
Record EnhancedTaxCalculationResult : Type := {
  grossIncome : Q;
  adjustedGrossIncome : Q;
  standardDeduction : Q;
  itemizedDeduction : Q;
  taxableIncome : Q;
  taxLiability : Q;
  childTaxCredit : Q;
  earnedIncomeCredit : Q;
  totalCredits : Q;
  totalWithholdings : Q;
  finalTax : Q;
  refundAmount : Q;
  amountOwed : Q;
  effectiveRate : Q;
  marginalRate : Q;
  deductionComparison : C.DeductionComparison;
  taxOptimizationSuggestions : list string;
  stateTax : option S.StateTaxCalculationResult;
  combinedTaxResult : option S.CombinedTaxResult
}.
End Enhanced.
Module E := Enhanced.

(** [{ ...result, taxOptimizationSuggestions: suggestions }] *)
Definition withSuggestions (result : E.EnhancedTaxCalculationResult)
  (suggestions : list string) : E.EnhancedTaxCalculationResult :=
  {| E.grossIncome := E.grossIncome result;
     E.adjustedGrossIncome := E.adjustedGrossIncome result;
     E.standardDeduction := E.standardDeduction result;
     E.itemizedDeduction := E.itemizedDeduction result;
     E.taxableIncome := E.taxableIncome result;
     E.taxLiability := E.taxLiability result;
     E.childTaxCredit := E.childTaxCredit result;
     E.earnedIncomeCredit := E.earnedIncomeCredit result;
     E.totalCredits := E.totalCredits result;
     E.totalWithholdings := E.totalWithholdings result;
     E.finalTax := E.finalTax result;
     E.refundAmount := E.refundAmount result;
     E.amountOwed := E.amountOwed result;
     E.effectiveRate := E.effectiveRate result;
     E.marginalRate := E.marginalRate result;
     E.deductionComparison := E.deductionComparison result;
     E.taxOptimizationSuggestions := suggestions;
     E.stateTax := E.stateTax result;
     E.combinedTaxResult := E.combinedTaxResult result |}.

(** [{ ...federalResult, finalTax, refundAmount, amountOwed, stateTax,
      combinedTaxResult, taxOptimizationSuggestions }] *)
Definition withState (federalResult : E.EnhancedTaxCalculationResult)
  (combined : S.CombinedTaxResult) (suggestions : list string)
  : E.EnhancedTaxCalculationResult :=
  {| E.grossIncome := E.grossIncome federalResult;
     E.adjustedGrossIncome := E.adjustedGrossIncome federalResult;
     E.standardDeduction := E.standardDeduction federalResult;
     E.itemizedDeduction := E.itemizedDeduction federalResult;
     E.taxableIncome := E.taxableIncome federalResult;
     E.taxLiability := E.taxLiability federalResult;
     E.childTaxCredit := E.childTaxCredit federalResult;
     E.earnedIncomeCredit := E.earnedIncomeCredit federalResult;
     E.totalCredits := E.totalCredits federalResult;
     E.totalWithholdings := E.totalWithholdings federalResult;
     E.finalTax := S.finalTax combined;
     E.refundAmount := S.refundAmount combined;
     E.amountOwed := S.amountOwed combined;
     E.effectiveRate := E.effectiveRate federalResult;
     E.marginalRate := E.marginalRate federalResult;
     E.deductionComparison := E.deductionComparison federalResult;
     E.taxOptimizationSuggestions := suggestions;
     E.stateTax := Some (S.stateTax combined);
     E.combinedTaxResult := Some combined |}.

Module Scenario.
Record TaxImpactScenario : Type := {
  scenario : string;
  description : string;
  itemizedDeductions : Q;
  taxLiability : Q;
  savings : Q
}.
End Scenario.

Section WithRuntime.

Context `{runtime : JS.Runtime} `{federal : T.Federal}.

(** [cond ? (a / b) * 100 : 0] with [cond] the test [b > 0]. *)
Definition percentOf (a b : Q) : Q :=
  if Qle_bool b 0 then 0 else (a / b) * 100.

Definition calculateDeductionComparison
  (adjustedGrossIncome : Q) (filingStatus : string) (itemizedDeductions : Q)
  (dependents : list Dependent) : JS.Result C.DeductionComparison :=
  standardDeduction ← T.getStandardDeduction filingStatus;
  let itemizedDeduction := itemizedDeductions in
  let standardTaxableIncome :=
    JS.Math_max 0 (adjustedGrossIncome - standardDeduction) in
  let itemizedTaxableIncome :=
    JS.Math_max 0 (adjustedGrossIncome - itemizedDeduction) in
  standardTaxLiability ←
    T.calculateTaxLiability standardTaxableIncome filingStatus;
  itemizedTaxLiability ←
    T.calculateTaxLiability itemizedTaxableIncome filingStatus;
  let recommendedMethod :=
    if S.Qltb itemizedTaxLiability standardTaxLiability
    then itemized else standard in
  let taxSavings := JS.Math_abs (standardTaxLiability - itemizedTaxLiability) in
  JS.Ok
    {| C.standardDeduction := standardDeduction;
       C.itemizedDeduction := itemizedDeduction;
       C.standardTaxLiability := standardTaxLiability;
       C.itemizedTaxLiability := itemizedTaxLiability;
       C.recommendedMethod := recommendedMethod;
       C.taxSavings := taxSavings;
       C.effectiveStandardRate :=
         percentOf standardTaxLiability adjustedGrossIncome;
       C.effectiveItemizedRate :=
         percentOf itemizedTaxLiability adjustedGrossIncome |}.

Definition isItemized (method : Method) : bool :=
  match method with
  | itemized => true
  | standard => false
  end.

Definition countQ {A} (items : list A) : Q :=
  inject_Z (Z.of_nat (length items)).

Definition numberText (q : Q) : string := JS.toString (JS.Num (JS.Fin q)).

Definition generateTaxOptimizationSuggestions
  (comparison : C.DeductionComparison) (adjustedGrossIncome : Q)
  (filingStatus : string) (dependents : list Dependent) : list string :=
  let savings := JS.toLocaleString (C.taxSavings comparison) in
  let method :=
    if isItemized (C.recommendedMethod comparison)
    then ["💡 Itemizing deductions saves you $" ++ savings ++
          " compared to the standard deduction"]
    else if S.Qltb 0 (C.taxSavings comparison)
    then ["💡 The standard deduction saves you $" ++ savings ++
          " compared to itemizing"]
    else ["Both deduction methods result in the same tax liability"] in
  let threshold :=
    C.standardDeduction comparison - C.itemizedDeduction comparison in
  let close :=
    if negb (isItemized (C.recommendedMethod comparison))
       && S.Qltb 0 threshold && S.Qltb threshold 5000
    then ["🔍 You're close to benefiting from itemizing! You need $" ++
          JS.toLocaleString threshold ++
          " more in deductions to break even"]
    else [] in
  let separately :=
    if String.eqb filingStatus "MARRIED_FILING_SEPARATELY"
    then ["💭 Consider whether filing jointly with your spouse would result in lower combined taxes"]
    else [] in
  let childTaxCreditEligible := countQ (List.filter qualifiesForCTC dependents) in
  let eicEligible := countQ (List.filter qualifiesForEITC dependents) in
  let children :=
    match dependents with
    | [] => []
    | _ =>
        List.app
          (if S.Qltb 0 childTaxCreditEligible
           then ["👶 You may qualify for up to $" ++
                 JS.toLocaleString (childTaxCreditEligible * 2000) ++
                 " in Child Tax Credits"]
           else [])
          (if S.Qltb 0 eicEligible
           then ["💰 You may qualify for Earned Income Credit with " ++
                 numberText eicEligible ++ " qualifying children"]
           else [])
    end in
  let high :=
    if S.Qltb 100000 adjustedGrossIncome
    then ["📊 Consider maximizing retirement contributions to reduce taxable income"]
    else [] in
  let low :=
    if S.Qltb adjustedGrossIncome 50000
    then ["🎯 Look into the Earned Income Tax Credit and other low-income tax benefits"]
    else [] in
  List.concat [method; close; separately; children; high; low].

Definition calculateEnhancedTaxReturn
  (totalIncome : Q) (filingStatus : string) (dependents : list Dependent)
  (itemizedDeductions : Q) (totalWithholdings : option Q)
  : JS.Result E.EnhancedTaxCalculationResult :=
  basicResult ← T.calculateTaxReturn totalIncome filingStatus dependents
                  itemizedDeductions totalWithholdings;
  deductionComparison ←
    calculateDeductionComparison (T.adjustedGrossIncome basicResult)
      filingStatus itemizedDeductions dependents;
  let taxOptimizationSuggestions :=
    generateTaxOptimizationSuggestions deductionComparison
      (T.adjustedGrossIncome basicResult) filingStatus dependents in
  let optimizedDeduction :=
    if isItemized (C.recommendedMethod deductionComparison)
    then C.itemizedDeduction deductionComparison
    else C.standardDeduction deductionComparison in
  let optimizedTaxableIncome :=
    JS.Math_max 0 (T.adjustedGrossIncome basicResult - optimizedDeduction) in
  optimizedTaxLiability ←
    T.calculateTaxLiability optimizedTaxableIncome filingStatus;
  let optimizedFinalTax :=
    JS.Math_max 0 (optimizedTaxLiability - T.totalCredits basicResult) in
  JS.Ok
    {| E.grossIncome := T.grossIncome basicResult;
       E.adjustedGrossIncome := T.adjustedGrossIncome basicResult;
       E.standardDeduction := C.standardDeduction deductionComparison;
       E.itemizedDeduction := C.itemizedDeduction deductionComparison;
       E.taxableIncome := optimizedTaxableIncome;
       E.taxLiability := optimizedTaxLiability;
       E.childTaxCredit := T.childTaxCredit basicResult;
       E.earnedIncomeCredit := T.earnedIncomeCredit basicResult;
       E.totalCredits := T.totalCredits basicResult;
       E.totalWithholdings := T.totalWithholdings basicResult;
       E.finalTax := optimizedFinalTax;
       E.refundAmount := T.refundAmount basicResult;
       E.amountOwed := T.amountOwed basicResult;
       E.effectiveRate := T.effectiveRate basicResult;
       E.marginalRate := T.marginalRate basicResult;
       E.deductionComparison := deductionComparison;
       E.taxOptimizationSuggestions := taxOptimizationSuggestions;
       E.stateTax := None;
       E.combinedTaxResult := None |}.

Definition generateStateTaxOptimizationSuggestions
  (federalSuggestions : list string) (stateTax : S.StateTaxCalculationResult)
  (deductionComparison : C.DeductionComparison) : list string :=
  let suggestions := federalSuggestions in
  if negb (S.hasIncomeTax stateTax)
  then ("💰 Great news! " ++ S.stateName stateTax ++
        " has no state income tax, saving you money!") :: suggestions
  else
    let specific :=
      if S.Qltb 0 (S.stateTaxLiability stateTax)
      then
        List.concat [
        ["📍 " ++ S.stateName stateTax ++ " state tax: $" ++
         JS.toLocaleString (S.stateTaxLiability stateTax) ++ " (" ++
         JS.toFixed (S.stateEffectiveRate stateTax) 2 ++ "% effective rate)"];
        (if S.Qltb 0 (S.stateStandardDeduction stateTax)
            && S.Qltb (S.stateStandardDeduction stateTax)
                 (S.stateItemizedDeduction stateTax)
         then
           let stateSavings :=
             (S.stateItemizedDeduction stateTax -
              S.stateStandardDeduction stateTax) *
             (S.stateMarginalRate stateTax / 100) in
           if S.Qltb 100 stateSavings
           then ["🏛️ Itemizing saves $" ++ JS.toFixed stateSavings 0 ++ " on " ++
                 S.stateName stateTax ++ " state taxes"]
           else []
         else []);
        (if S.Qltb 5 (S.stateEffectiveRate stateTax)
         then ["⚡ " ++ S.stateName stateTax ++
               " has relatively high state taxes. Consider tax-advantaged retirement contributions."]
         else []) ]
      else [] in
    let cross :=
      if Qeq_bool (S.stateStandardDeduction stateTax)
           (C.standardDeduction deductionComparison)
      then []
      else ["🔄 Note: " ++ S.stateName stateTax ++
            " has different deduction amounts than federal"] in
    List.concat [suggestions; specific; cross].

(** The note the fallback appends. *)
Definition stateFailureNote (stateCode : string) : string :=
  "⚠️ State tax calculation failed for " ++ stateCode ++
  ". Showing federal taxes only.".

(** [!stateCode] on an optional string: [undefined] and [''] are falsy. *)
Definition suppliedStateCode (stateCode : option string) : option string :=
  match stateCode with
  | Some code => if String.eqb code "" then None else Some code
  | None => None
  end.

Definition calculateEnhancedTaxReturnWithState
  (totalIncome : Q) (filingStatus : string) (dependents : list Dependent)
  (itemizedDeductions : Q) (totalWithholdings : option Q)
  (stateCode : option string) (stateItemizedDeductions : option Q)
  : JS.Result E.EnhancedTaxCalculationResult :=
  federalResult ← calculateEnhancedTaxReturn totalIncome filingStatus
                    dependents itemizedDeductions totalWithholdings;
  match suppliedStateCode stateCode with
  | None => JS.Ok federalResult
  | Some stateCode =>
      JS.try_catch
        (combinedTaxResult ←
           S.calculateCombinedTax
             (E.adjustedGrossIncome federalResult)
             (E.taxableIncome federalResult)
             (E.taxLiability federalResult)
             (E.effectiveRate federalResult)
             (E.marginalRate federalResult)
             filingStatus stateCode
             (Some (S.orElse stateItemizedDeductions itemizedDeductions))
             (Some dependents)
             (Some (E.totalCredits federalResult))
             (Some (E.totalWithholdings federalResult));
         let enhancedSuggestions :=
           generateStateTaxOptimizationSuggestions
             (E.taxOptimizationSuggestions federalResult)
             (S.stateTax combinedTaxResult)
             (E.deductionComparison federalResult) in
         JS.Ok (withState federalResult combinedTaxResult enhancedSuggestions))
        (fun error =>
           JS.Ok
             (withSuggestions federalResult
                (List.app (E.taxOptimizationSuggestions federalResult)
                   [stateFailureNote stateCode])))
  end.

(** ** What-if scenarios *)

(** [comparison.recommendedMethod === 'itemized' ?
    comparison.itemizedTaxLiability : comparison.standardTaxLiability] *)
Definition recommendedLiability (comparison : C.DeductionComparison) : Q :=
  if isItemized (C.recommendedMethod comparison)
  then C.itemizedTaxLiability comparison
  else C.standardTaxLiability comparison.

Definition additionalDeductions : list Q := [1000; 2500; 5000; 10000].

Definition calculateTaxImpactScenarios
  (adjustedGrossIncome : Q) (filingStatus : string)
  (currentItemizedDeductions : Q) (dependents : list Dependent)
  : JS.Result (list Scenario.TaxImpactScenario) :=
  baseComparison ←
    calculateDeductionComparison adjustedGrossIncome filingStatus
      currentItemizedDeductions dependents;
  let baseTaxLiability := recommendedLiability baseComparison in
  let current :=
    {| Scenario.scenario := "Current";
       Scenario.description := "Your current deductions";
       Scenario.itemizedDeductions := currentItemizedDeductions;
       Scenario.taxLiability := baseTaxLiability;
       Scenario.savings := 0 |} in
  added ←
    mapM
      (fun additional =>
         let newItemizedDeductions := currentItemizedDeductions + additional in
         newComparison ←
           calculateDeductionComparison adjustedGrossIncome filingStatus
             newItemizedDeductions dependents;
         let newTaxLiability := recommendedLiability newComparison in
         JS.Ok
           {| Scenario.scenario := "+$" ++ JS.toLocaleString additional;
              Scenario.description :=
                "With $" ++ JS.toLocaleString additional ++
                " more in deductions";
              Scenario.itemizedDeductions := newItemizedDeductions;
              Scenario.taxLiability := newTaxLiability;
              Scenario.savings := baseTaxLiability - newTaxLiability |})
      additionalDeductions;
  JS.Ok (current :: added).

(** A federal liability that does not decrease with the taxable income. *)
Definition monotoneLiability : Prop :=
  forall (low high : Q) (filingStatus : string) (lowTax highTax : Q),
    low <= high ->
    T.calculateTaxLiability low filingStatus = JS.Ok lowTax ->
    T.calculateTaxLiability high filingStatus = JS.Ok highTax ->
    lowTax <= highTax.

End WithRuntime.

End EnhancedTaxCalculations.

(* ===================================================================== *)
(** * lib/state-detection *)
(* ===================================================================== *)

Module StateDetection.

Local Open Scope Q_scope.

Inductive Source : Type := address | employer | document_type | unknown.

Record StateDetectionResult : Type := {
  detectedState : option string;
  confidence : JS.number;
  source : Source;
  rawData : JS.object
}.

Record StateDetectionInput : Type := {
  documentType : string;
  extractedData : JS.object
}.

Definition US_STATES_ENTRIES : list (string * string) :=
  [ ("AL", "Alabama"); ("AK", "Alaska"); ("AZ", "Arizona");
    ("AR", "Arkansas"); ("CA", "California");
    ("CO", "Colorado"); ("CT", "Connecticut"); ("DE", "Delaware");
    ("FL", "Florida"); ("GA", "Georgia");
    ("HI", "Hawaii"); ("ID", "Idaho"); ("IL", "Illinois");
    ("IN", "Indiana"); ("IA", "Iowa");
    ("KS", "Kansas"); ("KY", "Kentucky"); ("LA", "Louisiana");
    ("ME", "Maine"); ("MD", "Maryland");
    ("MA", "Massachusetts"); ("MI", "Michigan"); ("MN", "Minnesota");
    ("MS", "Mississippi"); ("MO", "Missouri");
    ("MT", "Montana"); ("NE", "Nebraska"); ("NV", "Nevada");
    ("NH", "New Hampshire"); ("NJ", "New Jersey");
    ("NM", "New Mexico"); ("NY", "New York"); ("NC", "North Carolina");
    ("ND", "North Dakota"); ("OH", "Ohio");
    ("OK", "Oklahoma"); ("OR", "Oregon"); ("PA", "Pennsylvania");
    ("RI", "Rhode Island"); ("SC", "South Carolina");
    ("SD", "South Dakota"); ("TN", "Tennessee"); ("TX", "Texas");
    ("UT", "Utah"); ("VT", "Vermont");
    ("VA", "Virginia"); ("WA", "Washington"); ("WV", "West Virginia");
    ("WI", "Wisconsin"); ("WY", "Wyoming");
    ("DC", "District of Columbia") ].

(** Lookups in the two tables consult the listed keys only. *)
Definition US_STATES : gmap string string := list_to_map US_STATES_ENTRIES.

(** [Object.entries(US_STATES).reduce(...)]: lower-cased name to code. *)
Definition STATE_NAME_TO_CODE : gmap string string :=
  fold_left
    (fun acc '(code, name) => <[JS.toLowerCase name := code]> acc)
    US_STATES_ENTRIES ∅.

(** [US_STATES[code]] as a condition. *)
Definition isStateCode (code : string) : bool :=
  bool_decide (is_Some (US_STATES !! code)).

Definition noState (data : JS.object) : StateDetectionResult :=
  {| detectedState := None; confidence := JS.Fin 0; source := unknown;
     rawData := data |}.

Definition stateFields : list string :=
  ["employeeState"; "employerState"; "recipientState"; "payerState"].

(** The loop of [extractDirectStateField] over the remaining fields. *)
Fixpoint directStateLoop (data : JS.object) (fields : list string)
  : StateDetectionResult :=
  match fields with
  | [] => noState data
  | field :: rest =>
      match JS.get data field with
      | JS.Str stateValue =>
          if String.eqb stateValue "" then directStateLoop data rest
          else
            let cleanState := JS.toUpperCase (JS.trim stateValue) in
            if isStateCode cleanState
            then {| detectedState := Some cleanState;
                    confidence := JS.Fin 0.95;
                    source := if JS.includes "employee" field
                              then address else employer;
                    rawData := data |}
            else directStateLoop data rest
      | _ => directStateLoop data rest
      end
  end.

Definition extractDirectStateField (data : JS.object) : StateDetectionResult :=
  directStateLoop data stateFields.

(** The five address patterns, in the order of the source. *)
Definition zipCode : JS.regex :=
  JS.Then (JS.Chars JS.isDigit 5 (Some 5%nat))
    (JS.Maybe (JS.Then (JS.Lit "-") (JS.Chars JS.isDigit 4 (Some 4%nat)))).

Definition isLetterOrSpace (c : ascii) : bool :=
  JS.isUpper c || JS.isLower c || JS.isSpace c.

(** [/,\s*([A-Z]{2})\s+\d{5}(?:-\d{4})?/] *)
Definition cityCommaCodeZip : JS.regex :=
  JS.Then (JS.Lit ",")
    (JS.Then (JS.Chars JS.isSpace 0 None)
       (JS.Then (JS.Group (JS.Chars JS.isUpper 2 (Some 2%nat)))
          (JS.Then (JS.Chars JS.isSpace 1 None) zipCode))).

(** [/\s+([A-Z]{2})\s+\d{5}(?:-\d{4})?/] *)
Definition cityCodeZip : JS.regex :=
  JS.Then (JS.Chars JS.isSpace 1 None)
    (JS.Then (JS.Group (JS.Chars JS.isUpper 2 (Some 2%nat)))
       (JS.Then (JS.Chars JS.isSpace 1 None) zipCode)).

(** [/,\s*([A-Za-z\s]+)\s+\d{5}(?:-\d{4})?/] *)
Definition cityCommaNameZip : JS.regex :=
  JS.Then (JS.Lit ",")
    (JS.Then (JS.Chars JS.isSpace 0 None)
       (JS.Then (JS.Group (JS.Chars isLetterOrSpace 1 None))
          (JS.Then (JS.Chars JS.isSpace 1 None) zipCode))).

(** [/\b([A-Z]{2})\s*$/] *)
Definition trailingCode : JS.regex :=
  JS.Then JS.Boundary
    (JS.Then (JS.Group (JS.Chars JS.isUpper 2 (Some 2%nat)))
       (JS.Then (JS.Chars JS.isSpace 0 None) JS.EndOfInput)).

(** [/\b([A-Za-z\s]+)\s*$/] *)
Definition trailingName : JS.regex :=
  JS.Then JS.Boundary
    (JS.Then (JS.Group (JS.Chars isLetterOrSpace 1 None))
       (JS.Then (JS.Chars JS.isSpace 0 None) JS.EndOfInput)).

Definition patterns : list JS.regex :=
  [cityCommaCodeZip; cityCodeZip; cityCommaNameZip; trailingCode; trailingName].

(** What a matched candidate resolves to: a state code, or the code of a
    full state name. *)
Definition resolveCandidate (candidate : string) : option string :=
  let stateCandidate := JS.toUpperCase (JS.trim candidate) in
  if isStateCode stateCandidate then Some stateCandidate
  else STATE_NAME_TO_CODE !! JS.toLowerCase (JS.trim candidate).

Fixpoint patternLoop (address : string) (remaining : list JS.regex)
  : option string :=
  match remaining with
  | [] => None
  | pattern :: rest =>
      match JS.exec pattern address with
      | Some candidate =>
          match resolveCandidate candidate with
          | Some code => Some code
          | None => patternLoop address rest
          end
      | None => patternLoop address rest
      end
  end.

Definition parseStateFromAddress (address : string) : option string :=
  patternLoop address patterns.

Definition addressFields : list (string * Source) :=
  [ ("employeeAddress", address); ("recipientAddress", address);
    ("employerAddress", employer); ("payerAddress", employer) ].

Fixpoint addressLoop (data : JS.object) (fields : list (string * Source))
  : StateDetectionResult :=
  match fields with
  | [] => noState data
  | (field, fieldSource) :: rest =>
      match JS.get data field with
      | JS.Str text =>
          if String.eqb text "" then addressLoop data rest
          else
            match parseStateFromAddress text with
            | Some state =>
                {| detectedState := Some state;
                   confidence := JS.Fin 0.85;
                   source := fieldSource;
                   rawData := data |}
            | None => addressLoop data rest
            end
      | _ => addressLoop data rest
      end
  end.

Definition extractStateFromAddresses (data : JS.object) : StateDetectionResult :=
  addressLoop data addressFields.

(** The response of [fetch]. *)
Record Response : Type := {
  ok : bool;
  status : Z;
  json : JS.Result JS.value
}.

(** The external classifier: [fetch('/api/ai/state-detection', { method:
    'POST', body: JSON.stringify({ prompt }) })].  The call may fail in
    transport (it throws), answer with an error status, or answer with a
    body that does not parse. *)
Class Classifier : Type := {
  fetchStateDetection : string -> JS.Result Response
}.

Section WithServices.

Context `{runtime : JS.Runtime} `{classifier : Classifier}.

Definition newline : string := String (ascii_of_nat 10) EmptyString.
Definition quote : string := String (ascii_of_nat 34) EmptyString.

Fixpoint join (separator : string) (items : list string) : string :=
  match items with
  | [] => EmptyString
  | [item] => item
  | item :: rest => item ++ separator ++ join separator rest
  end.

Definition llmPrompt (input : StateDetectionInput) : string :=
  let data := extractedData input in
  let documentText :=
    JS.toString (JS.or (JS.get data "fullText") (JS.Str EmptyString)) in
  let addresses :=
    List.filter JS.truthy
      [ JS.get data "employeeAddress"; JS.get data "employerAddress";
        JS.get data "recipientAddress"; JS.get data "payerAddress" ] in
  "You are analyzing a " ++ documentType input ++
  " tax document to determine the taxpayer's state for state tax calculation purposes.

DOCUMENT TEXT:
" ++ documentText ++ "

EXTRACTED ADDRESSES:
" ++ join newline (map JS.toString addresses) ++ "

TASK: Identify the US state where the taxpayer resides for tax purposes. This is usually the employee/recipient state, not the employer/payer state.

PRIORITY ORDER:
1. Employee/recipient address state (primary residence)
2. Employee/recipient state field
3. Employer/payer address state (if employee state not found)

RESPONSE FORMAT: Respond with a JSON object only:
{
  " ++ quote ++ "stateCode" ++ quote ++ ": " ++ quote ++ "XX" ++ quote ++ ",
  " ++ quote ++ "stateName" ++ quote ++ ": " ++ quote ++ "State Name" ++ quote ++ ",
  " ++ quote ++ "confidence" ++ quote ++ ": 0.8,
  " ++ quote ++ "reasoning" ++ quote ++ ": " ++ quote ++
  "Found in employee address: 123 Main St, City, ST 12345" ++ quote ++ "
}

RULES:
- Return valid US state codes only (CA, NY, TX, etc.)
- Use confidence 0.9+ for explicit state codes
- Use confidence 0.7-0.8 for state names or inferred
- Use confidence 0.5-0.6 for uncertain/partial matches
- Return confidence 0.0 if no state found

Respond with raw JSON only. Do not include code blocks, markdown, or any other formatting.".

(** [result.stateCode && US_STATES[result.stateCode.toUpperCase()]]: the
    accepted code, if any.  A truthy [stateCode] that is not a string has
    no [toUpperCase] method, so the call throws. *)
Definition acceptedStateCode (result : JS.value) : JS.Result (option string) :=
  stateCode ← JS.property result "stateCode";
  if JS.truthy stateCode
  then
    match stateCode with
    | JS.Str code =>
        let upper := JS.toUpperCase code in
        JS.Ok (if isStateCode upper then Some upper else None)
    | _ => JS.Throw "result.stateCode.toUpperCase is not a function"
    end
  else JS.Ok None.

(** The body of the [try] block of [detectStateUsingLLM]. *)
Definition askClassifier (input : StateDetectionInput)
  : JS.Result StateDetectionResult :=
  response ← fetchStateDetection (llmPrompt input);
  if negb (ok response)
  then JS.Throw ("LLM API failed with status: " ++
                 JS.toString (JS.Num (JS.Fin (inject_Z (status response)))))
  else
    result ← json response;
    accepted ← acceptedStateCode result;
    match accepted with
    | Some code =>
        confidenceValue ← JS.property result "confidence";
        reasoning ← JS.property result "reasoning";
        JS.Ok
          {| detectedState := Some code;
             confidence :=
               JS.number_min
                 (JS.number_max
                    (JS.toNumber
                       (JS.or confidenceValue (JS.Num (JS.Fin 0.7))))
                    (JS.Fin 0))
                 (JS.Fin 1);
             source := document_type;
             rawData := <["llmReasoning" := reasoning]> (extractedData input) |}
    | None => JS.Ok (noState (extractedData input))
    end.

Definition detectStateUsingLLM (input : StateDetectionInput)
  : JS.Result StateDetectionResult :=
  JS.try_catch (askClassifier input)
    (fun error => JS.Ok (noState (extractedData input))).

Definition found (result : StateDetectionResult) : bool :=
  match detectedState result with
  | Some state => negb (String.eqb state "")
  | None => false
  end.

Definition detectStateFromDocument (input : StateDetectionInput)
  : JS.Result StateDetectionResult :=
  let directState := extractDirectStateField (extractedData input) in
  if found directState then JS.Ok directState
  else
    let addressState := extractStateFromAddresses (extractedData input) in
    if found addressState then JS.Ok addressState
    else
      llmState ← detectStateUsingLLM input;
      if found llmState then JS.Ok llmState
      else JS.Ok (noState (extractedData input)).

(** ** The three ways of finding no state, in the words of the
    specification *)

(** No direct state field holds a valid code after trimming and
    upper-casing. *)
Definition noDirectState (data : JS.object) : Prop :=
  forall field text,
    In field stateFields ->
    JS.get data field = JS.Str text ->
    isStateCode (JS.toUpperCase (JS.trim text)) = false.

(** No address field matches a pattern whose candidate resolves to a
    known state. *)
Definition noAddressState (data : JS.object) : Prop :=
  forall field fieldSource text pattern candidate,
    In (field, fieldSource) addressFields ->
    JS.get data field = JS.Str text ->
    In pattern patterns ->
    JS.exec pattern text = Some candidate ->
    resolveCandidate candidate = None.

(** The classifier call fails (transport, error status, unparseable body)
    or its answer carries no valid state code. *)
Inductive classifierFails (input : StateDetectionInput) : Prop :=
| TransportFailure (message : string) :
    fetchStateDetection (llmPrompt input) = JS.Throw message ->
    classifierFails input
| ErrorStatus (response : Response) :
    fetchStateDetection (llmPrompt input) = JS.Ok response ->
    ok response = false ->
    classifierFails input
| ParseFailure (response : Response) (message : string) :
    fetchStateDetection (llmPrompt input) = JS.Ok response ->
    json response = JS.Throw message ->
    classifierFails input
| InvalidCode (response : Response) (result : JS.value) :
    fetchStateDetection (llmPrompt input) = JS.Ok response ->
    json response = JS.Ok result ->
    (forall code, acceptedStateCode result <> JS.Ok (Some code)) ->
    classifierFails input.

End WithServices.

(** ** The helpers exported beside the detection *)

(** [!!STATE_TAX_DATA[stateCode?.toUpperCase()]] *)
Definition isStateSupportedForTaxCalculation (stateCode : string) : bool :=
  bool_decide
    (is_Some (StateTaxData.STATE_TAX_DATA !! JS.toUpperCase stateCode)).

(** [US_STATES[stateCode?.toUpperCase()]] *)
Definition getStateName (stateCode : string) : option string :=
  US_STATES !! JS.toUpperCase stateCode.

(** [Object.keys(US_STATES)] *)
Definition getAllStatesCodes : list string := map fst US_STATES_ENTRIES.

(** What a tier returns: a valid code with its confidence and a source
    that is not [unknown], or the empty result. *)
Definition wellFormedResult (data : JS.object) (result : StateDetectionResult)
  : Prop :=
  match detectedState result with
  | Some code =>
      isStateCode code = true /\ source result <> unknown
  | None => result = noState data
  end.

End StateDetection.

(* ===================================================================== *)
(** * The persisted entities and the server monad *)
(* ===================================================================== *)

Module Prisma.

Local Open Scope Q_scope.

Inductive ProcessingStatus : Type := PENDING | PROCESSING | COMPLETED | FAILED.

Inductive StateDetectionSource : Type :=
  ADDRESS | EMPLOYER | DOCUMENT_TYPE | MANUAL | UNKNOWN.

Inductive IncomeType : Type :=
  W2_WAGES | INTEREST | DIVIDENDS | BUSINESS_INCOME | OTHER_INCOME.

Definition ProcessingStatus_eqb (a b : ProcessingStatus) : bool :=
  match a, b with
  | PENDING, PENDING | PROCESSING, PROCESSING
  | COMPLETED, COMPLETED | FAILED, FAILED => true
  | _, _ => false
  end.

Module Users.
Record User : Type := {
  id : string;
  email : string
}.
End Users.

Module Documents.
Record Document : Type := {
  id : string;
  taxReturnId : string;
  fileName : string;
  filePath : string;
  documentType : string;
  processingStatus : ProcessingStatus;
  extractedData : option JS.object;
  ocrText : option string;
  isVerified : bool;
  createdAt : Z;
  updatedAt : Z
}.

(** The [data] of a [document.update]: the columns left out keep their
    value. *)
Record Update : Type := {
  setDocumentType : option string;
  setProcessingStatus : option ProcessingStatus;
  setExtractedData : option (option JS.object);
  setOcrText : option (option string);
  setIsVerified : option bool;
  setUpdatedAt : option Z
}.

Definition noUpdate : Update :=
  {| setDocumentType := None; setProcessingStatus := None;
     setExtractedData := None; setOcrText := None; setIsVerified := None;
     setUpdatedAt := None |}.

Definition apply (data : Update) (document : Document) : Document :=
  {| id := id document;
     taxReturnId := taxReturnId document;
     fileName := fileName document;
     filePath := filePath document;
     documentType := default (documentType document) (setDocumentType data);
     processingStatus :=
       default (processingStatus document) (setProcessingStatus data);
     extractedData := default (extractedData document) (setExtractedData data);
     ocrText := default (ocrText document) (setOcrText data);
     isVerified := default (isVerified document) (setIsVerified data);
     createdAt := createdAt document;
     updatedAt := default (updatedAt document) (setUpdatedAt data) |}.
End Documents.

Module IncomeEntries.
Record IncomeEntry : Type := {
  taxReturnId : string;
  documentId : option string;
  incomeType : IncomeType;
  description : string;
  amount : Q;
  employerName : option string;
  employerEIN : option string;
  payerName : option string;
  payerTIN : option string;
  federalTaxWithheld : option Q
}.
End IncomeEntries.

Module ExtractedEntries.
Record DocumentExtractedEntry : Type := {
  documentId : string;
  fieldName : string
}.
End ExtractedEntries.

Module TaxReturns.
Record TaxReturn : Type := {
  id : string;
  userId : string;
  filingStatus : string;
  firstName : option string;
  lastName : option string;
  ssn : option string;
  address : option string;
  city : option string;
  state : option string;
  zipCode : option string;
  totalIncome : Q;
  adjustedGrossIncome : Q;
  standardDeduction : Q;
  itemizedDeduction : Q;
  taxableIncome : Q;
  taxLiability : Q;
  totalCredits : Q;
  totalWithholdings : Q;
  refundAmount : Q;
  amountOwed : Q;
  stateTaxLiability : Q;
  stateStandardDeduction : Q;
  stateTaxableIncome : Q;
  stateEffectiveRate : Q;
  stateItemizedDeduction : Q;
  detectedState : option string;
  stateConfidence : option JS.number;
  stateSource : option StateDetectionSource;
  lastSavedAt : Z;
  updatedAt : Z
}.

(** The [data] of a [taxReturn.update]; object spread is [merge]. *)
Record Update : Type := {
  setFirstName : option (option string);
  setLastName : option (option string);
  setSsn : option (option string);
  setAddress : option (option string);
  setCity : option (option string);
  setState : option (option string);
  setZipCode : option (option string);
  setTotalIncome : option Q;
  setAdjustedGrossIncome : option Q;
  setStandardDeduction : option Q;
  setItemizedDeduction : option Q;
  setTaxableIncome : option Q;
  setTaxLiability : option Q;
  setTotalCredits : option Q;
  setTotalWithholdings : option Q;
  setRefundAmount : option Q;
  setAmountOwed : option Q;
  setStateTaxLiability : option Q;
  setStateStandardDeduction : option Q;
  setStateTaxableIncome : option Q;
  setStateEffectiveRate : option Q;
  setDetectedState : option (option string);
  setStateConfidence : option (option JS.number);
  setStateSource : option (option StateDetectionSource);
  setLastSavedAt : option Z;
  setUpdatedAt : option Z
}.

Definition noUpdate : Update :=
  {| setFirstName := None; setLastName := None; setSsn := None;
     setAddress := None; setCity := None; setState := None;
     setZipCode := None; setTotalIncome := None;
     setAdjustedGrossIncome := None; setStandardDeduction := None;
     setItemizedDeduction := None; setTaxableIncome := None;
     setTaxLiability := None; setTotalCredits := None;
     setTotalWithholdings := None; setRefundAmount := None;
     setAmountOwed := None; setStateTaxLiability := None;
     setStateStandardDeduction := None; setStateTaxableIncome := None;
     setStateEffectiveRate := None; setDetectedState := None;
     setStateConfidence := None; setStateSource := None;
     setLastSavedAt := None; setUpdatedAt := None |}.

(** [later] wins where it sets a column: [{ ...earlier, ...later }]. *)
Definition over {A} (later earlier : option A) : option A :=
  match later with
  | Some v => Some v
  | None => earlier
  end.

Definition merge (earlier later : Update) : Update :=
  {| setFirstName := over (setFirstName later) (setFirstName earlier);
     setLastName := over (setLastName later) (setLastName earlier);
     setSsn := over (setSsn later) (setSsn earlier);
     setAddress := over (setAddress later) (setAddress earlier);
     setCity := over (setCity later) (setCity earlier);
     setState := over (setState later) (setState earlier);
     setZipCode := over (setZipCode later) (setZipCode earlier);
     setTotalIncome := over (setTotalIncome later) (setTotalIncome earlier);
     setAdjustedGrossIncome :=
       over (setAdjustedGrossIncome later) (setAdjustedGrossIncome earlier);
     setStandardDeduction :=
       over (setStandardDeduction later) (setStandardDeduction earlier);
     setItemizedDeduction :=
       over (setItemizedDeduction later) (setItemizedDeduction earlier);
     setTaxableIncome := over (setTaxableIncome later) (setTaxableIncome earlier);
     setTaxLiability := over (setTaxLiability later) (setTaxLiability earlier);
     setTotalCredits := over (setTotalCredits later) (setTotalCredits earlier);
     setTotalWithholdings :=
       over (setTotalWithholdings later) (setTotalWithholdings earlier);
     setRefundAmount := over (setRefundAmount later) (setRefundAmount earlier);
     setAmountOwed := over (setAmountOwed later) (setAmountOwed earlier);
     setStateTaxLiability :=
       over (setStateTaxLiability later) (setStateTaxLiability earlier);
     setStateStandardDeduction :=
       over (setStateStandardDeduction later) (setStateStandardDeduction earlier);
     setStateTaxableIncome :=
       over (setStateTaxableIncome later) (setStateTaxableIncome earlier);
     setStateEffectiveRate :=
       over (setStateEffectiveRate later) (setStateEffectiveRate earlier);
     setDetectedState := over (setDetectedState later) (setDetectedState earlier);
     setStateConfidence :=
       over (setStateConfidence later) (setStateConfidence earlier);
     setStateSource := over (setStateSource later) (setStateSource earlier);
     setLastSavedAt := over (setLastSavedAt later) (setLastSavedAt earlier);
     setUpdatedAt := over (setUpdatedAt later) (setUpdatedAt earlier) |}.

Definition apply (data : Update) (taxReturn : TaxReturn) : TaxReturn :=
  {| id := id taxReturn;
     userId := userId taxReturn;
     filingStatus := filingStatus taxReturn;
     firstName := default (firstName taxReturn) (setFirstName data);
     lastName := default (lastName taxReturn) (setLastName data);
     ssn := default (ssn taxReturn) (setSsn data);
     address := default (address taxReturn) (setAddress data);
     city := default (city taxReturn) (setCity data);
     state := default (state taxReturn) (setState data);
     zipCode := default (zipCode taxReturn) (setZipCode data);
     totalIncome := default (totalIncome taxReturn) (setTotalIncome data);
     adjustedGrossIncome :=
       default (adjustedGrossIncome taxReturn) (setAdjustedGrossIncome data);
     standardDeduction :=
       default (standardDeduction taxReturn) (setStandardDeduction data);
     itemizedDeduction :=
       default (itemizedDeduction taxReturn) (setItemizedDeduction data);
     taxableIncome := default (taxableIncome taxReturn) (setTaxableIncome data);
     taxLiability := default (taxLiability taxReturn) (setTaxLiability data);
     totalCredits := default (totalCredits taxReturn) (setTotalCredits data);
     totalWithholdings :=
       default (totalWithholdings taxReturn) (setTotalWithholdings data);
     refundAmount := default (refundAmount taxReturn) (setRefundAmount data);
     amountOwed := default (amountOwed taxReturn) (setAmountOwed data);
     stateTaxLiability :=
       default (stateTaxLiability taxReturn) (setStateTaxLiability data);
     stateStandardDeduction :=
       default (stateStandardDeduction taxReturn)
         (setStateStandardDeduction data);
     stateTaxableIncome :=
       default (stateTaxableIncome taxReturn) (setStateTaxableIncome data);
     stateEffectiveRate :=
       default (stateEffectiveRate taxReturn) (setStateEffectiveRate data);
     stateItemizedDeduction := stateItemizedDeduction taxReturn;
     detectedState := default (detectedState taxReturn) (setDetectedState data);
     stateConfidence :=
       default (stateConfidence taxReturn) (setStateConfidence data);
     stateSource := default (stateSource taxReturn) (setStateSource data);
     lastSavedAt := default (lastSavedAt taxReturn) (setLastSavedAt data);
     updatedAt := default (updatedAt taxReturn) (setUpdatedAt data) |}.
End TaxReturns.

Record Database : Type := {
  users : list Users.User;
  taxReturns : list TaxReturns.TaxReturn;
  documents : list Documents.Document;
  incomeEntries : list IncomeEntries.IncomeEntry;
  documentExtractedEntries : list ExtractedEntries.DocumentExtractedEntry;
  dependents : list Dependent
}.

(** ** Reads *)

Definition findUser (database : Database) (email : string)
  : option Users.User :=
  List.find (fun user => String.eqb (Users.email user) email) (users database).

Definition findTaxReturn (database : Database) (id : string)
  : option TaxReturns.TaxReturn :=
  List.find (fun taxReturn => String.eqb (TaxReturns.id taxReturn) id)
    (taxReturns database).

Definition findDocument (database : Database) (id : string)
  : option Documents.Document :=
  List.find (fun document => String.eqb (Documents.id document) id)
    (documents database).

Definition existsDocument (database : Database) (id : string) : bool :=
  existsb (fun document => String.eqb (Documents.id document) id)
    (documents database).

Definition hasDocumentId (id : string) (entry : IncomeEntries.IncomeEntry)
  : bool :=
  match IncomeEntries.documentId entry with
  | Some documentId => String.eqb documentId id
  | None => false
  end.

Definition ofTaxReturn (taxReturnId : string)
  (entry : IncomeEntries.IncomeEntry) : bool :=
  String.eqb (IncomeEntries.taxReturnId entry) taxReturnId.

(** [documentId: { not: null }] *)
Definition hasDocument (entry : IncomeEntries.IncomeEntry) : bool :=
  match IncomeEntries.documentId entry with
  | Some _ => true
  | None => false
  end.

(** [document: { isNot: null }]: the referenced document exists. *)
Definition documentExists (database : Database)
  (entry : IncomeEntries.IncomeEntry) : bool :=
  match IncomeEntries.documentId entry with
  | Some documentId => existsDocument database documentId
  | None => false
  end.

(** ** Writes *)

Definition withDocuments (database : Database)
  (documents' : list Documents.Document) : Database :=
  {| users := users database; taxReturns := taxReturns database;
     documents := documents';
     incomeEntries := incomeEntries database;
     documentExtractedEntries := documentExtractedEntries database;
     dependents := dependents database |}.

Definition withIncomeEntries (database : Database)
  (entries : list IncomeEntries.IncomeEntry) : Database :=
  {| users := users database; taxReturns := taxReturns database;
     documents := documents database;
     incomeEntries := entries;
     documentExtractedEntries := documentExtractedEntries database;
     dependents := dependents database |}.

Definition withExtractedEntries (database : Database)
  (entries : list ExtractedEntries.DocumentExtractedEntry) : Database :=
  {| users := users database; taxReturns := taxReturns database;
     documents := documents database;
     incomeEntries := incomeEntries database;
     documentExtractedEntries := entries;
     dependents := dependents database |}.

Definition withTaxReturns (database : Database)
  (taxReturns' : list TaxReturns.TaxReturn) : Database :=
  {| users := users database; taxReturns := taxReturns';
     documents := documents database;
     incomeEntries := incomeEntries database;
     documentExtractedEntries := documentExtractedEntries database;
     dependents := dependents database |}.

(** [incomeEntry.deleteMany({ where })] *)
Definition deleteIncomeEntries (database : Database)
  (where_ : IncomeEntries.IncomeEntry -> bool) : Database :=
  withIncomeEntries database
    (List.filter (fun entry => negb (where_ entry)) (incomeEntries database)).

Definition deleteExtractedEntries (database : Database) (documentId : string)
  : Database :=
  withExtractedEntries database
    (List.filter
       (fun entry =>
          negb (String.eqb (ExtractedEntries.documentId entry) documentId))
       (documentExtractedEntries database)).

(** [document.delete({ where: { id } })]: the row goes, and with it (the
    foreign key is ON DELETE CASCADE) the income entries that reference
    it.  Deleting a row that does not exist throws. *)
Definition deleteDocument (database : Database) (id : string)
  : JS.Result Database :=
  if existsDocument database id
  then
    JS.Ok
      (deleteIncomeEntries
         (withDocuments database
            (List.filter
               (fun document => negb (String.eqb (Documents.id document) id))
               (documents database)))
         (hasDocumentId id))
  else JS.Throw "Record to delete does not exist.".

(** [document.update({ where: { id }, data })] *)
Definition updateDocument (database : Database) (id : string)
  (data : Documents.Update) : JS.Result (Documents.Document * Database) :=
  match findDocument database id with
  | Some document =>
      JS.Ok
        (Documents.apply data document,
         withDocuments database
           (map (fun row =>
                   if String.eqb (Documents.id row) id
                   then Documents.apply data row else row)
              (documents database)))
  | None => JS.Throw "Record to update not found."
  end.

(** [taxReturn.update({ where: { id }, data })] *)
Definition updateTaxReturn (database : Database) (id : string)
  (data : TaxReturns.Update) : JS.Result (TaxReturns.TaxReturn * Database) :=
  match findTaxReturn database id with
  | Some taxReturn =>
      JS.Ok
        (TaxReturns.apply data taxReturn,
         withTaxReturns database
           (map (fun row =>
                   if String.eqb (TaxReturns.id row) id
                   then TaxReturns.apply data row else row)
              (taxReturns database)))
  | None => JS.Throw "Record to update not found."
  end.

(** [incomeEntry.create({ data })]: the referenced tax return and document
    must exist (foreign keys). *)
Definition createIncomeEntry (database : Database)
  (entry : IncomeEntries.IncomeEntry) : JS.Result Database :=
  match findTaxReturn database (IncomeEntries.taxReturnId entry) with
  | Some _ =>
      if match IncomeEntries.documentId entry with
         | Some documentId => existsDocument database documentId
         | None => true
         end
      then JS.Ok (withIncomeEntries database
                    (incomeEntries database ++ [entry])%list)
      else JS.Throw "Foreign key constraint failed on the field: documentId"
  | None => JS.Throw "Foreign key constraint failed on the field: taxReturnId"
  end.

End Prisma.

(* ===================================================================== *)
(** * Request handlers as stateful, throwing computations *)
(* ===================================================================== *)

Module Server.

(** What a handler asks of its collaborators, in order. *)
Inductive Call : Type :=
| ExtractData (filePath documentType : string)
| DetectState (documentType : string)
| CheckDuplicates (documentType taxReturnId : string)
| MapForm1040 (documentType : string)
| CalculateTax (filingStatus : string) (stateCode : option string).

Record World : Type := {
  database : Prisma.Database;
  calls : list Call;
  (** [Date.now()], in milliseconds *)
  clock : Z
}.

(** A handler step: it returns or throws, and leaves a world behind in
    both cases. *)
Definition M (A : Type) : Type := World -> JS.Result A * World.

Definition ret {A} (a : A) : M A := fun world => (JS.Ok a, world).

Definition bind {A B} (m : M A) (k : A -> M B) : M B :=
  fun world =>
    match m world with
    | (JS.Ok a, world') => k a world'
    | (JS.Throw message, world') => (JS.Throw message, world')
    end.

Definition throw {A} (message : string) : M A :=
  fun world => (JS.Throw message, world).

(** A pure computation that may throw. *)
Definition lift {A} (r : JS.Result A) : M A := fun world => (r, world).

(** [try { body } catch (error) { handler }] *)
Definition tryCatch {A} (body : M A) (handler : string -> M A) : M A :=
  fun world =>
    match body world with
    | (JS.Ok a, world') => (JS.Ok a, world')
    | (JS.Throw message, world') => handler message world'
    end.

(** A read of the database. *)
Definition query {A} (read : Prisma.Database -> A) : M A :=
  fun world => (JS.Ok (read (database world)), world).

Definition setDatabase (world : World) (database' : Prisma.Database) : World :=
  {| database := database'; calls := calls world; clock := clock world |}.

(** A write to the database that may throw; nothing is written then. *)
Definition mutate {A} (write : Prisma.Database -> JS.Result (A * Prisma.Database))
  : M A :=
  fun world =>
    match write (database world) with
    | JS.Ok (a, database') => (JS.Ok a, setDatabase world database')
    | JS.Throw message => (JS.Throw message, world)
    end.

Definition mutate_ (write : Prisma.Database -> JS.Result Prisma.Database)
  : M unit :=
  mutate (fun database => database' ← write database; JS.Ok (tt, database')).

(** [new Date()] *)
Definition now : M Z := fun world => (JS.Ok (clock world), world).

(** Record the call of a collaborator. *)
Definition call (request : Call) : M unit :=
  fun world =>
    (JS.Ok tt,
     {| database := database world;
        calls := (calls world ++ [request])%list;
        clock := clock world |}).

(** [prisma.$transaction(async (tx) => body)]: when the body throws, the
    writes it made are rolled back and the error propagates. *)
Definition transaction {A} (body : M A) : M A :=
  fun world =>
    match body world with
    | (JS.Ok a, world') => (JS.Ok a, world')
    | (JS.Throw message, world') =>
        (JS.Throw message, setDatabase world' (database world))
    end.

(** A step that keeps a property of the database, whether it returns or
    throws. *)
Definition keeps {A} (I : Prisma.Database -> Prop) (m : M A) : Prop :=
  forall world, I (database world) -> I (database (snd (m world))).

(** A step that always returns. *)
Definition returns {A} (m : M A) : Prop :=
  forall world, exists a world', m world = (JS.Ok a, world').

End Server.

#[global] Instance Server_ret : MRet Server.M := @Server.ret.
#[global] Instance Server_bind : MBind Server.M :=
  fun A B k m => Server.bind m k.

(* ===================================================================== *)
(** * app/api/documents/[id]/route.ts *)
(* ===================================================================== *)

Module DocumentRoute.

Import Server.
Module P := Prisma.

Local Open Scope Q_scope.

Inductive Body : Type :=
| Error (error : string)
| Success (success : bool) (message : string)
| Found (document : P.Documents.Document).

Record Response : Type := {
  status : Z;
  body : Body
}.

(** [session?.user?.email], as a condition: no session, no user and an
    empty address all fail it. *)
Definition sessionUserEmail (sessionEmail : option string) : option string :=
  match sessionEmail with
  | Some email => if String.eqb email "" then None else Some email
  | None => None
  end.

(** [entries.reduce((sum, entry) => sum + parseFloat(entry.amount.toString()), 0)] *)
Definition sumAmounts (entries : list P.IncomeEntries.IncomeEntry) : Q :=
  fold_left (fun sum entry => sum + P.IncomeEntries.amount entry) entries 0.

(** [entries.reduce((sum, entry) => sum + parseFloat((entry.federalTaxWithheld
    || 0).toString()), 0)] *)
Definition sumWithholdings (entries : list P.IncomeEntries.IncomeEntry) : Q :=
  fold_left
    (fun sum entry =>
       sum + StateTaxCalculations.orElse
               (P.IncomeEntries.federalTaxWithheld entry) 0)
    entries 0.

(** The [where] of Step 4: entries of the tax return whose [documentId] is
    not null. *)
Definition remainingEntry (taxReturnId : string)
  (entry : P.IncomeEntries.IncomeEntry) : bool :=
  P.ofTaxReturn taxReturnId entry && P.hasDocument entry.

Definition recalculated (newTotalIncome newTotalWithholdings : Q) (date : Z)
  : P.TaxReturns.Update :=
  {| P.TaxReturns.setFirstName := None;
     P.TaxReturns.setLastName := None;
     P.TaxReturns.setSsn := None;
     P.TaxReturns.setAddress := None;
     P.TaxReturns.setCity := None;
     P.TaxReturns.setState := None;
     P.TaxReturns.setZipCode := None;
     P.TaxReturns.setTotalIncome := Some newTotalIncome;
     P.TaxReturns.setAdjustedGrossIncome := Some newTotalIncome;
     P.TaxReturns.setStandardDeduction := None;
     P.TaxReturns.setItemizedDeduction := None;
     P.TaxReturns.setTaxableIncome := Some 0;
     P.TaxReturns.setTaxLiability := Some 0;
     P.TaxReturns.setTotalCredits := None;
     P.TaxReturns.setTotalWithholdings := Some newTotalWithholdings;
     P.TaxReturns.setRefundAmount := Some 0;
     P.TaxReturns.setAmountOwed := Some 0;
     P.TaxReturns.setStateTaxLiability := Some 0;
     P.TaxReturns.setStateStandardDeduction := None;
     P.TaxReturns.setStateTaxableIncome := None;
     P.TaxReturns.setStateEffectiveRate := None;
     P.TaxReturns.setDetectedState := None;
     P.TaxReturns.setStateConfidence := None;
     P.TaxReturns.setStateSource := None;
     P.TaxReturns.setLastSavedAt := Some date;
     P.TaxReturns.setUpdatedAt := Some date |}.

(** The body of [prisma.$transaction] in [DELETE]. *)
Definition deleteAndRecalculate (id taxReturnId : string) : M unit :=
  (* Step 1: delete all income entries linked to this document *)
  _ ← mutate_ (fun database =>
                 JS.Ok (P.deleteIncomeEntries database (P.hasDocumentId id)));
  (* Step 2: delete all document extracted entries *)
  _ ← mutate_ (fun database => JS.Ok (P.deleteExtractedEntries database id));
  (* Step 3: delete the document *)
  _ ← mutate_ (fun database => P.deleteDocument database id);
  (* Step 4: recalculate tax return totals from remaining documents *)
  remainingIncomeEntries ←
    query (fun database =>
             List.filter (remainingEntry taxReturnId)
               (P.incomeEntries database));
  let newTotalIncome := sumAmounts remainingIncomeEntries in
  let newTotalWithholdings := sumWithholdings remainingIncomeEntries in
  date ← now;
  _ ← mutate (fun database =>
                P.updateTaxReturn database taxReturnId
                  (recalculated newTotalIncome newTotalWithholdings date));
  ret tt.

Definition DELETE (sessionEmail : option string) (id : string) : M Response :=
  tryCatch
    (match sessionUserEmail sessionEmail with
     | None => ret {| status := 401; body := Error "Unauthorized" |}
     | Some email =>
         user ← query (fun database => P.findUser database email);
         match user with
         | None => ret {| status := 404; body := Error "User not found" |}
         | Some user =>
             document ← query (fun database => P.findDocument database id);
             match document with
             | None =>
                 ret {| status := 404; body := Error "Document not found" |}
             | Some document =>
                 taxReturn ←
                   query (fun database =>
                            P.findTaxReturn database
                              (P.Documents.taxReturnId document));
                 match taxReturn with
                 | None =>
                     throw "Cannot read properties of null (reading 'userId')"
                 | Some taxReturn =>
                     if negb (String.eqb (P.TaxReturns.userId taxReturn)
                                (P.Users.id user))
                     then ret {| status := 404;
                                 body := Error "Document not found" |}
                     else
                       _ ← transaction
                             (deleteAndRecalculate id
                                (P.TaxReturns.id taxReturn));
                       ret {| status := 200;
                              body :=
                                Success true
                                  "Document and all associated data deleted successfully" |}
                 end
             end
         end
     end)
    (fun error =>
       ret {| status := 500; body := Error "Internal server error" |}).

Definition GET (sessionEmail : option string) (id : string) : M Response :=
  tryCatch
    (match sessionUserEmail sessionEmail with
     | None => ret {| status := 401; body := Error "Unauthorized" |}
     | Some email =>
         user ← query (fun database => P.findUser database email);
         match user with
         | None => ret {| status := 404; body := Error "User not found" |}
         | Some user =>
             document ← query (fun database => P.findDocument database id);
             match document with
             | None =>
                 ret {| status := 404; body := Error "Document not found" |}
             | Some document =>
                 taxReturn ←
                   query (fun database =>
                            P.findTaxReturn database
                              (P.Documents.taxReturnId document));
                 match taxReturn with
                 | None =>
                     throw "Cannot read properties of null (reading 'userId')"
                 | Some taxReturn =>
                     if negb (String.eqb (P.TaxReturns.userId taxReturn)
                                (P.Users.id user))
                     then ret {| status := 404;
                                 body := Error "Document not found" |}
                     else ret {| status := 200; body := Found document |}
                 end
             end
         end
     end)
    (fun error =>
       ret {| status := 500; body := Error "Internal server error" |}).

End DocumentRoute.

(* ===================================================================== *)
(** * The document processing endpoint (POST) *)
(* ===================================================================== *)

Module ProcessRoute.

Import Server.
Module P := Prisma.
Module SD := StateDetection.
Module ETC := EnhancedTaxCalculations.

Local Open Scope Q_scope.

(** ** Collaborators outside the sources *)

(** Modelled from the spec: [lib/duplicate-detection] is not among the
    sources; the verdict carries [isDuplicate], a confidence and the ids
    of the matching documents. *)
Module Duplicates.
Record DuplicateCheck : Type := {
  isDuplicate : bool;
  confidence : Q;
  matchingDocuments : list string
}.
End Duplicates.

(** Modelled from the spec: the mappers of [lib/w2-to-1040-mapping] and
    [lib/1099-to-1040-mapping] are not among the sources; the handler
    reads these personal-info fields of their result. *)
Module Mapping.
Record Form1040Mapping : Type := {
  firstName : option string;
  lastName : option string;
  ssn : option string;
  address : option string;
  city : option string;
  state : option string;
  zipCode : option string
}.
End Mapping.

Class Collaborators : Type := {
  (** [AzureDocumentIntelligenceService.extractDataFromDocument] *)
  extractDataFromDocument : string -> string -> JS.Result JS.object;
  (** [DuplicateDetectionService.checkForDuplicates] *)
  checkForDuplicates :
    P.Database -> string -> JS.object -> string ->
    JS.Result Duplicates.DuplicateCheck;
  (** [W2ToForm1040Mapper.mapW2ToForm1040] *)
  mapW2ToForm1040 : JS.object -> JS.Result Mapping.Form1040Mapping;
  (** [Form1099ToForm1040Mapper.map1099ToForm1040] *)
  map1099ToForm1040 : JS.object -> JS.Result Mapping.Form1040Mapping
}.

(** [process.env] *)
Class Environment : Type := {
  AZURE_DOCUMENT_INTELLIGENCE_ENDPOINT : option string;
  AZURE_DOCUMENT_INTELLIGENCE_API_KEY : option string;
  NODE_ENV : option string
}.

(** ** Responses *)

Module Calculations.
Record TaxCalculations : Type := {
  totalIncome : Q;
  adjustedGrossIncome : Q;
  taxableIncome : Q;
  taxLiability : Q;
  stateTaxLiability : Q;
  refundAmount : Q;
  amountOwed : Q
}.
End Calculations.

Module Snapshot.
Record ProcessedSnapshot : Type := {
  documentId : string;
  extractedData : option JS.object;
  ocrText : option string;
  processingStatus : P.ProcessingStatus;
  documentType : string;
  fileName : string;
  detectedState : option string;
  stateConfidence : option JS.number;
  stateSource : option P.StateDetectionSource;
  taxCalculations : Calculations.TaxCalculations;
  createdAt : Z;
  updatedAt : Z
}.
End Snapshot.

Module Outcome.
Record ProcessingResult : Type := {
  documentId : string;
  extractedData : option JS.object;
  ocrText : option string;
  processingStatus : P.ProcessingStatus;
  documentType : string;
  fileName : string;
  detectedState : option string;
  stateConfidence : option JS.number;
  stateSource : option P.StateDetectionSource;
  stateDetectionResult : option SD.StateDetectionResult;
  taxCalculations : option ETC.E.EnhancedTaxCalculationResult;
  form1040Mapping : option Mapping.Form1040Mapping;
  duplicateCheck : option Duplicates.DuplicateCheck;
  processedAt : Z;
  processingTime : Z;
  requiresManualReview : bool;
  suggestedActions : list string
}.
End Outcome.

Module Failure.
(** The error payload.  [details] is sent in development mode only,
    [supportReference] in production only; the stack trace of the
    development payload is not modelled. *)
Record Report : Type := {
  error : string;
  errorType : string;
  details : option string;
  timestamp : Z;
  supportReference : option string
}.
End Failure.

Inductive Body : Type :=
| Error (error : string)
| AlreadyProcessed (snapshot : Snapshot.ProcessedSnapshot)
| Processed (result : Outcome.ProcessingResult)
| Failed (report : Failure.Report).

Record Response : Type := {
  status : Z;
  body : Body
}.

(** ** Helpers of the route *)

(** [value.replace(/[$,\s]/g, '')] *)
Fixpoint stripCurrency (s : string) : string :=
  match s with
  | EmptyString => EmptyString
  | String c rest =>
      if Ascii.eqb c "$" || Ascii.eqb c "," || JS.isSpace c
      then stripCurrency rest
      else String c (stripCurrency rest)
  end.

Section WithServices.

Context `{runtime : JS.Runtime} `{federal : TaxCalculations.Federal}
        `{classifier : SD.Classifier} `{collaborators : Collaborators}
        `{environment : Environment}.

Definition parseAmount (value : JS.value) : JS.number :=
  match value with
  | JS.Null | JS.Undefined => JS.Fin 0
  | JS.Num n => if JS.isNaN n then JS.Fin 0 else n
  | JS.Str text =>
      let cleaned := stripCurrency text in
      let parsed := JS.parseFloat cleaned in
      if JS.isNaN parsed then JS.Fin 0 else parsed
  | _ => JS.Fin 0
  end.

Definition getIncomeAmountFromForm1099 (extractedData : JS.object)
  (documentType : string) : JS.number :=
  let field name := JS.or0 (parseAmount (JS.get extractedData name)) in
  if String.eqb documentType "FORM_1099_INT" then field "interestIncome"
  else if String.eqb documentType "FORM_1099_DIV" then field "ordinaryDividends"
  else if String.eqb documentType "FORM_1099_MISC"
  then JS.number_max (field "rents")
         (JS.number_max (field "royalties")
            (JS.number_max (field "otherIncome")
               (field "nonemployeeCompensation")))
  else if String.eqb documentType "FORM_1099_NEC"
  then field "nonemployeeCompensation"
  else JS.Fin 0.

Definition mapDocumentTypeToIncomeType (documentType : string) : P.IncomeType :=
  if String.eqb documentType "FORM_1099_INT" then P.INTEREST
  else if String.eqb documentType "FORM_1099_DIV" then P.DIVIDENDS
  else if String.eqb documentType "FORM_1099_MISC"
          || String.eqb documentType "FORM_1099_NEC"
  then P.BUSINESS_INCOME
  else P.OTHER_INCOME.

Definition mapStateDetectionSourceToEnum (source : SD.Source)
  : P.StateDetectionSource :=
  match source with
  | SD.address => P.ADDRESS
  | SD.employer => P.EMPLOYER
  | SD.document_type => P.DOCUMENT_TYPE
  | SD.unknown => P.UNKNOWN
  end.

(** [(stateResult?.confidence || 0) < 0.8] *)
Definition lowConfidence (stateResult : option SD.StateDetectionResult) : bool :=
  JS.number_ltQ
    (JS.or0 (default (JS.Fin 0) (SD.confidence <$> stateResult))) 0.8.

Definition flaggedDuplicate (duplicateResult : option Duplicates.DuplicateCheck)
  : bool :=
  default false (Duplicates.isDuplicate <$> duplicateResult).

Definition generateSuggestedActions
  (duplicateResult : option Duplicates.DuplicateCheck)
  (stateResult : option SD.StateDetectionResult)
  (taxResult : option ETC.E.EnhancedTaxCalculationResult) : list string :=
  let actions :=
    List.concat
      [ if flaggedDuplicate duplicateResult
        then ["Review potential duplicate documents before proceeding"]
        else [];
        if lowConfidence stateResult
        then ["Verify state information for accurate tax calculations"]
        else [];
        match taxResult with
        | Some result =>
            match ETC.E.taxOptimizationSuggestions result with
            | [] => []
            | _ => ["Review tax optimization suggestions to maximize savings"]
            end
        | None => []
        end ] in
  match actions with
  | [] => ["Document processed successfully - review extracted data"]
  | _ => actions
  end.

Definition categorizeError (errorMessage : string) : string :=
  let message := JS.toLowerCase errorMessage in
  if JS.includes "azure" message || JS.includes "document intelligence" message
  then "EXTRACTION_ERROR"
  else if JS.includes "database" message || JS.includes "prisma" message
  then "DATABASE_ERROR"
  else if JS.includes "state detection" message then "STATE_DETECTION_ERROR"
  else if JS.includes "duplicate" message then "DUPLICATE_DETECTION_ERROR"
  else if JS.includes "tax calculation" message then "CALCULATION_ERROR"
  else if JS.includes "mapping" message then "MAPPING_ERROR"
  else if JS.includes "authentication" message
          || JS.includes "unauthorized" message
  then "AUTH_ERROR"
  else "UNKNOWN_ERROR".

Definition getUserFriendlyErrorMessage (errorType : string) : string :=
  if String.eqb errorType "EXTRACTION_ERROR"
  then "Unable to extract data from document. Please ensure the document is clear and try again."
  else if String.eqb errorType "DATABASE_ERROR"
  then "Database error occurred. Please try again later."
  else if String.eqb errorType "STATE_DETECTION_ERROR"
  then "State detection failed. You may need to manually enter your state information."
  else if String.eqb errorType "DUPLICATE_DETECTION_ERROR"
  then "Error checking for duplicate documents. Processing continued successfully."
  else if String.eqb errorType "CALCULATION_ERROR"
  then "Tax calculation error occurred. Please review your information."
  else if String.eqb errorType "MAPPING_ERROR"
  then "Error mapping document data. Some fields may need manual entry."
  else if String.eqb errorType "AUTH_ERROR"
  then "Authentication error. Please log in again."
  else "Document processing failed. Please try again or contact support.".

(** ** The lookup of Step 2 *)

Definition ownedBy (database : P.Database) (userId : string)
  (document : P.Documents.Document) : bool :=
  match P.findTaxReturn database (P.Documents.taxReturnId document) with
  | Some taxReturn => String.eqb (P.TaxReturns.userId taxReturn) userId
  | None => false
  end.

(** [document.findFirst({ where: { id, taxReturn: { userId } }, include:
    { taxReturn } })] *)
Definition findOwnedDocument (database : P.Database) (id userId : string)
  : option (P.Documents.Document * P.TaxReturns.TaxReturn) :=
  document ←
    List.find
      (fun row => String.eqb (P.Documents.id row) id
                  && ownedBy database userId row)
      (P.documents database);
  taxReturn ← P.findTaxReturn database (P.Documents.taxReturnId document);
  Some (document, taxReturn).

(** ** Step 3: the payload for a document that is already processed *)

Definition alreadyProcessed (document : P.Documents.Document)
  (taxReturn : P.TaxReturns.TaxReturn) : Snapshot.ProcessedSnapshot :=
  {| Snapshot.documentId := P.Documents.id document;
     Snapshot.extractedData := P.Documents.extractedData document;
     Snapshot.ocrText := P.Documents.ocrText document;
     Snapshot.processingStatus := P.Documents.processingStatus document;
     Snapshot.documentType := P.Documents.documentType document;
     Snapshot.fileName := P.Documents.fileName document;
     Snapshot.detectedState := P.TaxReturns.detectedState taxReturn;
     Snapshot.stateConfidence := P.TaxReturns.stateConfidence taxReturn;
     Snapshot.stateSource := P.TaxReturns.stateSource taxReturn;
     Snapshot.taxCalculations :=
       {| Calculations.totalIncome := P.TaxReturns.totalIncome taxReturn;
          Calculations.adjustedGrossIncome :=
            P.TaxReturns.adjustedGrossIncome taxReturn;
          Calculations.taxableIncome := P.TaxReturns.taxableIncome taxReturn;
          Calculations.taxLiability := P.TaxReturns.taxLiability taxReturn;
          Calculations.stateTaxLiability :=
            P.TaxReturns.stateTaxLiability taxReturn;
          Calculations.refundAmount := P.TaxReturns.refundAmount taxReturn;
          Calculations.amountOwed := P.TaxReturns.amountOwed taxReturn |};
     Snapshot.createdAt := P.Documents.createdAt document;
     Snapshot.updatedAt := P.Documents.updatedAt document |}.

(** ** Steps 4 to 8: mark PROCESSING, extract, correct the type *)

Definition setProcessing (id : string) : M unit :=
  date ← now;
  _ ← mutate (fun database =>
                P.updateDocument database id
                  {| P.Documents.setDocumentType := None;
                     P.Documents.setProcessingStatus := Some P.PROCESSING;
                     P.Documents.setExtractedData := None;
                     P.Documents.setOcrText := None;
                     P.Documents.setIsVerified := None;
                     P.Documents.setUpdatedAt := Some date |});
  ret tt.

Definition configured (setting : option string) : bool :=
  match setting with
  | Some text => negb (String.eqb text "")
  | None => false
  end.

Definition checkConfiguration : M unit :=
  if configured AZURE_DOCUMENT_INTELLIGENCE_ENDPOINT
     && configured AZURE_DOCUMENT_INTELLIGENCE_API_KEY
  then ret tt
  else throw "Azure Document Intelligence credentials not configured. Please contact support.".

Definition extraction (document : P.Documents.Document) : M JS.object :=
  _ ← call (ExtractData (P.Documents.filePath document)
              (P.Documents.documentType document));
  tryCatch
    (lift (extractDataFromDocument (P.Documents.filePath document)
             (P.Documents.documentType document)))
    (fun extractionError =>
       throw ("Document extraction failed: " ++ extractionError)).

(** Modelled from the spec: the [DocumentType] enumeration of the Prisma
    schema, which is not among the sources. *)
Definition documentTypes : list string :=
  [ "W2"; "FORM_1099_INT"; "FORM_1099_DIV"; "FORM_1099_MISC";
    "FORM_1099_NEC"; "FORM_1099_R"; "FORM_1099_G"; "FORM_1099_GENERIC";
    "OTHER_TAX_DOCUMENT" ].

Definition isDocumentType (name : string) : bool :=
  existsb (String.eqb name) documentTypes.

(** A corrected type must name a document type to be stored in the
    [documentType] column; it is stored before any later stage runs. *)
Definition typeCorrection (document : P.Documents.Document)
  (extractedData : JS.object) : M string :=
  let corrected := JS.get extractedData "correctedDocumentType" in
  if JS.truthy corrected
  then
    match corrected with
    | JS.Str correctedDocumentType =>
        if isDocumentType correctedDocumentType
        then
          _ ← mutate (fun database =>
                        P.updateDocument database (P.Documents.id document)
                          {| P.Documents.setDocumentType :=
                               Some correctedDocumentType;
                             P.Documents.setProcessingStatus := None;
                             P.Documents.setExtractedData := None;
                             P.Documents.setOcrText := None;
                             P.Documents.setIsVerified := None;
                             P.Documents.setUpdatedAt := None |});
          ret correctedDocumentType
        else throw "Invalid value provided. Expected DocumentType."
    | _ => throw "Invalid value provided. Expected DocumentType."
    end
  else ret (P.Documents.documentType document).

(** ** Step 9: state detection, non-fatal *)

Definition stateDetection (finalDocumentType : string)
  (extractedData : JS.object) : M (option SD.StateDetectionResult) :=
  _ ← call (DetectState finalDocumentType);
  tryCatch
    (result ← lift (SD.detectStateFromDocument
                      {| SD.documentType := finalDocumentType;
                         SD.extractedData := extractedData |});
     ret (Some result))
    (fun stateError => ret None).

(** [stateDetectionResult?.detectedState], as a condition and a value. *)
Definition detectedCode (stateDetectionResult : option SD.StateDetectionResult)
  : option string :=
  match stateDetectionResult with
  | Some result => if SD.found result then SD.detectedState result else None
  | None => None
  end.

(** ** Step 10: duplicate detection, non-fatal *)

Definition duplicateDetection (document : P.Documents.Document)
  (finalDocumentType : string) (extractedData : JS.object)
  : M (option Duplicates.DuplicateCheck) :=
  _ ← call (CheckDuplicates finalDocumentType
              (P.Documents.taxReturnId document));
  tryCatch
    (stored ← query (fun database => database);
     result ← lift (checkForDuplicates stored finalDocumentType extractedData
                      (P.Documents.taxReturnId document));
     ret (Some result))
    (fun duplicateError => ret None).

(** ** Step 11: Form 1040 mapping and the income entry, non-fatal *)

(** A number handed to a Decimal column: Prisma rejects what is not
    finite. *)
Definition decimal (n : JS.number) : JS.Result Q :=
  match n with
  | JS.Fin q => JS.Ok q
  | _ => JS.Throw "Invalid value provided. Expected Decimal."
  end.

(** [String(value || '')] *)
Definition text (value : JS.value) : string :=
  JS.toString (JS.or value (JS.Str EmptyString)).

Definition createW2Entry (document : P.Documents.Document)
  (extractedData : JS.object) : M unit :=
  let wagesAmount := JS.or0 (parseAmount (JS.get extractedData "wages")) in
  let federalTaxWithheld :=
    JS.or0 (parseAmount (JS.get extractedData "federalTaxWithheld")) in
  if JS.gt0 wagesAmount
  then
    mutate_
      (fun database =>
         amount ← decimal wagesAmount;
         withheld ← decimal federalTaxWithheld;
         P.createIncomeEntry database
           {| P.IncomeEntries.taxReturnId := P.Documents.taxReturnId document;
              P.IncomeEntries.documentId := Some (P.Documents.id document);
              P.IncomeEntries.incomeType := P.W2_WAGES;
              P.IncomeEntries.description :=
                "W2 wages from " ++
                JS.toString (JS.or (JS.get extractedData "employerName")
                               (JS.Str "Employer"));
              P.IncomeEntries.amount := amount;
              P.IncomeEntries.employerName :=
                Some (text (JS.get extractedData "employerName"));
              P.IncomeEntries.employerEIN :=
                Some (text (JS.get extractedData "employerEIN"));
              P.IncomeEntries.payerName := None;
              P.IncomeEntries.payerTIN := None;
              P.IncomeEntries.federalTaxWithheld := Some withheld |})
  else ret tt.

Definition create1099Entry (document : P.Documents.Document)
  (finalDocumentType : string) (extractedData : JS.object) : M unit :=
  let incomeAmount :=
    getIncomeAmountFromForm1099 extractedData finalDocumentType in
  if JS.gt0 incomeAmount
  then
    mutate_
      (fun database =>
         amount ← decimal incomeAmount;
         P.createIncomeEntry database
           {| P.IncomeEntries.taxReturnId := P.Documents.taxReturnId document;
              P.IncomeEntries.documentId := Some (P.Documents.id document);
              P.IncomeEntries.incomeType :=
                mapDocumentTypeToIncomeType finalDocumentType;
              P.IncomeEntries.description :=
                finalDocumentType ++ " income from " ++
                JS.toString (JS.or (JS.get extractedData "payerName")
                               (JS.Str "Payer"));
              P.IncomeEntries.amount := amount;
              P.IncomeEntries.employerName := None;
              P.IncomeEntries.employerEIN := None;
              P.IncomeEntries.payerName :=
                Some (text (JS.get extractedData "payerName"));
              P.IncomeEntries.payerTIN :=
                Some (text (JS.get extractedData "payerTIN"));
              P.IncomeEntries.federalTaxWithheld := None |})
  else ret tt.

(** [mapped || current] on an optional text. *)
Definition orCurrent (mapped current : option string) : option string :=
  match mapped with
  | Some value => if String.eqb value "" then current else Some value
  | None => current
  end.

Definition personalInfo (mapping : Mapping.Form1040Mapping)
  (currentTaxReturn : P.TaxReturns.TaxReturn) : P.TaxReturns.Update :=
  {| P.TaxReturns.setFirstName :=
       Some (orCurrent (Mapping.firstName mapping)
               (P.TaxReturns.firstName currentTaxReturn));
     P.TaxReturns.setLastName :=
       Some (orCurrent (Mapping.lastName mapping)
               (P.TaxReturns.lastName currentTaxReturn));
     P.TaxReturns.setSsn :=
       Some (orCurrent (Mapping.ssn mapping)
               (P.TaxReturns.ssn currentTaxReturn));
     P.TaxReturns.setAddress :=
       Some (orCurrent (Mapping.address mapping)
               (P.TaxReturns.address currentTaxReturn));
     P.TaxReturns.setCity :=
       Some (orCurrent (Mapping.city mapping)
               (P.TaxReturns.city currentTaxReturn));
     P.TaxReturns.setState :=
       Some (orCurrent (Mapping.state mapping)
               (P.TaxReturns.state currentTaxReturn));
     P.TaxReturns.setZipCode :=
       Some (orCurrent (Mapping.zipCode mapping)
               (P.TaxReturns.zipCode currentTaxReturn));
     P.TaxReturns.setTotalIncome := None;
     P.TaxReturns.setAdjustedGrossIncome := None;
     P.TaxReturns.setStandardDeduction := None;
     P.TaxReturns.setItemizedDeduction := None;
     P.TaxReturns.setTaxableIncome := None;
     P.TaxReturns.setTaxLiability := None;
     P.TaxReturns.setTotalCredits := None;
     P.TaxReturns.setTotalWithholdings := None;
     P.TaxReturns.setRefundAmount := None;
     P.TaxReturns.setAmountOwed := None;
     P.TaxReturns.setStateTaxLiability := None;
     P.TaxReturns.setStateStandardDeduction := None;
     P.TaxReturns.setStateTaxableIncome := None;
     P.TaxReturns.setStateEffectiveRate := None;
     P.TaxReturns.setDetectedState := None;
     P.TaxReturns.setStateConfidence := None;
     P.TaxReturns.setStateSource := None;
     P.TaxReturns.setLastSavedAt := None;
     P.TaxReturns.setUpdatedAt := None |}.

(** The two variables the [try] block of Step 11 assigns, as the block
    leaves them: [form1040Mapping] is assigned as soon as the mapper
    returns, [updatedTaxReturnData] only at the end of the block, so an
    entry that cannot be created leaves the mapping without its data. *)
Definition form1040Mapping (document : P.Documents.Document)
  (finalDocumentType : string) (extractedData : JS.object)
  : M (option Mapping.Form1040Mapping * P.TaxReturns.Update) :=
  let mapped (mapper : JS.object -> JS.Result Mapping.Form1040Mapping)
             (createEntry : M unit)
             (currentTaxReturn : P.TaxReturns.TaxReturn) :=
    _ ← call (MapForm1040 finalDocumentType);
    mapping ← lift (mapper extractedData);
    tryCatch
      (_ ← createEntry;
       ret (Some mapping, personalInfo mapping currentTaxReturn))
      (fun mappingError => ret (Some mapping, P.TaxReturns.noUpdate)) in
  tryCatch
    (currentTaxReturn ←
       query (fun database =>
                P.findTaxReturn database (P.Documents.taxReturnId document));
     match currentTaxReturn with
     | None => throw "Tax return not found for Form 1040 mapping"
     | Some currentTaxReturn =>
         if String.eqb finalDocumentType "W2"
         then mapped mapW2ToForm1040 (createW2Entry document extractedData)
                currentTaxReturn
         else if JS.startsWith "FORM_1099" finalDocumentType
         then mapped map1099ToForm1040
                (create1099Entry document finalDocumentType extractedData)
                currentTaxReturn
         else ret (None, P.TaxReturns.noUpdate)
     end)
    (fun mappingError => ret (None, P.TaxReturns.noUpdate)).

(** ** Step 12: tax calculation, non-fatal *)

Definition validEntry (database : P.Database) (taxReturnId : string)
  (entry : P.IncomeEntries.IncomeEntry) : bool :=
  P.ofTaxReturn taxReturnId entry && P.hasDocument entry
  && P.documentExists database entry.

Definition orphanedEntry (taxReturnId : string)
  (entry : P.IncomeEntries.IncomeEntry) : bool :=
  P.ofTaxReturn taxReturnId entry && negb (P.hasDocument entry).

(** [result.stateTax?.field || 0] *)
Definition stateField (result : ETC.E.EnhancedTaxCalculationResult)
  (field : ETC.S.StateTaxCalculationResult -> Q) : Q :=
  match ETC.E.stateTax result with
  | Some stateTax => field stateTax
  | None => 0
  end.

Definition calculated (totalIncome : Q)
  (result : ETC.E.EnhancedTaxCalculationResult) : P.TaxReturns.Update :=
  {| P.TaxReturns.setFirstName := None;
     P.TaxReturns.setLastName := None;
     P.TaxReturns.setSsn := None;
     P.TaxReturns.setAddress := None;
     P.TaxReturns.setCity := None;
     P.TaxReturns.setState := None;
     P.TaxReturns.setZipCode := None;
     P.TaxReturns.setTotalIncome := Some totalIncome;
     P.TaxReturns.setAdjustedGrossIncome :=
       Some (ETC.E.adjustedGrossIncome result);
     P.TaxReturns.setStandardDeduction := Some (ETC.E.standardDeduction result);
     P.TaxReturns.setItemizedDeduction := Some (ETC.E.itemizedDeduction result);
     P.TaxReturns.setTaxableIncome := Some (ETC.E.taxableIncome result);
     P.TaxReturns.setTaxLiability := Some (ETC.E.taxLiability result);
     P.TaxReturns.setTotalCredits := Some (ETC.E.totalCredits result);
     P.TaxReturns.setTotalWithholdings := Some (ETC.E.totalWithholdings result);
     P.TaxReturns.setRefundAmount := Some (ETC.E.refundAmount result);
     P.TaxReturns.setAmountOwed := Some (ETC.E.amountOwed result);
     P.TaxReturns.setStateTaxLiability :=
       Some (stateField result ETC.S.stateTaxLiability);
     P.TaxReturns.setStateStandardDeduction :=
       Some (stateField result ETC.S.stateStandardDeduction);
     P.TaxReturns.setStateTaxableIncome :=
       Some (stateField result ETC.S.stateTaxableIncome);
     P.TaxReturns.setStateEffectiveRate :=
       Some (stateField result ETC.S.stateEffectiveRate);
     P.TaxReturns.setDetectedState := None;
     P.TaxReturns.setStateConfidence := None;
     P.TaxReturns.setStateSource := None;
     P.TaxReturns.setLastSavedAt := None;
     P.TaxReturns.setUpdatedAt := None |}.

(** The body of the [try] block of Step 12. *)
Definition calculate (document : P.Documents.Document)
  (taxReturn : P.TaxReturns.TaxReturn) (detectedStateCode : option string)
  : M (Q * ETC.E.EnhancedTaxCalculationResult) :=
  let taxReturnId := P.Documents.taxReturnId document in
  validIncomeEntries ←
    query (fun database =>
             List.filter (validEntry database taxReturnId)
               (P.incomeEntries database));
  orphanedEntries ←
    query (fun database =>
             List.filter (orphanedEntry taxReturnId) (P.incomeEntries database));
  _ ← match orphanedEntries with
      | [] => ret tt
      | _ =>
          mutate_ (fun database =>
                     JS.Ok (P.deleteIncomeEntries database
                              (orphanedEntry taxReturnId)))
      end;
  let totalIncome := DocumentRoute.sumAmounts validIncomeEntries in
  dependents ←
    query (fun database =>
             List.filter
               (fun dependent =>
                  String.eqb (dependentTaxReturnId dependent) taxReturnId)
               (P.dependents database));
  _ ← call (CalculateTax (P.TaxReturns.filingStatus taxReturn)
              detectedStateCode);
  result ←
    lift (ETC.calculateEnhancedTaxReturnWithState totalIncome
            (P.TaxReturns.filingStatus taxReturn) dependents
            (P.TaxReturns.itemizedDeduction taxReturn)
            (Some (P.TaxReturns.totalWithholdings taxReturn))
            detectedStateCode
            (Some (P.TaxReturns.stateItemizedDeduction taxReturn)));
  ret (totalIncome, result).

(** Step 12 with its [catch]: a calculation that throws leaves
    [taxCalculationResult] null and [updatedTaxReturnData] as the mapping
    step left it, and processing continues. *)
Definition taxCalculation (document : P.Documents.Document)
  (taxReturn : P.TaxReturns.TaxReturn) (detectedStateCode : option string)
  (updatedTaxReturnData : P.TaxReturns.Update)
  : M (option ETC.E.EnhancedTaxCalculationResult * P.TaxReturns.Update) :=
  tryCatch
    ('(totalIncome, result) ← calculate document taxReturn detectedStateCode;
     ret (Some result,
          P.TaxReturns.merge updatedTaxReturnData (calculated totalIncome result)))
    (fun calculationError => ret (None, updatedTaxReturnData)).

(** ** Step 13: persistence, fatal *)

(** [extractedData.fullText || null] for the [ocrText] column. *)
Definition fullText (extractedData : JS.object) : JS.Result (option string) :=
  let value := JS.get extractedData "fullText" in
  if JS.truthy value
  then
    match value with
    | JS.Str text => JS.Ok (Some text)
    | _ => JS.Throw "Invalid value provided. Expected String or Null."
    end
  else JS.Ok None.

Definition stamped (date : Z) : P.TaxReturns.Update :=
  {| P.TaxReturns.setFirstName := None;
     P.TaxReturns.setLastName := None;
     P.TaxReturns.setSsn := None;
     P.TaxReturns.setAddress := None;
     P.TaxReturns.setCity := None;
     P.TaxReturns.setState := None;
     P.TaxReturns.setZipCode := None;
     P.TaxReturns.setTotalIncome := None;
     P.TaxReturns.setAdjustedGrossIncome := None;
     P.TaxReturns.setStandardDeduction := None;
     P.TaxReturns.setItemizedDeduction := None;
     P.TaxReturns.setTaxableIncome := None;
     P.TaxReturns.setTaxLiability := None;
     P.TaxReturns.setTotalCredits := None;
     P.TaxReturns.setTotalWithholdings := None;
     P.TaxReturns.setRefundAmount := None;
     P.TaxReturns.setAmountOwed := None;
     P.TaxReturns.setStateTaxLiability := None;
     P.TaxReturns.setStateStandardDeduction := None;
     P.TaxReturns.setStateTaxableIncome := None;
     P.TaxReturns.setStateEffectiveRate := None;
     P.TaxReturns.setDetectedState := None;
     P.TaxReturns.setStateConfidence := None;
     P.TaxReturns.setStateSource := None;
     P.TaxReturns.setLastSavedAt := Some date;
     P.TaxReturns.setUpdatedAt := Some date |}.

Definition detected (result : SD.StateDetectionResult) : P.TaxReturns.Update :=
  {| P.TaxReturns.setFirstName := None;
     P.TaxReturns.setLastName := None;
     P.TaxReturns.setSsn := None;
     P.TaxReturns.setAddress := None;
     P.TaxReturns.setCity := None;
     P.TaxReturns.setState := Some (SD.detectedState result);
     P.TaxReturns.setZipCode := None;
     P.TaxReturns.setTotalIncome := None;
     P.TaxReturns.setAdjustedGrossIncome := None;
     P.TaxReturns.setStandardDeduction := None;
     P.TaxReturns.setItemizedDeduction := None;
     P.TaxReturns.setTaxableIncome := None;
     P.TaxReturns.setTaxLiability := None;
     P.TaxReturns.setTotalCredits := None;
     P.TaxReturns.setTotalWithholdings := None;
     P.TaxReturns.setRefundAmount := None;
     P.TaxReturns.setAmountOwed := None;
     P.TaxReturns.setStateTaxLiability := None;
     P.TaxReturns.setStateStandardDeduction := None;
     P.TaxReturns.setStateTaxableIncome := None;
     P.TaxReturns.setStateEffectiveRate := None;
     P.TaxReturns.setDetectedState := Some (SD.detectedState result);
     P.TaxReturns.setStateConfidence := Some (Some (SD.confidence result));
     P.TaxReturns.setStateSource :=
       Some (Some (mapStateDetectionSourceToEnum (SD.source result)));
     P.TaxReturns.setLastSavedAt := None;
     P.TaxReturns.setUpdatedAt := None |}.

Definition taxReturnUpdateData (updatedTaxReturnData : P.TaxReturns.Update)
  (stateDetectionResult : option SD.StateDetectionResult) (date : Z)
  : P.TaxReturns.Update :=
  let base := P.TaxReturns.merge updatedTaxReturnData (stamped date) in
  match stateDetectionResult with
  | Some result =>
      if SD.found result then P.TaxReturns.merge base (detected result)
      else base
  | None => base
  end.

Definition persistence (document : P.Documents.Document)
  (finalDocumentType : string) (extractedData : JS.object)
  (stateDetectionResult : option SD.StateDetectionResult)
  (duplicateCheckResult : option Duplicates.DuplicateCheck)
  (mapping : option Mapping.Form1040Mapping)
  (taxCalculationResult : option ETC.E.EnhancedTaxCalculationResult)
  (updatedTaxReturnData : P.TaxReturns.Update) : M Response :=
  tryCatch
    (date ← now;
     ocr ← lift (fullText extractedData);
     updatedDocument ←
       mutate (fun database =>
                 P.updateDocument database (P.Documents.id document)
                   {| P.Documents.setDocumentType := Some finalDocumentType;
                      P.Documents.setProcessingStatus := Some P.COMPLETED;
                      P.Documents.setExtractedData := Some (Some extractedData);
                      P.Documents.setOcrText := Some ocr;
                      P.Documents.setIsVerified := Some false;
                      P.Documents.setUpdatedAt := Some date |});
     updatedTaxReturn ←
       mutate (fun database =>
                 P.updateTaxReturn database (P.Documents.taxReturnId document)
                   (taxReturnUpdateData updatedTaxReturnData
                      stateDetectionResult date));
     ret {| status := 200;
            body :=
              Processed
                {| Outcome.documentId := P.Documents.id updatedDocument;
                   Outcome.extractedData :=
                     P.Documents.extractedData updatedDocument;
                   Outcome.ocrText := P.Documents.ocrText updatedDocument;
                   Outcome.processingStatus :=
                     P.Documents.processingStatus updatedDocument;
                   Outcome.documentType :=
                     P.Documents.documentType updatedDocument;
                   Outcome.fileName := P.Documents.fileName updatedDocument;
                   Outcome.detectedState :=
                     P.TaxReturns.detectedState updatedTaxReturn;
                   Outcome.stateConfidence :=
                     P.TaxReturns.stateConfidence updatedTaxReturn;
                   Outcome.stateSource :=
                     P.TaxReturns.stateSource updatedTaxReturn;
                   Outcome.stateDetectionResult := stateDetectionResult;
                   Outcome.taxCalculations := taxCalculationResult;
                   Outcome.form1040Mapping := mapping;
                   Outcome.duplicateCheck := duplicateCheckResult;
                   Outcome.processedAt := date;
                   Outcome.processingTime :=
                     (date - P.Documents.createdAt updatedDocument)%Z;
                   Outcome.requiresManualReview :=
                     flaggedDuplicate duplicateCheckResult
                     || lowConfidence stateDetectionResult;
                   Outcome.suggestedActions :=
                     generateSuggestedActions duplicateCheckResult
                       stateDetectionResult taxCalculationResult |} |})
    (fun dbError => throw ("Database update failed: " ++ dbError)).

(** ** The pipeline, Steps 4 to 13 *)

Definition processDocument (document : P.Documents.Document)
  (taxReturn : P.TaxReturns.TaxReturn) : M Response :=
  _ ← setProcessing (P.Documents.id document);
  _ ← checkConfiguration;
  extractedData ← extraction document;
  finalDocumentType ← typeCorrection document extractedData;
  stateDetectionResult ← stateDetection finalDocumentType extractedData;
  let detectedStateCode := detectedCode stateDetectionResult in
  duplicateCheckResult ←
    duplicateDetection document finalDocumentType extractedData;
  '(mapping, updatedTaxReturnData) ←
    form1040Mapping document finalDocumentType extractedData;
  '(taxCalculationResult, updatedTaxReturnData) ←
    taxCalculation document taxReturn detectedStateCode updatedTaxReturnData;
  persistence document finalDocumentType extractedData stateDetectionResult
    duplicateCheckResult mapping taxCalculationResult updatedTaxReturnData.

(** ** The outer [catch] *)

Definition markFailed (id : string) : M unit :=
  tryCatch
    (date ← now;
     _ ← mutate (fun database =>
                   P.updateDocument database id
                     {| P.Documents.setDocumentType := None;
                        P.Documents.setProcessingStatus := Some P.FAILED;
                        P.Documents.setExtractedData := None;
                        P.Documents.setOcrText := None;
                        P.Documents.setIsVerified := None;
                        P.Documents.setUpdatedAt := Some date |});
     ret tt)
    (fun updateError => ret tt).

Definition failure (id : string) (errorMessage : string) : M Response :=
  _ ← markFailed id;
  date ← now;
  let errorType := categorizeError errorMessage in
  if match NODE_ENV with
     | Some mode => String.eqb mode "development"
     | None => false
     end
  then
    ret {| status := 500;
           body :=
             Failed
               {| Failure.error := "Document processing failed";
                  Failure.errorType := errorType;
                  Failure.details :=
                    Some (if String.eqb errorMessage ""
                          then "Unknown error" else errorMessage);
                  Failure.timestamp := date;
                  Failure.supportReference := None |} |}
  else
    ret {| status := 500;
           body :=
             Failed
               {| Failure.error := getUserFriendlyErrorMessage errorType;
                  Failure.errorType := errorType;
                  Failure.details := None;
                  Failure.timestamp := date;
                  Failure.supportReference :=
                    Some ("PROC-" ++
                          JS.toString (JS.Num (JS.Fin (inject_Z date)))) |} |}.

(** ** The handler *)

Definition POST (sessionEmail : option string) (id : string) : M Response :=
  tryCatch
    (match DocumentRoute.sessionUserEmail sessionEmail with
     | None =>
         ret {| status := 401;
                body := Error "Authentication required. Please log in to process documents." |}
     | Some email =>
         user ← query (fun database => P.findUser database email);
         match user with
         | None =>
             ret {| status := 404;
                    body := Error "User not found. Please contact support." |}
         | Some user =>
             found ←
               query (fun database =>
                        findOwnedDocument database id (P.Users.id user));
             match found with
             | None =>
                 ret {| status := 404;
                        body := Error "Document not found or access denied" |}
             | Some (document, taxReturn) =>
                 match P.Documents.processingStatus document with
                 | P.COMPLETED =>
                     ret {| status := 200;
                            body := AlreadyProcessed
                                      (alreadyProcessed document taxReturn) |}
                 | P.PROCESSING =>
                     ret {| status := 409;
                            body := Error "Document is currently being processed. Please wait and try again." |}
                 | _ => processDocument document taxReturn
                 end
             end
         end
     end)
    (failure id).

(** ** The stored invariant of a processing run *)

(** The document and its tax return are stored. *)
Definition stored (id taxReturnId : string) (database : P.Database) : Prop :=
  is_Some (P.findDocument database id) /\
  is_Some (P.findTaxReturn database taxReturnId).

(** What the extraction returned fits the columns it is written to: the
    corrected type, when present, names a document type, and the full
    text, when present, is text. *)
Definition textOrAbsent (value : JS.value) : Prop :=
  JS.truthy value = false \/ exists text, value = JS.Str text.

Definition typeOrAbsent (value : JS.value) : Prop :=
  JS.truthy value = false \/
  exists name, value = JS.Str name /\ isDocumentType name = true.

Definition fitsColumns (extractedData : JS.object) : Prop :=
  typeOrAbsent (JS.get extractedData "correctedDocumentType") /\
  textOrAbsent (JS.get extractedData "fullText").

(** The federal calculation throws for this tax return, whatever income
    and dependents Step 12 hands it. *)
Definition federalFails (message : string)
  (taxReturn : P.TaxReturns.TaxReturn) : Prop :=
  forall totalIncome dependents,
    ETC.calculateEnhancedTaxReturn totalIncome
      (P.TaxReturns.filingStatus taxReturn) dependents
      (P.TaxReturns.itemizedDeduction taxReturn)
      (Some (P.TaxReturns.totalWithholdings taxReturn))
    = JS.Throw message.

(** The outcome the specification asks for when the federal calculation
    fails: the document marked FAILED and a CALCULATION error returned. *)
Definition calculationFailureIsFatal (id : string)
  (outcome : JS.Result Response * World) : Prop :=
  (exists report,
     fst outcome = JS.Ok {| status := 500; body := Failed report |} /\
     Failure.errorType report = "CALCULATION_ERROR") /\
  P.Documents.processingStatus <$> P.findDocument (database (snd outcome)) id
    = Some P.FAILED.

End WithServices.

End ProcessRoute.
(* ===================================================================== *)
(** * The current-income endpoint (GET) *)
(* ===================================================================== *)

Module CurrentIncomeRoute.

Import Server.
Module P := Prisma.

Local Open Scope Q_scope.

(** [include: { document: { select: { id, fileName, documentType,
    processingStatus, createdAt } } }] *)
Record DocumentSummary : Type := {
  id : string;
  fileName : string;
  documentType : string;
  processingStatus : P.ProcessingStatus;
  createdAt : Z
}.

Record Summary : Type := {
  totalEntries : nat;
  totalIncome : Q;
  totalWithholdings : Q;
  orphanedEntriesFound : nat;
  invalidReferenceEntriesFound : nat;
  needsCleanup : bool
}.

Inductive Body : Type :=
| Error (error : string)
| Income (incomeEntries :
            list (P.IncomeEntries.IncomeEntry * option DocumentSummary))
    (summary : Summary).

Record Response : Type := {
  status : Z;
  body : Body
}.

(** [taxReturn.findFirst({ where: { id, userId } })] *)
Definition findOwnedTaxReturn (database : P.Database) (id userId : string)
  : option P.TaxReturns.TaxReturn :=
  List.find
    (fun taxReturn =>
       String.eqb (P.TaxReturns.id taxReturn) id
       && String.eqb (P.TaxReturns.userId taxReturn) userId)
    (P.taxReturns database).

Definition selected (document : P.Documents.Document) : DocumentSummary :=
  {| id := P.Documents.id document;
     fileName := P.Documents.fileName document;
     documentType := P.Documents.documentType document;
     processingStatus := P.Documents.processingStatus document;
     createdAt := P.Documents.createdAt document |}.

(** The joined [document] of an entry. *)
Definition documentOf (database : P.Database)
  (entry : P.IncomeEntries.IncomeEntry) : option P.Documents.Document :=
  documentId ← P.IncomeEntries.documentId entry;
  P.findDocument database documentId.

(** The valid entries of a tax return, [orderBy: { createdAt: 'desc' }]:
    the table keeps its rows in the order of their creation, so the
    newest come first in the reverse of that order. *)
Definition validIncomeEntries (database : P.Database) (taxReturnId : string)
  : list P.IncomeEntries.IncomeEntry :=
  List.rev
    (List.filter (ProcessRoute.validEntry database taxReturnId)
       (P.incomeEntries database)).

(** Entries that name a document which does not exist:
    [invalidReferenceEntries.filter(entry => !entry.document)]. *)
Definition entriesWithInvalidDocs (database : P.Database)
  (taxReturnId : string) : list P.IncomeEntries.IncomeEntry :=
  List.filter (fun entry => negb (P.documentExists database entry))
    (List.filter (DocumentRoute.remainingEntry taxReturnId)
       (P.incomeEntries database)).

Definition summarize (database : P.Database) (taxReturnId : string) : Summary :=
  let valid := validIncomeEntries database taxReturnId in
  let orphanedEntries :=
    List.filter (ProcessRoute.orphanedEntry taxReturnId)
      (P.incomeEntries database) in
  let invalid := entriesWithInvalidDocs database taxReturnId in
  {| totalEntries := length valid;
     totalIncome := DocumentRoute.sumAmounts valid;
     totalWithholdings := DocumentRoute.sumWithholdings valid;
     orphanedEntriesFound := length orphanedEntries;
     invalidReferenceEntriesFound := length invalid;
     needsCleanup := (0 <? length orphanedEntries + length invalid)%nat |}.

Definition GET (sessionEmail : option string) (id : string) : M Response :=
  tryCatch
    (match DocumentRoute.sessionUserEmail sessionEmail with
     | None => ret {| status := 401; body := Error "Unauthorized" |}
     | Some email =>
         user ← query (fun database => P.findUser database email);
         match user with
         | None => ret {| status := 404; body := Error "User not found" |}
         | Some user =>
             taxReturn ←
               query (fun database =>
                        findOwnedTaxReturn database id (P.Users.id user));
             match taxReturn with
             | None =>
                 ret {| status := 404; body := Error "Tax return not found" |}
             | Some taxReturn =>
                 incomeEntries ←
                   query (fun database =>
                            map (fun entry =>
                                   (entry,
                                    selected <$> documentOf database entry))
                              (validIncomeEntries database id));
                 summary ← query (fun database => summarize database id);
                 ret {| status := 200;
                        body := Income incomeEntries summary |}
             end
         end
     end)
    (fun error =>
       ret {| status := 500;
              body := Error "Failed to fetch current income data" |}).

End CurrentIncomeRoute.

(* ===================================================================== *)
(** * The orphaned-data cleanup endpoint (POST) *)
(* ===================================================================== *)

Module CleanupRoute.

Import Server.
Module P := Prisma.
Module ETC := EnhancedTaxCalculations.

Local Open Scope Q_scope.

Record CleanupSummary : Type := {
  orphanedIncomeEntriesDeleted : nat;
  invalidDocumentEntriesDeleted : nat;
  validIncomeEntriesRemaining : nat;
  newTotalIncome : Q;
  newTotalWithholdings : Q;
  taxCalculationResult : option ETC.E.EnhancedTaxCalculationResult
}.

Inductive Body : Type :=
| Error (error : string)
| Success (success : bool) (message : string) (cleanupSummary : CleanupSummary).

Record Response : Type := {
  status : Z;
  body : Body
}.

(** An entry of the tax return that names a document which does not
    exist. *)
Definition invalidEntry (database : P.Database) (taxReturnId : string)
  (entry : P.IncomeEntries.IncomeEntry) : bool :=
  DocumentRoute.remainingEntry taxReturnId entry
  && negb (P.documentExists database entry).

(** The totals and the two dates of [updateData]. *)
Definition totals (newTotalIncome newTotalWithholdings : Q) (date : Z)
  : P.TaxReturns.Update :=
  {| P.TaxReturns.setFirstName := None;
     P.TaxReturns.setLastName := None;
     P.TaxReturns.setSsn := None;
     P.TaxReturns.setAddress := None;
     P.TaxReturns.setCity := None;
     P.TaxReturns.setState := None;
     P.TaxReturns.setZipCode := None;
     P.TaxReturns.setTotalIncome := Some newTotalIncome;
     P.TaxReturns.setAdjustedGrossIncome := Some newTotalIncome;
     P.TaxReturns.setStandardDeduction := None;
     P.TaxReturns.setItemizedDeduction := None;
     P.TaxReturns.setTaxableIncome := None;
     P.TaxReturns.setTaxLiability := None;
     P.TaxReturns.setTotalCredits := None;
     P.TaxReturns.setTotalWithholdings := Some newTotalWithholdings;
     P.TaxReturns.setRefundAmount := None;
     P.TaxReturns.setAmountOwed := None;
     P.TaxReturns.setStateTaxLiability := None;
     P.TaxReturns.setStateStandardDeduction := None;
     P.TaxReturns.setStateTaxableIncome := None;
     P.TaxReturns.setStateEffectiveRate := None;
     P.TaxReturns.setDetectedState := None;
     P.TaxReturns.setStateConfidence := None;
     P.TaxReturns.setStateSource := None;
     P.TaxReturns.setLastSavedAt := Some date;
     P.TaxReturns.setUpdatedAt := Some date |}.

(** [stateTax ? stateTax.field : 0] for the four state columns. *)
Definition stateColumn (result : ETC.E.EnhancedTaxCalculationResult)
  (field : ETC.S.StateTaxCalculationResult -> Q) : Q :=
  match ETC.E.stateTax result with
  | Some stateTax => field stateTax
  | None => 0
  end.

(** The columns [updateData] takes from a calculation that returned. *)
Definition recalculated (result : ETC.E.EnhancedTaxCalculationResult)
  : P.TaxReturns.Update :=
  {| P.TaxReturns.setFirstName := None;
     P.TaxReturns.setLastName := None;
     P.TaxReturns.setSsn := None;
     P.TaxReturns.setAddress := None;
     P.TaxReturns.setCity := None;
     P.TaxReturns.setState := None;
     P.TaxReturns.setZipCode := None;
     P.TaxReturns.setTotalIncome := None;
     P.TaxReturns.setAdjustedGrossIncome := None;
     P.TaxReturns.setStandardDeduction := Some (ETC.E.standardDeduction result);
     P.TaxReturns.setItemizedDeduction := Some (ETC.E.itemizedDeduction result);
     P.TaxReturns.setTaxableIncome := Some (ETC.E.taxableIncome result);
     P.TaxReturns.setTaxLiability := Some (ETC.E.taxLiability result);
     P.TaxReturns.setTotalCredits := Some (ETC.E.totalCredits result);
     P.TaxReturns.setTotalWithholdings := None;
     P.TaxReturns.setRefundAmount := Some (ETC.E.refundAmount result);
     P.TaxReturns.setAmountOwed := Some (ETC.E.amountOwed result);
     P.TaxReturns.setStateTaxLiability :=
       Some (stateColumn result ETC.S.stateTaxLiability);
     P.TaxReturns.setStateStandardDeduction :=
       Some (stateColumn result ETC.S.stateStandardDeduction);
     P.TaxReturns.setStateTaxableIncome :=
       Some (stateColumn result ETC.S.stateTaxableIncome);
     P.TaxReturns.setStateEffectiveRate :=
       Some (stateColumn result ETC.S.stateEffectiveRate);
     P.TaxReturns.setDetectedState := None;
     P.TaxReturns.setStateConfidence := None;
     P.TaxReturns.setStateSource := None;
     P.TaxReturns.setLastSavedAt := None;
     P.TaxReturns.setUpdatedAt := None |}.

(** The columns [updateData] resets when the calculation failed. *)
Definition reset : P.TaxReturns.Update :=
  {| P.TaxReturns.setFirstName := None;
     P.TaxReturns.setLastName := None;
     P.TaxReturns.setSsn := None;
     P.TaxReturns.setAddress := None;
     P.TaxReturns.setCity := None;
     P.TaxReturns.setState := None;
     P.TaxReturns.setZipCode := None;
     P.TaxReturns.setTotalIncome := None;
     P.TaxReturns.setAdjustedGrossIncome := None;
     P.TaxReturns.setStandardDeduction := None;
     P.TaxReturns.setItemizedDeduction := None;
     P.TaxReturns.setTaxableIncome := Some 0;
     P.TaxReturns.setTaxLiability := Some 0;
     P.TaxReturns.setTotalCredits := None;
     P.TaxReturns.setTotalWithholdings := None;
     P.TaxReturns.setRefundAmount := Some 0;
     P.TaxReturns.setAmountOwed := Some 0;
     P.TaxReturns.setStateTaxLiability := Some 0;
     P.TaxReturns.setStateStandardDeduction := None;
     P.TaxReturns.setStateTaxableIncome := None;
     P.TaxReturns.setStateEffectiveRate := None;
     P.TaxReturns.setDetectedState := None;
     P.TaxReturns.setStateConfidence := None;
     P.TaxReturns.setStateSource := None;
     P.TaxReturns.setLastSavedAt := None;
     P.TaxReturns.setUpdatedAt := None |}.

Definition updateData (newTotalIncome newTotalWithholdings : Q) (date : Z)
  (taxCalculationResult : option ETC.E.EnhancedTaxCalculationResult)
  : P.TaxReturns.Update :=
  P.TaxReturns.merge (totals newTotalIncome newTotalWithholdings date)
    match taxCalculationResult with
    | Some result => recalculated result
    | None => reset
    end.

(** What the cleanup keeps: the entries of other tax returns and the
    valid entries of this one. *)
Definition kept (database : P.Database) (id : string)
  (entry : P.IncomeEntries.IncomeEntry) : bool :=
  negb (P.ofTaxReturn id entry) || ProcessRoute.validEntry database id entry.

Section WithServices.

Context `{runtime : JS.Runtime} `{federal : TaxCalculations.Federal}.

(** Step 4 with its [catch]: a calculation that throws leaves
    [taxCalculationResult] null. *)
Definition recalculation (taxReturn : P.TaxReturns.TaxReturn)
  (dependents : list Dependent) (newTotalIncome newTotalWithholdings : Q)
  : M (option ETC.E.EnhancedTaxCalculationResult) :=
  let stateCode :=
    ETC.suppliedStateCode (P.TaxReturns.detectedState taxReturn) in
  tryCatch
    (_ ← call (CalculateTax (P.TaxReturns.filingStatus taxReturn) stateCode);
     result ←
       lift (ETC.calculateEnhancedTaxReturnWithState newTotalIncome
               (P.TaxReturns.filingStatus taxReturn) dependents
               (P.TaxReturns.itemizedDeduction taxReturn)
               (Some newTotalWithholdings)
               stateCode
               (Some (P.TaxReturns.stateItemizedDeduction taxReturn)));
     ret (Some result))
    (fun calcError => ret None).

(** The body of [prisma.$transaction] in [POST]. *)
Definition cleanup (id : string) (taxReturn : P.TaxReturns.TaxReturn)
  (dependents : list Dependent) : M CleanupSummary :=
  (* Step 1: find and delete orphaned income entries *)
  orphanedIncomeEntries ←
    query (fun database =>
             List.filter (ProcessRoute.orphanedEntry id)
               (P.incomeEntries database));
  _ ← match orphanedIncomeEntries with
      | [] => ret tt
      | _ =>
          mutate_ (fun database =>
                     JS.Ok (P.deleteIncomeEntries database
                              (ProcessRoute.orphanedEntry id)))
      end;
  (* Step 2: find income entries with invalid document references; the
     rows whose [id] is among theirs are the rows that satisfy the same
     condition *)
  found ←
    query (fun database =>
             (database,
              List.filter (invalidEntry database id)
                (P.incomeEntries database)));
  let '(seen, invalidEntries) := found in
  _ ← match invalidEntries with
      | [] => ret tt
      | _ =>
          mutate_ (fun database =>
                     JS.Ok (P.deleteIncomeEntries database
                              (invalidEntry seen id)))
      end;
  (* Step 3: recalculate totals from valid remaining entries only *)
  validIncomeEntries ←
    query (fun database =>
             List.filter (ProcessRoute.validEntry database id)
               (P.incomeEntries database));
  let newTotalIncome := DocumentRoute.sumAmounts validIncomeEntries in
  let newTotalWithholdings :=
    DocumentRoute.sumWithholdings validIncomeEntries in
  (* Step 4: full tax recalculation *)
  taxCalculationResult ←
    recalculation taxReturn dependents newTotalIncome newTotalWithholdings;
  (* Step 5: update the tax return *)
  date ← now;
  _ ← mutate (fun database =>
                P.updateTaxReturn database id
                  (updateData newTotalIncome newTotalWithholdings date
                     taxCalculationResult));
  ret {| orphanedIncomeEntriesDeleted := length orphanedIncomeEntries;
         invalidDocumentEntriesDeleted := length invalidEntries;
         validIncomeEntriesRemaining := length validIncomeEntries;
         newTotalIncome := newTotalIncome;
         newTotalWithholdings := newTotalWithholdings;
         taxCalculationResult := taxCalculationResult |}.

Definition POST (sessionEmail : option string) (id : string) : M Response :=
  tryCatch
    (match DocumentRoute.sessionUserEmail sessionEmail with
     | None => ret {| status := 401; body := Error "Unauthorized" |}
     | Some email =>
         user ← query (fun database => P.findUser database email);
         match user with
         | None => ret {| status := 404; body := Error "User not found" |}
         | Some user =>
             taxReturn ←
               query (fun database =>
                        CurrentIncomeRoute.findOwnedTaxReturn database id
                          (P.Users.id user));
             match taxReturn with
             | None =>
                 ret {| status := 404; body := Error "Tax return not found" |}
             | Some taxReturn =>
                 (* [include: { dependents: true }] *)
                 dependents ←
                   query (fun database =>
                            List.filter
                              (fun dependent =>
                                 String.eqb (dependentTaxReturnId dependent) id)
                              (P.dependents database));
                 cleanupResult ←
                   transaction (cleanup id taxReturn dependents);
                 ret {| status := 200;
                        body :=
                          Success true
                            "Orphaned data cleanup completed successfully"
                            cleanupResult |}
             end
         end
     end)
    (fun error =>
       ret {| status := 500; body := Error "Failed to cleanup orphaned data" |}).

End WithServices.

End CleanupRoute.

(* ===================================================================== *)
(** * prisma/migrations: fix_income_entry_cascade_delete *)
(* ===================================================================== *)

Module Migration.

Module P := Prisma.

(** Step 1: [DELETE FROM "IncomeEntry" WHERE "documentId" IS NULL] *)
Definition deleteOrphanedEntries (database : P.Database) : P.Database :=
  P.deleteIncomeEntries database (fun entry => negb (P.hasDocument entry)).

(** Step 2: [DELETE FROM "IncomeEntry" WHERE "documentId" IS NOT NULL AND
    "documentId" NOT IN (SELECT "id" FROM "Document")] *)
Definition deleteInvalidReferences (database : P.Database) : P.Database :=
  P.deleteIncomeEntries database
    (fun entry =>
       P.hasDocument entry && negb (P.documentExists database entry)).

(** The data steps of the migration, in order.  Steps 3 to 6 replace the
    foreign key by one that cascades (the behaviour of
    [Prisma.deleteDocument]), add an index and a comment; they change no
    row. *)
Definition migrate (database : P.Database) : P.Database :=
  deleteInvalidReferences (deleteOrphanedEntries database).

End Migration.

(* ===================================================================== *)
(** * Referential integrity of the income entries *)
(* ===================================================================== *)

Module Integrity.

Module P := Prisma.

(** The foreign key [IncomeEntry.documentId -> Document.id]: an entry
    that names a document names one that exists. *)
Definition referenced (database : P.Database)
  (entry : P.IncomeEntries.IncomeEntry) : bool :=
  match P.IncomeEntries.documentId entry with
  | Some documentId => P.existsDocument database documentId
  | None => true
  end.

Definition foreignKey (database : P.Database) : bool :=
  forallb (referenced database) (P.incomeEntries database).

(** No entry is left without a document. *)
Definition noOrphans (database : P.Database) : bool :=
  forallb P.hasDocument (P.incomeEntries database).

Definition foreignKeyHolds (database : P.Database) : Prop :=
  foreignKey database = true.

End Integrity.

(* ===================================================================== *)
(** * app/api/documents/[id]/status-stream/route.ts (GET) *)
(* ===================================================================== *)

Module StatusStream.

Module P := Prisma.

Inductive EventType : Type :=
  connected | status_update | completed | error | timeout.

(** One entry of [processingStages]. *)
Record Stage : Type := {
  stageCompleted : bool;
  inProgress : bool;
  stageTimestamp : option Z;
  stageMessage : option string
}.

Definition done (timestamp : Z) : Stage :=
  {| stageCompleted := true; inProgress := false;
     stageTimestamp := Some timestamp; stageMessage := None |}.

Definition notDone : Stage :=
  {| stageCompleted := false; inProgress := false;
     stageTimestamp := None; stageMessage := None |}.

Record ProcessingStages : Type := {
  upload : Stage;
  extraction : Stage;
  processing : Stage;
  complete : Stage
}.

(** The payload of a [status_update] event. *)
Record StatusUpdate : Type := {
  documentId : string;
  status : P.ProcessingStatus;
  fileName : string;
  documentType : string;
  pollCount : nat;
  timestamp : Z;
  hasExtractedData : bool;
  hasOcrText : bool;
  isVerified : bool;
  updatedAt : Z;
  ocrText : option (option string);
  extractedData : option (option JS.object);
  processingStages : ProcessingStages;
  progress : option Z;
  elapsedTime : option Z;
  message : option string
}.

Inductive Event : Type :=
| Connected (documentId : string) (initialStatus : P.ProcessingStatus)
    (timestamp : Z)
| Update (update : StatusUpdate)
| Completed (timestamp : Z)
| Error (message : string) (documentId : option string)
    (error : option string) (timestamp : Z)
| Timeout (timestamp : Z).

Definition eventType (event : Event) : EventType :=
  match event with
  | Connected _ _ _ => connected
  | Update _ => status_update
  | Completed _ => completed
  | Error _ _ _ _ => error
  | Timeout _ => timeout
  end.

(** The [message] field of an event. *)
Definition eventMessage (event : Event) : option string :=
  match event with
  | Connected _ _ _ => Some "Status stream connected"
  | Update update => message update
  | Completed _ => Some "Document processing completed successfully"
  | Error text _ _ _ => Some text
  | Timeout _ =>
      Some "Processing is taking longer than expected. Please refresh the page to check status."
  end.

Definition isTimeout (event : Event) : bool :=
  match event with
  | Timeout _ => true
  | _ => false
  end.

(** The stream as the handler drives it: the events enqueued so far,
    whether [controller.close()] was called, the number of completed
    polls, and the timer set by [setTimeout] (its delay in milliseconds),
    if one is pending. *)
Record Stream : Type := {
  sent : list Event;
  closed : bool;
  polls : nat;
  timer : option Z
}.

Definition maxPolls : nat := 300.

(** What one poll observes: the result of [document.findUnique] (which
    may throw) and the reading of the clock. *)
Record Observation : Type := {
  found : JS.Result (option P.Documents.Document);
  clock : Z
}.

Definition sendUpdate (event : Event) (stream : Stream) : Stream :=
  {| sent := (sent stream ++ [event])%list; closed := closed stream;
     polls := polls stream; timer := timer stream |}.

Definition close (stream : Stream) : Stream :=
  {| sent := sent stream; closed := true; polls := polls stream;
     timer := timer stream |}.

Definition setTimeout (delay : Z) (stream : Stream) : Stream :=
  {| sent := sent stream; closed := closed stream; polls := polls stream;
     timer := Some delay |}.

Definition countPoll (stream : Stream) : Stream :=
  {| sent := sent stream; closed := closed stream; polls := S (polls stream);
     timer := timer stream |}.

(** [!!value] for the two optional columns. *)
Definition hasData (data : option JS.object) : bool :=
  match data with
  | Some _ => true
  | None => false
  end.

Definition hasText (text : option string) : bool :=
  match text with
  | Some s => negb (String.eqb s "")
  | None => false
  end.

Definition baseUpdate (currentDoc : P.Documents.Document) (stream : Stream)
  (date : Z) (stages : ProcessingStages) : StatusUpdate :=
  {| documentId := P.Documents.id currentDoc;
     status := P.Documents.processingStatus currentDoc;
     fileName := P.Documents.fileName currentDoc;
     documentType := P.Documents.documentType currentDoc;
     pollCount := S (polls stream);
     timestamp := date;
     hasExtractedData := hasData (P.Documents.extractedData currentDoc);
     hasOcrText := hasText (P.Documents.ocrText currentDoc);
     isVerified := P.Documents.isVerified currentDoc;
     updatedAt := P.Documents.updatedAt currentDoc;
     ocrText := None;
     extractedData := None;
     processingStages := stages;
     progress := None;
     elapsedTime := None;
     message := None |}.

Definition completedUpdate (currentDoc : P.Documents.Document)
  (stream : Stream) (date : Z) : StatusUpdate :=
  let base :=
    baseUpdate currentDoc stream date
      {| upload := done (P.Documents.createdAt currentDoc);
         extraction := done (P.Documents.updatedAt currentDoc);
         processing := done (P.Documents.updatedAt currentDoc);
         complete := done (P.Documents.updatedAt currentDoc) |} in
  {| documentId := documentId base; status := status base;
     fileName := fileName base; documentType := documentType base;
     pollCount := pollCount base; timestamp := timestamp base;
     hasExtractedData := hasExtractedData base;
     hasOcrText := hasOcrText base; isVerified := isVerified base;
     updatedAt := updatedAt base;
     ocrText := Some (P.Documents.ocrText currentDoc);
     extractedData := Some (P.Documents.extractedData currentDoc);
     processingStages := processingStages base;
     progress := None; elapsedTime := None; message := None |}.

(** The progress message by elapsed time. *)
Definition progressMessage (elapsed : Z) : string :=
  if (elapsed <? 60000)%Z
  then "Starting document analysis with Azure AI..."
  else if (elapsed <? 180000)%Z
  then "Extracting text and identifying form fields..."
  else if (elapsed <? 300000)%Z
  then "Processing tax information and validating data..."
  else "Finalizing extraction and performing quality checks...".

Definition processingUpdate (currentDoc : P.Documents.Document)
  (stream : Stream) (date : Z) : StatusUpdate :=
  let elapsed := (date - P.Documents.updatedAt currentDoc)%Z in
  let estimatedDuration := (5 * 60 * 1000)%Z in
  let base :=
    baseUpdate currentDoc stream date
      {| upload := done (P.Documents.createdAt currentDoc);
         extraction :=
           {| stageCompleted := false; inProgress := true;
              stageTimestamp := None;
              stageMessage :=
                Some "Extracting text and analyzing document structure..." |};
         processing := notDone;
         complete := notDone |} in
  {| documentId := documentId base; status := status base;
     fileName := fileName base; documentType := documentType base;
     pollCount := pollCount base; timestamp := timestamp base;
     hasExtractedData := hasExtractedData base;
     hasOcrText := hasOcrText base; isVerified := isVerified base;
     updatedAt := updatedAt base;
     ocrText := None; extractedData := None;
     processingStages := processingStages base;
     progress := Some (Z.min 95 ((elapsed * 100) / estimatedDuration));
     elapsedTime := Some elapsed;
     message := Some (progressMessage elapsed) |}.

Definition pendingUpdate (currentDoc : P.Documents.Document)
  (stream : Stream) (date : Z) : StatusUpdate :=
  baseUpdate currentDoc stream date
    {| upload := done (P.Documents.createdAt currentDoc);
       extraction := notDone; processing := notDone; complete := notDone |}.

(** The end of a poll that found a document still on its way:
    [pollCount++], then poll again or time out. *)
Definition continue (stream : Stream) (date : Z) : Stream :=
  let counted := countPoll stream in
  if (polls counted <? maxPolls)%nat
  then setTimeout 2000 counted
  else close (sendUpdate (Timeout date) counted).

(** One run of [pollDocument]. *)
Definition pollDocument (observation : Observation) (stream : Stream)
  : Stream :=
  let date := clock observation in
  match found observation with
  | JS.Ok None =>
      close (sendUpdate (Error "Document not found" None None date) stream)
  | JS.Ok (Some currentDoc) =>
      match P.Documents.processingStatus currentDoc with
      | P.COMPLETED =>
          close
            (sendUpdate (Completed date)
               (sendUpdate (Update (completedUpdate currentDoc stream date))
                  stream))
      | P.FAILED =>
          close
            (sendUpdate
               (Error "Document processing failed"
                  (Some (P.Documents.id currentDoc)) None date)
               stream)
      | P.PROCESSING =>
          continue
            (sendUpdate (Update (processingUpdate currentDoc stream date))
               stream)
            date
      | P.PENDING =>
          continue
            (sendUpdate (Update (pendingUpdate currentDoc stream date)) stream)
            date
      end
  | JS.Throw message =>
      let reported :=
        sendUpdate
          (Error "Error checking document status" None (Some message) date)
          stream in
      if (polls reported <? 10)%nat then setTimeout 5000 reported
      else close reported
  end.

(** [start(controller)]: the [connected] event, then the first poll at
    once. *)
Definition start (document : P.Documents.Document) (date : Z) : Stream :=
  {| sent :=
       [Connected (P.Documents.id document)
          (P.Documents.processingStatus document) date];
     closed := false;
     polls := 0;
     timer := Some 0%Z |}.

(** The timer fires: it is consumed and [pollDocument] runs. *)
Definition fire (observation : Observation) (stream : Stream) : Stream :=
  pollDocument observation
    {| sent := sent stream; closed := closed stream; polls := polls stream;
       timer := None |}.

(** The stream after at most [fuel] polls; [observe n] is what the poll
    number [n] sees.  With no timer pending nothing runs any more. *)
Fixpoint run (fuel : nat) (observe : nat -> Observation) (poll : nat)
  (stream : Stream) : Stream :=
  match fuel with
  | O => stream
  | S fuel' =>
      match timer stream with
      | Some _ => run fuel' observe (S poll) (fire (observe poll) stream)
      | None => stream
      end
  end.

Inductive Reply : Type :=
| Refused (status : Z) (text : string)
| Streaming (stream : Stream).

(** The handler up to the response: authentication, ownership, and the
    stream in its initial state. *)
Definition GET (sessionEmail : option string) (id : string)
  (database : P.Database) (date : Z) : Reply :=
  match DocumentRoute.sessionUserEmail sessionEmail with
  | None => Refused 401 "Unauthorized"
  | Some email =>
      match P.findUser database email with
      | None => Refused 404 "User not found"
      | Some user =>
          match List.find
                  (fun row =>
                     String.eqb (P.Documents.id row) id
                     && match P.findTaxReturn database
                                (P.Documents.taxReturnId row) with
                        | Some taxReturn =>
                            String.eqb (P.TaxReturns.userId taxReturn)
                              (P.Users.id user)
                        | None => false
                        end)
                  (P.documents database) with
          | None => Refused 404 "Document not found"
          | Some document => Streaming (start document date)
          end
      end
  end.

(** A document that stays in PROCESSING while every poll succeeds. *)
Definition staysProcessing (observe : nat -> Observation) : Prop :=
  forall poll,
    exists currentDoc,
      found (observe poll) = JS.Ok (Some currentDoc) /\
      P.Documents.processingStatus currentDoc = P.PROCESSING.

Definition isUpdate (event : Event) : Prop := eventType event = status_update.

Definition ongoing (event : Event) : Prop :=
  In (eventType event) [connected; status_update; error].

Definition terminal (event : Event) : Prop :=
  In (eventType event) [completed; error; timeout].

(** A stream is either open, with a poll scheduled and only
    [connected], [status_update] and [error] events sent, or closed, with
    no poll scheduled and a [completed], [error] or [timeout] event sent
    last. *)
Definition settled (stream : Stream) : Prop :=
  if closed stream
  then timer stream = None /\
       exists earlier final,
         sent stream = (earlier ++ [final])%list /\
         Forall ongoing earlier /\ terminal final
  else is_Some (timer stream) /\
       Forall ongoing (sent stream) /\
       polls stream < maxPolls.

End StatusStream.

(* ===================================================================== *)
(** * Concrete instances used by the examples *)
(* ===================================================================== *)

Module Examples.

Local Open Scope Q_scope.

(** A federal calculator for the examples: a flat 10% rate above a
    standard deduction of 14600, no credits. *)
#[global] Instance flatFederal : TaxCalculations.Federal := {
  TaxCalculations.calculateTaxLiability taxableIncome _ :=
    JS.Ok (taxableIncome * 0.1);
  TaxCalculations.getStandardDeduction _ := JS.Ok 14600;
  TaxCalculations.calculateTaxReturn
    totalIncome _ _ itemizedDeductions totalWithholdings :=
    let withheld := default 0 totalWithholdings in
    let taxable := JS.Math_max 0 (totalIncome - JS.Math_max 14600 itemizedDeductions) in
    let liability := taxable * 0.1 in
    JS.Ok
      {| TaxCalculations.grossIncome := totalIncome;
         TaxCalculations.adjustedGrossIncome := totalIncome;
         TaxCalculations.standardDeduction := 14600;
         TaxCalculations.itemizedDeduction := itemizedDeductions;
         TaxCalculations.taxableIncome := taxable;
         TaxCalculations.taxLiability := liability;
         TaxCalculations.childTaxCredit := 0;
         TaxCalculations.earnedIncomeCredit := 0;
         TaxCalculations.totalCredits := 0;
         TaxCalculations.totalWithholdings := withheld;
         TaxCalculations.finalTax := liability;
         TaxCalculations.refundAmount := JS.Math_max 0 (withheld - liability);
         TaxCalculations.amountOwed := JS.Math_max 0 (liability - withheld);
         TaxCalculations.effectiveRate := 0;
         TaxCalculations.marginalRate := 10 |}
}.

(** A federal calculator whose every operation throws. *)
Definition failingFederal : TaxCalculations.Federal := {|
  TaxCalculations.calculateTaxLiability _ _ :=
    JS.Throw "tax calculation failed";
  TaxCalculations.getStandardDeduction _ :=
    JS.Throw "tax calculation failed";
  TaxCalculations.calculateTaxReturn _ _ _ _ _ :=
    JS.Throw "tax calculation failed"
|}.

(** A classifier that cannot be reached. *)
Definition unreachableClassifier : StateDetection.Classifier := {|
  StateDetection.fetchStateDetection _ := JS.Throw "fetch failed"
|}.

(** Extracted data whose only state field holds an invalid code. *)
Definition invalidStateData : JS.object :=
  <["employeeState" := JS.Str "ZZ"]> (<["wages" := JS.Str "$55,000.00"]> ∅).

(** A small database: one user, one tax return, two processed documents
    with one income entry each, and an orphaned entry. *)
Definition alice : Prisma.Users.User :=
  {| Prisma.Users.id := "u1"; Prisma.Users.email := "alice@example.com" |}.

Definition return2024 : Prisma.TaxReturns.TaxReturn :=
  {| Prisma.TaxReturns.id := "tr1";
     Prisma.TaxReturns.userId := "u1";
     Prisma.TaxReturns.filingStatus := "SINGLE";
     Prisma.TaxReturns.firstName := Some "Alice";
     Prisma.TaxReturns.lastName := None;
     Prisma.TaxReturns.ssn := None;
     Prisma.TaxReturns.address := None;
     Prisma.TaxReturns.city := None;
     Prisma.TaxReturns.state := None;
     Prisma.TaxReturns.zipCode := None;
     Prisma.TaxReturns.totalIncome := 75000;
     Prisma.TaxReturns.adjustedGrossIncome := 75000;
     Prisma.TaxReturns.standardDeduction := 14600;
     Prisma.TaxReturns.itemizedDeduction := 0;
     Prisma.TaxReturns.taxableIncome := 60400;
     Prisma.TaxReturns.taxLiability := 6040;
     Prisma.TaxReturns.totalCredits := 0;
     Prisma.TaxReturns.totalWithholdings := 8000;
     Prisma.TaxReturns.refundAmount := 1960;
     Prisma.TaxReturns.amountOwed := 0;
     Prisma.TaxReturns.stateTaxLiability := 0;
     Prisma.TaxReturns.stateStandardDeduction := 0;
     Prisma.TaxReturns.stateTaxableIncome := 0;
     Prisma.TaxReturns.stateEffectiveRate := 0;
     Prisma.TaxReturns.stateItemizedDeduction := 0;
     Prisma.TaxReturns.detectedState := Some "TX";
     Prisma.TaxReturns.stateConfidence := Some (JS.Fin 0.95);
     Prisma.TaxReturns.stateSource := Some Prisma.ADDRESS;
     Prisma.TaxReturns.lastSavedAt := 1000;
     Prisma.TaxReturns.updatedAt := 1000 |}.

Definition document (id : string) (status : Prisma.ProcessingStatus)
  : Prisma.Documents.Document :=
  {| Prisma.Documents.id := id;
     Prisma.Documents.taxReturnId := "tr1";
     Prisma.Documents.fileName := id +:+ ".pdf";
     Prisma.Documents.filePath := "/uploads/" +:+ id +:+ ".pdf";
     Prisma.Documents.documentType := "W2";
     Prisma.Documents.processingStatus := status;
     Prisma.Documents.extractedData := None;
     Prisma.Documents.ocrText := None;
     Prisma.Documents.isVerified := false;
     Prisma.Documents.createdAt := 500;
     Prisma.Documents.updatedAt := 900 |}.

Definition wages (documentId : option string) (amount withheld : Q)
  : Prisma.IncomeEntries.IncomeEntry :=
  {| Prisma.IncomeEntries.taxReturnId := "tr1";
     Prisma.IncomeEntries.documentId := documentId;
     Prisma.IncomeEntries.incomeType := Prisma.W2_WAGES;
     Prisma.IncomeEntries.description := "W2 wages from Employer";
     Prisma.IncomeEntries.amount := amount;
     Prisma.IncomeEntries.employerName := None;
     Prisma.IncomeEntries.employerEIN := None;
     Prisma.IncomeEntries.payerName := None;
     Prisma.IncomeEntries.payerTIN := None;
     Prisma.IncomeEntries.federalTaxWithheld := Some withheld |}.

Definition sampleDatabase (status : Prisma.ProcessingStatus)
  : Prisma.Database :=
  {| Prisma.users := [alice];
     Prisma.taxReturns := [return2024];
     Prisma.documents :=
       [document "doc1" Prisma.COMPLETED; document "doc2" status];
     Prisma.incomeEntries :=
       [wages (Some "doc1") 55000 6000; wages (Some "doc2") 20000 2000;
        wages None 999 99];
     Prisma.documentExtractedEntries :=
       [{| Prisma.ExtractedEntries.documentId := "doc2";
           Prisma.ExtractedEntries.fieldName := "wages" |}];
     Prisma.dependents := [] |}.

Definition sampleWorld (status : Prisma.ProcessingStatus) : Server.World :=
  {| Server.database := sampleDatabase status;
     Server.calls := [];
     Server.clock := 2000 |}.

(** What the extraction service returns for the W-2 of the examples. *)
Definition w2Data : JS.object :=
  list_to_map
    [ ("wages", JS.Str "$55,000.00");
      ("federalTaxWithheld", JS.Str "$6,000");
      ("employerName", JS.Str "Acme Corp");
      ("employeeState", JS.Str "tx");
      ("fullText", JS.Str "Form W-2 Wage and Tax Statement") ].

#[global] Instance collaborators : ProcessRoute.Collaborators := {
  ProcessRoute.extractDataFromDocument _ _ := JS.Ok w2Data;
  ProcessRoute.checkForDuplicates _ _ _ _ :=
    JS.Ok {| ProcessRoute.Duplicates.isDuplicate := false;
             ProcessRoute.Duplicates.confidence := 0;
             ProcessRoute.Duplicates.matchingDocuments := [] |};
  ProcessRoute.mapW2ToForm1040 _ :=
    JS.Ok {| ProcessRoute.Mapping.firstName := Some "Alice";
             ProcessRoute.Mapping.lastName := Some "Doe";
             ProcessRoute.Mapping.ssn := None;
             ProcessRoute.Mapping.address := None;
             ProcessRoute.Mapping.city := None;
             ProcessRoute.Mapping.state := Some "TX";
             ProcessRoute.Mapping.zipCode := None |};
  ProcessRoute.map1099ToForm1040 _ := JS.Throw "not a 1099 form"
}.

#[global] Instance production : ProcessRoute.Environment := {
  ProcessRoute.AZURE_DOCUMENT_INTELLIGENCE_ENDPOINT :=
    Some "https://example.cognitiveservices.azure.com";
  ProcessRoute.AZURE_DOCUMENT_INTELLIGENCE_API_KEY := Some "key";
  ProcessRoute.NODE_ENV := Some "production"
}.

(** The processing request of the examples: Alice asks for [doc2]. *)
Definition processDoc2 (federal : TaxCalculations.Federal)
  (status : Prisma.ProcessingStatus)
  : JS.Result ProcessRoute.Response * Server.World :=
  ProcessRoute.POST (runtime := ReferenceRuntime.runtime) (federal := federal)
    (classifier := unreachableClassifier)
    (Some "alice@example.com") "doc2" (sampleWorld status).

(** Polls two seconds apart that always find [doc2] in PROCESSING. *)
Definition stuck (poll : nat) : StatusStream.Observation :=
  {| StatusStream.found := JS.Ok (Some (document "doc2" Prisma.PROCESSING));
     StatusStream.clock := 2000 + 2000 * Z.of_nat poll |}.

(** The sample database with one more entry, whose document is gone. *)
Definition danglingDatabase : Prisma.Database :=
  {| Prisma.users := Prisma.users (sampleDatabase Prisma.COMPLETED);
     Prisma.taxReturns := Prisma.taxReturns (sampleDatabase Prisma.COMPLETED);
     Prisma.documents := Prisma.documents (sampleDatabase Prisma.COMPLETED);
     Prisma.incomeEntries :=
       Prisma.incomeEntries (sampleDatabase Prisma.COMPLETED)
       ++ [wages (Some "ghost") 700 70];
     Prisma.documentExtractedEntries :=
       Prisma.documentExtractedEntries (sampleDatabase Prisma.COMPLETED);
     Prisma.dependents := [] |}.

Definition danglingWorld : Server.World :=
  {| Server.database := danglingDatabase;
     Server.calls := [];
     Server.clock := 2000 |}.

(** A second user, who owns nothing. *)
Definition bob : Prisma.Users.User :=
  {| Prisma.Users.id := "u2"; Prisma.Users.email := "bob@example.com" |}.

Definition sharedWorld : Server.World :=
  {| Server.database :=
       {| Prisma.users := [alice; bob];
          Prisma.taxReturns := Prisma.taxReturns (sampleDatabase Prisma.PENDING);
          Prisma.documents := Prisma.documents (sampleDatabase Prisma.PENDING);
          Prisma.incomeEntries :=
            Prisma.incomeEntries (sampleDatabase Prisma.PENDING);
          Prisma.documentExtractedEntries :=
            Prisma.documentExtractedEntries (sampleDatabase Prisma.PENDING);
          Prisma.dependents := [] |};
     Server.calls := [];
     Server.clock := 2000 |}.

(** A deployment without the endpoint of the extraction service. *)
Definition unconfigured : ProcessRoute.Environment := {|
  ProcessRoute.AZURE_DOCUMENT_INTELLIGENCE_ENDPOINT := None;
  ProcessRoute.AZURE_DOCUMENT_INTELLIGENCE_API_KEY := Some "key";
  ProcessRoute.NODE_ENV := Some "production"
|}.

(** Collaborators whose extraction service is down. *)
Definition extractionDown : ProcessRoute.Collaborators := {|
  ProcessRoute.extractDataFromDocument _ _ := JS.Throw "request timed out";
  ProcessRoute.checkForDuplicates :=
    ProcessRoute.checkForDuplicates (Collaborators := collaborators);
  ProcessRoute.mapW2ToForm1040 :=
    ProcessRoute.mapW2ToForm1040 (Collaborators := collaborators);
  ProcessRoute.map1099ToForm1040 :=
    ProcessRoute.map1099ToForm1040 (Collaborators := collaborators)
|}.

(** Polls five seconds apart that all fail to reach the database. *)
Definition unreachable (poll : nat) : StatusStream.Observation :=
  {| StatusStream.found := JS.Throw "connection lost";
     StatusStream.clock := 2000 + 5000 * Z.of_nat poll |}.

End Examples.

(* ===================================================================== *)
(** * Reasoning about handlers *)
(* ===================================================================== *)

Section ServerLemmas.

Import Server.

(** ** Running a handler step by step *)

Lemma Result_bind_ok {A B} (r : JS.Result A) (k : A -> JS.Result B) (b : B) :
  (r ≫= k) = JS.Ok b -> exists a, r = JS.Ok a /\ k a = JS.Ok b.
Proof.
  unfold mbind, Result_bind, JS.bind. destruct r as [a|message];
    [eauto | discriminate].
Qed.

Lemma run_bind {A B} (m : M A) (k : A -> M B) (world world' : World) (a : A) :
  m world = (JS.Ok a, world') -> (m ≫= k) world = k a world'.
Proof.
  intros Hrun. unfold mbind, Server_bind, bind. rewrite Hrun. reflexivity.
Qed.

Lemma run_bind_throw {A B} (m : M A) (k : A -> M B) (world world' : World)
  (message : string) :
  m world = (JS.Throw message, world') ->
  (m ≫= k) world = (JS.Throw message, world').
Proof.
  intros Hrun. unfold mbind, Server_bind, bind. rewrite Hrun. reflexivity.
Qed.

Lemma run_mutate {A} (write : Prisma.Database -> JS.Result (A * Prisma.Database))
  (world : World) (a : A) (database' : Prisma.Database) :
  write (database world) = JS.Ok (a, database') ->
  mutate write world = (JS.Ok a, setDatabase world database').
Proof. intros Hwrite. unfold mutate. rewrite Hwrite. reflexivity. Qed.

Lemma run_mutate_ (write : Prisma.Database -> JS.Result Prisma.Database)
  (world : World) (database' : Prisma.Database) :
  write (database world) = JS.Ok database' ->
  mutate_ write world = (JS.Ok tt, setDatabase world database').
Proof.
  intros Hwrite. unfold mutate_. apply run_mutate. rewrite Hwrite. reflexivity.
Qed.

Lemma run_tryCatch_ok {A} (body : M A) (handler : string -> M A)
  (world world' : World) (a : A) :
  body world = (JS.Ok a, world') ->
  tryCatch body handler world = (JS.Ok a, world').
Proof. intros Hrun. unfold tryCatch. rewrite Hrun. reflexivity. Qed.

Lemma run_transaction_ok {A} (body : M A) (world world' : World) (a : A) :
  body world = (JS.Ok a, world') ->
  transaction body world = (JS.Ok a, world').
Proof. intros Hrun. unfold transaction. rewrite Hrun. reflexivity. Qed.

(** A transaction whose body throws leaves the database as it was. *)
Lemma transaction_rolls_back {A} (body : M A) (world world' : World)
  (message : string) :
  body world = (JS.Throw message, world') ->
  fst (transaction body world) = JS.Throw message /\
  database (snd (transaction body world)) = database world.
Proof.
  intros Hrun. unfold transaction. rewrite Hrun. split; reflexivity.
Qed.

Lemma keeps_ret {A} I (a : A) : keeps I (ret a).
Proof. intros world HI. exact HI. Qed.

Lemma keeps_mret {A} I (a : A) : keeps I (mret a : M A).
Proof. intros world HI. exact HI. Qed.

Lemma keeps_throw {A} I message : keeps I (throw message : M A).
Proof. intros world HI. exact HI. Qed.

Lemma keeps_lift {A} I (r : JS.Result A) : keeps I (lift r).
Proof. intros world HI. exact HI. Qed.

Lemma keeps_query {A} I (read : Prisma.Database -> A) : keeps I (query read).
Proof. intros world HI. exact HI. Qed.

Lemma keeps_now I : keeps I now.
Proof. intros world HI. exact HI. Qed.

Lemma keeps_call I request : keeps I (call request).
Proof. intros world HI. exact HI. Qed.

Lemma keeps_bind {A B} I (m : M A) (k : A -> M B) :
  keeps I m -> (forall a, keeps I (k a)) -> keeps I (m ≫= k).
Proof.
  intros Hm Hk world HI. specialize (Hm world HI).
  unfold mbind, Server_bind, bind.
  destruct (m world) as [[a|message] world']; cbn in Hm |- *.
  - apply Hk. exact Hm.
  - exact Hm.
Qed.

Lemma keeps_tryCatch {A} I (body : M A) (handler : string -> M A) :
  keeps I body -> (forall message, keeps I (handler message)) ->
  keeps I (tryCatch body handler).
Proof.
  intros Hbody Hhandler world HI. specialize (Hbody world HI).
  unfold tryCatch.
  destruct (body world) as [[a|message] world']; cbn in Hbody |- *.
  - exact Hbody.
  - apply Hhandler. exact Hbody.
Qed.

Lemma keeps_mutate {A} (I : Prisma.Database -> Prop)
  (write : Prisma.Database -> JS.Result (A * Prisma.Database)) :
  (forall stored a stored', write stored = JS.Ok (a, stored') ->
                            I stored -> I stored') ->
  keeps I (mutate write).
Proof.
  intros Hwrite world HI. unfold mutate.
  destruct (write (database world)) as [[a stored']|message] eqn:Hrun; cbn.
  - eapply Hwrite; eassumption.
  - exact HI.
Qed.

Lemma keeps_mutate_ (I : Prisma.Database -> Prop)
  (write : Prisma.Database -> JS.Result Prisma.Database) :
  (forall stored stored', write stored = JS.Ok stored' -> I stored -> I stored') ->
  keeps I (mutate_ write).
Proof.
  intros Hwrite. unfold mutate_. apply keeps_mutate.
  intros stored [] stored' Hrun HI.
  destruct (write stored) as [result|message] eqn:Hresult; cbn in Hrun;
    [| discriminate].
  injection Hrun as <-. eapply Hwrite; eassumption.
Qed.

Lemma returns_tryCatch {A} (body : M A) (handler : string -> M A) :
  (forall message, returns (handler message)) ->
  returns (tryCatch body handler).
Proof.
  intros Hhandler world. unfold tryCatch.
  destruct (body world) as [[a|message] world']; [eauto |].
  apply Hhandler.
Qed.

Lemma returns_ret {A} (a : A) : returns (ret a).
Proof. intros world. unfold ret. eauto. Qed.

(** A returning step, run: its result and the world it leaves. *)
Lemma returns_keeps {A} I (m : M A) (world : World) :
  returns m -> keeps I m -> I (database world) ->
  exists a world', m world = (JS.Ok a, world') /\ I (database world').
Proof.
  intros Hreturns Hkeeps HI. destruct (Hreturns world) as (a & world' & Hrun).
  exists a, world'. split; [exact Hrun |].
  specialize (Hkeeps world HI). rewrite Hrun in Hkeeps. exact Hkeeps.
Qed.

End ServerLemmas.

Create HintDb handlers.

#[export] Hint Resolve keeps_ret keeps_mret keeps_throw keeps_lift keeps_query
  keeps_now keeps_call keeps_bind keeps_tryCatch returns_tryCatch returns_ret
  : handlers.

(* ===================================================================== *)
(** * Properties of the state tax calculation *)
(* ===================================================================== *)

Section StateTaxProperties.

Import StateTaxCalculations.
Local Open Scope Q_scope.

Lemma Qle_bool_false_lt (x y : Q) : Qle_bool x y = false -> y < x.
Proof.
  intros H. apply Qnot_le_lt. intros Hle.
  apply Qle_bool_iff in Hle. congruence.
Qed.

Lemma Qltb_true_iff (x y : Q) : Qltb x y = true <-> x < y.
Proof.
  unfold Qltb. rewrite Qlt_alt. destruct (x ?= y); split; congruence.
Qed.

Lemma Qltb_false_iff (x y : Q) : Qltb x y = false <-> y <= x.
Proof.
  rewrite <- not_true_iff_false, Qltb_true_iff. split.
  - apply Qnot_lt_le.
  - intros Hle Hlt. exact (Qlt_not_le _ _ Hlt Hle).
Qed.

(** In an ascending table every later floor is at least the first one. *)
Lemma ascending_cons (bracket : D.StateTaxBracket) rest :
  ascending (bracket :: rest) = true ->
  ascending rest = true /\
  Forall (fun later => D.min bracket <= D.min later) rest.
Proof.
  revert bracket. induction rest as [|next rest IH]; intros bracket Hasc.
  - split; [reflexivity | constructor].
  - cbn [ascending] in Hasc. apply andb_prop in Hasc as [Hle Hrest].
    apply Qle_bool_iff in Hle. split; [exact Hrest |].
    constructor; [exact Hle |].
    destruct (IH next Hrest) as [_ Hall].
    eapply List.Forall_impl; [| exact Hall].
    intros later Hlater. cbn in Hlater. eapply Qle_trans; eassumption.
Qed.

(** Once the income is at or below a floor, no later bracket of an
    ascending table has its floor below the income. *)
Lemma filter_above_nil (taxableIncome : Q) (floor : Q) rest :
  taxableIncome <= floor ->
  Forall (fun later : D.StateTaxBracket => floor <= D.min later) rest ->
  List.filter (fun bracket => Qltb (D.min bracket) taxableIncome) rest = [].
Proof.
  intros Hle Hall. induction Hall as [|later rest Hlater _ IH]; [reflexivity |].
  cbn [List.filter].
  assert (Qltb (D.min later) taxableIncome = false) as ->.
  { apply Qltb_false_iff. eapply Qle_trans; eassumption. }
  exact IH.
Qed.

(** The loop with its early exit computes the sum over the brackets whose
    floor is below the income. *)
Lemma bracketLoop_marginal (taxableIncome : Q) brackets :
  ascending brackets = true ->
  forall tax,
    bracketLoop taxableIncome brackets tax =
    fold_left (accumulate taxableIncome)
      (List.filter (fun bracket => Qltb (D.min bracket) taxableIncome) brackets)
      tax.
Proof.
  induction brackets as [|bracket rest IH]; intros Hasc tax; [reflexivity |].
  apply ascending_cons in Hasc as [Hrest Hall].
  cbn [bracketLoop List.filter].
  destruct (Qle_bool taxableIncome (D.min bracket)) eqn:Hexit.
  - apply Qle_bool_iff in Hexit.
    assert (Qltb (D.min bracket) taxableIncome = false) as ->
      by (apply Qltb_false_iff; exact Hexit).
    rewrite (filter_above_nil taxableIncome (D.min bracket) rest Hexit Hall).
    reflexivity.
  - apply Qle_bool_false_lt in Hexit.
    assert (Qltb (D.min bracket) taxableIncome = true) as ->
      by (apply Qltb_true_iff; exact Hexit).
    cbn [fold_left]. apply IH. exact Hrest.
Qed.

Lemma roundToCents_Qeq (x y : Q) : x == y -> roundToCents x = roundToCents y.
Proof.
  intros Heq. unfold roundToCents, JS.Math_round.
  assert (Qfloor (x * 100 + (1 # 2)) = Qfloor (y * 100 + (1 # 2))) as ->.
  { apply Qfloor_comp. rewrite Heq. reflexivity. }
  reflexivity.
Qed.

(** States of the table without an income tax carry no bracket table. *)
Lemma STATE_TAX_LIST_no_tax_no_brackets :
  Forall (fun entry : string * D.StateTaxInfo =>
            D.hasIncomeTax entry.2 = false ->
            forall key, D.brackets entry.2 !! key = None)
         D.STATE_TAX_LIST.
Proof.
  unfold D.STATE_TAX_LIST.
  repeat (constructor;
          [cbn; first [discriminate | intros _ key; apply lookup_empty] |]).
  constructor.
Qed.

Lemma getStateInfo_listed (stateCode : string) stateInfo :
  D.getStateInfo stateCode = Some stateInfo ->
  In (JS.toUpperCase stateCode, stateInfo) D.STATE_TAX_LIST.
Proof.
  unfold D.getStateInfo, D.STATE_TAX_DATA. intros Hlookup.
  apply elem_of_list_to_map_2 in Hlookup.
  apply list_elem_of_In. exact Hlookup.
Qed.

Lemma bracket_table_taxed (stateCode : string) stateInfo key brackets :
  D.getStateInfo stateCode = Some stateInfo ->
  D.brackets stateInfo !! key = Some brackets ->
  D.hasIncomeTax stateInfo = true.
Proof.
  intros Hinfo Hbrackets. apply getStateInfo_listed in Hinfo.
  pose proof STATE_TAX_LIST_no_tax_no_brackets as Hall.
  rewrite List.Forall_forall in Hall. specialize (Hall _ Hinfo). cbn in Hall.
  destruct (D.hasIncomeTax stateInfo); [reflexivity |].
  rewrite (Hall eq_refl key) in Hbrackets. discriminate.
Qed.

(** Every bracket table of the state table is ascending. *)
Lemma STATE_TAX_LIST_ascending :
  Forall (fun entry : string * D.StateTaxInfo =>
            map_Forall (fun _ brackets => ascending brackets = true)
                       (D.brackets entry.2))
         D.STATE_TAX_LIST.
Proof.
  unfold D.STATE_TAX_LIST.
  repeat (constructor;
          [apply map_Forall_to_list; vm_compute;
           repeat (constructor; [reflexivity |]); constructor |]).
  constructor.
Qed.



(** C5: for a state without an income tax, [calculateStateTax] returns a
    result whose liability, effective rate and taxable income are all 0,
    whatever the income, filing status, itemized deductions and
    dependents. *)
Theorem calculateStateTax_no_income_tax
  (adjustedGrossIncome : Q) (filingStatus stateCode : string)
  (stateItemizedDeductions : option Q) (dependents : option (list Dependent))
  (stateInfo : D.StateTaxInfo) :
  D.getStateInfo stateCode = Some stateInfo ->
  D.hasIncomeTax stateInfo = false ->
  exists result,
    calculateStateTax adjustedGrossIncome filingStatus stateCode
      stateItemizedDeductions dependents = JS.Ok result /\
    stateTaxLiability result = 0 /\
    stateEffectiveRate result = 0 /\
    stateTaxableIncome result = 0.
Proof.
  intros Hinfo Hnotax. unfold calculateStateTax. rewrite Hinfo, Hnotax.
  cbn [negb]. eexists. split; [reflexivity |]. cbn. auto.
Qed.

Lemma calculateStateTax_no_income_tax_witness :
  exists result,
    calculateStateTax 1000000 "MARRIED_FILING_JOINTLY" "TX" (Some 30000)
      (Some [mkDependent "tr1" true false]) = JS.Ok result /\
    stateTaxLiability result = 0 /\
    stateEffectiveRate result = 0 /\
    stateTaxableIncome result = 0.
Proof.
  apply (calculateStateTax_no_income_tax 1000000 "MARRIED_FILING_JOINTLY" "TX"
           (Some 30000) (Some [mkDependent "tr1" true false]) D.TX);
    reflexivity.
Defined.

(** A single filer in California with an adjusted gross income of 80000
    and 5000 of itemized deductions: the standard deduction of 5202 is
    the larger one, and the brackets are accumulated one by one. *)
Example calculateStateTax_California :
  exists result,
    calculateStateTax 80000 "SINGLE" "CA" (Some 5000) None = JS.Ok result /\
    stateStandardDeduction result = 5202 /\
    stateTaxableIncome result == 74798 /\
    stateTaxLiability result == 3709.40 /\
    stateMarginalRate result == 9.3.
Proof. eexists. split; [reflexivity |]. repeat split. Qed.

End StateTaxProperties.

(* ===================================================================== *)
(** * Properties of the enhanced calculation *)
(* ===================================================================== *)

Section EnhancedProperties.

Import EnhancedTaxCalculations.
Local Open Scope Q_scope.

Context `{runtime : JS.Runtime} `{federal : TaxCalculations.Federal}.

(** The federal calculation never sets the state fields. *)
Lemma calculateEnhancedTaxReturn_no_state
  totalIncome filingStatus dependents itemizedDeductions totalWithholdings
  federalResult :
  calculateEnhancedTaxReturn totalIncome filingStatus dependents
    itemizedDeductions totalWithholdings = JS.Ok federalResult ->
  E.stateTax federalResult = None /\ E.combinedTaxResult federalResult = None.
Proof.
  unfold calculateEnhancedTaxReturn. intros Hfederal.
  destruct (TaxCalculations.calculateTaxReturn _ _ _ _ _) as [basic|];
    [| discriminate].
  cbn in Hfederal.
  destruct (calculateDeductionComparison _ _ _ _) as [comparison|];
    [| discriminate].
  cbn in Hfederal.
  destruct (TaxCalculations.calculateTaxLiability _ _) as [liability|];
    [| discriminate].
  cbn in Hfederal. injection Hfederal as <-. split; reflexivity.
Qed.

(** C6: when a state code is supplied and the state-tax calculation
    throws (an unsupported state code, for instance),
    [calculateEnhancedTaxReturnWithState] does not throw: it returns the
    federal result with one note naming the state appended to
    [taxOptimizationSuggestions], every other field as the federal
    calculation left it, and neither [stateTax] nor [combinedTaxResult]
    set. *)
Theorem state_failure_falls_back_to_federal
  (totalIncome : Q) (filingStatus : string) (dependents : list Dependent)
  (itemizedDeductions : Q) (totalWithholdings : option Q)
  (stateCode : option string) (stateItemizedDeductions : option Q)
  (code : string) (federalResult : E.EnhancedTaxCalculationResult)
  (message : string) :
  suppliedStateCode stateCode = Some code ->
  calculateEnhancedTaxReturn totalIncome filingStatus dependents
    itemizedDeductions totalWithholdings = JS.Ok federalResult ->
  S.calculateStateTax (E.adjustedGrossIncome federalResult) filingStatus code
    (Some (S.orElse stateItemizedDeductions itemizedDeductions))
    (Some dependents) = JS.Throw message ->
  exists result,
    calculateEnhancedTaxReturnWithState totalIncome filingStatus dependents
      itemizedDeductions totalWithholdings stateCode stateItemizedDeductions
      = JS.Ok result /\
    result =
      withSuggestions federalResult
        (E.taxOptimizationSuggestions federalResult ++
         ["⚠️ State tax calculation failed for " +:+ code +:+
          ". Showing federal taxes only."])%list /\
    E.stateTax result = None /\
    E.combinedTaxResult result = None.
Proof.
  intros Hcode Hfederal Hthrow.
  destruct (calculateEnhancedTaxReturn_no_state _ _ _ _ _ _ Hfederal)
    as [HstateTax Hcombined].
  eexists. split.
  - unfold calculateEnhancedTaxReturnWithState. rewrite Hfederal. cbn.
    rewrite Hcode. unfold S.calculateCombinedTax. cbn.
    rewrite Hthrow. cbn. reflexivity.
  - split; [reflexivity |]. cbn. auto.
Qed.

End EnhancedProperties.

Section EnhancedExamples.

Import EnhancedTaxCalculations.
Local Open Scope Q_scope.

Lemma state_failure_falls_back_to_federal_witness :
  exists result,
    calculateEnhancedTaxReturnWithState
      (runtime := ReferenceRuntime.runtime) (federal := Examples.flatFederal)
      60000 "SINGLE" [] 5000 (Some 7000) (Some "ZZ") None = JS.Ok result /\
    E.taxOptimizationSuggestions result =
      ["💡 The standard deduction saves you $960 compared to itemizing";
       "⚠️ State tax calculation failed for ZZ. Showing federal taxes only."] /\
    E.taxLiability result == 4540 /\
    E.stateTax result = None /\
    E.combinedTaxResult result = None.
Proof.
  edestruct (state_failure_falls_back_to_federal
               (runtime := ReferenceRuntime.runtime)
               (federal := Examples.flatFederal)
               60000 "SINGLE" [] 5000 (Some 7000) (Some "ZZ") None "ZZ")
    as (result & Hrun & Hresult & HstateTax & Hcombined);
    [reflexivity | vm_compute; reflexivity | reflexivity |].
  exists result. subst result. repeat split; assumption.
Defined.

End EnhancedExamples.

(* ===================================================================== *)
(** * Properties of state detection *)
(* ===================================================================== *)

Section StateDetectionProperties.

Import StateDetection.

Context `{runtime : JS.Runtime} `{classifier : Classifier}.

Lemma directStateLoop_none (data : JS.object) (fields : list string) :
  (forall field text,
     In field fields ->
     JS.get data field = JS.Str text ->
     isStateCode (JS.toUpperCase (JS.trim text)) = false) ->
  directStateLoop data fields = noState data.
Proof.
  induction fields as [|field rest IH]; intros Hinvalid; [reflexivity |].
  assert (directStateLoop data rest = noState data) as Hrest.
  { apply IH. intros other text Hin. apply Hinvalid. right. exact Hin. }
  cbn [directStateLoop].
  destruct (JS.get data field) as [| | | |text| |] eqn:Hfield; try exact Hrest.
  destruct (String.eqb text ""); [exact Hrest |].
  rewrite (Hinvalid field text (or_introl eq_refl) Hfield). exact Hrest.
Qed.

Lemma patternLoop_none (text : string) (remaining : list JS.regex) :
  (forall pattern candidate,
     In pattern remaining ->
     JS.exec pattern text = Some candidate ->
     resolveCandidate candidate = None) ->
  patternLoop text remaining = None.
Proof.
  induction remaining as [|pattern rest IH]; intros Hnone; [reflexivity |].
  assert (patternLoop text rest = None) as Hrest.
  { apply IH. intros other candidate Hin. apply Hnone. right. exact Hin. }
  cbn [patternLoop].
  destruct (JS.exec pattern text) as [candidate|] eqn:Hexec; [| exact Hrest].
  rewrite (Hnone pattern candidate (or_introl eq_refl) Hexec). exact Hrest.
Qed.

Lemma addressLoop_none (data : JS.object) (fields : list (string * Source)) :
  (forall field fieldSource text,
     In (field, fieldSource) fields ->
     JS.get data field = JS.Str text ->
     parseStateFromAddress text = None) ->
  addressLoop data fields = noState data.
Proof.
  induction fields as [|[field fieldSource] rest IH]; intros Hnone;
    [reflexivity |].
  assert (addressLoop data rest = noState data) as Hrest.
  { apply IH. intros other otherSource text Hin. eapply Hnone. right.
    exact Hin. }
  cbn [addressLoop].
  destruct (JS.get data field) as [| | | |text| |] eqn:Hfield; try exact Hrest.
  destruct (String.eqb text ""); [exact Hrest |].
  rewrite (Hnone field fieldSource text (or_introl eq_refl) Hfield).
  exact Hrest.
Qed.

(** Whatever the classifier does, the fallback tier returns. *)
Lemma detectStateUsingLLM_total (input : StateDetectionInput) :
  exists result, detectStateUsingLLM input = JS.Ok result.
Proof.
  unfold detectStateUsingLLM.
  destruct (askClassifier input) as [result|message]; cbn; eauto.
Qed.

Lemma detectStateUsingLLM_fails (input : StateDetectionInput) :
  classifierFails input ->
  detectStateUsingLLM input = JS.Ok (noState (extractedData input)).
Proof.
  unfold detectStateUsingLLM, askClassifier.
  intros [message Hfetch | response Hfetch Hstatus
         | response message Hfetch Hjson
         | response result Hfetch Hjson Hcode]; rewrite Hfetch; cbn.
  - reflexivity.
  - rewrite Hstatus. reflexivity.
  - destruct (ok response); cbn; [| reflexivity]. rewrite Hjson. reflexivity.
  - destruct (ok response); cbn; [| reflexivity]. rewrite Hjson. cbn.
    destruct (acceptedStateCode result) as [[code|]|message] eqn:Haccepted;
      cbn; try reflexivity.
    exfalso. exact (Hcode code eq_refl).
Qed.

(** [detectStateFromDocument] never throws. *)
Lemma detectStateFromDocument_total (input : StateDetectionInput) :
  exists result, detectStateFromDocument input = JS.Ok result.
Proof.
  unfold detectStateFromDocument.
  destruct (found (extractDirectStateField _)); [eauto |].
  destruct (found (extractStateFromAddresses _)); [eauto |].
  destruct (detectStateUsingLLM_total input) as [llmState ->]. cbn.
  destruct (found llmState); eauto.
Qed.


End StateDetectionProperties.

Section StateDetectionExamples.

Import StateDetection.

(** An address of the form "City, ST 12345" is resolved by the second
    tier. *)
Example address_tier_Springfield :
  detectStateFromDocument
    (runtime := ReferenceRuntime.runtime)
    (classifier := Examples.unreachableClassifier)
    {| documentType := "W2";
       extractedData :=
         <["employeeAddress" := JS.Str "123 Main St, Springfield, IL 62704"]> ∅ |}
  = JS.Ok
      {| detectedState := Some "IL"; confidence := JS.Fin 0.85%Q;
         source := address;
         rawData :=
           <["employeeAddress" := JS.Str "123 Main St, Springfield, IL 62704"]> ∅ |}.
Proof. vm_compute. reflexivity. Qed.


End StateDetectionExamples.

(* ===================================================================== *)
(** * Properties of document deletion *)
(* ===================================================================== *)

Section DeleteProperties.

Import Server DocumentRoute.
Local Open Scope Q_scope.

Lemma find_some_holds {A} (test : A -> bool) (rows : list A) (row : A) :
  List.find test rows = Some row -> test row = true /\ In row rows.
Proof.
  intros Hfind. apply List.find_some in Hfind. tauto.
Qed.

Lemma findDocument_exists database id document :
  P.findDocument database id = Some document ->
  P.existsDocument database id = true.
Proof.
  unfold P.findDocument, P.existsDocument. intros Hfind.
  apply find_some_holds in Hfind as [Hid Hin].
  apply existsb_exists. exists document. split; assumption.
Qed.

Lemma findTaxReturn_id database id taxReturn :
  P.findTaxReturn database id = Some taxReturn ->
  P.TaxReturns.id taxReturn = id.
Proof.
  unfold P.findTaxReturn. intros Hfind.
  apply find_some_holds in Hfind as [Hid _].
  apply String.eqb_eq. exact Hid.
Qed.

Lemma filter_twice {A} (keep : A -> bool) (rows : list A) :
  List.filter keep (List.filter keep rows) = List.filter keep rows.
Proof.
  induction rows as [|row rows IH]; [reflexivity |].
  cbn [List.filter]. destruct (keep row) eqn:Hkeep; [| exact IH].
  cbn [List.filter]. rewrite Hkeep, IH. reflexivity.
Qed.

Lemma find_filtered_out {A} (test : A -> bool) (rows : list A) :
  List.find test (List.filter (fun row => negb (test row)) rows) = None.
Proof.
  induction rows as [|row rows IH]; [reflexivity |].
  cbn [List.filter]. destruct (test row) eqn:Htest; cbn [negb]; [exact IH |].
  cbn [List.find]. rewrite Htest. exact IH.
Qed.

(** The rows of the updated table that carry the updated id. *)
Lemma In_updated_rows (id : string) (data : P.TaxReturns.Update)
  (rows : list P.TaxReturns.TaxReturn) (row : P.TaxReturns.TaxReturn) :
  In row
    (map (fun old =>
            if String.eqb (P.TaxReturns.id old) id
            then P.TaxReturns.apply data old else old) rows) ->
  P.TaxReturns.id row = id ->
  exists old, In old rows /\ row = P.TaxReturns.apply data old.
Proof.
  intros Hin Hid. apply in_map_iff in Hin as (old & Hrow & Hold).
  exists old. split; [exact Hold |].
  destruct (String.eqb (P.TaxReturns.id old) id) eqn:Hmatch;
    [symmetry; exact Hrow |].
  subst row. apply String.eqb_neq in Hmatch. contradiction.
Qed.

(** The database the transaction of [DELETE] leaves behind. *)
Lemma deleteAndRecalculate_run (id taxReturnId : string) (world : World)
  (taxReturn : P.TaxReturns.TaxReturn) :
  P.existsDocument (database world) id = true ->
  P.findTaxReturn (database world) taxReturnId = Some taxReturn ->
  exists database',
    deleteAndRecalculate id taxReturnId world =
      (JS.Ok tt, setDatabase world database') /\
    P.incomeEntries database' =
      List.filter (fun entry => negb (P.hasDocumentId id entry))
        (P.incomeEntries (database world)) /\
    P.documents database' =
      List.filter (fun row => negb (String.eqb (P.Documents.id row) id))
        (P.documents (database world)) /\
    P.taxReturns database' =
      map (fun row =>
             if String.eqb (P.TaxReturns.id row) taxReturnId
             then
               P.TaxReturns.apply
                 (recalculated
                    (sumAmounts
                       (List.filter (remainingEntry taxReturnId)
                          (P.incomeEntries database')))
                    (sumWithholdings
                       (List.filter (remainingEntry taxReturnId)
                          (P.incomeEntries database')))
                    (clock world))
                 row
             else row)
        (P.taxReturns (database world)).
Proof.
  intros Hexists HtaxReturn. unfold deleteAndRecalculate.
  eexists. split.
  - erewrite run_bind by (apply run_mutate_; reflexivity).
    erewrite run_bind by (apply run_mutate_; reflexivity).
    erewrite run_bind.
    2:{ apply run_mutate_. unfold P.deleteDocument.
        change (P.existsDocument (database _) id)
          with (P.existsDocument (database world) id).
        rewrite Hexists. reflexivity. }
    erewrite run_bind by reflexivity.
    erewrite run_bind by reflexivity.
    erewrite run_bind.
    2:{ apply run_mutate. unfold P.updateTaxReturn.
        change (P.findTaxReturn (database _) taxReturnId)
          with (P.findTaxReturn (database world) taxReturnId).
        rewrite HtaxReturn. reflexivity. }
    cbn [ret setDatabase database calls clock]. reflexivity.
  - cbn [P.incomeEntries P.documents P.taxReturns P.withTaxReturns
           P.deleteIncomeEntries P.withIncomeEntries P.withDocuments
           P.deleteExtractedEntries P.withExtractedEntries database
           setDatabase clock].
    rewrite filter_twice. repeat split; reflexivity.
Qed.

(** C1: deleting a document (an authenticated request by the owner)
    deletes every income entry whose [documentId] is the document's id and
    the document itself and, in the same transaction, sets the owning tax
    return's [totalIncome] and [totalWithholdings] to the sums of [amount]
    and [federalTaxWithheld] over the remaining income entries of that
    tax return with a non-null [documentId], and zeroes [taxableIncome],
    [taxLiability], [stateTaxLiability], [refundAmount] and [amountOwed];
    no entry of the deleted document is left to contribute to a total. *)
Theorem DELETE_recalculates_totals
  (sessionEmail : option string) (id : string) (world : World)
  (email : string) (user : P.Users.User) (document : P.Documents.Document)
  (taxReturn : P.TaxReturns.TaxReturn) :
  sessionUserEmail sessionEmail = Some email ->
  P.findUser (database world) email = Some user ->
  P.findDocument (database world) id = Some document ->
  P.findTaxReturn (database world) (P.Documents.taxReturnId document)
    = Some taxReturn ->
  P.TaxReturns.userId taxReturn = P.Users.id user ->
  exists world',
    DELETE sessionEmail id world =
      (JS.Ok {| status := 200;
                body := Success true
                          "Document and all associated data deleted successfully" |},
       world') /\
    P.incomeEntries (database world') =
      List.filter (fun entry => negb (P.hasDocumentId id entry))
        (P.incomeEntries (database world)) /\
    (forall entry,
       In entry (P.incomeEntries (database world')) ->
       P.IncomeEntries.documentId entry <> Some id) /\
    P.findDocument (database world') id = None /\
    (exists owner,
       In owner (P.taxReturns (database world')) /\
       P.TaxReturns.id owner = P.Documents.taxReturnId document) /\
    (forall owner,
       In owner (P.taxReturns (database world')) ->
       P.TaxReturns.id owner = P.Documents.taxReturnId document ->
       let remaining :=
         List.filter
           (fun entry =>
              P.ofTaxReturn (P.Documents.taxReturnId document) entry
              && P.hasDocument entry)
           (P.incomeEntries (database world')) in
       P.TaxReturns.totalIncome owner = sumAmounts remaining /\
       P.TaxReturns.totalWithholdings owner = sumWithholdings remaining /\
       P.TaxReturns.adjustedGrossIncome owner = sumAmounts remaining /\
       P.TaxReturns.taxableIncome owner = 0 /\
       P.TaxReturns.taxLiability owner = 0 /\
       P.TaxReturns.stateTaxLiability owner = 0 /\
       P.TaxReturns.refundAmount owner = 0 /\
       P.TaxReturns.amountOwed owner = 0).
Proof.
  intros Hsession Huser Hdocument HtaxReturn Howner.
  pose proof (findTaxReturn_id _ _ _ HtaxReturn) as Hid.
  pose proof (findDocument_exists _ _ _ Hdocument) as Hexists.
  rewrite <- Hid in HtaxReturn.
  destruct (deleteAndRecalculate_run id _ world taxReturn Hexists HtaxReturn)
    as (database' & Hrun & Hentries & Hdocuments & HtaxReturns).
  rewrite Hid in HtaxReturns, HtaxReturn, Hrun.
  exists (setDatabase world database'). split.
  - unfold DELETE. rewrite Hsession. apply run_tryCatch_ok.
    erewrite run_bind by reflexivity. rewrite Huser.
    erewrite run_bind by reflexivity. rewrite Hdocument.
    erewrite run_bind by reflexivity. rewrite HtaxReturn.
    rewrite Howner, String.eqb_refl. cbn [negb]. rewrite Hid.
    erewrite run_bind by (apply run_transaction_ok; exact Hrun).
    reflexivity.
  - cbn [database setDatabase]. rewrite Hentries.
    split; [reflexivity |]. split; [| split; [| split]].
    + intros entry Hin Hdoc. apply filter_In in Hin as [_ Hkeep].
      unfold P.hasDocumentId in Hkeep. rewrite Hdoc, String.eqb_refl in Hkeep.
      discriminate.
    + unfold P.findDocument. rewrite Hdocuments.
      apply (find_filtered_out
               (fun row => String.eqb (P.Documents.id row) id)).
    + unfold P.findTaxReturn in HtaxReturn.
      apply find_some_holds in HtaxReturn as [_ Hin].
      eexists. split.
      * rewrite HtaxReturns. apply in_map_iff.
        exists taxReturn. split; [reflexivity | exact Hin].
      * rewrite Hid, String.eqb_refl. cbn. exact Hid.
    + intros owner Hin Hownerid. rewrite HtaxReturns in Hin.
      apply In_updated_rows in Hin as (old & _ & ->); [| exact Hownerid].
      rewrite Hentries. cbn. repeat split; reflexivity.
Qed.

Lemma DELETE_recalculates_totals_witness :
  exists world',
    DELETE (Some "alice@example.com") "doc2"
      (Examples.sampleWorld Prisma.COMPLETED) =
      (JS.Ok {| status := 200;
                body := Success true
                          "Document and all associated data deleted successfully" |},
       world') /\
    map P.IncomeEntries.amount (P.incomeEntries (database world'))
      = [55000; 999] /\
    map P.TaxReturns.totalIncome (P.taxReturns (database world')) = [55000] /\
    map P.TaxReturns.totalWithholdings (P.taxReturns (database world'))
      = [6000] /\
    map P.TaxReturns.taxableIncome (P.taxReturns (database world')) = [0].
Proof.
  destruct (DELETE_recalculates_totals
              (Some "alice@example.com") "doc2"
              (Examples.sampleWorld Prisma.COMPLETED)
              "alice@example.com" Examples.alice
              (Examples.document "doc2" Prisma.COMPLETED) Examples.return2024
              eq_refl eq_refl eq_refl eq_refl eq_refl)
    as (world' & Hrun & _).
  exists world'. split; [exact Hrun |].
  vm_compute in Hrun. injection Hrun as <-. vm_compute. auto.
Defined.

End DeleteProperties.

(* ===================================================================== *)
(** * Properties of the processing endpoint *)
(* ===================================================================== *)

Section ProcessProperties.

Import Server ProcessRoute.
Local Open Scope Q_scope.

Context `{runtime : JS.Runtime} `{federal : TaxCalculations.Federal}
        `{classifier : SD.Classifier} `{collaborators : Collaborators}
        `{environment : Environment}.

(** The guard of Step 3 is reached by an authenticated owner. *)
Lemma POST_guard (sessionEmail : option string) (id : string) (world : World)
  (email : string) (user : P.Users.User) (document : P.Documents.Document)
  (taxReturn : P.TaxReturns.TaxReturn) :
  DocumentRoute.sessionUserEmail sessionEmail = Some email ->
  P.findUser (database world) email = Some user ->
  findOwnedDocument (database world) id (P.Users.id user)
    = Some (document, taxReturn) ->
  POST sessionEmail id world =
    tryCatch
      (match P.Documents.processingStatus document with
       | P.COMPLETED =>
           ret {| status := 200;
                  body := AlreadyProcessed (alreadyProcessed document taxReturn) |}
       | P.PROCESSING =>
           ret {| status := 409;
                  body := Error "Document is currently being processed. Please wait and try again." |}
       | _ => processDocument document taxReturn
       end)
      (failure id) world.
Proof.
  intros Hsession Huser Hfound. unfold POST, tryCatch. rewrite Hsession.
  erewrite run_bind by reflexivity. rewrite Huser.
  erewrite run_bind by reflexivity. rewrite Hfound. reflexivity.
Qed.

(** C2: for a document whose status is already COMPLETED, a processing
    request (by its authenticated owner) calls no collaborator and writes
    nothing: the world after the request is the world before it, and the
    payload is computed from the stored document and tax return alone. *)
Theorem POST_completed_is_idempotent
  (sessionEmail : option string) (id : string) (world : World)
  (email : string) (user : P.Users.User) (document : P.Documents.Document)
  (taxReturn : P.TaxReturns.TaxReturn) :
  DocumentRoute.sessionUserEmail sessionEmail = Some email ->
  P.findUser (database world) email = Some user ->
  findOwnedDocument (database world) id (P.Users.id user)
    = Some (document, taxReturn) ->
  P.Documents.processingStatus document = P.COMPLETED ->
  POST sessionEmail id world =
    (JS.Ok {| status := 200;
              body := AlreadyProcessed (alreadyProcessed document taxReturn) |},
     world).
Proof.
  intros Hsession Huser Hfound Hstatus.
  rewrite (POST_guard _ _ _ _ _ _ _ Hsession Huser Hfound), Hstatus.
  reflexivity.
Qed.

(** C3: for a document whose status is PROCESSING, a processing request
    (by its authenticated owner) is answered with 409 before any side
    effect: no collaborator is called, no income entry is created and no
    document or tax-return field changes -- the world is left as it was. *)
Theorem POST_processing_is_rejected
  (sessionEmail : option string) (id : string) (world : World)
  (email : string) (user : P.Users.User) (document : P.Documents.Document)
  (taxReturn : P.TaxReturns.TaxReturn) :
  DocumentRoute.sessionUserEmail sessionEmail = Some email ->
  P.findUser (database world) email = Some user ->
  findOwnedDocument (database world) id (P.Users.id user)
    = Some (document, taxReturn) ->
  P.Documents.processingStatus document = P.PROCESSING ->
  POST sessionEmail id world =
    (JS.Ok {| status := 409;
              body := Error "Document is currently being processed. Please wait and try again." |},
     world).
Proof.
  intros Hsession Huser Hfound Hstatus.
  rewrite (POST_guard _ _ _ _ _ _ _ Hsession Huser Hfound), Hstatus.
  reflexivity.
Qed.

End ProcessProperties.

Section ProcessExamples.

Import Server ProcessRoute.
Local Open Scope Q_scope.

Lemma POST_completed_is_idempotent_witness :
  exists snapshot,
    Examples.processDoc2 Examples.flatFederal Prisma.COMPLETED =
      (JS.Ok {| status := 200; body := AlreadyProcessed snapshot |},
       Examples.sampleWorld Prisma.COMPLETED) /\
    Snapshot.processingStatus snapshot = P.COMPLETED /\
    Calculations.totalIncome (Snapshot.taxCalculations snapshot) = 75000.
Proof.
  eexists. split.
  - apply (POST_completed_is_idempotent
             (runtime := ReferenceRuntime.runtime)
             (federal := Examples.flatFederal)
             (classifier := Examples.unreachableClassifier)
             (Some "alice@example.com") "doc2"
             (Examples.sampleWorld Prisma.COMPLETED)
             "alice@example.com" Examples.alice
             (Examples.document "doc2" Prisma.COMPLETED) Examples.return2024);
      reflexivity.
  - split; reflexivity.
Defined.

Lemma POST_processing_is_rejected_witness :
  Examples.processDoc2 Examples.flatFederal Prisma.PROCESSING =
    (JS.Ok {| status := 409;
              body := Error "Document is currently being processed. Please wait and try again." |},
     Examples.sampleWorld Prisma.PROCESSING).
Proof.
  apply (POST_processing_is_rejected
           (runtime := ReferenceRuntime.runtime)
           (federal := Examples.flatFederal)
           (classifier := Examples.unreachableClassifier)
           (Some "alice@example.com") "doc2"
           (Examples.sampleWorld Prisma.PROCESSING)
           "alice@example.com" Examples.alice
           (Examples.document "doc2" Prisma.PROCESSING) Examples.return2024);
    reflexivity.
Defined.

End ProcessExamples.

(* ===================================================================== *)
(** * The pipeline when the tax calculation fails *)
(* ===================================================================== *)

Section PipelineProperties.

Import Server ProcessRoute.
Local Open Scope Q_scope.

Context `{runtime : JS.Runtime} `{federal : TaxCalculations.Federal}
        `{classifier : SD.Classifier} `{collaborators : Collaborators}
        `{environment : Environment}.

(** ** Updates keep the rows in place *)

Lemma find_map_keyed {A} (test : A -> bool) (f : A -> A) (rows : list A) :
  (forall row, test (f row) = test row) ->
  List.find test (map f rows) = f <$> List.find test rows.
Proof.
  intros Hkey. induction rows as [|row rows IH]; [reflexivity |].
  cbn [map List.find]. rewrite Hkey.
  destruct (test row); [reflexivity | exact IH].
Qed.

Lemma updateDocument_findDocument stored0 id data updated stored' other :
  P.updateDocument stored0 id data = JS.Ok (updated, stored') ->
  P.findDocument stored' other =
    (fun row => if String.eqb (P.Documents.id row) id
                then P.Documents.apply data row else row)
      <$> P.findDocument stored0 other.
Proof.
  unfold P.updateDocument. intros Hupdate.
  destruct (P.findDocument stored0 id); [| discriminate].
  injection Hupdate as _ <-. unfold P.findDocument. cbn [P.documents P.withDocuments].
  apply find_map_keyed. intros row.
  destruct (String.eqb (P.Documents.id row) id); reflexivity.
Qed.

Lemma updateDocument_taxReturns stored0 id data updated stored' :
  P.updateDocument stored0 id data = JS.Ok (updated, stored') ->
  P.taxReturns stored' = P.taxReturns stored0.
Proof.
  unfold P.updateDocument. intros Hupdate.
  destruct (P.findDocument stored0 id); [| discriminate].
  injection Hupdate as _ <-. reflexivity.
Qed.

Lemma updateDocument_keeps_stored stored0 id data updated stored' other taxReturnId :
  P.updateDocument stored0 id data = JS.Ok (updated, stored') ->
  stored other taxReturnId stored0 -> stored other taxReturnId stored'.
Proof.
  intros Hupdate [Hdocument HtaxReturn]. split.
  - rewrite (updateDocument_findDocument _ _ _ _ _ other Hupdate).
    destruct Hdocument as [row ->]. cbn. eauto.
  - unfold P.findTaxReturn.
    rewrite (updateDocument_taxReturns _ _ _ _ _ Hupdate). exact HtaxReturn.
Qed.

Lemma updateDocument_returns stored0 id data :
  is_Some (P.findDocument stored0 id) ->
  exists updated stored',
    P.updateDocument stored0 id data = JS.Ok (updated, stored') /\
    (forall row, P.findDocument stored0 id = Some row ->
                 updated = P.Documents.apply data row).
Proof.
  intros [row Hrow]. unfold P.updateDocument. rewrite Hrow.
  eexists _, _. split; [reflexivity |].
  intros row' Hrow'. injection Hrow' as <-. reflexivity.
Qed.

Lemma updateTaxReturn_returns stored0 id data :
  is_Some (P.findTaxReturn stored0 id) ->
  exists updated stored',
    P.updateTaxReturn stored0 id data = JS.Ok (updated, stored') /\
    P.documents stored' = P.documents stored0.
Proof.
  intros [row Hrow]. unfold P.updateTaxReturn. rewrite Hrow.
  eexists _, _. split; reflexivity.
Qed.

Lemma createIncomeEntry_keeps_stored id taxReturnId stored0 entry stored' :
  P.createIncomeEntry stored0 entry = JS.Ok stored' ->
  stored id taxReturnId stored0 -> stored id taxReturnId stored'.
Proof.
  unfold P.createIncomeEntry. intros Hcreate Hstored.
  destruct (P.findTaxReturn stored0 _); [| discriminate].
  destruct (match P.IncomeEntries.documentId entry with
            | Some documentId => P.existsDocument stored0 documentId
            | None => true
            end); [| discriminate].
  injection Hcreate as <-. exact Hstored.
Qed.

(** ** The stages keep the document and its tax return stored *)

Lemma setProcessing_run id taxReturnId world :
  stored id taxReturnId (database world) ->
  exists world',
    setProcessing id world = (JS.Ok tt, world') /\
    stored id taxReturnId (database world').
Proof.
  intros Hstored. unfold setProcessing.
  destruct (updateDocument_returns (database world) id
              {| P.Documents.setDocumentType := None;
                 P.Documents.setProcessingStatus := Some P.PROCESSING;
                 P.Documents.setExtractedData := None;
                 P.Documents.setOcrText := None;
                 P.Documents.setIsVerified := None;
                 P.Documents.setUpdatedAt := Some (clock world) |}
              (proj1 Hstored)) as (updated & stored' & Hupdate & _).
  exists (setDatabase world stored'). split.
  - erewrite run_bind by reflexivity.
    erewrite run_bind by (apply run_mutate; exact Hupdate). reflexivity.
  - eapply updateDocument_keeps_stored; eassumption.
Qed.

Lemma extraction_run document extractedData world :
  extractDataFromDocument (P.Documents.filePath document)
    (P.Documents.documentType document) = JS.Ok extractedData ->
  exists world',
    extraction document world = (JS.Ok extractedData, world') /\
    database world' = database world.
Proof.
  intros Hextract. unfold extraction. eexists. split.
  - erewrite run_bind by reflexivity. apply run_tryCatch_ok.
    unfold lift. rewrite Hextract. reflexivity.
  - reflexivity.
Qed.

Lemma typeCorrection_run document extractedData taxReturnId world :
  typeOrAbsent (JS.get extractedData "correctedDocumentType") ->
  stored (P.Documents.id document) taxReturnId (database world) ->
  exists finalDocumentType world',
    typeCorrection document extractedData world
      = (JS.Ok finalDocumentType, world') /\
    stored (P.Documents.id document) taxReturnId (database world').
Proof.
  intros Htype Hstored. unfold typeCorrection.
  destruct Htype as [Hfalsy | (corrected & Hcorrected & Hvalid)].
  - rewrite Hfalsy. eexists _, _. split; [reflexivity | exact Hstored].
  - rewrite Hcorrected.
    destruct (JS.truthy (JS.Str corrected));
      [| eexists _, _; split; [reflexivity | exact Hstored]].
    rewrite Hvalid.
    destruct (updateDocument_returns (database world) (P.Documents.id document)
                {| P.Documents.setDocumentType := Some corrected;
                   P.Documents.setProcessingStatus := None;
                   P.Documents.setExtractedData := None;
                   P.Documents.setOcrText := None;
                   P.Documents.setIsVerified := None;
                   P.Documents.setUpdatedAt := None |}
                (proj1 Hstored)) as (updated & stored' & Hupdate & _).
    exists corrected, (setDatabase world stored'). split.
    + erewrite run_bind by (apply run_mutate; exact Hupdate). reflexivity.
    + eapply updateDocument_keeps_stored; eassumption.
Qed.

Lemma stateDetection_returns finalDocumentType extractedData :
  returns (stateDetection finalDocumentType extractedData).
Proof.
  intros world. unfold stateDetection.
  erewrite run_bind by reflexivity.
  apply returns_tryCatch. intros message. apply returns_ret.
Qed.

Lemma stateDetection_keeps I finalDocumentType extractedData :
  keeps I (stateDetection finalDocumentType extractedData).
Proof. unfold stateDetection. auto 10 with handlers. Qed.

Lemma duplicateDetection_returns document finalDocumentType extractedData :
  returns (duplicateDetection document finalDocumentType extractedData).
Proof.
  intros world. unfold duplicateDetection.
  erewrite run_bind by reflexivity.
  apply returns_tryCatch. intros message. apply returns_ret.
Qed.

Lemma duplicateDetection_keeps I document finalDocumentType extractedData :
  keeps I (duplicateDetection document finalDocumentType extractedData).
Proof. unfold duplicateDetection. auto 10 with handlers. Qed.

Lemma createW2Entry_keeps id taxReturnId document extractedData :
  keeps (stored id taxReturnId) (createW2Entry document extractedData).
Proof.
  unfold createW2Entry. destruct (JS.gt0 _); [| apply keeps_ret].
  apply keeps_mutate_. intros stored0 stored' Hwrite Hstored.
  apply Result_bind_ok in Hwrite as (amount & _ & Hwrite).
  apply Result_bind_ok in Hwrite as (withheld & _ & Hwrite).
  eapply createIncomeEntry_keeps_stored; eassumption.
Qed.

Lemma create1099Entry_keeps id taxReturnId document finalDocumentType
  extractedData :
  keeps (stored id taxReturnId)
    (create1099Entry document finalDocumentType extractedData).
Proof.
  unfold create1099Entry. destruct (JS.gt0 _); [| apply keeps_ret].
  apply keeps_mutate_. intros stored0 stored' Hwrite Hstored.
  apply Result_bind_ok in Hwrite as (amount & _ & Hwrite).
  eapply createIncomeEntry_keeps_stored; eassumption.
Qed.

Lemma form1040Mapping_returns document finalDocumentType extractedData :
  returns (form1040Mapping document finalDocumentType extractedData).
Proof.
  unfold form1040Mapping. apply returns_tryCatch.
  intros message. apply returns_ret.
Qed.

Lemma form1040Mapping_keeps id taxReturnId document finalDocumentType
  extractedData :
  keeps (stored id taxReturnId)
    (form1040Mapping document finalDocumentType extractedData).
Proof.
  unfold form1040Mapping.
  apply keeps_tryCatch; [| intros; apply keeps_ret].
  apply keeps_bind; [apply keeps_query |].
  intros [currentTaxReturn|]; [| apply keeps_throw].
  pose proof (createW2Entry_keeps id taxReturnId document extractedData).
  pose proof (create1099Entry_keeps id taxReturnId document finalDocumentType
                extractedData).
  destruct (String.eqb finalDocumentType "W2");
    [auto 12 with handlers |].
  destruct (JS.startsWith "FORM_1099" finalDocumentType);
    auto 12 with handlers.
Qed.

(** ** Step 12 when the federal calculator throws *)

Lemma calculateEnhancedTaxReturnWithState_throws (message : string)
  totalIncome filingStatus dependents itemizedDeductions totalWithholdings
  stateCode stateItemizedDeductions :
  ETC.calculateEnhancedTaxReturn totalIncome filingStatus dependents
    itemizedDeductions totalWithholdings = JS.Throw message ->
  ETC.calculateEnhancedTaxReturnWithState totalIncome filingStatus dependents
    itemizedDeductions totalWithholdings stateCode stateItemizedDeductions
    = JS.Throw message.
Proof.
  intros Hfederal. unfold ETC.calculateEnhancedTaxReturnWithState.
  rewrite Hfederal. reflexivity.
Qed.

Lemma calculate_throws (message : string) document taxReturn detectedStateCode
  world :
  federalFails message taxReturn ->
  exists world',
    calculate document taxReturn detectedStateCode world
      = (JS.Throw message, world') /\
    P.documents (database world') = P.documents (database world) /\
    P.taxReturns (database world') = P.taxReturns (database world) /\
    In (CalculateTax (P.TaxReturns.filingStatus taxReturn) detectedStateCode)
       (calls world').
Proof.
  intros Hfederal. unfold calculate.
  erewrite run_bind by reflexivity.
  erewrite run_bind by reflexivity.
  destruct (List.filter (orphanedEntry (P.Documents.taxReturnId document))
              (P.incomeEntries (database world)))
    as [|orphan orphans] eqn:Horphans.
  - erewrite run_bind by reflexivity.
    erewrite run_bind by reflexivity.
    erewrite run_bind by reflexivity.
    erewrite run_bind_throw.
    2:{ unfold lift.
        rewrite (calculateEnhancedTaxReturnWithState_throws message)
          by apply Hfederal.
        reflexivity. }
    eexists. split; [reflexivity |]. cbn. repeat split.
    apply in_or_app. right. left. reflexivity.
  - erewrite run_bind by (apply run_mutate_; reflexivity).
    erewrite run_bind by reflexivity.
    erewrite run_bind by reflexivity.
    erewrite run_bind_throw.
    2:{ unfold lift.
        rewrite (calculateEnhancedTaxReturnWithState_throws message)
          by apply Hfederal.
        reflexivity. }
    eexists. split; [reflexivity |]. cbn. repeat split.
    apply in_or_app. right. left. reflexivity.
Qed.

(** The failure is caught: the stage returns, with no result and the
    update data as the mapping step left it. *)
Lemma taxCalculation_catches (message : string) document taxReturn
  detectedStateCode updatedTaxReturnData id taxReturnId world :
  federalFails message taxReturn ->
  stored id taxReturnId (database world) ->
  exists world',
    taxCalculation document taxReturn detectedStateCode updatedTaxReturnData
      world = (JS.Ok (None, updatedTaxReturnData), world') /\
    stored id taxReturnId (database world') /\
    In (CalculateTax (P.TaxReturns.filingStatus taxReturn) detectedStateCode)
       (calls world').
Proof.
  intros Hfederal Hstored.
  destruct (calculate_throws message document taxReturn detectedStateCode
              world Hfederal)
    as (world' & Hrun & Hdocuments & HtaxReturns & Hcall).
  exists world'. split; [| split; [| exact Hcall]].
  - unfold taxCalculation, tryCatch.
    erewrite run_bind_throw by exact Hrun. reflexivity.
  - unfold stored, P.findDocument, P.findTaxReturn in *.
    rewrite Hdocuments, HtaxReturns. exact Hstored.
Qed.

(** ** Step 13 *)

Lemma fullText_returns extractedData :
  textOrAbsent (JS.get extractedData "fullText") ->
  exists ocr, fullText extractedData = JS.Ok ocr.
Proof.
  unfold fullText. intros [-> | [text ->]]; [eauto |].
  destruct (JS.truthy (JS.Str text)); eauto.
Qed.

Lemma persistence_run document finalDocumentType extractedData
  stateDetectionResult duplicateCheckResult mapping taxCalculationResult
  updatedTaxReturnData world :
  textOrAbsent (JS.get extractedData "fullText") ->
  stored (P.Documents.id document) (P.Documents.taxReturnId document)
    (database world) ->
  exists result world',
    persistence document finalDocumentType extractedData stateDetectionResult
      duplicateCheckResult mapping taxCalculationResult updatedTaxReturnData
      world = (JS.Ok {| status := 200; body := Processed result |}, world') /\
    Outcome.taxCalculations result = taxCalculationResult /\
    Outcome.processingStatus result = P.COMPLETED /\
    calls world' = calls world /\
    P.Documents.processingStatus
      <$> P.findDocument (database world') (P.Documents.id document)
      = Some P.COMPLETED.
Proof.
  intros Htext [Hdocument HtaxReturn].
  destruct (fullText_returns _ Htext) as [ocr Hocr].
  pose (data :=
          {| P.Documents.setDocumentType := Some finalDocumentType;
             P.Documents.setProcessingStatus := Some P.COMPLETED;
             P.Documents.setExtractedData := Some (Some extractedData);
             P.Documents.setOcrText := Some ocr;
             P.Documents.setIsVerified := Some false;
             P.Documents.setUpdatedAt := Some (clock world) |}).
  destruct (updateDocument_returns (database world) (P.Documents.id document)
              data Hdocument) as (updated & stored1 & Hupdate & Hupdated).
  assert (is_Some (P.findTaxReturn stored1 (P.Documents.taxReturnId document)))
    as HtaxReturn1.
  { unfold P.findTaxReturn.
    rewrite (updateDocument_taxReturns _ _ _ _ _ Hupdate). exact HtaxReturn. }
  destruct (updateTaxReturn_returns stored1 (P.Documents.taxReturnId document)
              (taxReturnUpdateData updatedTaxReturnData stateDetectionResult
                 (clock world)) HtaxReturn1)
    as (updatedTaxReturn & stored2 & HupdateTaxReturn & Hdocuments).
  destruct Hdocument as [row Hrow].
  eexists _, (setDatabase (setDatabase world stored1) stored2). split.
  - unfold persistence. apply run_tryCatch_ok.
    erewrite run_bind by reflexivity.
    erewrite run_bind by (unfold lift; rewrite Hocr; reflexivity).
    erewrite run_bind by (apply run_mutate; exact Hupdate).
    erewrite run_bind by (apply run_mutate; exact HupdateTaxReturn).
    reflexivity.
  - cbn [Outcome.taxCalculations Outcome.processingStatus database setDatabase
           calls].
    split; [reflexivity |].
    split; [rewrite (Hupdated row Hrow); reflexivity |].
    split; [reflexivity |].
    unfold P.findDocument. rewrite Hdocuments.
    change (List.find _ (P.documents stored1))
      with (P.findDocument stored1 (P.Documents.id document)).
    rewrite (updateDocument_findDocument _ _ _ _ _ (P.Documents.id document)
               Hupdate), Hrow.
    cbn [fmap option_fmap option_map].
    apply find_some_holds in Hrow as [Hid _]. rewrite Hid. reflexivity.
Qed.

(** ** The lookup of Step 2 *)

Lemma findOwnedDocument_stored stored0 id userId document taxReturn :
  findOwnedDocument stored0 id userId = Some (document, taxReturn) ->
  P.Documents.id document = id /\
  P.findTaxReturn stored0 (P.Documents.taxReturnId document) = Some taxReturn /\
  stored id (P.Documents.taxReturnId document) stored0.
Proof.
  unfold findOwnedDocument. intros Hfound.
  destruct (List.find _ (P.documents stored0)) as [row|] eqn:Hrow;
    cbn in Hfound; [| discriminate].
  destruct (P.findTaxReturn stored0 (P.Documents.taxReturnId row))
    as [owner|] eqn:Howner; cbn in Hfound; [| discriminate].
  injection Hfound as <- <-.
  apply find_some_holds in Hrow as [Htest Hin].
  apply andb_prop in Htest as [Hid _]. apply String.eqb_eq in Hid.
  split; [exact Hid |]. split; [exact Howner |]. split.
  - unfold P.findDocument.
    destruct (List.find _ (P.documents stored0)) as [first|] eqn:Hfirst;
      [eauto |].
    exfalso. apply (List.find_none _ _ Hfirst) in Hin.
    rewrite Hid, String.eqb_refl in Hin. discriminate.
  - rewrite Howner. eauto.
Qed.

(** ** The whole pipeline *)

Lemma processDocument_calculation_failure (message : string)
  document taxReturn extractedData world :
  configured AZURE_DOCUMENT_INTELLIGENCE_ENDPOINT
    && configured AZURE_DOCUMENT_INTELLIGENCE_API_KEY = true ->
  extractDataFromDocument (P.Documents.filePath document)
    (P.Documents.documentType document) = JS.Ok extractedData ->
  fitsColumns extractedData ->
  federalFails message taxReturn ->
  stored (P.Documents.id document) (P.Documents.taxReturnId document)
    (database world) ->
  exists result world',
    processDocument document taxReturn world =
      (JS.Ok {| status := 200; body := Processed result |}, world') /\
    Outcome.taxCalculations result = None /\
    Outcome.processingStatus result = P.COMPLETED /\
    (exists stateCode,
       In (CalculateTax (P.TaxReturns.filingStatus taxReturn) stateCode)
          (calls world')) /\
    P.Documents.processingStatus
      <$> P.findDocument (database world') (P.Documents.id document)
      = Some P.COMPLETED.
Proof.
  intros Hconfigured Hextract [Hcorrected Htext] Hfederal Hstored.
  set (id := P.Documents.id document) in *.
  set (taxReturnId := P.Documents.taxReturnId document) in *.
  unfold processDocument.
  destruct (setProcessing_run id taxReturnId world Hstored)
    as (world1 & Hrun1 & Hstored1).
  erewrite run_bind by exact Hrun1.
  unfold checkConfiguration. rewrite Hconfigured.
  erewrite run_bind by reflexivity.
  destruct (extraction_run document extractedData world1 Hextract)
    as (world2 & Hrun2 & Hsame2).
  erewrite run_bind by exact Hrun2.
  rewrite <- Hsame2 in Hstored1.
  destruct (typeCorrection_run document extractedData taxReturnId world2
              Hcorrected Hstored1)
    as (finalDocumentType & world3 & Hrun3 & Hstored3).
  erewrite run_bind by exact Hrun3.
  destruct (returns_keeps (stored id taxReturnId)
              (stateDetection finalDocumentType extractedData) world3
              (stateDetection_returns _ _) (stateDetection_keeps _ _ _)
              Hstored3)
    as (stateDetectionResult & world4 & Hrun4 & Hstored4).
  erewrite run_bind by exact Hrun4.
  destruct (returns_keeps (stored id taxReturnId)
              (duplicateDetection document finalDocumentType extractedData)
              world4 (duplicateDetection_returns _ _ _)
              (duplicateDetection_keeps _ _ _ _) Hstored4)
    as (duplicateCheckResult & world5 & Hrun5 & Hstored5).
  erewrite run_bind by exact Hrun5.
  destruct (returns_keeps (stored id taxReturnId)
              (form1040Mapping document finalDocumentType extractedData)
              world5 (form1040Mapping_returns _ _ _)
              (form1040Mapping_keeps _ _ _ _ _) Hstored5)
    as ([mapping updatedTaxReturnData] & world6 & Hrun6 & Hstored6).
  erewrite run_bind by exact Hrun6.
  destruct (taxCalculation_catches message document taxReturn
              (detectedCode stateDetectionResult) updatedTaxReturnData
              id taxReturnId world6 Hfederal Hstored6)
    as (world7 & Hrun7 & Hstored7 & Hcall).
  erewrite run_bind by exact Hrun7.
  destruct (persistence_run document finalDocumentType extractedData
              stateDetectionResult duplicateCheckResult mapping None
              updatedTaxReturnData world7 Htext Hstored7)
    as (result & world8 & Hrun8 & Hnone & Hcompleted & Hcalls & Hstatus).
  exists result, world8. split; [exact Hrun8 |].
  split; [exact Hnone |]. split; [exact Hcompleted |].
  split; [| exact Hstatus].
  exists (detectedCode stateDetectionResult). rewrite Hcalls. exact Hcall.
Qed.


End PipelineProperties.

Section PipelineExamples.

Import Server ProcessRoute.
Local Open Scope Q_scope.



(** A W-2 with wages "$55,000.00" and "$6,000" withheld: the run stores
    an income entry of 55000 with 6000 withheld for the document, purges
    the orphaned entry, and recomputes the totals from the entries whose
    document exists. *)
Example POST_W2_income_entry :
  let world' := snd (Examples.processDoc2 Examples.flatFederal Prisma.PENDING) in
  map (fun entry =>
         (P.IncomeEntries.documentId entry, P.IncomeEntries.amount entry,
          P.IncomeEntries.federalTaxWithheld entry))
      (P.incomeEntries (database world'))
    = [ (Some "doc1", 55000, Some 6000); (Some "doc2", 20000, Some 2000);
        (Some "doc2", 55000, Some 6000) ] /\
  map P.TaxReturns.totalIncome (P.taxReturns (database world')) = [130000] /\
  map P.TaxReturns.detectedState (P.taxReturns (database world'))
    = [Some "TX"].
Proof. vm_compute. auto. Qed.

End PipelineExamples.

(* ===================================================================== *)
(** * Properties of amount parsing *)
(* ===================================================================== *)

Section AmountProperties.

Import ProcessRoute.
Local Open Scope Q_scope.

Context `{runtime : JS.Runtime}.

Lemma not_finite_not_NaN (n : JS.number) :
  JS.isFinite n = false -> JS.isNaN n = false -> JS.infinite n.
Proof.
  destruct n; cbn; intros Hfinite HNaN; try discriminate;
    [left | right]; reflexivity.
Qed.

(** C10, as the code has it: [parseAmount] is total and never returns NaN;
    it returns 0 for every value that is neither null/undefined, nor a
    number, nor a string, for the number NaN and for a string that does
    not parse; the amount it returns is finite unless the value is an
    infinite number or a string that parses to an infinity, which it
    returns as they are. *)
Theorem parseAmount_never_NaN (value : JS.value) :
  JS.isNaN (parseAmount value) = false /\
  (forall b, parseAmount (JS.Bool b) = JS.Fin 0) /\
  (forall fields, parseAmount (JS.Obj fields) = JS.Fin 0) /\
  (forall items, parseAmount (JS.Arr items) = JS.Fin 0) /\
  parseAmount (JS.Num JS.NaN) = JS.Fin 0 /\
  (forall text,
     JS.parseFloat (stripCurrency text) = JS.NaN ->
     parseAmount (JS.Str text) = JS.Fin 0) /\
  (JS.isFinite (parseAmount value) = false ->
   (exists n, value = JS.Num n /\ JS.infinite n /\ parseAmount value = n) \/
   (exists text,
      value = JS.Str text /\ JS.infinite (JS.parseFloat (stripCurrency text)) /\
      parseAmount value = JS.parseFloat (stripCurrency text))).
Proof.
  split; [| split; [| split; [| split; [| split; [| split]]]]];
    try reflexivity.
  - destruct value as [| | b | n | text | fields | items]; cbn;
      try reflexivity.
    + destruct (JS.isNaN n) eqn:HNaN; [reflexivity | exact HNaN].
    + destruct (JS.isNaN (JS.parseFloat (stripCurrency text))) eqn:HNaN;
        [reflexivity | exact HNaN].
  - intros text Hparse. cbn. rewrite Hparse. reflexivity.
  - destruct value as [| | b | n | text | fields | items]; cbn;
      try discriminate.
    + destruct (JS.isNaN n) eqn:HNaN; [discriminate |].
      intros Hfinite. left. exists n.
      split; [reflexivity |]. split; [| reflexivity].
      apply not_finite_not_NaN; assumption.
    + destruct (JS.isNaN (JS.parseFloat (stripCurrency text))) eqn:HNaN;
        [discriminate |].
      intros Hfinite. right. exists text.
      split; [reflexivity |]. split; [| reflexivity].
      apply not_finite_not_NaN; assumption.
Qed.

End AmountProperties.

Section AmountExamples.

Import ProcessRoute.
Local Open Scope Q_scope.

(** A W-2 amount with a currency sign and grouping. *)
Example parseAmount_wages :
  parseAmount (runtime := ReferenceRuntime.runtime) (JS.Str "$55,000.00")
    = JS.Fin 55000.
Proof. reflexivity. Qed.

(** The claim C10 as stated fails: an infinite number, or the text
    "Infinity", passes the NaN guard and is returned as the amount. *)
Lemma parseAmount_finite_counterexample :
  parseAmount (runtime := ReferenceRuntime.runtime) (JS.Num JS.PosInf)
    = JS.PosInf /\
  parseAmount (runtime := ReferenceRuntime.runtime) (JS.Str "Infinity")
    = JS.PosInf /\
  (* the amount passes the test [wagesAmount > 0] that guards the creation
     of the income entry *)
  JS.gt0 (JS.or0 (parseAmount (runtime := ReferenceRuntime.runtime)
                    (JS.Num JS.PosInf))) = true /\
  ~ (forall value,
       JS.isFinite (parseAmount (runtime := ReferenceRuntime.runtime) value)
         = true).
Proof.
  split; [reflexivity |]. split; [reflexivity |]. split; [reflexivity |].
  intros Hfinite. specialize (Hfinite (JS.Num JS.PosInf)). discriminate.
Qed.

Lemma parseAmount_never_NaN_witness :
  JS.isNaN (parseAmount (runtime := ReferenceRuntime.runtime)
              (JS.Str "not a number")) = false /\
  parseAmount (runtime := ReferenceRuntime.runtime) (JS.Str "not a number")
    = JS.Fin 0.
Proof.
  destruct (parseAmount_never_NaN (runtime := ReferenceRuntime.runtime)
              (JS.Str "not a number"))
    as (HNaN & _ & _ & _ & _ & Hunparseable & _).
  split; [exact HNaN |]. apply Hunparseable. reflexivity.
Defined.

End AmountExamples.

(* ===================================================================== *)
(** * Properties of the status stream *)
(* ===================================================================== *)

Section StreamProperties.

Import StatusStream.

(** A poll that finds the document in PROCESSING before the last allowed
    poll sends one update and sets the two-second timer. *)
Lemma fire_processing (observation : Observation) (stream : Stream)
  (currentDoc : P.Documents.Document) :
  found observation = JS.Ok (Some currentDoc) ->
  P.Documents.processingStatus currentDoc = P.PROCESSING ->
  S (polls stream) < maxPolls ->
  exists update,
    fire observation stream =
      {| sent := sent stream ++ [Update update];
         closed := closed stream;
         polls := S (polls stream);
         timer := Some 2000%Z |}.
Proof.
  intros Hfound Hstatus Hbelow. unfold fire, pollDocument.
  rewrite Hfound, Hstatus. unfold continue.
  cbn [countPoll sendUpdate polls sent closed timer].
  assert ((S (polls stream) <? maxPolls)%nat = true) as ->
    by (apply Nat.ltb_lt; exact Hbelow).
  eexists. reflexivity.
Qed.

(** The poll that reaches [maxPolls] sends its update, then the timeout
    event, and closes the stream without setting a timer. *)
Lemma fire_last (observation : Observation) (stream : Stream)
  (currentDoc : P.Documents.Document) :
  found observation = JS.Ok (Some currentDoc) ->
  P.Documents.processingStatus currentDoc = P.PROCESSING ->
  S (polls stream) = maxPolls ->
  exists update,
    fire observation stream =
      {| sent := sent stream ++ [Update update; Timeout (clock observation)];
         closed := true;
         polls := S (polls stream);
         timer := None |}.
Proof.
  intros Hfound Hstatus Hlast. unfold fire, pollDocument.
  rewrite Hfound, Hstatus. unfold continue.
  cbn [countPoll sendUpdate polls sent closed timer].
  assert ((S (polls stream) <? maxPolls)%nat = false) as ->
    by (apply Nat.ltb_ge; rewrite Hlast; apply Nat.le_refl).
  eexists. unfold close, sendUpdate, countPoll.
  cbn [sent closed polls timer]. rewrite <- app_assoc. reflexivity.
Qed.

(** From a stream with a pending timer and [remaining] polls left, the
    run sends [remaining] updates and one timeout event, and closes. *)
Lemma run_until_timeout (observe : nat -> Observation) :
  staysProcessing observe ->
  forall remaining poll stream,
    is_Some (timer stream) ->
    polls stream + S remaining = maxPolls ->
    exists updates stamp,
      run (S remaining) observe poll stream =
        {| sent := sent stream ++ updates ++ [Timeout stamp];
           closed := true;
           polls := maxPolls;
           timer := None |} /\
      length updates = S remaining /\
      Forall isUpdate updates.
Proof.
  intros Hstays. induction remaining as [|remaining IH];
    intros poll stream [delay Htimer] Hpolls.
  - destruct (Hstays poll) as (currentDoc & Hfound & Hstatus).
    destruct (fire_last (observe poll) stream currentDoc Hfound Hstatus)
      as [update Hfire]; [lia |].
    exists [Update update], (clock (observe poll)).
    cbn [run]. rewrite Htimer, Hfire.
    split; [| split; [reflexivity | repeat constructor]].
    f_equal. lia.
  - destruct (Hstays poll) as (currentDoc & Hfound & Hstatus).
    destruct (fire_processing (observe poll) stream currentDoc Hfound Hstatus)
      as [update Hfire]; [lia |].
    change (run (S (S remaining)) observe poll stream)
      with (match timer stream with
            | Some _ =>
                run (S remaining) observe (S poll) (fire (observe poll) stream)
            | None => stream
            end).
    rewrite Htimer, Hfire.
    edestruct (IH (S poll)) as (updates & stamp & Hrun & Hlength & Hupdates);
      [| | rewrite Hrun].
    + cbn. eauto.
    + cbn. lia.
    + exists (Update update :: updates), stamp.
      cbn [sent]. rewrite <- app_assoc.
      split; [reflexivity |].
      split; [cbn; lia |].
      constructor; [reflexivity | exact Hupdates].
Qed.

(** Once no timer is pending, more time changes nothing. *)
Lemma run_stopped (observe : nat -> Observation) (fuel poll : nat)
  (stream : Stream) :
  timer stream = None -> run fuel observe poll stream = stream.
Proof.
  intros Htimer. destruct fuel; cbn; [| rewrite Htimer]; reflexivity.
Qed.

Lemma run_more (observe : nat -> Observation) (fuel extra : nat) :
  forall poll stream,
    timer (run fuel observe poll stream) = None ->
    run (fuel + extra) observe poll stream = run fuel observe poll stream.
Proof.
  induction fuel as [|fuel IH]; intros poll stream Hstopped.
  - cbn in Hstopped |- *. apply run_stopped. exact Hstopped.
  - cbn in Hstopped |- *. destruct (timer stream); [| reflexivity].
    apply IH. exact Hstopped.
Qed.

Lemma count_timeouts (updates : list Event) (stamp : Z) :
  Forall isUpdate updates ->
  length (List.filter isTimeout (updates ++ [Timeout stamp])) = 1.
Proof.
  induction 1 as [|event updates Hevent _ IH]; [reflexivity |].
  cbn [app List.filter].
  destruct event; cbn in Hevent; try discriminate. exact IH.
Qed.

(** C9: for a document that stays in PROCESSING while every poll
    succeeds, the stream sends, after the [connected] event, one
    [status_update] for each of the 300 polls and then exactly one
    [timeout] event, and closes; no timer is left pending, so no event of
    any type follows the timeout, however long the channel is observed. *)
Theorem stream_times_out_after_300_polls
  (observe : nat -> Observation) (document : P.Documents.Document) (date : Z) :
  staysProcessing observe ->
  exists updates stamp,
    let final := run 300 observe 0 (start document date) in
    sent final =
      Connected (P.Documents.id document)
        (P.Documents.processingStatus document) date
      :: updates ++ [Timeout stamp] /\
    length updates = 300 /\
    Forall isUpdate updates /\
    length (List.filter isTimeout (sent final)) = 1 /\
    closed final = true /\
    timer final = None /\
    (forall later, 300 <= later ->
                   run later observe 0 (start document date) = final).
Proof.
  intros Hstays.
  destruct (run_until_timeout observe Hstays 299 0 (start document date))
    as (updates & stamp & Hrun & Hlength & Hupdates);
    [cbn; eauto | reflexivity |].
  exists updates, stamp. cbv zeta. rewrite Hrun.
  cbn [sent closed timer start app].
  split; [reflexivity |]. split; [exact Hlength |].
  split; [exact Hupdates |].
  split; [cbn [List.filter isTimeout]; apply count_timeouts; exact Hupdates |].
  split; [reflexivity |]. split; [reflexivity |].
  intros later Hlater.
  replace later with (300 + (later - 300)) by lia.
  rewrite run_more; [exact Hrun |]. rewrite Hrun. reflexivity.
Qed.

End StreamProperties.

Section StreamExamples.

Import StatusStream.

Lemma stream_times_out_after_300_polls_witness :
  exists updates stamp,
    let final :=
      run 300 Examples.stuck 0
        (start (Examples.document "doc2" Prisma.PROCESSING) 2000) in
    sent final =
      Connected "doc2" Prisma.PROCESSING 2000 :: updates ++ [Timeout stamp] /\
    length updates = 300 /\
    closed final = true /\
    timer final = None.
Proof.
  destruct (stream_times_out_after_300_polls Examples.stuck
              (Examples.document "doc2" Prisma.PROCESSING) 2000)
    as (updates & stamp & Hsent & Hlength & _ & _ & Hclosed & Htimer & _).
  - intros poll. eexists. split; reflexivity.
  - exists updates, stamp. auto.
Defined.

End StreamExamples.

(* ===================================================================== *)
(** * Bounds of the state-tax calculation *)
(* ===================================================================== *)

Section StateTaxBounds.

Import StateTaxCalculations.
Local Open Scope Q_scope.

Lemma STATE_TAX_LIST_wellFormed :
  Forall (fun entry : string * D.StateTaxInfo =>
            map_Forall (fun _ brackets => forallb wellFormed brackets = true)
                       (D.brackets entry.2))
         D.STATE_TAX_LIST.
Proof.
  unfold D.STATE_TAX_LIST.
  repeat (constructor;
          [apply map_Forall_to_list; vm_compute;
           repeat (constructor; [reflexivity |]); constructor |]).
  constructor.
Qed.

Lemma brackets_wellFormed (stateCode : string) stateInfo key brackets :
  D.getStateInfo stateCode = Some stateInfo ->
  D.brackets stateInfo !! key = Some brackets ->
  Forall (fun bracket => wellFormed bracket = true) brackets.
Proof.
  intros Hinfo Hbrackets. apply getStateInfo_listed in Hinfo.
  pose proof STATE_TAX_LIST_wellFormed as Hall.
  rewrite List.Forall_forall in Hall. specialize (Hall _ Hinfo). cbn in Hall.
  specialize (Hall key brackets Hbrackets). cbn in Hall.
  apply List.Forall_forall. intros bracket Hin.
  rewrite forallb_forall in Hall. apply Hall. exact Hin.
Qed.

Lemma wellFormed_rate bracket : wellFormed bracket = true -> 0 <= D.rate bracket.
Proof.
  unfold wellFormed. intros H. apply andb_prop in H as [H _].
  apply Qle_bool_iff. exact H.
Qed.

(** ** Deductions and exemptions of the table are not negative *)

Lemma STATE_TAX_LIST_nonneg :
  forallb (fun entry : string * D.StateTaxInfo => nonnegDeductions entry.2)
    D.STATE_TAX_LIST = true.
Proof. vm_compute. reflexivity. Qed.

Lemma getStateInfo_nonneg (stateCode : string) stateInfo :
  D.getStateInfo stateCode = Some stateInfo ->
  nonnegDeductions stateInfo = true.
Proof.
  intros Hinfo. apply getStateInfo_listed in Hinfo.
  pose proof STATE_TAX_LIST_nonneg as Hall.
  rewrite forallb_forall in Hall. exact (Hall _ Hinfo).
Qed.

Lemma orElse_nonneg (a : option Q) (b : Q) :
  nonnegOption a = true -> 0 <= b -> 0 <= orElse a b.
Proof.
  unfold orElse, nonnegOption. destruct a as [q|]; [| auto].
  intros Hq Hb. destruct (Qeq_bool q 0); [exact Hb |].
  apply Qle_bool_iff. exact Hq.
Qed.

Lemma getStateStandardDeduction_nonneg (filingStatus stateCode : string) :
  0 <= getStateStandardDeduction filingStatus stateCode.
Proof.
  unfold getStateStandardDeduction.
  destruct (D.getStateInfo stateCode) as [stateInfo|] eqn:Hinfo;
    [| apply Qle_refl].
  destruct (negb (D.hasIncomeTax stateInfo)); [apply Qle_refl |].
  pose proof (getStateInfo_nonneg _ _ Hinfo) as Hnonneg.
  unfold nonnegDeductions in Hnonneg.
  repeat (apply andb_prop in Hnonneg as [Hnonneg ?]).
  repeat match goal with
         | H : Qle_bool _ _ = true |- _ => apply Qle_bool_iff in H
         end.
  repeat match goal with
         | |- context [if ?c then _ else _] => destruct c
         end; try assumption.
  apply orElse_nonneg; assumption.
Qed.

Lemma getStatePersonalExemption_nonneg (stateCode : string) :
  0 <= getStatePersonalExemption stateCode.
Proof.
  unfold getStatePersonalExemption.
  destruct (D.getStateInfo stateCode) as [stateInfo|] eqn:Hinfo;
    [| apply Qle_refl].
  pose proof (getStateInfo_nonneg _ _ Hinfo) as Hnonneg.
  unfold nonnegDeductions in Hnonneg.
  apply andb_prop in Hnonneg as [_ Hexemption].
  apply orElse_nonneg; [exact Hexemption | apply Qle_refl].
Qed.

Lemma dependentCount_nonneg dependents : 0 <= dependentCount dependents.
Proof.
  unfold dependentCount. change 0 with (inject_Z 0). rewrite <- Zle_Qle. lia.
Qed.

(** ** The marginal-rate loop *)

Lemma marginalRateLoop_from (taxable : Q) brackets (start : Q) :
  let result :=
    fold_left
      (fun marginalRate bracket =>
         if Qle_bool taxable (D.min bracket) then marginalRate
         else D.rate bracket * 100)
      brackets start in
  result = start \/
  exists bracket, In bracket brackets /\ D.min bracket < taxable /\
                  result = D.rate bracket * 100.
Proof.
  revert start. induction brackets as [|bracket rest IH]; intros start; cbn.
  - left. reflexivity.
  - destruct (Qle_bool taxable (D.min bracket)) eqn:Hexit.
    + destruct (IH start) as [->|(b & Hin & Hlt & ->)]; [left; reflexivity |].
      right. exists b. auto.
    + apply Qle_bool_false_lt in Hexit.
      destruct (IH (D.rate bracket * 100)) as [->|(b & Hin & Hlt & ->)].
      * right. exists bracket. auto.
      * right. exists b. auto.
Qed.

Lemma marginalRateLoop_rate (taxable : Q) brackets :
  marginalRateLoop taxable brackets = 0 \/
  exists bracket, In bracket brackets /\ D.min bracket < taxable /\
                  marginalRateLoop taxable brackets = D.rate bracket * 100.
Proof. apply marginalRateLoop_from. Qed.

(** ** The bracket loop on well-formed tables *)

Lemma Math_min_mono (a b : Q) ceiling :
  a <= b -> Math_min a ceiling <= Math_min b ceiling.
Proof.
  intros Hab. destruct ceiling as [m|]; cbn; [| exact Hab].
  apply Q.min_glb.
  - eapply Qle_trans; [apply Q.le_min_l | exact Hab].
  - apply Q.le_min_r.
Qed.

Lemma Math_min_floor bracket (income : Q) :
  wellFormed bracket = true -> D.min bracket < income ->
  D.min bracket <= Math_min income (D.max bracket).
Proof.
  unfold wellFormed. intros H Hlt. apply andb_prop in H as [_ H].
  destruct (D.max bracket) as [m|]; cbn.
  - apply Qle_bool_iff in H. apply Q.min_glb; [apply Qlt_le_weak; exact Hlt | exact H].
  - apply Qlt_le_weak. exact Hlt.
Qed.

Lemma accumulate_ge bracket (income tax : Q) :
  wellFormed bracket = true -> D.min bracket < income ->
  tax <= accumulate income tax bracket.
Proof.
  intros Hwf Hlt. unfold accumulate.
  pose proof (Math_min_floor _ _ Hwf Hlt) as Hfloor.
  pose proof (wellFormed_rate _ Hwf) as Hrate.
  assert (0 <= (Math_min income (D.max bracket) - D.min bracket) * D.rate bracket)
    as Hterm.
  { apply Qmult_le_0_compat; [| exact Hrate].
    unfold Qminus. rewrite <- Qle_minus_iff. exact Hfloor. }
  rewrite <- (Qplus_0_r tax) at 1. apply Qplus_le_compat; [apply Qle_refl | exact Hterm].
Qed.

Lemma accumulate_mono bracket (a b t1 t2 : Q) :
  wellFormed bracket = true -> a <= b -> t1 <= t2 ->
  accumulate a t1 bracket <= accumulate b t2 bracket.
Proof.
  intros Hwf Hab Ht. unfold accumulate.
  apply Qplus_le_compat; [exact Ht |].
  apply Qmult_le_compat_r; [| apply wellFormed_rate; exact Hwf].
  apply Qplus_le_compat; [| apply Qle_refl].
  apply Math_min_mono. exact Hab.
Qed.

Lemma bracketLoop_ge (income : Q) brackets :
  Forall (fun bracket => wellFormed bracket = true) brackets ->
  forall tax, tax <= bracketLoop income brackets tax.
Proof.
  induction 1 as [|bracket rest Hwf _ IH]; intros tax; cbn [bracketLoop].
  - apply Qle_refl.
  - destruct (Qle_bool income (D.min bracket)) eqn:Hexit; [apply Qle_refl |].
    apply Qle_bool_false_lt in Hexit.
    eapply Qle_trans; [| apply IH]. apply accumulate_ge; assumption.
Qed.

Lemma bracketLoop_mono (a b : Q) brackets :
  Forall (fun bracket => wellFormed bracket = true) brackets ->
  a <= b ->
  forall t1 t2, t1 <= t2 ->
    bracketLoop a brackets t1 <= bracketLoop b brackets t2.
Proof.
  intros Hall Hab. induction Hall as [|bracket rest Hwf Hrest IH];
    intros t1 t2 Ht; cbn [bracketLoop]; [exact Ht |].
  destruct (Qle_bool a (D.min bracket)) eqn:Ha.
  - destruct (Qle_bool b (D.min bracket)) eqn:Hb; [exact Ht |].
    apply Qle_bool_false_lt in Hb.
    eapply Qle_trans; [exact Ht |].
    eapply Qle_trans; [| apply bracketLoop_ge; exact Hrest].
    apply accumulate_ge; assumption.
  - apply Qle_bool_false_lt in Ha.
    assert (Qle_bool b (D.min bracket) = false) as ->.
    { apply not_true_iff_false. intros Hb. apply Qle_bool_iff in Hb.
      apply (Qlt_irrefl (D.min bracket)).
      eapply Qlt_le_trans; [exact Ha |]. eapply Qle_trans; eassumption. }
    apply IH. apply accumulate_mono; assumption.
Qed.

Lemma roundToCents_mono (x y : Q) : x <= y -> roundToCents x <= roundToCents y.
Proof.
  intros Hxy. unfold roundToCents, JS.Math_round.
  apply Qmult_le_compat_r; [| discriminate].
  rewrite <- Zle_Qle. apply Qfloor_resp_le.
  apply Qplus_le_compat; [| apply Qle_refl].
  apply Qmult_le_compat_r; [exact Hxy | discriminate].
Qed.

Lemma roundToCents_nonneg (x : Q) : 0 <= x -> 0 <= roundToCents x.
Proof.
  intros Hx. apply Qle_trans with (roundToCents 0); [discriminate |].
  apply roundToCents_mono. exact Hx.
Qed.

Lemma calculateStateTaxLiability_nonneg (income : Q) (filingStatus stateCode : string) :
  0 <= calculateStateTaxLiability income filingStatus stateCode.
Proof.
  unfold calculateStateTaxLiability.
  destruct (D.getStateInfo stateCode) as [stateInfo|] eqn:Hinfo;
    [| apply Qle_refl].
  destruct (negb (D.hasIncomeTax stateInfo)); [apply Qle_refl |].
  destruct (D.brackets stateInfo !! bracketKey filingStatus)
    as [brackets|] eqn:Hbrackets; [| apply Qle_refl].
  pose proof (brackets_wellFormed _ _ _ _ Hinfo Hbrackets) as Hwf.
  destruct brackets as [|bracket rest]; [apply Qle_refl |].
  apply roundToCents_nonneg. apply bracketLoop_ge. exact Hwf.
Qed.



(** What [calculateStateTax] returns for a state with an income tax. *)
Lemma calculateStateTax_taxed agi filingStatus stateCode itemized dependents result :
  calculateStateTax agi filingStatus stateCode itemized dependents = JS.Ok result ->
  hasIncomeTax result = true ->
  exists stateInfo,
    D.getStateInfo stateCode = Some stateInfo /\
    D.hasIncomeTax stateInfo = true /\
    stateStandardDeduction result = getStateStandardDeduction filingStatus stateCode /\
    stateTaxableIncome result =
      JS.Math_max 0
        (agi - JS.Math_max (getStateStandardDeduction filingStatus stateCode)
                 (default 0 itemized)
             - getStatePersonalExemption stateCode
               * (1 + dependentCount (default [] dependents))) /\
    stateTaxLiability result =
      calculateStateTaxLiability (stateTaxableIncome result) filingStatus stateCode /\
    stateEffectiveRate result =
      (if Qle_bool agi 0 then 0
       else (stateTaxLiability result / agi) * 100) /\
    stateMarginalRate result =
      match D.brackets stateInfo !! bracketKey filingStatus with
      | Some brackets => marginalRateLoop (stateTaxableIncome result) brackets
      | None => 0
      end.
Proof.
  unfold calculateStateTax. intros Hrun Htaxed.
  destruct (D.getStateInfo stateCode) as [stateInfo|] eqn:Hinfo; [| discriminate].
  destruct (D.hasIncomeTax stateInfo) eqn:Hflag; cbn [negb] in Hrun.
  - injection Hrun as <-. exists stateInfo.
    split; [reflexivity |]. split; [exact Hflag |].
    cbn. repeat split; reflexivity.
  - injection Hrun as <-. cbn in Htaxed. congruence.
Qed.

Lemma calculateStateTax_untaxed agi filingStatus stateCode itemized dependents result :
  calculateStateTax agi filingStatus stateCode itemized dependents = JS.Ok result ->
  hasIncomeTax result = false ->
  stateStandardDeduction result = 0 /\ stateTaxableIncome result = 0 /\
  stateTaxLiability result = 0 /\ stateEffectiveRate result = 0 /\
  stateMarginalRate result = 0.
Proof.
  unfold calculateStateTax. intros Hrun Htaxed.
  destruct (D.getStateInfo stateCode) as [stateInfo|] eqn:Hinfo; [| discriminate].
  destruct (D.hasIncomeTax stateInfo) eqn:Hflag; cbn [negb] in Hrun.
  - injection Hrun as <-. cbn in Htaxed. congruence.
  - injection Hrun as <-. cbn. repeat split; reflexivity.
Qed.

(** X2: the state taxable income lies between zero and the adjusted gross
    income (zero when that is negative), and neither the liability nor
    the two rates nor the deduction is negative. *)
Theorem calculateStateTax_bounds
  (adjustedGrossIncome : Q) (filingStatus stateCode : string)
  (stateItemizedDeductions : option Q) (dependents : option (list Dependent))
  (result : StateTaxCalculationResult) :
  calculateStateTax adjustedGrossIncome filingStatus stateCode
    stateItemizedDeductions dependents = JS.Ok result ->
  0 <= stateTaxableIncome result /\
  stateTaxableIncome result <= JS.Math_max 0 adjustedGrossIncome /\
  0 <= stateStandardDeduction result /\
  0 <= stateTaxLiability result /\
  0 <= stateEffectiveRate result /\
  0 <= stateMarginalRate result.
Proof.
  intros Hrun. destruct (hasIncomeTax result) eqn:Htaxed.
  - destruct (calculateStateTax_taxed _ _ _ _ _ _ Hrun Htaxed)
      as (stateInfo & Hinfo & Hflag & Hsd & Hti & Hliab & Heff & Hmarg).
    assert (0 <= stateTaxLiability result) as Hnonneg
      by (rewrite Hliab; apply calculateStateTaxLiability_nonneg).
    repeat split.
    + rewrite Hti. apply Q.le_max_l.
    + rewrite Hti. unfold JS.Math_max. apply Q.max_lub; [apply Q.le_max_l |].
      eapply Qle_trans; [| apply Q.le_max_r].
      pose proof (getStateStandardDeduction_nonneg filingStatus stateCode) as Hsd0.
      pose proof (getStatePersonalExemption_nonneg stateCode) as Hex0.
      pose proof (dependentCount_nonneg (default [] dependents)) as Hcount.
      assert (0 <= Qmax (getStateStandardDeduction filingStatus stateCode)
                     (default 0 stateItemizedDeductions)) as Hded
        by (eapply Qle_trans; [exact Hsd0 | apply Q.le_max_l]).
      assert (0 <= getStatePersonalExemption stateCode
                   * (1 + dependentCount (default [] dependents))) as Hex.
      { apply Qmult_le_0_compat; [exact Hex0 |].
        change 0 with (0 + 0). apply Qplus_le_compat; [discriminate | exact Hcount]. }
      unfold JS.Math_max. lra.
    + rewrite Hsd. apply getStateStandardDeduction_nonneg.
    + exact Hnonneg.
    + rewrite Heff. destruct (Qle_bool adjustedGrossIncome 0) eqn:Hagi;
        [apply Qle_refl |].
      apply Qle_bool_false_lt in Hagi.
      apply Qmult_le_0_compat; [| discriminate].
      apply Qle_shift_div_l; [exact Hagi |].
      rewrite Qmult_0_l. exact Hnonneg.
    + rewrite Hmarg.
      destruct (D.brackets stateInfo !! bracketKey filingStatus)
        as [brackets|] eqn:Hbrackets; [| apply Qle_refl].
      destruct (marginalRateLoop_rate (stateTaxableIncome result) brackets)
        as [->|(bracket & Hin & _ & ->)]; [apply Qle_refl |].
      apply Qmult_le_0_compat; [| discriminate].
      apply wellFormed_rate.
      pose proof (brackets_wellFormed _ _ _ _ Hinfo Hbrackets) as Hwf.
      rewrite List.Forall_forall in Hwf. apply Hwf. exact Hin.
  - destruct (calculateStateTax_untaxed _ _ _ _ _ _ Hrun Htaxed)
      as (-> & -> & -> & -> & ->).
    repeat split; try apply Qle_refl. apply Q.le_max_l.
Qed.

End StateTaxBounds.

Section StateTaxSummaries.

Import StateTaxCalculations.
Local Open Scope Q_scope.

Lemma maxRate_ge_first (first : Q) others : first <= maxRate first others.
Proof.
  unfold maxRate. revert first.
  induction others as [|other rest IH]; intros first; cbn [fold_left].
  - apply Qle_refl.
  - eapply Qle_trans; [| apply IH]. apply Q.le_max_l.
Qed.

Lemma maxRate_ge_others (first : Q) others other :
  In other others -> other <= maxRate first others.
Proof.
  unfold maxRate. revert first.
  induction others as [|next rest IH]; intros first Hin; [destruct Hin |].
  cbn [fold_left]. destruct Hin as [->|Hin].
  - eapply Qle_trans; [| apply (maxRate_ge_first (JS.Math_max first other) rest)].
    apply Q.le_max_r.
  - apply IH. exact Hin.
Qed.

(** X3: for a single filer the marginal rate that [calculateStateTax]
    reports never exceeds the top marginal rate of [getStateTaxSummary]. *)
Theorem stateMarginalRate_below_top
  (adjustedGrossIncome : Q) (filingStatus stateCode : string)
  (stateItemizedDeductions : option Q) (dependents : option (list Dependent))
  (result : StateTaxCalculationResult) :
  bracketKey filingStatus = "single" ->
  calculateStateTax adjustedGrossIncome filingStatus stateCode
    stateItemizedDeductions dependents = JS.Ok result ->
  stateMarginalRate result
    <= Summary.topMarginalRate (getStateTaxSummary stateCode).
Proof.
  intros Hkey Hrun. destruct (hasIncomeTax result) eqn:Htaxed.
  - destruct (calculateStateTax_taxed _ _ _ _ _ _ Hrun Htaxed)
      as (stateInfo & Hinfo & Hflag & _ & _ & _ & _ & Hmarg).
    rewrite Hmarg, Hkey. unfold getStateTaxSummary. rewrite Hinfo, Hflag.
    cbn [negb Summary.topMarginalRate].
    destruct (D.brackets stateInfo !! "single") as [brackets|] eqn:Hbrackets;
      cbn [default]; [| apply Qle_refl].
    pose proof (brackets_wellFormed _ _ _ _ Hinfo Hbrackets) as Hwf.
    destruct brackets as [|first others]; [apply Qle_refl |].
    assert (0 <= D.rate first) as Hfirst
      by (apply wellFormed_rate; inversion Hwf; assumption).
    destruct (marginalRateLoop_rate (stateTaxableIncome result) (first :: others))
      as [->|(bracket & Hin & _ & ->)].
    + apply Qmult_le_0_compat; [| discriminate].
      eapply Qle_trans; [exact Hfirst | apply maxRate_ge_first].
    + apply Qmult_le_compat_r; [| discriminate].
      destruct Hin as [<-|Hin]; [apply maxRate_ge_first |].
      apply maxRate_ge_others. apply in_map. exact Hin.
  - destruct (calculateStateTax_untaxed _ _ _ _ _ _ Hrun Htaxed)
      as (_ & _ & _ & _ & ->).
    unfold calculateStateTax in Hrun. unfold getStateTaxSummary.
    destruct (D.getStateInfo stateCode) as [stateInfo|]; [| discriminate].
    destruct (D.hasIncomeTax stateInfo) eqn:Hflag; cbn [negb] in Hrun |- *.
    + injection Hrun as <-. cbn in Htaxed. congruence.
    + apply Qle_refl.
Qed.

Lemma stateMarginalRate_below_top_witness :
  exists result,
    calculateStateTax 85000 "SINGLE" "NY" None None = JS.Ok result /\
    stateMarginalRate result
      <= Summary.topMarginalRate (getStateTaxSummary "NY").
Proof.
  eexists. split; [reflexivity |].
  apply (stateMarginalRate_below_top 85000 "SINGLE" "NY" None None);
    reflexivity.
Defined.

Lemma calculateCombinedTax_fields
  (adjustedGrossIncome federalTaxableIncome federalTaxLiability
     federalEffectiveRate federalMarginalRate : Q)
  (filingStatus stateCode : string)
  (stateItemizedDeductions : option Q) (dependents : option (list Dependent))
  (totalCredits totalWithholdings : option Q) (combined : CombinedTaxResult) :
  calculateCombinedTax adjustedGrossIncome federalTaxableIncome
    federalTaxLiability federalEffectiveRate federalMarginalRate
    filingStatus stateCode stateItemizedDeductions dependents
    totalCredits totalWithholdings = JS.Ok combined ->
  calculateStateTax adjustedGrossIncome filingStatus stateCode
    (Some (default 0 stateItemizedDeductions))
    (Some (default [] dependents)) = JS.Ok (stateTax combined) /\
  totalTaxLiability combined
    = federalTaxLiability + stateTaxLiability (stateTax combined) /\
  finalTax combined
    = totalTaxLiability combined - default 0 totalCredits
      - default 0 totalWithholdings /\
  refundAmount combined
    = (if Qle_bool 0 (finalTax combined) then 0
       else JS.Math_abs (finalTax combined)) /\
  amountOwed combined
    = (if Qle_bool (finalTax combined) 0 then 0 else finalTax combined).
Proof.
  unfold calculateCombinedTax. intros Hrun.
  destruct (calculateStateTax adjustedGrossIncome filingStatus stateCode
              (Some (default 0 stateItemizedDeductions))
              (Some (default [] dependents))) as [state|message];
    [| discriminate].
  injection Hrun as <-. repeat split; reflexivity.
Qed.

(** X4: the combined result: the total is the federal plus the state
    liability, the final tax is the total less credits and withholdings,
    and it is split into a refund and an amount owed that are never
    negative and never both different from zero. *)
Theorem calculateCombinedTax_refund_or_owed
  (adjustedGrossIncome federalTaxableIncome federalTaxLiability
     federalEffectiveRate federalMarginalRate : Q)
  (filingStatus stateCode : string)
  (stateItemizedDeductions : option Q) (dependents : option (list Dependent))
  (totalCredits totalWithholdings : option Q) (combined : CombinedTaxResult) :
  calculateCombinedTax adjustedGrossIncome federalTaxableIncome
    federalTaxLiability federalEffectiveRate federalMarginalRate
    filingStatus stateCode stateItemizedDeductions dependents
    totalCredits totalWithholdings = JS.Ok combined ->
  totalTaxLiability combined
    = federalTaxLiability + stateTaxLiability (stateTax combined) /\
  finalTax combined
    = totalTaxLiability combined - default 0 totalCredits
      - default 0 totalWithholdings /\
  0 <= refundAmount combined /\
  0 <= amountOwed combined /\
  (refundAmount combined == 0 \/ amountOwed combined == 0) /\
  amountOwed combined - refundAmount combined == finalTax combined.
Proof.
  intros Hrun.
  destruct (calculateCombinedTax_fields _ _ _ _ _ _ _ _ _ _ _ _ Hrun)
    as (_ & Htotal & Hfinal & -> & ->).
  split; [exact Htotal |]. split; [exact Hfinal |].
  set (final := finalTax combined).
  unfold JS.Math_abs.
  destruct (Qle_bool 0 final) eqn:Hrefund;
    destruct (Qle_bool final 0) eqn:Howed;
    try apply Qle_bool_iff in Hrefund; try apply Qle_bool_iff in Howed;
    try apply Qle_bool_false_lt in Hrefund;
    try apply Qle_bool_false_lt in Howed.
  all: try rewrite (Qabs_neg final) by (apply Qlt_le_weak; exact Hrefund).
  all: repeat split; try apply Qle_refl;
    try (left; reflexivity); try (right; reflexivity); lra.
Qed.

Lemma calculateCombinedTax_refund_or_owed_witness :
  exists combined,
    calculateCombinedTax 85000 70400 10535 12.4 22 "SINGLE" "NY"
      None None (Some 0) (Some 16000) = JS.Ok combined /\
    0 <= refundAmount combined /\
    amountOwed combined == 0 /\
    amountOwed combined - refundAmount combined == finalTax combined.
Proof.
  eexists. split; [reflexivity |].
  destruct (calculateCombinedTax_refund_or_owed 85000 70400 10535 12.4 22
              "SINGLE" "NY" None None (Some 0) (Some 16000) _ eq_refl)
    as (_ & _ & Hrefund & _ & _ & Hsplit).
  split; [exact Hrefund |]. split; [reflexivity | exact Hsplit].
Defined.

(** ** Filing statuses without a bracket table *)

Lemma STATE_TAX_LIST_bracketKeys :
  Forall (fun entry : string * D.StateTaxInfo =>
            map_Forall
              (fun key _ => existsb (String.eqb key) bracketKeys = true)
              (D.brackets entry.2))
         D.STATE_TAX_LIST.
Proof.
  unfold D.STATE_TAX_LIST.
  repeat (constructor;
          [apply map_Forall_to_list; vm_compute;
           repeat (constructor; [reflexivity |]); constructor |]).
  constructor.
Qed.

Lemma unlisted_key_no_brackets (stateCode : string) stateInfo key :
  D.getStateInfo stateCode = Some stateInfo ->
  ~ In key bracketKeys ->
  D.brackets stateInfo !! key = None.
Proof.
  intros Hinfo Hkey. apply getStateInfo_listed in Hinfo.
  pose proof STATE_TAX_LIST_bracketKeys as Hall.
  rewrite List.Forall_forall in Hall. specialize (Hall _ Hinfo).
  cbn [snd] in Hall.
  destruct (D.brackets stateInfo !! key) as [brackets|] eqn:Hbrackets;
    [| reflexivity].
  specialize (Hall key brackets Hbrackets). cbn beta in Hall.
  apply existsb_exists in Hall as (listed & Hin & Heq).
  apply String.eqb_eq in Heq. subst listed. contradiction.
Qed.



(** ** The table and its two listings *)

Lemma STATE_TAX_LIST_keys :
  forallb
    (fun entry : string * D.StateTaxInfo =>
       String.eqb entry.1 (D.stateCode entry.2)
       && String.eqb (JS.toUpperCase entry.1) entry.1
       && String.eqb (JS.toUpperCase (JS.toLowerCase entry.1)) entry.1)
    D.STATE_TAX_LIST = true.
Proof. vm_compute. reflexivity. Qed.

Lemma STATE_TAX_LIST_NoDup : NoDup (D.STATE_TAX_LIST.*1).
Proof. apply (bool_decide_unpack _). vm_compute. reflexivity. Qed.

Lemma values_listed (stateInfo : D.StateTaxInfo) :
  In stateInfo D.values ->
  In (D.stateCode stateInfo, stateInfo) D.STATE_TAX_LIST /\
  JS.toUpperCase (D.stateCode stateInfo) = D.stateCode stateInfo /\
  JS.toUpperCase (JS.toLowerCase (D.stateCode stateInfo))
    = D.stateCode stateInfo.
Proof.
  unfold D.values. intros Hin. apply in_map_iff in Hin as ([code info] & Heq & Hin).
  cbn in Heq. subst info.
  pose proof STATE_TAX_LIST_keys as Hkeys. rewrite forallb_forall in Hkeys.
  specialize (Hkeys _ Hin). cbn [fst snd] in Hkeys.
  apply andb_prop in Hkeys as [Hkeys Hlower].
  apply andb_prop in Hkeys as [Hcode Hupper].
  apply String.eqb_eq in Hcode, Hupper, Hlower. subst code.
  auto.
Qed.

Lemma listed_lookup (code : string) (stateInfo : D.StateTaxInfo) :
  In (code, stateInfo) D.STATE_TAX_LIST ->
  D.STATE_TAX_DATA !! code = Some stateInfo.
Proof.
  intros Hin. unfold D.STATE_TAX_DATA.
  apply elem_of_list_to_map_1; [exact STATE_TAX_LIST_NoDup |].
  apply list_elem_of_In. exact Hin.
Qed.

(** X6: every state of the two listings is found again by [getStateInfo]
    under its own [stateCode], in upper or lower case, and it is in the
    listing its [hasIncomeTax] flag names and in no other. *)
Theorem getStateInfo_round_trip (stateInfo : D.StateTaxInfo) :
  In stateInfo (D.getStatesWithIncomeTax ++ D.getStatesWithoutIncomeTax)%list ->
  D.getStateInfo (D.stateCode stateInfo) = Some stateInfo /\
  D.getStateInfo (JS.toLowerCase (D.stateCode stateInfo)) = Some stateInfo /\
  (In stateInfo D.getStatesWithIncomeTax
     <-> D.hasIncomeTax stateInfo = true) /\
  (In stateInfo D.getStatesWithoutIncomeTax
     <-> D.hasIncomeTax stateInfo = false).
Proof.
  intros Hin.
  assert (In stateInfo D.values) as Hvalue.
  { apply in_app_or in Hin as [Hin|Hin];
      apply filter_In in Hin as [Hin _]; exact Hin. }
  destruct (values_listed _ Hvalue) as (Hlisted & Hupper & Hlower).
  apply listed_lookup in Hlisted.
  unfold D.getStateInfo. rewrite Hupper, Hlower.
  split; [exact Hlisted |]. split; [exact Hlisted |].
  unfold D.getStatesWithIncomeTax, D.getStatesWithoutIncomeTax.
  split; rewrite filter_In; [tauto |].
  rewrite negb_true_iff. tauto.
Qed.

Lemma getStateInfo_round_trip_witness :
  D.getStateInfo "WA" = Some D.WA /\
  D.getStateInfo "wa" = Some D.WA /\
  (In D.WA D.getStatesWithIncomeTax <-> D.hasIncomeTax D.WA = true) /\
  (In D.WA D.getStatesWithoutIncomeTax <-> D.hasIncomeTax D.WA = false).
Proof.
  apply (getStateInfo_round_trip D.WA).
  vm_compute. tauto.
Defined.

End StateTaxSummaries.

Section StateTaxBoundsExamples.

Import StateTaxCalculations.
Local Open Scope Q_scope.

Lemma calculateStateTax_bounds_witness :
  exists result,
    calculateStateTax 85000 "SINGLE" "CA" (Some 12000) (Some [])
      = JS.Ok result /\
    0 <= stateTaxableIncome result /\
    stateTaxableIncome result <= JS.Math_max 0 85000 /\
    0 <= stateStandardDeduction result /\
    0 <= stateTaxLiability result /\
    0 <= stateEffectiveRate result /\
    0 <= stateMarginalRate result.
Proof.
  eexists. split; [vm_compute; reflexivity |].
  eapply (calculateStateTax_bounds 85000 "SINGLE" "CA" (Some 12000) (Some [])).
  vm_compute. reflexivity.
Defined.

End StateTaxBoundsExamples.

(* ===================================================================== *)
(** * What the state detection returns *)
(* ===================================================================== *)

Section StateDetectionResults.

Import StateDetection.
Local Open Scope Q_scope.

Context `{runtime : JS.Runtime} `{classifier : Classifier}.

Lemma isStateCode_nonempty (code : string) :
  isStateCode code = true -> String.eqb code "" = false.
Proof.
  intros Hcode. destruct (String.eqb code "") eqn:Hempty; [| reflexivity].
  apply String.eqb_eq in Hempty. subst code. discriminate.
Qed.

Lemma STATE_NAME_TO_CODE_valid (name code : string) :
  STATE_NAME_TO_CODE !! name = Some code -> isStateCode code = true.
Proof.
  revert name code.
  change (map_Forall (fun _ code => isStateCode code = true) STATE_NAME_TO_CODE).
  apply map_Forall_to_list. vm_compute.
  repeat (constructor; [reflexivity |]). constructor.
Qed.

Lemma resolveCandidate_valid (candidate code : string) :
  resolveCandidate candidate = Some code -> isStateCode code = true.
Proof.
  unfold resolveCandidate.
  destruct (isStateCode (JS.toUpperCase (JS.trim candidate))) eqn:Hcode.
  - intros [= <-]. exact Hcode.
  - apply STATE_NAME_TO_CODE_valid.
Qed.

Lemma patternLoop_valid (text : string) (remaining : list JS.regex) code :
  patternLoop text remaining = Some code -> isStateCode code = true.
Proof.
  induction remaining as [|pattern rest IH]; [discriminate |].
  cbn [patternLoop].
  destruct (JS.exec pattern text) as [candidate|]; [| exact IH].
  destruct (resolveCandidate candidate) as [resolved|] eqn:Hresolved;
    [| exact IH].
  intros [= <-]. eapply resolveCandidate_valid. exact Hresolved.
Qed.

Lemma directStateLoop_wellFormed (data : JS.object) (fields : list string) :
  wellFormedResult data (directStateLoop data fields).
Proof.
  induction fields as [|field rest IH]; [reflexivity |].
  cbn [directStateLoop].
  destruct (JS.get data field) as [| | | |text| |]; try exact IH.
  destruct (String.eqb text ""); [exact IH |].
  destruct (isStateCode (JS.toUpperCase (JS.trim text))) eqn:Hcode;
    [| exact IH].
  split; [exact Hcode |]. cbn. destruct (JS.includes "employee" field); discriminate.
Qed.

Lemma addressFields_sources :
  Forall (fun entry : string * Source => entry.2 <> unknown) addressFields.
Proof. repeat (constructor; [discriminate |]). constructor. Qed.

Lemma addressLoop_wellFormed (data : JS.object) (fields : list (string * Source)) :
  Forall (fun entry : string * Source => entry.2 <> unknown) fields ->
  wellFormedResult data (addressLoop data fields).
Proof.
  induction 1 as [|[field fieldSource] rest Hsource _ IH]; [reflexivity |].
  cbn [addressLoop].
  destruct (JS.get data field) as [| | | |text| |]; try exact IH.
  destruct (String.eqb text ""); [exact IH |].
  destruct (parseStateFromAddress text) as [state|] eqn:Hparse; [| exact IH].
  split; [| exact Hsource]. eapply patternLoop_valid. exact Hparse.
Qed.

Lemma acceptedStateCode_valid (value : JS.value) (code : string) :
  acceptedStateCode value = JS.Ok (Some code) -> isStateCode code = true.
Proof.
  unfold acceptedStateCode. intros Haccepted.
  apply Result_bind_ok in Haccepted as (stateCode & _ & Haccepted).
  destruct (JS.truthy stateCode); [| discriminate].
  destruct stateCode as [| | | |text| |]; try discriminate.
  destruct (isStateCode (JS.toUpperCase text)) eqn:Hcode; [| discriminate].
  injection Haccepted as <-. exact Hcode.
Qed.

Lemma detectStateUsingLLM_wellFormed (input : StateDetectionInput) result :
  detectStateUsingLLM input = JS.Ok result ->
  wellFormedResult (extractedData input) result.
Proof.
  unfold detectStateUsingLLM, askClassifier.
  destruct (fetchStateDetection (llmPrompt input)) as [response|message];
    cbn; [| intros [= <-]; reflexivity].
  destruct (ok response); cbn; [| intros [= <-]; reflexivity].
  destruct (json response) as [value|message]; cbn;
    [| intros [= <-]; reflexivity].
  destruct (acceptedStateCode value) as [[code|]|message] eqn:Haccepted; cbn;
    try (intros [= <-]; reflexivity).
  destruct (JS.property value "confidence") as [confidenceValue|]; cbn;
    [| intros [= <-]; reflexivity].
  destruct (JS.property value "reasoning") as [reasoning|]; cbn;
    [| intros [= <-]; reflexivity].
  intros [= <-]. split; [| discriminate].
  eapply acceptedStateCode_valid. exact Haccepted.
Qed.

Lemma found_wellFormed (data : JS.object) result :
  wellFormedResult data result ->
  found result = match detectedState result with Some _ => true | None => false end.
Proof.
  unfold wellFormedResult, found.
  destruct (detectedState result) as [code|]; [| reflexivity].
  intros [Hcode _]. rewrite (isStateCode_nonempty _ Hcode). reflexivity.
Qed.


End StateDetectionResults.

Section StateDetectionTables.

Import StateDetection.
Local Open Scope Q_scope.

Context `{runtime : JS.Runtime} `{classifier : Classifier}.

(** X8: a valid code in [employeeState] decides the detection: the result is
    that code, trimmed and in upper case, with confidence 0.95 and source
    [address], whatever the other fields, the addresses and the
    classifier say. *)
Theorem detectStateFromDocument_employeeState
  (input : StateDetectionInput) (text : string) :
  JS.get (extractedData input) "employeeState" = JS.Str text ->
  isStateCode (JS.toUpperCase (JS.trim text)) = true ->
  detectStateFromDocument input =
    JS.Ok {| detectedState := Some (JS.toUpperCase (JS.trim text));
             confidence := JS.Fin 0.95;
             source := address;
             rawData := extractedData input |}.
Proof.
  intros Hfield Hcode.
  assert (String.eqb text "" = false) as Hnonempty.
  { destruct (String.eqb text "") eqn:Hempty; [| reflexivity].
    apply String.eqb_eq in Hempty. subst text. discriminate. }
  unfold detectStateFromDocument, extractDirectStateField, stateFields.
  cbn [directStateLoop]. rewrite Hfield, Hnonempty, Hcode.
  unfold found. cbn [detectedState].
  destruct (String.eqb (JS.toUpperCase (JS.trim text)) "") eqn:Hempty.
  - apply String.eqb_eq in Hempty. rewrite Hempty in Hcode. discriminate.
  - reflexivity.
Qed.

End StateDetectionTables.

Section StateDetectionTableExamples.

Import StateDetection.
Local Open Scope Q_scope.

Lemma detectStateFromDocument_employeeState_witness :
  detectStateFromDocument
    (runtime := ReferenceRuntime.runtime)
    (classifier := Examples.unreachableClassifier)
    {| documentType := "W2";
       extractedData :=
         list_to_map
           [ ("employeeState", JS.Str " ny ");
             ("employerState", JS.Str "CA");
             ("employeeAddress", JS.Str "1 Main St, Austin, TX 78701") ] |}
  = JS.Ok {| detectedState := Some "NY";
             confidence := JS.Fin 0.95;
             source := address;
             rawData :=
               list_to_map
                 [ ("employeeState", JS.Str " ny ");
                   ("employerState", JS.Str "CA");
                   ("employeeAddress", JS.Str "1 Main St, Austin, TX 78701") ] |}.
Proof.
  exact (detectStateFromDocument_employeeState
           (runtime := ReferenceRuntime.runtime)
           (classifier := Examples.unreachableClassifier)
           {| documentType := "W2";
              extractedData :=
                list_to_map
                  [ ("employeeState", JS.Str " ny ");
                    ("employerState", JS.Str "CA");
                    ("employeeAddress",
                     JS.Str "1 Main St, Austin, TX 78701") ] |}
           " ny " eq_refl eq_refl).
Defined.

Lemma US_STATES_ENTRIES_NoDup : NoDup (US_STATES_ENTRIES.*1).
Proof. apply (bool_decide_unpack _). vm_compute. reflexivity. Qed.

Lemma US_STATES_ENTRIES_names :
  Forall
    (fun entry : string * string =>
       JS.toUpperCase entry.1 = entry.1 /\
       resolveCandidate entry.2 = Some entry.1 /\
       resolveCandidate (JS.toUpperCase entry.2) = Some entry.1 /\
       resolveCandidate (JS.toLowerCase entry.2) = Some entry.1 /\
       STATE_NAME_TO_CODE !! JS.toLowerCase entry.2 = Some entry.1)
    US_STATES_ENTRIES.
Proof.
  unfold US_STATES_ENTRIES.
  repeat (constructor; [vm_compute; repeat split; reflexivity |]).
  constructor.
Qed.

(** X9: the name table inverts the code table: the name [getStateName]
    gives for a code, written as it is, in upper or in lower case,
    resolves to that code again, and the code is one of
    [getAllStatesCodes]. *)
Theorem getStateName_round_trip (stateCode name : string) :
  getStateName stateCode = Some name ->
  In (JS.toUpperCase stateCode) getAllStatesCodes /\
  STATE_NAME_TO_CODE !! JS.toLowerCase name = Some (JS.toUpperCase stateCode) /\
  resolveCandidate name = Some (JS.toUpperCase stateCode) /\
  resolveCandidate (JS.toUpperCase name) = Some (JS.toUpperCase stateCode) /\
  resolveCandidate (JS.toLowerCase name) = Some (JS.toUpperCase stateCode).
Proof.
  unfold getStateName, US_STATES. intros Hname.
  apply elem_of_list_to_map_2, list_elem_of_In in Hname.
  pose proof US_STATES_ENTRIES_names as Hall.
  rewrite List.Forall_forall in Hall.
  destruct (Hall _ Hname) as (_ & Hplain & Hupper & Hlower & Htable).
  cbn [fst snd] in *.
  split; [| auto].
  unfold getAllStatesCodes. apply in_map_iff.
  exists (JS.toUpperCase stateCode, name). auto.
Qed.

Lemma getStateName_round_trip_witness :
  getStateName "nc" = Some "North Carolina" /\
  In "NC" getAllStatesCodes /\
  STATE_NAME_TO_CODE !! "north carolina" = Some "NC" /\
  resolveCandidate "North Carolina" = Some "NC".
Proof.
  split; [reflexivity |].
  destruct (getStateName_round_trip "nc" "North Carolina" eq_refl)
    as (Hlisted & Htable & Hplain & _).
  auto.
Defined.

Lemma STATE_TAX_LIST_names :
  Forall (fun entry : string * StateTaxData.StateTaxInfo =>
            StateTaxData.stateCode entry.2 = entry.1 /\
            US_STATES !! entry.1 = Some (StateTaxData.stateName entry.2))
         StateTaxData.STATE_TAX_LIST.
Proof.
  unfold StateTaxData.STATE_TAX_LIST.
  repeat (constructor; [split; vm_compute; reflexivity |]).
  constructor.
Qed.


End StateDetectionTableExamples.

(* ===================================================================== *)
(** * Access to a document and what its deletion touches *)
(* ===================================================================== *)

Section DocumentAccess.

Import Server DocumentRoute.
Local Open Scope Q_scope.

Lemma keeps_transaction {A} I (body : M A) :
  keeps I body -> keeps I (transaction body).
Proof.
  intros Hbody world HI. specialize (Hbody world HI). unfold transaction.
  destruct (body world) as [[a|message] world']; cbn in Hbody |- *;
    [exact Hbody | exact HI].
Qed.

(** X11: [GET] hands a document out to its owner only: the answer is the
    stored document with the requested id when the session's user owns
    its tax return, and an error without any document otherwise; the
    world is left as it was. *)
Theorem GET_document_for_owner_only
  (sessionEmail : option string) (id : string) (world : World) :
  exists response,
    GET sessionEmail id world = (JS.Ok response, world) /\
    match body response with
    | Found document =>
        (status response = 200)%Z /\
        P.findDocument (database world) id = Some document /\
        exists email user taxReturn,
          sessionUserEmail sessionEmail = Some email /\
          P.findUser (database world) email = Some user /\
          P.findTaxReturn (database world) (P.Documents.taxReturnId document)
            = Some taxReturn /\
          P.TaxReturns.userId taxReturn = P.Users.id user
    | Error _ => In (status response) [401; 404; 500]%Z
    | Success _ _ => False
    end.
Proof.
  unfold GET, tryCatch.
  destruct (sessionUserEmail sessionEmail) as [email|] eqn:Hsession.
  2:{ eexists. split; [reflexivity |]. cbn. auto. }
  erewrite run_bind by reflexivity.
  destruct (P.findUser (database world) email) as [user|] eqn:Huser.
  2:{ eexists. split; [reflexivity |]. cbn. auto. }
  erewrite run_bind by reflexivity.
  destruct (P.findDocument (database world) id) as [document|] eqn:Hdocument.
  2:{ eexists. split; [reflexivity |]. cbn. auto. }
  erewrite run_bind by reflexivity.
  destruct (P.findTaxReturn (database world) (P.Documents.taxReturnId document))
    as [taxReturn|] eqn:HtaxReturn.
  2:{ eexists. split; [reflexivity |]. cbn. auto 6. }
  destruct (String.eqb (P.TaxReturns.userId taxReturn) (P.Users.id user))
    eqn:Howner; cbn [negb].
  - apply String.eqb_eq in Howner.
    eexists. split; [reflexivity |]. cbn [body status].
    split; [reflexivity |]. split; [reflexivity |]. eauto 8.
  - eexists. split; [reflexivity |]. cbn. auto.
Qed.

(** X12: [DELETE] always answers, and it changes the database only when it
    answers 200, which it does only for a document whose tax return
    belongs to the session's user. *)
Theorem DELETE_all_or_nothing
  (sessionEmail : option string) (id : string) (world : World) :
  exists response world',
    DELETE sessionEmail id world = (JS.Ok response, world') /\
    ((status response = 200)%Z \/ database world' = database world) /\
    ((status response = 200)%Z ->
     exists email user document taxReturn,
       sessionUserEmail sessionEmail = Some email /\
       P.findUser (database world) email = Some user /\
       P.findDocument (database world) id = Some document /\
       P.findTaxReturn (database world) (P.Documents.taxReturnId document)
         = Some taxReturn /\
       P.TaxReturns.userId taxReturn = P.Users.id user).
Proof.
  unfold DELETE, tryCatch.
  destruct (sessionUserEmail sessionEmail) as [email|] eqn:Hsession.
  2:{ eexists _, _. split; [reflexivity |]. cbn. split; [auto | discriminate]. }
  erewrite run_bind by reflexivity.
  destruct (P.findUser (database world) email) as [user|] eqn:Huser.
  2:{ eexists _, _. split; [reflexivity |]. cbn. split; [auto | discriminate]. }
  erewrite run_bind by reflexivity.
  destruct (P.findDocument (database world) id) as [document|] eqn:Hdocument.
  2:{ eexists _, _. split; [reflexivity |]. cbn. split; [auto | discriminate]. }
  erewrite run_bind by reflexivity.
  destruct (P.findTaxReturn (database world) (P.Documents.taxReturnId document))
    as [taxReturn|] eqn:HtaxReturn.
  2:{ eexists _, _. split; [reflexivity |]. cbn. split; [auto | discriminate]. }
  destruct (String.eqb (P.TaxReturns.userId taxReturn) (P.Users.id user))
    eqn:Howner; cbn [negb].
  2:{ eexists _, _. split; [reflexivity |]. cbn. split; [auto | discriminate]. }
  apply String.eqb_eq in Howner.
  destruct (transaction (deleteAndRecalculate id (P.TaxReturns.id taxReturn)) world)
    as [[[]|message] world'] eqn:Hrun.
  - erewrite run_bind by exact Hrun.
    eexists _, _. split; [reflexivity |]. cbn [status].
    split; [left; reflexivity |]. intros _. eauto 10.
  - erewrite run_bind_throw by exact Hrun.
    eexists _, _. split; [reflexivity |]. cbn [status].
    split; [| discriminate]. right.
    unfold transaction in Hrun.
    destruct (deleteAndRecalculate id (P.TaxReturns.id taxReturn) world)
      as [[[]|message'] world''];
      [discriminate |]. injection Hrun as _ <-. reflexivity.
Qed.

End DocumentAccess.

Section DeleteFrame.

Import Server DocumentRoute.
Local Open Scope Q_scope.


(** The tables the transaction of [DELETE] does not write to. *)
Lemma deleteAndRecalculate_frame (id taxReturnId : string) (world : World)
  (taxReturn : P.TaxReturns.TaxReturn) :
  P.existsDocument (database world) id = true ->
  P.findTaxReturn (database world) taxReturnId = Some taxReturn ->
  exists database',
    deleteAndRecalculate id taxReturnId world =
      (JS.Ok tt, setDatabase world database') /\
    P.users database' = P.users (database world) /\
    P.dependents database' = P.dependents (database world) /\
    P.documentExtractedEntries database' =
      List.filter
        (fun entry =>
           negb (String.eqb (P.ExtractedEntries.documentId entry) id))
        (P.documentExtractedEntries (database world)) /\
    P.incomeEntries database' =
      List.filter (fun entry => negb (P.hasDocumentId id entry))
        (P.incomeEntries (database world)) /\
    P.documents database' =
      List.filter (fun row => negb (String.eqb (P.Documents.id row) id))
        (P.documents (database world)) /\
    exists data,
      P.taxReturns database' =
        map (fun row =>
               if String.eqb (P.TaxReturns.id row) taxReturnId
               then P.TaxReturns.apply data row else row)
          (P.taxReturns (database world)) /\
      P.TaxReturns.setTotalIncome data =
        Some (sumAmounts
                (List.filter (remainingEntry taxReturnId)
                   (P.incomeEntries database'))) /\
      P.TaxReturns.setTotalWithholdings data =
        Some (sumWithholdings
                (List.filter (remainingEntry taxReturnId)
                   (P.incomeEntries database'))).
Proof.
  intros Hexists HtaxReturn. unfold deleteAndRecalculate.
  eexists. split.
  - erewrite run_bind by (apply run_mutate_; reflexivity).
    erewrite run_bind by (apply run_mutate_; reflexivity).
    erewrite run_bind.
    2:{ apply run_mutate_. unfold P.deleteDocument.
        change (P.existsDocument (database _) id)
          with (P.existsDocument (database world) id).
        rewrite Hexists. reflexivity. }
    erewrite run_bind by reflexivity.
    erewrite run_bind by reflexivity.
    erewrite run_bind.
    2:{ apply run_mutate. unfold P.updateTaxReturn.
        change (P.findTaxReturn (database _) taxReturnId)
          with (P.findTaxReturn (database world) taxReturnId).
        rewrite HtaxReturn. reflexivity. }
    cbn [ret setDatabase database calls clock]. reflexivity.
  - cbn [P.incomeEntries P.documents P.taxReturns P.withTaxReturns
           P.users P.dependents P.documentExtractedEntries
           P.deleteIncomeEntries P.withIncomeEntries P.withDocuments
           P.deleteExtractedEntries P.withExtractedEntries database
           setDatabase clock].
    rewrite filter_twice.
    do 5 (split; [reflexivity |]).
    eexists. split; [reflexivity |]. split; reflexivity.
Qed.

(** The run of [DELETE] for the owner of the document. *)
Lemma DELETE_owner_run
  (sessionEmail : option string) (id : string) (world : World)
  (email : string) (user : P.Users.User) (document : P.Documents.Document)
  (taxReturn : P.TaxReturns.TaxReturn) (database' : P.Database) :
  sessionUserEmail sessionEmail = Some email ->
  P.findUser (database world) email = Some user ->
  P.findDocument (database world) id = Some document ->
  P.findTaxReturn (database world) (P.Documents.taxReturnId document)
    = Some taxReturn ->
  P.TaxReturns.userId taxReturn = P.Users.id user ->
  deleteAndRecalculate id (P.Documents.taxReturnId document) world =
    (JS.Ok tt, setDatabase world database') ->
  DELETE sessionEmail id world =
    (JS.Ok {| status := 200;
              body := Success true
                        "Document and all associated data deleted successfully" |},
     setDatabase world database').
Proof.
  intros Hsession Huser Hdocument HtaxReturn Howner Hrun.
  pose proof (findTaxReturn_id _ _ _ HtaxReturn) as Hid.
  unfold DELETE. rewrite Hsession. apply run_tryCatch_ok.
  erewrite run_bind by reflexivity. rewrite Huser.
  erewrite run_bind by reflexivity. rewrite Hdocument.
  erewrite run_bind by reflexivity. rewrite HtaxReturn.
  rewrite Howner, String.eqb_refl. cbn [negb]. rewrite Hid.
  erewrite run_bind by (apply run_transaction_ok; exact Hrun).
  reflexivity.
Qed.

(** X13: deleting a document leaves every other document, every other tax
    return, the users, the dependents and the extracted entries of other
    documents as they were. *)
Theorem DELETE_leaves_the_rest
  (sessionEmail : option string) (id : string) (world : World)
  (email : string) (user : P.Users.User) (document : P.Documents.Document)
  (taxReturn : P.TaxReturns.TaxReturn) :
  sessionUserEmail sessionEmail = Some email ->
  P.findUser (database world) email = Some user ->
  P.findDocument (database world) id = Some document ->
  P.findTaxReturn (database world) (P.Documents.taxReturnId document)
    = Some taxReturn ->
  P.TaxReturns.userId taxReturn = P.Users.id user ->
  let after := database (snd (DELETE sessionEmail id world)) in
  P.users after = P.users (database world) /\
  P.dependents after = P.dependents (database world) /\
  P.documents after =
    List.filter (fun row => negb (String.eqb (P.Documents.id row) id))
      (P.documents (database world)) /\
  P.documentExtractedEntries after =
    List.filter
      (fun entry => negb (String.eqb (P.ExtractedEntries.documentId entry) id))
      (P.documentExtractedEntries (database world)) /\
  map P.TaxReturns.id (P.taxReturns after)
    = map P.TaxReturns.id (P.taxReturns (database world)) /\
  (forall other,
     P.TaxReturns.id other <> P.Documents.taxReturnId document ->
     (In other (P.taxReturns after) <->
      In other (P.taxReturns (database world)))) /\
  calls (snd (DELETE sessionEmail id world)) = calls world.
Proof.
  intros Hsession Huser Hdocument HtaxReturn Howner after.
  pose proof (findDocument_exists _ _ _ Hdocument) as Hexists.
  destruct (deleteAndRecalculate_frame id _ world taxReturn Hexists HtaxReturn)
    as (database' & Hrun & Husers & Hdependents & Hextracted & _ & Hdocuments
        & data & HtaxReturns & _).
  subst after.
  rewrite (DELETE_owner_run _ _ _ _ _ _ _ _ Hsession Huser Hdocument
             HtaxReturn Howner Hrun).
  cbn [snd database setDatabase calls].
  split; [exact Husers |]. split; [exact Hdependents |].
  split; [exact Hdocuments |]. split; [exact Hextracted |].
  split; [| split; [| reflexivity]].
  - rewrite HtaxReturns, map_map. apply map_ext. intros row.
    destruct (String.eqb (P.TaxReturns.id row) _); reflexivity.
  - intros other Hother. rewrite HtaxReturns. split.
    + intros Hin. apply in_map_iff in Hin as (old & Hrow & Hold).
      destruct (String.eqb (P.TaxReturns.id old) _) eqn:Hmatch;
        [| subst other; exact Hold].
      apply String.eqb_eq in Hmatch. subst other. cbn in Hother.
      contradiction.
    + intros Hin. apply in_map_iff. exists other.
      split; [| exact Hin].
      destruct (String.eqb (P.TaxReturns.id other) _) eqn:Hmatch;
        [| reflexivity].
      apply String.eqb_eq in Hmatch. contradiction.
Qed.

End DeleteFrame.

(* ===================================================================== *)
(** * The foreign key from income entries to documents *)
(* ===================================================================== *)

Section IntegrityProperties.

Import Server.
Local Open Scope Q_scope.

(** ** The writes of the routes keep the foreign key *)

Lemma foreignKey_referenced (database : Prisma.Database) :
  Integrity.foreignKeyHolds database <->
  forall entry, In entry (Prisma.incomeEntries database) ->
                Integrity.referenced database entry = true.
Proof. unfold Integrity.foreignKeyHolds, Integrity.foreignKey. apply forallb_forall. Qed.

Lemma referenced_same_documents (before after : Prisma.Database) entry :
  (forall id, Prisma.existsDocument after id = Prisma.existsDocument before id) ->
  Integrity.referenced after entry = Integrity.referenced before entry.
Proof.
  intros Hsame. unfold Integrity.referenced.
  destruct (Prisma.IncomeEntries.documentId entry); [apply Hsame | reflexivity].
Qed.

Lemma existsb_map_keyed {A} (test : A -> bool) (f : A -> A) (rows : list A) :
  (forall row, test (f row) = test row) ->
  existsb test (map f rows) = existsb test rows.
Proof.
  intros Hkey. induction rows as [|row rows IH]; [reflexivity |].
  cbn [map existsb]. rewrite Hkey, IH. reflexivity.
Qed.

Lemma deleteIncomeEntries_foreignKey database where_ :
  Integrity.foreignKeyHolds database ->
  Integrity.foreignKeyHolds (Prisma.deleteIncomeEntries database where_).
Proof.
  rewrite !foreignKey_referenced. intros Hkey entry Hin.
  cbn [Prisma.deleteIncomeEntries Prisma.incomeEntries Prisma.withIncomeEntries] in Hin.
  apply filter_In in Hin as [Hin _].
  rewrite <- (Hkey entry Hin). apply referenced_same_documents.
  reflexivity.
Qed.

Lemma deleteExtractedEntries_foreignKey database id :
  Integrity.foreignKeyHolds database ->
  Integrity.foreignKeyHolds (Prisma.deleteExtractedEntries database id).
Proof. intros Hkey. exact Hkey. Qed.

Lemma updateDocument_foreignKey database id data updated database' :
  Prisma.updateDocument database id data = JS.Ok (updated, database') ->
  Integrity.foreignKeyHolds database -> Integrity.foreignKeyHolds database'.
Proof.
  unfold Prisma.updateDocument. intros Hupdate.
  destruct (Prisma.findDocument database id); [| discriminate].
  injection Hupdate as _ <-.
  rewrite !foreignKey_referenced. intros Hkey entry Hin.
  cbn [Prisma.incomeEntries Prisma.withDocuments] in Hin.
  rewrite <- (Hkey entry Hin). apply referenced_same_documents.
  intros other. unfold Prisma.existsDocument. cbn [Prisma.documents Prisma.withDocuments].
  apply existsb_map_keyed. intros row.
  destruct (String.eqb (Prisma.Documents.id row) id); reflexivity.
Qed.

Lemma updateTaxReturn_foreignKey database id data updated database' :
  Prisma.updateTaxReturn database id data = JS.Ok (updated, database') ->
  Integrity.foreignKeyHolds database -> Integrity.foreignKeyHolds database'.
Proof.
  unfold Prisma.updateTaxReturn. intros Hupdate.
  destruct (Prisma.findTaxReturn database id); [| discriminate].
  injection Hupdate as _ <-. intros Hkey. exact Hkey.
Qed.

Lemma createIncomeEntry_foreignKey database entry database' :
  Prisma.createIncomeEntry database entry = JS.Ok database' ->
  Integrity.foreignKeyHolds database -> Integrity.foreignKeyHolds database'.
Proof.
  unfold Prisma.createIncomeEntry. intros Hcreate.
  destruct (Prisma.findTaxReturn database _); [| discriminate].
  destruct (match Prisma.IncomeEntries.documentId entry with
            | Some documentId => Prisma.existsDocument database documentId
            | None => true
            end) eqn:Hreferenced; [| discriminate].
  injection Hcreate as <-.
  rewrite !foreignKey_referenced. intros Hkey row Hin.
  cbn [Prisma.incomeEntries Prisma.withIncomeEntries] in Hin.
  apply in_app_or in Hin as [Hin|[<-|[]]].
  - exact (Hkey row Hin).
  - exact Hreferenced.
Qed.

Lemma deleteDocument_foreignKey database id database' :
  Prisma.deleteDocument database id = JS.Ok database' ->
  Integrity.foreignKeyHolds database -> Integrity.foreignKeyHolds database'.
Proof.
  unfold Prisma.deleteDocument. intros Hdelete.
  destruct (Prisma.existsDocument database id); [| discriminate].
  injection Hdelete as <-.
  rewrite !foreignKey_referenced. intros Hkey entry Hin.
  cbn [Prisma.deleteIncomeEntries Prisma.incomeEntries Prisma.withIncomeEntries
         Prisma.withDocuments] in Hin.
  apply filter_In in Hin as [Hin Hother].
  specialize (Hkey entry Hin).
  unfold Integrity.referenced, Prisma.hasDocumentId in *.
  destruct (Prisma.IncomeEntries.documentId entry) as [documentId|];
    [| reflexivity].
  unfold Prisma.existsDocument in *.
  cbn [Prisma.documents Prisma.withDocuments Prisma.deleteIncomeEntries Prisma.withIncomeEntries].
  apply existsb_exists in Hkey as (row & Hrow & Hid).
  apply existsb_exists. exists row. split; [| exact Hid].
  apply filter_In. split; [exact Hrow |].
  apply String.eqb_eq in Hid. rewrite Hid. exact Hother.
Qed.

Lemma deleteAndRecalculate_foreignKey (id taxReturnId : string) :
  keeps Integrity.foreignKeyHolds (DocumentRoute.deleteAndRecalculate id taxReturnId).
Proof.
  unfold DocumentRoute.deleteAndRecalculate.
  apply keeps_bind.
  { apply keeps_mutate_. intros stored stored' [= <-].
    apply deleteIncomeEntries_foreignKey. }
  intros _. apply keeps_bind.
  { apply keeps_mutate_. intros stored stored' [= <-].
    apply deleteExtractedEntries_foreignKey. }
  intros _. apply keeps_bind.
  { apply keeps_mutate_. intros stored stored'. apply deleteDocument_foreignKey. }
  intros _. apply keeps_bind; [apply keeps_query |]. intros remaining.
  apply keeps_bind; [apply keeps_now |]. intros date.
  apply keeps_bind; [| intros; apply keeps_ret].
  apply keeps_mutate. intros stored updated stored'.
  apply updateTaxReturn_foreignKey.
Qed.

(** X14: the foreign key from income entries to documents survives a
    [DELETE], whoever sends it and whatever it answers. *)
Theorem DELETE_keeps_foreign_key
  (sessionEmail : option string) (id : string) (world : World) :
  Integrity.foreignKey (database world) = true ->
  Integrity.foreignKey
    (database (snd (DocumentRoute.DELETE sessionEmail id world))) = true.
Proof.
  revert world. change (keeps Integrity.foreignKeyHolds (DocumentRoute.DELETE sessionEmail id)).
  unfold DocumentRoute.DELETE. apply keeps_tryCatch; [| intros; apply keeps_ret].
  destruct (DocumentRoute.sessionUserEmail sessionEmail); [| apply keeps_ret].
  apply keeps_bind; [apply keeps_query |]. intros [user|]; [| apply keeps_ret].
  apply keeps_bind; [apply keeps_query |]. intros [document|]; [| apply keeps_ret].
  apply keeps_bind; [apply keeps_query |].
  intros [taxReturn|]; [| apply keeps_throw].
  destruct (negb _); [apply keeps_ret |].
  apply keeps_bind; [| intros; apply keeps_ret].
  apply keeps_transaction. apply deleteAndRecalculate_foreignKey.
Qed.

End IntegrityProperties.

(** One step through a handler: [leaf] closes the writes. *)
Ltac keeps_step leaf :=
  first
    [ leaf
    | apply keeps_ret | apply keeps_mret | apply keeps_throw | apply keeps_lift
    | apply keeps_query | apply keeps_now | apply keeps_call
    | apply keeps_tryCatch | apply keeps_bind | apply keeps_transaction
    | lazymatch goal with
      | |- Server.keeps _ (match ?x with _ => _ end) => destruct x
      | |- Server.keeps _ (let (_, _) := ?p in _) => destruct p
      | |- Server.keeps _ _ => fail
      | |- forall _, _ => intro
      end ].

Section ProcessIntegrity.

Import Server ProcessRoute.
Local Open Scope Q_scope.

Context `{runtime : JS.Runtime} `{federal : TaxCalculations.Federal}
        `{classifier : SD.Classifier} `{collaborators : Collaborators}
        `{environment : Environment}.

Lemma keeps_updateDocument_foreignKey id data :
  keeps Integrity.foreignKeyHolds
    (mutate (fun database => Prisma.updateDocument database id data)).
Proof.
  apply keeps_mutate. intros stored updated stored'.
  apply updateDocument_foreignKey.
Qed.

Lemma keeps_updateTaxReturn_foreignKey id data :
  keeps Integrity.foreignKeyHolds
    (mutate (fun database => Prisma.updateTaxReturn database id data)).
Proof.
  apply keeps_mutate. intros stored updated stored'.
  apply updateTaxReturn_foreignKey.
Qed.

Lemma createW2Entry_foreignKey document extractedData :
  keeps Integrity.foreignKeyHolds (createW2Entry document extractedData).
Proof.
  unfold createW2Entry. destruct (JS.gt0 _); [| apply keeps_ret].
  apply keeps_mutate_. intros stored stored' Hwrite.
  apply Result_bind_ok in Hwrite as (amount & _ & Hwrite).
  apply Result_bind_ok in Hwrite as (withheld & _ & Hwrite).
  eapply createIncomeEntry_foreignKey. exact Hwrite.
Qed.

Lemma create1099Entry_foreignKey document finalDocumentType extractedData :
  keeps Integrity.foreignKeyHolds
    (create1099Entry document finalDocumentType extractedData).
Proof.
  unfold create1099Entry. destruct (JS.gt0 _); [| apply keeps_ret].
  apply keeps_mutate_. intros stored stored' Hwrite.
  apply Result_bind_ok in Hwrite as (amount & _ & Hwrite).
  eapply createIncomeEntry_foreignKey. exact Hwrite.
Qed.

Lemma keeps_deleteIncomeEntries_foreignKey where_ :
  keeps Integrity.foreignKeyHolds
    (mutate_ (fun database =>
                JS.Ok (Prisma.deleteIncomeEntries database where_))).
Proof.
  apply keeps_mutate_. intros stored stored' [= <-].
  apply deleteIncomeEntries_foreignKey.
Qed.

Ltac foreignKey_leaf :=
  first
    [ apply keeps_updateDocument_foreignKey
    | apply keeps_updateTaxReturn_foreignKey
    | apply keeps_deleteIncomeEntries_foreignKey
    | apply createW2Entry_foreignKey
    | apply create1099Entry_foreignKey ].

Lemma processDocument_foreignKey document taxReturn :
  keeps Integrity.foreignKeyHolds (processDocument document taxReturn).
Proof.
  unfold processDocument, setProcessing, checkConfiguration, extraction,
    typeCorrection, stateDetection, duplicateDetection, form1040Mapping,
    taxCalculation, calculate, persistence.
  repeat keeps_step foreignKey_leaf.
Qed.

(** X15: the foreign key from income entries to documents survives a
    processing request, whatever the collaborators return and whether
    the request succeeds or fails. *)
Theorem POST_keeps_foreign_key
  (sessionEmail : option string) (id : string) (world : World) :
  Integrity.foreignKey (database world) = true ->
  Integrity.foreignKey (database (snd (POST sessionEmail id world))) = true.
Proof.
  revert world. change (keeps Integrity.foreignKeyHolds (POST sessionEmail id)).
  unfold POST, failure, markFailed.
  repeat keeps_step ltac:(first [apply processDocument_foreignKey
                                | foreignKey_leaf]).
Qed.

End ProcessIntegrity.


(* ===================================================================== *)
(** * The income of a tax return as the routes report it *)
(* ===================================================================== *)

Section IncomeSums.

Import Server.
Local Open Scope Q_scope.

(** Sums of amounts do not depend on the order of the entries. *)
Lemma Qplus_comm_eq (x y : Q) : x + y = y + x.
Proof.
  destruct x as [nx dx], y as [ny dy]. unfold Qplus. cbn [Qnum Qden].
  f_equal; [ring | apply Pos.mul_comm].
Qed.

Lemma Qplus_assoc_eq (x y z : Q) : x + (y + z) = x + y + z.
Proof.
  destruct x as [nx dx], y as [ny dy], z as [nz dz]. unfold Qplus.
  cbn [Qnum Qden]. f_equal; [| apply Pos.mul_assoc].
  rewrite !Pos2Z.inj_mul. ring.
Qed.

Lemma sum_rev {A} (f : A -> Q) (rows : list A) :
  fold_left (fun sum row => sum + f row) (List.rev rows) 0
  = fold_left (fun sum row => sum + f row) rows 0.
Proof.
  assert (forall (l : list A) (start : Q),
            fold_left (fun sum row => sum + f row) l start
            = start + fold_left (fun sum row => sum + f row) l 0) as Hshift.
  { induction l as [|row l IH]; intros start; cbn [fold_left].
    - destruct start as [n d]. unfold Qplus. cbn [Qnum Qden].
      f_equal; [ring | rewrite Pos.mul_1_r; reflexivity].
    - rewrite IH, (IH (0 + f row)), Qplus_assoc_eq.
      f_equal. f_equal. destruct (f row) as [n d]. unfold Qplus.
      cbn [Qnum Qden]. f_equal. ring. }
  induction rows as [|row rows IH]; [reflexivity |].
  cbn [List.rev fold_left]. rewrite fold_left_app. cbn [fold_left].
  rewrite IH, (Hshift rows (0 + f row)).
  rewrite Qplus_comm_eq. f_equal.
  destruct (f row) as [n d]. unfold Qplus.
  cbn [Qnum Qden]. f_equal. ring.
Qed.

Lemma sumAmounts_rev entries :
  DocumentRoute.sumAmounts (List.rev entries) = DocumentRoute.sumAmounts entries.
Proof. apply sum_rev. Qed.

Lemma sumWithholdings_rev entries :
  DocumentRoute.sumWithholdings (List.rev entries)
  = DocumentRoute.sumWithholdings entries.
Proof.
  apply (sum_rev (fun entry =>
                    StateTaxCalculations.orElse
                      (Prisma.IncomeEntries.federalTaxWithheld entry) 0)).
Qed.

End IncomeSums.

Section CurrentIncome.

Import Server CurrentIncomeRoute.
Local Open Scope Q_scope.

Lemma filter_filter_and {A} (p q : A -> bool) (rows : list A) :
  List.filter p (List.filter q rows)
  = List.filter (fun row => q row && p row) rows.
Proof.
  induction rows as [|row rows IH]; [reflexivity |].
  cbn [List.filter]. destruct (q row); cbn [List.filter andb];
    [destruct (p row) |]; rewrite IH; reflexivity.
Qed.

Lemma filter_nil_none {A} (p : A -> bool) (rows : list A) :
  List.filter p rows = [] <-> forall row, In row rows -> p row = false.
Proof.
  induction rows as [|row rows IH]; cbn [List.filter].
  - split; [intros _ row [] | reflexivity].
  - destruct (p row) eqn:Hrow.
    + split; [discriminate |]. intros Hnone.
      rewrite (Hnone row (or_introl eq_refl)) in Hrow. discriminate.
    + rewrite IH. split.
      * intros Hnone other [<-|Hin]; [exact Hrow | apply Hnone; exact Hin].
      * intros Hnone other Hin. apply Hnone. right. exact Hin.
Qed.

(** An entry of the tax return is valid, orphaned or invalid, and only
    one of the three. *)
Lemma entries_partition (database : P.Database) (id : string) entries :
  (length (List.filter (ProcessRoute.validEntry database id) entries)
   + length (List.filter (ProcessRoute.orphanedEntry id) entries)
   + length (List.filter (fun entry => negb (P.documentExists database entry))
               (List.filter (DocumentRoute.remainingEntry id) entries))
   = length (List.filter (P.ofTaxReturn id) entries))%nat.
Proof.
  rewrite filter_filter_and.
  induction entries as [|entry entries IH]; [reflexivity |].
  cbn [List.filter].
  unfold ProcessRoute.validEntry, ProcessRoute.orphanedEntry,
    DocumentRoute.remainingEntry in *.
  destruct (P.ofTaxReturn id entry), (P.hasDocument entry),
    (P.documentExists database entry); cbn [andb negb length];
    rewrite <- IH; lia.
Qed.

Lemma GET_run (sessionEmail : option string) (id : string) (world : World)
  (email : string) (user : P.Users.User) (taxReturn : P.TaxReturns.TaxReturn) :
  DocumentRoute.sessionUserEmail sessionEmail = Some email ->
  P.findUser (database world) email = Some user ->
  findOwnedTaxReturn (database world) id (P.Users.id user) = Some taxReturn ->
  GET sessionEmail id world =
    (JS.Ok {| status := 200;
              body :=
                Income
                  (map (fun entry =>
                          (entry,
                           selected <$> documentOf (database world) entry))
                     (validIncomeEntries (database world) id))
                  (summarize (database world) id) |},
     world).
Proof.
  intros Hsession Huser HtaxReturn. unfold GET. rewrite Hsession.
  apply run_tryCatch_ok.
  erewrite run_bind by reflexivity. rewrite Huser.
  erewrite run_bind by reflexivity. rewrite HtaxReturn.
  erewrite run_bind by reflexivity.
  erewrite run_bind by reflexivity. reflexivity.
Qed.

(** X16: the owner of a tax return is told about every income entry of it
    exactly once -- as a valid entry (newest first, each with its
    document), an orphaned one or one with an invalid reference -- the
    totals are those of the valid entries, and cleanup is asked for
    exactly when some entry of the tax return has no existing
    document.  Nothing is written. *)
Theorem GET_current_income_counts_every_entry
  (sessionEmail : option string) (id : string) (world : World)
  (email : string) (user : P.Users.User) (taxReturn : P.TaxReturns.TaxReturn) :
  DocumentRoute.sessionUserEmail sessionEmail = Some email ->
  P.findUser (database world) email = Some user ->
  findOwnedTaxReturn (database world) id (P.Users.id user) = Some taxReturn ->
  let entries := P.incomeEntries (database world) in
  let valid :=
    List.filter (ProcessRoute.validEntry (database world) id) entries in
  exists incomeEntries summary,
    GET sessionEmail id world =
      (JS.Ok {| status := 200; body := Income incomeEntries summary |}, world) /\
    map fst incomeEntries = List.rev valid /\
    Forall (fun joined => is_Some joined.2) incomeEntries /\
    totalEntries summary = length valid /\
    (totalEntries summary + orphanedEntriesFound summary
     + invalidReferenceEntriesFound summary
     = length (List.filter (P.ofTaxReturn id) entries))%nat /\
    totalIncome summary = DocumentRoute.sumAmounts valid /\
    totalWithholdings summary = DocumentRoute.sumWithholdings valid /\
    (needsCleanup summary = false <->
     forall entry,
       In entry entries -> P.ofTaxReturn id entry = true ->
       P.documentExists (database world) entry = true).
Proof.
  intros Hsession Huser HtaxReturn entries valid. subst valid entries.
  eexists _, _. split; [apply (GET_run _ _ _ _ _ _ Hsession Huser HtaxReturn) |].
  assert (totalEntries (summarize (database world) id)
          = length (List.filter (ProcessRoute.validEntry (database world) id)
                      (P.incomeEntries (database world)))) as Htotal.
  { cbn [summarize totalEntries]. unfold validIncomeEntries.
    rewrite length_rev. reflexivity. }
  split; [| split; [| split; [| split; [| split; [| split]]]]].
  - rewrite map_map. cbn [fst]. rewrite map_id. reflexivity.
  - apply List.Forall_forall. intros joined Hin.
    apply in_map_iff in Hin as (entry & <- & Hin). cbn [snd].
    unfold validIncomeEntries in Hin. apply in_rev, filter_In in Hin as [_ Hvalid].
    unfold ProcessRoute.validEntry in Hvalid.
    apply andb_prop in Hvalid as [_ Hexists].
    unfold P.documentExists, documentOf in *.
    destruct (P.IncomeEntries.documentId entry) as [documentId|];
      [| discriminate]. cbn.
    unfold P.existsDocument in Hexists. unfold P.findDocument.
    apply existsb_exists in Hexists as (row & Hrow & Hid).
    destruct (List.find _ (P.documents (database world))) as [found|] eqn:Hfind;
      [cbn; eauto |].
    rewrite (List.find_none _ _ Hfind row Hrow) in Hid. discriminate.
  - exact Htotal.
  - rewrite Htotal. cbn [summarize orphanedEntriesFound
                           invalidReferenceEntriesFound].
    unfold entriesWithInvalidDocs. apply entries_partition.
  - cbn [summarize totalIncome]. apply sumAmounts_rev.
  - cbn [summarize totalWithholdings]. apply sumWithholdings_rev.
  - cbn [summarize needsCleanup]. rewrite Nat.ltb_ge.
    unfold entriesWithInvalidDocs. rewrite filter_filter_and.
    set (entries := P.incomeEntries (database world)).
    split.
    + intros Hnone entry Hin Hreturn.
      assert (List.filter (ProcessRoute.orphanedEntry id) entries = []
              /\ List.filter
                   (fun row => DocumentRoute.remainingEntry id row
                               && negb (P.documentExists (database world) row))
                   entries = []) as [Horphaned Hinvalid].
      { split; apply length_zero_iff_nil; lia. }
      rewrite filter_nil_none in Horphaned, Hinvalid.
      specialize (Horphaned entry Hin). specialize (Hinvalid entry Hin).
      unfold ProcessRoute.orphanedEntry, DocumentRoute.remainingEntry in *.
      rewrite Hreturn in Horphaned, Hinvalid.
      destruct (P.hasDocument entry); [| discriminate].
      destruct (P.documentExists (database world) entry);
        [reflexivity | discriminate].
    + intros Hall.
      assert (List.filter (ProcessRoute.orphanedEntry id) entries = []) as ->.
      { apply filter_nil_none. intros entry Hin.
        unfold ProcessRoute.orphanedEntry.
        destruct (P.ofTaxReturn id entry) eqn:Hreturn; [| reflexivity].
        specialize (Hall entry Hin Hreturn).
        unfold P.documentExists, P.hasDocument in *.
        destruct (P.IncomeEntries.documentId entry);
          [reflexivity | discriminate]. }
      assert (List.filter
                (fun row => DocumentRoute.remainingEntry id row
                            && negb (P.documentExists (database world) row))
                entries = []) as ->; [| cbn; lia].
      apply filter_nil_none. intros entry Hin.
      unfold DocumentRoute.remainingEntry.
      destruct (P.ofTaxReturn id entry) eqn:Hreturn; [| reflexivity].
      rewrite (Hall entry Hin Hreturn). apply andb_false_r.
Qed.

End CurrentIncome.

Section DeleteAgreement.

Import Server DocumentRoute.
Local Open Scope Q_scope.

(** X17: with the foreign key in place, the totals a [DELETE] stores are the
    totals the current-income endpoint reports afterwards, and no entry
    is left with an invalid reference. *)
Theorem DELETE_totals_match_current_income
  (sessionEmail : option string) (id : string) (world : World)
  (email : string) (user : P.Users.User) (document : P.Documents.Document)
  (taxReturn : P.TaxReturns.TaxReturn) :
  sessionUserEmail sessionEmail = Some email ->
  P.findUser (database world) email = Some user ->
  P.findDocument (database world) id = Some document ->
  P.findTaxReturn (database world) (P.Documents.taxReturnId document)
    = Some taxReturn ->
  P.TaxReturns.userId taxReturn = P.Users.id user ->
  Integrity.foreignKey (database world) = true ->
  let after := database (snd (DELETE sessionEmail id world)) in
  let summary :=
    CurrentIncomeRoute.summarize after (P.Documents.taxReturnId document) in
  CurrentIncomeRoute.invalidReferenceEntriesFound summary = 0%nat /\
  forall owner,
    In owner (P.taxReturns after) ->
    P.TaxReturns.id owner = P.Documents.taxReturnId document ->
    P.TaxReturns.totalIncome owner = CurrentIncomeRoute.totalIncome summary /\
    P.TaxReturns.totalWithholdings owner
      = CurrentIncomeRoute.totalWithholdings summary.
Proof.
  intros Hsession Huser Hdocument HtaxReturn Howner Hkey after summary.
  pose proof (findDocument_exists _ _ _ Hdocument) as Hexists.
  destruct (deleteAndRecalculate_frame id _ world taxReturn Hexists HtaxReturn)
    as (database' & Hrun & _ & _ & _ & _ & _ & data & HtaxReturns & Hincome
        & Hwithheld).
  assert (Integrity.foreignKeyHolds database') as Hkey'.
  { pose proof (deleteAndRecalculate_foreignKey id
                  (P.Documents.taxReturnId document) world Hkey) as Hkept.
    rewrite Hrun in Hkept. exact Hkept. }
  assert (after = database') as Hafter.
  { subst after.
    rewrite (DELETE_owner_run _ _ _ _ _ _ _ _ Hsession Huser Hdocument
               HtaxReturn Howner Hrun). reflexivity. }
  subst summary. rewrite Hafter. clear after Hafter.
  set (taxReturnId := P.Documents.taxReturnId document) in *.
  assert (List.filter (ProcessRoute.validEntry database' taxReturnId)
            (P.incomeEntries database')
          = List.filter (remainingEntry taxReturnId) (P.incomeEntries database'))
    as Hvalid.
  { apply filter_ext_in. intros entry Hin.
    unfold ProcessRoute.validEntry, remainingEntry.
    destruct (P.ofTaxReturn taxReturnId entry && P.hasDocument entry) eqn:Hentry;
      [| reflexivity].
    apply andb_prop in Hentry as [_ Hdoc].
    rewrite foreignKey_referenced in Hkey'. specialize (Hkey' entry Hin).
    unfold Integrity.referenced, P.documentExists, P.hasDocument in *.
    destruct (P.IncomeEntries.documentId entry); [| discriminate].
    rewrite Hkey'. reflexivity. }
  split.
  - cbn [CurrentIncomeRoute.summarize
           CurrentIncomeRoute.invalidReferenceEntriesFound].
    apply length_zero_iff_nil. unfold CurrentIncomeRoute.entriesWithInvalidDocs.
    apply filter_nil_none. intros entry Hin.
    apply filter_In in Hin as [Hin Hentry].
    unfold remainingEntry in Hentry. apply andb_prop in Hentry as [_ Hdoc].
    rewrite foreignKey_referenced in Hkey'. specialize (Hkey' entry Hin).
    unfold Integrity.referenced, P.documentExists, P.hasDocument in *.
    destruct (P.IncomeEntries.documentId entry); [| discriminate].
    rewrite Hkey'. reflexivity.
  - intros owner Hin Hid. rewrite HtaxReturns in Hin.
    apply In_updated_rows in Hin as (old & _ & ->); [| exact Hid].
    cbn [CurrentIncomeRoute.summarize CurrentIncomeRoute.totalIncome
           CurrentIncomeRoute.totalWithholdings P.TaxReturns.apply
           P.TaxReturns.totalIncome P.TaxReturns.totalWithholdings].
    unfold CurrentIncomeRoute.validIncomeEntries.
    rewrite sumAmounts_rev, sumWithholdings_rev, Hvalid, Hincome, Hwithheld.
    split; reflexivity.
Qed.

End DeleteAgreement.

Section DocumentExamples.

Import Server DocumentRoute.
Local Open Scope Q_scope.

Lemma DELETE_leaves_the_rest_witness :
  exists after,
    after = database (snd (DELETE (Some "alice@example.com") "doc2"
                             (Examples.sampleWorld Prisma.COMPLETED))) /\
    P.users after = [Examples.alice] /\
    P.documents after = [Examples.document "doc1" Prisma.COMPLETED] /\
    P.documentExtractedEntries after = [] /\
    map P.TaxReturns.id (P.taxReturns after) = ["tr1"].
Proof.
  eexists. split; [reflexivity |].
  destruct (DELETE_leaves_the_rest (Some "alice@example.com") "doc2"
              (Examples.sampleWorld Prisma.COMPLETED)
              "alice@example.com" Examples.alice
              (Examples.document "doc2" Prisma.COMPLETED) Examples.return2024
              eq_refl eq_refl eq_refl eq_refl eq_refl)
    as (Husers & _ & Hdocuments & Hextracted & Hids & _).
  split; [exact Husers |]. split; [exact Hdocuments |].
  split; [exact Hextracted | exact Hids].
Defined.

Lemma DELETE_keeps_foreign_key_witness :
  Integrity.foreignKey
    (database
       (snd (DELETE (Some "alice@example.com") "doc2"
               (Examples.sampleWorld Prisma.COMPLETED)))) = true.
Proof.
  apply (DELETE_keeps_foreign_key (Some "alice@example.com") "doc2"
           (Examples.sampleWorld Prisma.COMPLETED)).
  reflexivity.
Defined.

Lemma DELETE_totals_match_current_income_witness :
  exists after summary,
    after = database (snd (DELETE (Some "alice@example.com") "doc2"
                             (Examples.sampleWorld Prisma.COMPLETED))) /\
    summary = CurrentIncomeRoute.summarize after "tr1" /\
    CurrentIncomeRoute.invalidReferenceEntriesFound summary = 0%nat /\
    CurrentIncomeRoute.totalIncome summary == 55000 /\
    forall owner,
      In owner (P.taxReturns after) ->
      P.TaxReturns.id owner = "tr1" ->
      P.TaxReturns.totalIncome owner = CurrentIncomeRoute.totalIncome summary /\
      P.TaxReturns.totalWithholdings owner
        = CurrentIncomeRoute.totalWithholdings summary.
Proof.
  eexists _, _. split; [reflexivity |]. split; [reflexivity |].
  destruct (DELETE_totals_match_current_income (Some "alice@example.com")
              "doc2" (Examples.sampleWorld Prisma.COMPLETED)
              "alice@example.com" Examples.alice
              (Examples.document "doc2" Prisma.COMPLETED) Examples.return2024
              eq_refl eq_refl eq_refl eq_refl eq_refl eq_refl)
    as [Hinvalid Htotals].
  split; [exact Hinvalid |]. split; [vm_compute; reflexivity | exact Htotals].
Defined.

End DocumentExamples.

Section IncomeExamples.

Import Server.
Local Open Scope Q_scope.

Lemma GET_current_income_counts_every_entry_witness :
  exists incomeEntries summary,
    CurrentIncomeRoute.GET (Some "alice@example.com") "tr1"
      Examples.danglingWorld =
      (JS.Ok {| CurrentIncomeRoute.status := 200;
                CurrentIncomeRoute.body :=
                  CurrentIncomeRoute.Income incomeEntries summary |},
       Examples.danglingWorld) /\
    map fst incomeEntries =
      [Examples.wages (Some "doc2") 20000 2000;
       Examples.wages (Some "doc1") 55000 6000] /\
    CurrentIncomeRoute.totalEntries summary = 2%nat /\
    CurrentIncomeRoute.orphanedEntriesFound summary = 1%nat /\
    CurrentIncomeRoute.invalidReferenceEntriesFound summary = 1%nat /\
    CurrentIncomeRoute.totalIncome summary == 75000 /\
    CurrentIncomeRoute.needsCleanup summary = true.
Proof.
  destruct (GET_current_income_counts_every_entry
              (Some "alice@example.com") "tr1" Examples.danglingWorld
              "alice@example.com" Examples.alice Examples.return2024
              eq_refl eq_refl eq_refl)
    as (incomeEntries & summary & Hrun & Hentries & _ & Hcount & _ & Hincome
        & _ & _).
  exists incomeEntries, summary.
  split; [exact Hrun |]. split; [exact Hentries |].
  injection Hrun as Hrows Hsummary. subst summary.
  repeat split; vm_compute; reflexivity.
Defined.

End IncomeExamples.

(* ===================================================================== *)
(** * The cleanup route and the migration *)
(* ===================================================================== *)

Section CleanupProperties.

Import Server CleanupRoute.
Local Open Scope Q_scope.

Context `{runtime : JS.Runtime} `{federal : TaxCalculations.Federal}.

Lemma filter_none_removed {A} (p : A -> bool) (rows : list A) :
  List.filter p rows = [] ->
  List.filter (fun row => negb (p row)) rows = rows.
Proof.
  rewrite filter_nil_none. intros Hnone.
  induction rows as [|row rows IH]; [reflexivity |].
  cbn [List.filter]. rewrite (Hnone row (or_introl eq_refl)). cbn [negb].
  rewrite IH; [reflexivity |]. intros other Hin. apply Hnone. right. exact Hin.
Qed.

(** The conditional [deleteMany]: deleting nothing is deleting the empty
    selection. *)
Lemma conditional_delete_run (where_ : P.IncomeEntries.IncomeEntry -> bool)
  (selection : list P.IncomeEntries.IncomeEntry) (world : World) :
  selection = List.filter where_ (P.incomeEntries (database world)) ->
  match selection with
  | [] => ret tt
  | _ =>
      mutate_ (fun database => JS.Ok (P.deleteIncomeEntries database where_))
  end world
  = (JS.Ok tt,
     setDatabase world (P.deleteIncomeEntries (database world) where_)).
Proof.
  intros Hselection. destruct selection as [|entry rest].
  - unfold ret, setDatabase, P.deleteIncomeEntries, P.withIncomeEntries.
    rewrite filter_none_removed by (symmetry; exact Hselection).
    destruct world as [[] ? ?]. reflexivity.
  - reflexivity.
Qed.

Lemma validEntry_same_documents (before after : P.Database) id entry :
  P.documents after = P.documents before ->
  ProcessRoute.validEntry after id entry
  = ProcessRoute.validEntry before id entry.
Proof.
  intros Hsame. unfold ProcessRoute.validEntry, P.documentExists,
    P.existsDocument. rewrite Hsame. reflexivity.
Qed.

Lemma recalculation_run (taxReturn : P.TaxReturns.TaxReturn)
  (dependents : list Dependent) (newTotalIncome newTotalWithholdings : Q)
  (world : World) :
  exists result,
    recalculation taxReturn dependents newTotalIncome newTotalWithholdings
      world
    = (JS.Ok result,
       {| database := database world;
          calls :=
            (calls world ++
             [CalculateTax (P.TaxReturns.filingStatus taxReturn)
                (ETC.suppliedStateCode (P.TaxReturns.detectedState taxReturn))])%list;
          clock := clock world |}) /\
    match
      ETC.calculateEnhancedTaxReturnWithState newTotalIncome
        (P.TaxReturns.filingStatus taxReturn) dependents
        (P.TaxReturns.itemizedDeduction taxReturn)
        (Some newTotalWithholdings)
        (ETC.suppliedStateCode (P.TaxReturns.detectedState taxReturn))
        (Some (P.TaxReturns.stateItemizedDeduction taxReturn))
    with
    | JS.Ok calculated => result = Some calculated
    | JS.Throw _ => result = None
    end.
Proof.
  unfold recalculation, tryCatch.
  erewrite run_bind by reflexivity.
  destruct (ETC.calculateEnhancedTaxReturnWithState _ _ _ _ _ _ _)
    as [calculated|message] eqn:Hcalc.
  - erewrite run_bind by reflexivity.
    eexists. split; reflexivity.
  - erewrite run_bind_throw by reflexivity.
    eexists. split; reflexivity.
Qed.

(** The run of the transaction of the cleanup. *)
Lemma cleanup_run (id : string) (taxReturn : P.TaxReturns.TaxReturn)
  (dependents : list Dependent) (world : World) :
  is_Some (P.findTaxReturn (database world) id) ->
  let before := database world in
  let valid :=
    List.filter (ProcessRoute.validEntry before id) (P.incomeEntries before) in
  exists result world',
    cleanup id taxReturn dependents world =
      (JS.Ok
         {| orphanedIncomeEntriesDeleted :=
              length (List.filter (ProcessRoute.orphanedEntry id)
                        (P.incomeEntries before));
            invalidDocumentEntriesDeleted :=
              length (List.filter (invalidEntry before id)
                        (P.incomeEntries before));
            validIncomeEntriesRemaining := length valid;
            newTotalIncome := DocumentRoute.sumAmounts valid;
            newTotalWithholdings := DocumentRoute.sumWithholdings valid;
            taxCalculationResult := result |},
       world') /\
    match
      ETC.calculateEnhancedTaxReturnWithState (DocumentRoute.sumAmounts valid)
        (P.TaxReturns.filingStatus taxReturn) dependents
        (P.TaxReturns.itemizedDeduction taxReturn)
        (Some (DocumentRoute.sumWithholdings valid))
        (ETC.suppliedStateCode (P.TaxReturns.detectedState taxReturn))
        (Some (P.TaxReturns.stateItemizedDeduction taxReturn))
    with
    | JS.Ok calculated => result = Some calculated
    | JS.Throw _ => result = None
    end /\
    P.users (database world') = P.users before /\
    P.documents (database world') = P.documents before /\
    P.dependents (database world') = P.dependents before /\
    P.documentExtractedEntries (database world')
      = P.documentExtractedEntries before /\
    P.incomeEntries (database world')
      = List.filter (kept before id) (P.incomeEntries before) /\
    P.taxReturns (database world')
      = map (fun row =>
               if String.eqb (P.TaxReturns.id row) id
               then
                 P.TaxReturns.apply
                   (updateData (DocumentRoute.sumAmounts valid)
                      (DocumentRoute.sumWithholdings valid) (clock world)
                      result)
                   row
               else row)
          (P.taxReturns before).
Proof.
  intros [stored HtaxReturn] before valid. unfold cleanup.
  erewrite run_bind by reflexivity.
  erewrite run_bind by (apply conditional_delete_run; reflexivity).
  set (world1 := setDatabase world _).
  erewrite run_bind by reflexivity.
  cbv beta iota.
  erewrite run_bind by (apply conditional_delete_run; reflexivity).
  set (world2 := setDatabase world1 _).
  erewrite run_bind by reflexivity.
  assert (P.incomeEntries (database world2)
          = List.filter (kept before id) (P.incomeEntries before))
    as Hremaining.
  { subst world2 world1.
    cbn [database setDatabase P.deleteIncomeEntries P.withIncomeEntries
           P.incomeEntries].
    rewrite filter_filter_and. apply filter_ext. intros entry.
    unfold kept, invalidEntry, ProcessRoute.orphanedEntry,
      ProcessRoute.validEntry, DocumentRoute.remainingEntry, P.documentExists,
      P.existsDocument.
    cbn [P.documents P.withIncomeEntries]. fold before.
    unfold P.hasDocument.
    destruct (P.ofTaxReturn id entry),
      (P.IncomeEntries.documentId entry) as [documentId|];
      cbn [andb negb orb]; try reflexivity.
    destruct (existsb _ _); reflexivity. }
  assert (List.filter (ProcessRoute.validEntry (database world2) id)
            (P.incomeEntries (database world2)) = valid) as Hvalid.
  { rewrite Hremaining, filter_filter_and. subst valid.
    apply filter_ext. intros entry.
    rewrite (validEntry_same_documents before (database world2))
      by reflexivity.
    unfold kept. destruct (ProcessRoute.validEntry before id entry) eqn:Hentry;
      [rewrite orb_true_r; reflexivity | apply andb_false_r]. }
  rewrite Hvalid.
  assert (List.filter (invalidEntry (database world1) id)
            (P.incomeEntries (database world1))
          = List.filter (invalidEntry before id) (P.incomeEntries before))
    as Hinvalid.
  { subst world1.
    cbn [database setDatabase P.deleteIncomeEntries P.withIncomeEntries
           P.incomeEntries].
    rewrite filter_filter_and. apply filter_ext. intros entry.
    unfold invalidEntry, ProcessRoute.orphanedEntry,
      DocumentRoute.remainingEntry, P.documentExists, P.existsDocument.
    cbn [P.documents P.withIncomeEntries]. fold before.
    destruct (P.ofTaxReturn id entry), (P.hasDocument entry);
      reflexivity. }
  rewrite Hinvalid.
  destruct (recalculation_run taxReturn dependents
              (DocumentRoute.sumAmounts valid)
              (DocumentRoute.sumWithholdings valid) world2)
    as (result & Hrecalculation & Hresult).
  erewrite run_bind by exact Hrecalculation.
  erewrite run_bind by reflexivity.
  erewrite run_bind.
  2:{ apply run_mutate. unfold P.updateTaxReturn.
      change (P.findTaxReturn _ id) with (P.findTaxReturn (database world) id).
      rewrite HtaxReturn. reflexivity. }
  eexists result, _. split; [reflexivity |].
  split; [exact Hresult |].
  cbn [database setDatabase P.users P.documents P.dependents
         P.documentExtractedEntries P.incomeEntries P.taxReturns
         P.withTaxReturns clock].
  repeat split; try reflexivity. exact Hremaining.
Qed.

Lemma POST_run (sessionEmail : option string) (id : string) (world : World)
  (email : string) (user : P.Users.User) (taxReturn : P.TaxReturns.TaxReturn)
  (summary : CleanupSummary) (world' : World) :
  DocumentRoute.sessionUserEmail sessionEmail = Some email ->
  P.findUser (database world) email = Some user ->
  CurrentIncomeRoute.findOwnedTaxReturn (database world) id (P.Users.id user)
    = Some taxReturn ->
  cleanup id taxReturn
    (List.filter
       (fun dependent => String.eqb (dependentTaxReturnId dependent) id)
       (P.dependents (database world)))
    world = (JS.Ok summary, world') ->
  POST sessionEmail id world =
    (JS.Ok {| status := 200;
              body := Success true
                        "Orphaned data cleanup completed successfully"
                        summary |},
     world').
Proof.
  intros Hsession Huser HtaxReturn Hrun. unfold POST. rewrite Hsession.
  apply run_tryCatch_ok.
  erewrite run_bind by reflexivity. rewrite Huser.
  erewrite run_bind by reflexivity. rewrite HtaxReturn.
  erewrite run_bind by reflexivity.
  erewrite run_bind by (apply run_transaction_ok; exact Hrun).
  reflexivity.
Qed.

Lemma findOwnedTaxReturn_found database id userId taxReturn :
  CurrentIncomeRoute.findOwnedTaxReturn database id userId = Some taxReturn ->
  P.TaxReturns.id taxReturn = id /\
  P.TaxReturns.userId taxReturn = userId /\
  is_Some (P.findTaxReturn database id).
Proof.
  unfold CurrentIncomeRoute.findOwnedTaxReturn, P.findTaxReturn.
  intros Hfind. apply find_some_holds in Hfind as [Htest Hin].
  apply andb_prop in Htest as [Hid Huser].
  apply String.eqb_eq in Hid, Huser. split; [exact Hid |].
  split; [exact Huser |].
  destruct (List.find _ (P.taxReturns database)) as [row|] eqn:Hrow; [eauto |].
  pose proof (List.find_none _ _ Hrow taxReturn Hin) as Hnone.
  cbn in Hnone. rewrite Hid, String.eqb_refl in Hnone. discriminate.
Qed.

Lemma kept_valid database id entries :
  List.filter (ProcessRoute.validEntry database id)
    (List.filter (kept database id) entries)
  = List.filter (ProcessRoute.validEntry database id) entries.
Proof.
  rewrite filter_filter_and. apply filter_ext. intros entry. unfold kept.
  destruct (ProcessRoute.validEntry database id entry);
    [rewrite orb_true_r; reflexivity | apply andb_false_r].
Qed.

Lemma kept_orphaned database id entries :
  List.filter (ProcessRoute.orphanedEntry id)
    (List.filter (kept database id) entries) = [].
Proof.
  apply filter_nil_none. intros entry Hin. apply filter_In in Hin as [_ Hkept].
  unfold kept, ProcessRoute.validEntry, ProcessRoute.orphanedEntry in *.
  destruct (P.ofTaxReturn id entry), (P.hasDocument entry);
    cbn in Hkept |- *; congruence.
Qed.

Lemma kept_invalid database id entries :
  List.filter (invalidEntry database id)
    (List.filter (kept database id) entries) = [].
Proof.
  apply filter_nil_none. intros entry Hin. apply filter_In in Hin as [_ Hkept].
  unfold kept, ProcessRoute.validEntry, invalidEntry,
    DocumentRoute.remainingEntry in *.
  destruct (P.ofTaxReturn id entry), (P.hasDocument entry),
    (P.documentExists database entry); cbn in Hkept |- *; congruence.
Qed.

Lemma invalidEntry_same_documents (before after : P.Database) id entry :
  P.documents after = P.documents before ->
  invalidEntry after id entry = invalidEntry before id entry.
Proof.
  intros Hsame. unfold invalidEntry, P.documentExists, P.existsDocument.
  rewrite Hsame. reflexivity.
Qed.

(** X18: the cleanup deletes, among the income entries of the tax return,
    those without a document and those whose document does not exist,
    and nothing else; it stores the totals of the entries that remain;
    and the current-income summary of the tax return then agrees with
    the stored totals and asks for no further cleanup. *)
Theorem cleanup_POST_removes_invalid_entries
  (sessionEmail : option string) (id : string) (world : World)
  (email : string) (user : P.Users.User) (taxReturn : P.TaxReturns.TaxReturn) :
  DocumentRoute.sessionUserEmail sessionEmail = Some email ->
  P.findUser (database world) email = Some user ->
  CurrentIncomeRoute.findOwnedTaxReturn (database world) id (P.Users.id user)
    = Some taxReturn ->
  let before := database world in
  let valid :=
    List.filter (ProcessRoute.validEntry before id) (P.incomeEntries before) in
  exists summary world',
    POST sessionEmail id world =
      (JS.Ok {| status := 200;
                body := Success true
                          "Orphaned data cleanup completed successfully"
                          summary |},
       world') /\
    P.incomeEntries (database world')
      = List.filter
          (fun entry =>
             negb (P.ofTaxReturn id entry)
             || ProcessRoute.validEntry before id entry)
          (P.incomeEntries before) /\
    P.documents (database world') = P.documents before /\
    orphanedIncomeEntriesDeleted summary
      = length (List.filter (ProcessRoute.orphanedEntry id)
                  (P.incomeEntries before)) /\
    invalidDocumentEntriesDeleted summary
      = length (List.filter (invalidEntry before id) (P.incomeEntries before)) /\
    validIncomeEntriesRemaining summary = length valid /\
    newTotalIncome summary = DocumentRoute.sumAmounts valid /\
    newTotalWithholdings summary = DocumentRoute.sumWithholdings valid /\
    (forall owner,
       In owner (P.taxReturns (database world')) ->
       P.TaxReturns.id owner = id ->
       P.TaxReturns.totalIncome owner = newTotalIncome summary /\
       P.TaxReturns.adjustedGrossIncome owner = newTotalIncome summary /\
       P.TaxReturns.totalWithholdings owner = newTotalWithholdings summary) /\
    CurrentIncomeRoute.summarize (database world') id
      = {| CurrentIncomeRoute.totalEntries :=
             validIncomeEntriesRemaining summary;
           CurrentIncomeRoute.totalIncome := newTotalIncome summary;
           CurrentIncomeRoute.totalWithholdings := newTotalWithholdings summary;
           CurrentIncomeRoute.orphanedEntriesFound := 0;
           CurrentIncomeRoute.invalidReferenceEntriesFound := 0;
           CurrentIncomeRoute.needsCleanup := false |}.
Proof.
  intros Hsession Huser HtaxReturn before valid.
  destruct (findOwnedTaxReturn_found _ _ _ _ HtaxReturn) as (_ & _ & Hstored).
  destruct (cleanup_run id taxReturn
              (List.filter
                 (fun dependent =>
                    String.eqb (dependentTaxReturnId dependent) id)
                 (P.dependents (database world)))
              world Hstored)
    as (result & world' & Hrun & _ & _ & Hdocuments & _ & _ & Hentries
        & HtaxReturns).
  eexists _, world'.
  split; [exact (POST_run _ _ _ _ _ _ _ _ Hsession Huser HtaxReturn Hrun) |].
  cbn [orphanedIncomeEntriesDeleted invalidDocumentEntriesDeleted
         validIncomeEntriesRemaining newTotalIncome newTotalWithholdings].
  split; [exact Hentries |]. split; [exact Hdocuments |].
  do 5 (split; [reflexivity |]). split.
  - intros owner Hin Hid. rewrite HtaxReturns in Hin.
    apply In_updated_rows in Hin as (old & _ & ->); [| exact Hid].
    destruct result; cbn; repeat split; reflexivity.
  - unfold CurrentIncomeRoute.summarize,
      CurrentIncomeRoute.validIncomeEntries,
      CurrentIncomeRoute.entriesWithInvalidDocs.
    rewrite (filter_ext _ _
               (fun entry =>
                  validEntry_same_documents before _ id entry Hdocuments)).
    rewrite (filter_filter_and _ (DocumentRoute.remainingEntry id)).
    rewrite (filter_ext
               (fun row => DocumentRoute.remainingEntry id row
                           && negb (P.documentExists (database world') row))
               (invalidEntry before id))
      by (intros entry;
          apply (invalidEntry_same_documents before _ id entry Hdocuments)).
    rewrite Hentries.
    change (fun entry => negb (P.ofTaxReturn id entry)
                         || ProcessRoute.validEntry before id entry)
      with (kept before id).
    rewrite kept_valid, kept_orphaned, kept_invalid.
    rewrite length_rev, sumAmounts_rev, sumWithholdings_rev. reflexivity.
Qed.

End CleanupProperties.

Section CleanupOutcome.

Import Server CleanupRoute.
Local Open Scope Q_scope.

Context `{runtime : JS.Runtime} `{federal : TaxCalculations.Federal}.

(** X19: the cleanup stores what the recalculation returned, and resets the
    calculated columns when the recalculation throws: the failure is
    caught, and the request still succeeds. *)
Theorem cleanup_POST_records_calculation
  (sessionEmail : option string) (id : string) (world : World)
  (email : string) (user : P.Users.User) (taxReturn : P.TaxReturns.TaxReturn) :
  DocumentRoute.sessionUserEmail sessionEmail = Some email ->
  P.findUser (database world) email = Some user ->
  CurrentIncomeRoute.findOwnedTaxReturn (database world) id (P.Users.id user)
    = Some taxReturn ->
  exists summary world',
    POST sessionEmail id world =
      (JS.Ok {| status := 200;
                body := Success true
                          "Orphaned data cleanup completed successfully"
                          summary |},
       world') /\
    taxCalculationResult summary =
      match
        ETC.calculateEnhancedTaxReturnWithState (newTotalIncome summary)
          (P.TaxReturns.filingStatus taxReturn)
          (List.filter
             (fun dependent => String.eqb (dependentTaxReturnId dependent) id)
             (P.dependents (database world)))
          (P.TaxReturns.itemizedDeduction taxReturn)
          (Some (newTotalWithholdings summary))
          (ETC.suppliedStateCode (P.TaxReturns.detectedState taxReturn))
          (Some (P.TaxReturns.stateItemizedDeduction taxReturn))
      with
      | JS.Ok calculated => Some calculated
      | JS.Throw _ => None
      end /\
    forall owner,
      In owner (P.taxReturns (database world')) ->
      P.TaxReturns.id owner = id ->
      match taxCalculationResult summary with
      | Some calculated =>
          P.TaxReturns.taxableIncome owner = ETC.E.taxableIncome calculated /\
          P.TaxReturns.taxLiability owner = ETC.E.taxLiability calculated /\
          P.TaxReturns.totalCredits owner = ETC.E.totalCredits calculated /\
          P.TaxReturns.refundAmount owner = ETC.E.refundAmount calculated /\
          P.TaxReturns.amountOwed owner = ETC.E.amountOwed calculated /\
          P.TaxReturns.standardDeduction owner
            = ETC.E.standardDeduction calculated /\
          P.TaxReturns.itemizedDeduction owner
            = ETC.E.itemizedDeduction calculated /\
          P.TaxReturns.stateTaxLiability owner
            = match ETC.E.stateTax calculated with
              | Some stateTax => ETC.S.stateTaxLiability stateTax
              | None => 0
              end
      | None =>
          P.TaxReturns.taxableIncome owner = 0 /\
          P.TaxReturns.taxLiability owner = 0 /\
          P.TaxReturns.stateTaxLiability owner = 0 /\
          P.TaxReturns.refundAmount owner = 0 /\
          P.TaxReturns.amountOwed owner = 0
      end.
Proof.
  intros Hsession Huser HtaxReturn.
  destruct (findOwnedTaxReturn_found _ _ _ _ HtaxReturn) as (_ & _ & Hstored).
  destruct (cleanup_run id taxReturn
              (List.filter
                 (fun dependent =>
                    String.eqb (dependentTaxReturnId dependent) id)
                 (P.dependents (database world)))
              world Hstored)
    as (result & world' & Hrun & Hresult & _ & _ & _ & _ & _ & HtaxReturns).
  eexists _, world'.
  split; [exact (POST_run _ _ _ _ _ _ _ _ Hsession Huser HtaxReturn Hrun) |].
  cbn [taxCalculationResult newTotalIncome newTotalWithholdings].
  split.
  - destruct (ETC.calculateEnhancedTaxReturnWithState _ _ _ _ _ _ _);
      exact Hresult.
  - intros owner Hin Hid. rewrite HtaxReturns in Hin.
    apply In_updated_rows in Hin as (old & _ & ->); [| exact Hid].
    destruct result as [calculated|]; cbn; repeat split; reflexivity.
Qed.

(** X20: a second cleanup finds nothing left to delete and stores the same
    totals. *)
Theorem cleanup_POST_twice
  (sessionEmail : option string) (id : string) (world : World)
  (email : string) (user : P.Users.User) (taxReturn : P.TaxReturns.TaxReturn) :
  DocumentRoute.sessionUserEmail sessionEmail = Some email ->
  P.findUser (database world) email = Some user ->
  CurrentIncomeRoute.findOwnedTaxReturn (database world) id (P.Users.id user)
    = Some taxReturn ->
  exists first second world' world'',
    POST sessionEmail id world =
      (JS.Ok {| status := 200;
                body := Success true
                          "Orphaned data cleanup completed successfully"
                          first |},
       world') /\
    POST sessionEmail id world' =
      (JS.Ok {| status := 200;
                body := Success true
                          "Orphaned data cleanup completed successfully"
                          second |},
       world'') /\
    orphanedIncomeEntriesDeleted second = 0%nat /\
    invalidDocumentEntriesDeleted second = 0%nat /\
    validIncomeEntriesRemaining second = validIncomeEntriesRemaining first /\
    newTotalIncome second = newTotalIncome first /\
    newTotalWithholdings second = newTotalWithholdings first /\
    P.incomeEntries (database world'') = P.incomeEntries (database world').
Proof.
  intros Hsession Huser HtaxReturn.
  destruct (findOwnedTaxReturn_found _ _ _ _ HtaxReturn) as (_ & _ & Hstored).
  destruct (cleanup_run id taxReturn
              (List.filter
                 (fun dependent =>
                    String.eqb (dependentTaxReturnId dependent) id)
                 (P.dependents (database world)))
              world Hstored)
    as (result & world' & Hrun & _ & Husers & Hdocuments & _ & _ & Hentries
        & HtaxReturns).
  pose proof (POST_run _ _ _ _ _ _ _ _ Hsession Huser HtaxReturn Hrun) as Hfirst.
  assert (P.findUser (database world') email = Some user) as Huser'.
  { unfold P.findUser. rewrite Husers. exact Huser. }
  assert (exists taxReturn',
            CurrentIncomeRoute.findOwnedTaxReturn (database world') id
              (P.Users.id user) = Some taxReturn') as [taxReturn' HtaxReturn'].
  { unfold CurrentIncomeRoute.findOwnedTaxReturn in *. rewrite HtaxReturns.
    rewrite find_map_keyed.
    - rewrite HtaxReturn. cbn. eauto.
    - intros row. cbv beta.
      destruct (String.eqb (P.TaxReturns.id row) id) eqn:Hrow;
        cbn [P.TaxReturns.apply P.TaxReturns.id P.TaxReturns.userId];
        rewrite ?Hrow; reflexivity. }
  destruct (findOwnedTaxReturn_found _ _ _ _ HtaxReturn') as (_ & _ & Hstored').
  destruct (cleanup_run id taxReturn'
              (List.filter
                 (fun dependent =>
                    String.eqb (dependentTaxReturnId dependent) id)
                 (P.dependents (database world')))
              world' Hstored')
    as (result' & world'' & Hrun' & _ & _ & _ & _ & _ & Hentries' & _).
  pose proof (POST_run _ _ _ _ _ _ _ _ Hsession Huser' HtaxReturn' Hrun')
    as Hsecond.
  eexists _, _, world', world''.
  split; [exact Hfirst |]. split; [exact Hsecond |].
  cbn [orphanedIncomeEntriesDeleted invalidDocumentEntriesDeleted
         validIncomeEntriesRemaining newTotalIncome newTotalWithholdings].
  assert (List.filter (ProcessRoute.validEntry (database world') id)
            (P.incomeEntries (database world'))
          = List.filter (ProcessRoute.validEntry (database world) id)
              (P.incomeEntries (database world))) as Hvalid.
  { rewrite (filter_ext _ _
               (fun entry =>
                  validEntry_same_documents (database world) _ id entry
                    Hdocuments)).
    rewrite Hentries. apply kept_valid. }
  rewrite Hvalid.
  rewrite (filter_ext _ _
             (fun entry =>
                invalidEntry_same_documents (database world) _ id entry
                  Hdocuments)).
  rewrite Hentries' at 1.
  rewrite (filter_ext (kept (database world') id) (kept (database world) id)).
  2:{ intros entry. unfold kept.
      rewrite (validEntry_same_documents (database world) _ id entry Hdocuments).
      reflexivity. }
  rewrite Hentries, kept_orphaned, kept_invalid, filter_twice.
  repeat split; reflexivity.
Qed.

End CleanupOutcome.

Section MigrationProperties.

Import Migration.

Lemma migrate_entries (database : P.Database) :
  P.incomeEntries (migrate database)
  = List.filter
      (fun entry => P.hasDocument entry && P.documentExists database entry)
      (P.incomeEntries database).
Proof.
  unfold migrate, deleteInvalidReferences, deleteOrphanedEntries.
  cbn [P.deleteIncomeEntries P.withIncomeEntries P.incomeEntries].
  rewrite filter_filter_and. apply filter_ext. intros entry.
  unfold P.documentExists, P.existsDocument. cbn [P.documents].
  destruct (P.hasDocument entry); cbn [negb andb]; [| reflexivity].
  destruct (P.IncomeEntries.documentId entry);
    [rewrite negb_involutive |]; reflexivity.
Qed.

(** X21: after the migration every income entry names a document that
    exists: the foreign key holds, no entry is orphaned, no tax return
    needs cleanup; documents and tax returns are untouched, and running
    the migration again deletes nothing. *)
Theorem migrate_establishes_integrity (database : P.Database) :
  let after := migrate database in
  Integrity.foreignKey after = true /\
  Integrity.noOrphans after = true /\
  P.documents after = P.documents database /\
  P.taxReturns after = P.taxReturns database /\
  P.incomeEntries after
    = List.filter
        (fun entry => P.hasDocument entry && P.documentExists database entry)
        (P.incomeEntries database) /\
  (forall id,
     CurrentIncomeRoute.needsCleanup (CurrentIncomeRoute.summarize after id)
     = false) /\
  P.incomeEntries (migrate after) = P.incomeEntries after.
Proof.
  intros after. subst after.
  assert (forall entry,
            In entry (P.incomeEntries (migrate database)) ->
            P.hasDocument entry = true /\
            P.documentExists (migrate database) entry = true) as Hall.
  { intros entry Hin. rewrite migrate_entries in Hin.
    apply filter_In in Hin as [_ Hkept]. apply andb_prop in Hkept. exact Hkept. }
  split; [| split; [| split; [| split; [| split; [| split]]]]].
  - unfold Integrity.foreignKey. apply forallb_forall. intros entry Hin.
    destruct (Hall entry Hin) as [_ Hexists].
    unfold Integrity.referenced, P.documentExists in *.
    destruct (P.IncomeEntries.documentId entry); [exact Hexists | reflexivity].
  - unfold Integrity.noOrphans. apply forallb_forall. intros entry Hin.
    apply (Hall entry Hin).
  - reflexivity.
  - reflexivity.
  - apply migrate_entries.
  - intros id. cbn [CurrentIncomeRoute.summarize CurrentIncomeRoute.needsCleanup].
    apply Nat.ltb_ge.
    assert (List.filter (ProcessRoute.orphanedEntry id)
              (P.incomeEntries (migrate database)) = []) as ->.
    { apply filter_nil_none. intros entry Hin.
      destruct (Hall entry Hin) as [Hdocument _].
      unfold ProcessRoute.orphanedEntry. rewrite Hdocument. apply andb_false_r. }
    assert (CurrentIncomeRoute.entriesWithInvalidDocs (migrate database) id = [])
      as ->; [| reflexivity].
    unfold CurrentIncomeRoute.entriesWithInvalidDocs.
    apply filter_nil_none. intros entry Hin. apply filter_In in Hin as [Hin _].
    destruct (Hall entry Hin) as [_ Hexists]. rewrite Hexists. reflexivity.
  - rewrite (migrate_entries (migrate database)).
    apply forallb_filter_id. apply forallb_forall. intros entry Hin.
    destruct (Hall entry Hin) as [-> ->]. reflexivity.
Qed.

End MigrationProperties.

Section CleanupExamples.

Import Server CleanupRoute.
Local Open Scope Q_scope.

Lemma cleanup_POST_removes_invalid_entries_witness :
  exists summary world',
    POST (runtime := ReferenceRuntime.runtime) (federal := Examples.flatFederal)
      (Some "alice@example.com") "tr1" Examples.danglingWorld =
      (JS.Ok {| status := 200;
                body := Success true
                          "Orphaned data cleanup completed successfully"
                          summary |},
       world') /\
    P.incomeEntries (database world') =
      [Examples.wages (Some "doc1") 55000 6000;
       Examples.wages (Some "doc2") 20000 2000] /\
    orphanedIncomeEntriesDeleted summary = 1%nat /\
    invalidDocumentEntriesDeleted summary = 1%nat /\
    validIncomeEntriesRemaining summary = 2%nat /\
    newTotalIncome summary == 75000 /\
    newTotalWithholdings summary == 8000.
Proof.
  destruct (cleanup_POST_removes_invalid_entries
              (runtime := ReferenceRuntime.runtime)
              (federal := Examples.flatFederal)
              (Some "alice@example.com") "tr1" Examples.danglingWorld
              "alice@example.com" Examples.alice Examples.return2024
              eq_refl eq_refl eq_refl)
    as (summary & world' & Hrun & Hentries & _ & Horphaned & Hinvalid & Hvalid
        & Hincome & Hwithheld & _).
  exists summary, world'.
  split; [exact Hrun |]. split; [exact Hentries |].
  split; [exact Horphaned |]. split; [exact Hinvalid |].
  split; [exact Hvalid |].
  split; [rewrite Hincome | rewrite Hwithheld]; vm_compute; reflexivity.
Defined.

Lemma cleanup_POST_records_calculation_witness :
  exists summary world' calculated,
    POST (runtime := ReferenceRuntime.runtime) (federal := Examples.flatFederal)
      (Some "alice@example.com") "tr1" Examples.danglingWorld =
      (JS.Ok {| status := 200;
                body := Success true
                          "Orphaned data cleanup completed successfully"
                          summary |},
       world') /\
    taxCalculationResult summary = Some calculated /\
    ETC.E.taxLiability calculated == 6040 /\
    forall owner,
      In owner (P.taxReturns (database world')) ->
      P.TaxReturns.id owner = "tr1" ->
      P.TaxReturns.taxLiability owner = ETC.E.taxLiability calculated.
Proof.
  destruct (cleanup_POST_records_calculation
              (runtime := ReferenceRuntime.runtime)
              (federal := Examples.flatFederal)
              (Some "alice@example.com") "tr1" Examples.danglingWorld
              "alice@example.com" Examples.alice Examples.return2024
              eq_refl eq_refl eq_refl)
    as (summary & world' & Hrun & Hcalculated & Hstored).
  pose proof Hrun as Hnormal. vm_compute in Hnormal.
  injection Hnormal as Hsummary _.
  destruct (taxCalculationResult summary) as [calculated|] eqn:Hresult;
    [| subst summary; vm_compute in Hresult; discriminate Hresult].
  exists summary, world', calculated.
  split; [exact Hrun |]. split; [exact Hresult |]. split.
  - subst summary. vm_compute in Hresult. injection Hresult as <-.
    vm_compute. reflexivity.
  - intros owner Hin Hid.
    destruct (Hstored owner Hin Hid) as (_ & Hliability & _).
    exact Hliability.
Defined.

Lemma cleanup_POST_twice_witness :
  exists first second world' world'',
    POST (runtime := ReferenceRuntime.runtime) (federal := Examples.flatFederal)
      (Some "alice@example.com") "tr1" Examples.danglingWorld =
      (JS.Ok {| status := 200;
                body := Success true
                          "Orphaned data cleanup completed successfully"
                          first |},
       world') /\
    POST (runtime := ReferenceRuntime.runtime) (federal := Examples.flatFederal)
      (Some "alice@example.com") "tr1" world' =
      (JS.Ok {| status := 200;
                body := Success true
                          "Orphaned data cleanup completed successfully"
                          second |},
       world'') /\
    orphanedIncomeEntriesDeleted first = 1%nat /\
    orphanedIncomeEntriesDeleted second = 0%nat /\
    invalidDocumentEntriesDeleted second = 0%nat /\
    validIncomeEntriesRemaining second = validIncomeEntriesRemaining first /\
    P.incomeEntries (database world'') = P.incomeEntries (database world').
Proof.
  destruct (cleanup_POST_twice
              (runtime := ReferenceRuntime.runtime)
              (federal := Examples.flatFederal)
              (Some "alice@example.com") "tr1" Examples.danglingWorld
              "alice@example.com" Examples.alice Examples.return2024
              eq_refl eq_refl eq_refl)
    as (first & second & world' & world'' & Hfirst & Hsecond & Horphaned
        & Hinvalid & Hvalid & _ & _ & Hentries).
  exists first, second, world', world''.
  split; [exact Hfirst |]. split; [exact Hsecond |].
  split; [pose proof Hfirst as Hnormal; vm_compute in Hnormal;
          injection Hnormal as <- _; reflexivity |].
  split; [exact Horphaned |]. split; [exact Hinvalid |].
  split; [exact Hvalid | exact Hentries].
Defined.

End CleanupExamples.

(* ===================================================================== *)
(** * Failures of the processing endpoint *)
(* ===================================================================== *)

Section ProcessFailures.

Import Server ProcessRoute.
Local Open Scope Q_scope.

Context `{runtime : JS.Runtime} `{federal : TaxCalculations.Federal}
        `{classifier : SD.Classifier} `{collaborators : Collaborators}
        `{environment : Environment}.

(** X22: a request that names no document of the session's user is refused
    with 401 or 404, and nothing is written and nobody is called. *)
Theorem POST_refuses_strangers
  (sessionEmail : option string) (id : string) (world : World) :
  (forall email user,
     DocumentRoute.sessionUserEmail sessionEmail = Some email ->
     P.findUser (database world) email = Some user ->
     findOwnedDocument (database world) id (P.Users.id user) = None) ->
  exists status text,
    POST sessionEmail id world =
      (JS.Ok {| status := status; body := Error text |}, world) /\
    In status [401; 404]%Z.
Proof.
  intros Hstranger. unfold POST, tryCatch.
  destruct (DocumentRoute.sessionUserEmail sessionEmail) as [email|] eqn:Hsession.
  2:{ eexists _, _. split; [reflexivity |]. cbn. auto. }
  erewrite run_bind by reflexivity.
  destruct (P.findUser (database world) email) as [user|] eqn:Huser.
  2:{ eexists _, _. split; [reflexivity |]. cbn. auto. }
  erewrite run_bind by reflexivity.
  rewrite (Hstranger email user eq_refl Huser).
  eexists _, _. split; [reflexivity |]. cbn. auto.
Qed.

(** The catch of the handler: the document is marked FAILED and the
    error is reported by category. *)
Lemma failure_run (id message : string) (world : World) :
  is_Some (P.findDocument (database world) id) ->
  exists report database',
    failure id message world =
      (JS.Ok {| status := 500; body := Failed report |},
       setDatabase world database') /\
    Failure.errorType report = categorizeError message /\
    Failure.error report =
      (if match NODE_ENV with
          | Some mode => String.eqb mode "development"
          | None => false
          end
       then "Document processing failed"
       else getUserFriendlyErrorMessage (categorizeError message)) /\
    P.Documents.processingStatus <$> P.findDocument database' id
      = Some P.FAILED /\
    P.incomeEntries database' = P.incomeEntries (database world) /\
    P.taxReturns database' = P.taxReturns (database world).
Proof.
  intros Hstored. unfold failure, markFailed.
  destruct (updateDocument_returns (database world) id
              {| P.Documents.setDocumentType := None;
                 P.Documents.setProcessingStatus := Some P.FAILED;
                 P.Documents.setExtractedData := None;
                 P.Documents.setOcrText := None;
                 P.Documents.setIsVerified := None;
                 P.Documents.setUpdatedAt := Some (clock world) |} Hstored)
    as (updated & database' & Hupdate & _).
  erewrite run_bind.
  2:{ apply run_tryCatch_ok. erewrite run_bind by reflexivity.
      erewrite run_bind by (apply run_mutate; exact Hupdate). reflexivity. }
  erewrite run_bind by reflexivity.
  assert (P.Documents.processingStatus <$> P.findDocument database' id
          = Some P.FAILED /\
          P.incomeEntries database' = P.incomeEntries (database world) /\
          P.taxReturns database' = P.taxReturns (database world)) as Hafter.
  { split.
    - rewrite (updateDocument_findDocument _ _ _ _ _ id Hupdate).
      destruct Hstored as [row Hrow]. rewrite Hrow.
      unfold P.findDocument in Hrow.
      apply find_some_holds in Hrow as [Hid _]. cbn. rewrite Hid. reflexivity.
    - unfold P.updateDocument in Hupdate.
      destruct (P.findDocument (database world) id); [| discriminate].
      injection Hupdate as _ <-. split; reflexivity. }
  destruct (match NODE_ENV with
            | Some mode => String.eqb mode "development"
            | None => false
            end);
    (eexists _, database'; split; [reflexivity |];
     split; [reflexivity |]; split; [reflexivity | exact Hafter]).
Qed.

(** The handler for the owner of a document that is neither COMPLETED
    nor PROCESSING, when the pipeline throws. *)
Lemma POST_pipeline_throws (sessionEmail : option string) (id : string)
  (world world1 : World) (email : string) (user : P.Users.User)
  (document : P.Documents.Document) (taxReturn : P.TaxReturns.TaxReturn)
  (message : string) :
  DocumentRoute.sessionUserEmail sessionEmail = Some email ->
  P.findUser (database world) email = Some user ->
  findOwnedDocument (database world) id (P.Users.id user)
    = Some (document, taxReturn) ->
  P.Documents.processingStatus document <> P.COMPLETED ->
  P.Documents.processingStatus document <> P.PROCESSING ->
  processDocument document taxReturn world = (JS.Throw message, world1) ->
  POST sessionEmail id world = failure id message world1.
Proof.
  intros Hsession Huser Hfound Hcompleted Hprocessing Hthrow.
  rewrite (POST_guard _ _ _ _ _ _ _ Hsession Huser Hfound).
  unfold tryCatch.
  destruct (P.Documents.processingStatus document); try contradiction;
    rewrite Hthrow; reflexivity.
Qed.

(** X23: without the credentials of the extraction service the request
    fails before anybody is called: the answer is 500 with the category
    EXTRACTION_ERROR, the document ends FAILED (not PROCESSING), and
    income entries and tax returns are as they were. *)
Theorem POST_missing_configuration
  (sessionEmail : option string) (id : string) (world : World)
  (email : string) (user : P.Users.User) (document : P.Documents.Document)
  (taxReturn : P.TaxReturns.TaxReturn) :
  DocumentRoute.sessionUserEmail sessionEmail = Some email ->
  P.findUser (database world) email = Some user ->
  findOwnedDocument (database world) id (P.Users.id user)
    = Some (document, taxReturn) ->
  P.Documents.processingStatus document <> P.COMPLETED ->
  P.Documents.processingStatus document <> P.PROCESSING ->
  configured AZURE_DOCUMENT_INTELLIGENCE_ENDPOINT
    && configured AZURE_DOCUMENT_INTELLIGENCE_API_KEY = false ->
  exists report world',
    POST sessionEmail id world =
      (JS.Ok {| status := 500; body := Failed report |}, world') /\
    Failure.errorType report = "EXTRACTION_ERROR" /\
    P.Documents.processingStatus <$> P.findDocument (database world') id
      = Some P.FAILED /\
    calls world' = calls world /\
    P.incomeEntries (database world') = P.incomeEntries (database world) /\
    P.taxReturns (database world') = P.taxReturns (database world).
Proof.
  intros Hsession Huser Hfound Hcompleted Hprocessing Hconfigured.
  destruct (findOwnedDocument_stored _ _ _ _ _ Hfound) as (Hid & _ & Hstored).
  rewrite <- Hid in Hstored.
  destruct (setProcessing_run _ _ world Hstored) as (world1 & Hset & Hstored1).
  assert (calls world1 = calls world /\
          P.incomeEntries (database world1) = P.incomeEntries (database world) /\
          P.taxReturns (database world1) = P.taxReturns (database world))
    as (Hcalls1 & Hentries1 & HtaxReturns1).
  { unfold setProcessing in Hset.
    destruct (updateDocument_returns (database world) (P.Documents.id document)
                {| P.Documents.setDocumentType := None;
                   P.Documents.setProcessingStatus := Some P.PROCESSING;
                   P.Documents.setExtractedData := None;
                   P.Documents.setOcrText := None;
                   P.Documents.setIsVerified := None;
                   P.Documents.setUpdatedAt := Some (clock world) |}
                (proj1 Hstored)) as (updated & stored' & Hupdate & _).
    erewrite run_bind in Hset by reflexivity.
    erewrite run_bind in Hset by (apply run_mutate; exact Hupdate).
    injection Hset as <-.
    unfold P.updateDocument in Hupdate.
    destruct (P.findDocument (database world) _); [| discriminate].
    injection Hupdate as _ <-. repeat split; reflexivity. }
  assert (processDocument document taxReturn world =
            (JS.Throw "Azure Document Intelligence credentials not configured. Please contact support.",
             world1)) as Hthrow.
  { unfold processDocument.
    erewrite run_bind by exact Hset.
    apply run_bind_throw. unfold checkConfiguration. rewrite Hconfigured.
    reflexivity. }
  rewrite (POST_pipeline_throws _ _ _ _ _ _ _ _ _ Hsession Huser Hfound
             Hcompleted Hprocessing Hthrow).
  rewrite Hid in Hstored1.
  destruct (failure_run id
              "Azure Document Intelligence credentials not configured. Please contact support."
              world1 (proj1 Hstored1))
    as (report & database' & Hrun & Htype & _ & Hstatus & Hentries & HtaxReturns).
  exists report, (setDatabase world1 database').
  split; [exact Hrun |]. split; [rewrite Htype; reflexivity |].
  split; [exact Hstatus |]. cbn [calls database setDatabase].
  split; [exact Hcalls1 |]. split; congruence.
Qed.

(** X24: when the extraction service throws, the request fails after that
    one call: the answer is 500, the category is that of the message
    [Document extraction failed: ...], the document ends FAILED, and
    income entries and tax returns are as they were. *)
Theorem POST_extraction_failure
  (sessionEmail : option string) (id : string) (world : World)
  (email : string) (user : P.Users.User) (document : P.Documents.Document)
  (taxReturn : P.TaxReturns.TaxReturn) (message : string) :
  DocumentRoute.sessionUserEmail sessionEmail = Some email ->
  P.findUser (database world) email = Some user ->
  findOwnedDocument (database world) id (P.Users.id user)
    = Some (document, taxReturn) ->
  P.Documents.processingStatus document <> P.COMPLETED ->
  P.Documents.processingStatus document <> P.PROCESSING ->
  configured AZURE_DOCUMENT_INTELLIGENCE_ENDPOINT
    && configured AZURE_DOCUMENT_INTELLIGENCE_API_KEY = true ->
  extractDataFromDocument (P.Documents.filePath document)
    (P.Documents.documentType document) = JS.Throw message ->
  exists report world',
    POST sessionEmail id world =
      (JS.Ok {| status := 500; body := Failed report |}, world') /\
    Failure.errorType report
      = categorizeError ("Document extraction failed: " ++ message) /\
    P.Documents.processingStatus <$> P.findDocument (database world') id
      = Some P.FAILED /\
    calls world' =
      (calls world ++
       [ExtractData (P.Documents.filePath document)
          (P.Documents.documentType document)])%list /\
    P.incomeEntries (database world') = P.incomeEntries (database world) /\
    P.taxReturns (database world') = P.taxReturns (database world).
Proof.
  intros Hsession Huser Hfound Hcompleted Hprocessing Hconfigured Hextract.
  destruct (findOwnedDocument_stored _ _ _ _ _ Hfound) as (Hid & _ & Hstored).
  rewrite <- Hid in Hstored.
  destruct (setProcessing_run _ _ world Hstored) as (world1 & Hset & Hstored1).
  assert (calls world1 = calls world /\
          P.incomeEntries (database world1) = P.incomeEntries (database world) /\
          P.taxReturns (database world1) = P.taxReturns (database world))
    as (Hcalls1 & Hentries1 & HtaxReturns1).
  { unfold setProcessing in Hset.
    destruct (updateDocument_returns (database world) (P.Documents.id document)
                {| P.Documents.setDocumentType := None;
                   P.Documents.setProcessingStatus := Some P.PROCESSING;
                   P.Documents.setExtractedData := None;
                   P.Documents.setOcrText := None;
                   P.Documents.setIsVerified := None;
                   P.Documents.setUpdatedAt := Some (clock world) |}
                (proj1 Hstored)) as (updated & stored' & Hupdate & _).
    erewrite run_bind in Hset by reflexivity.
    erewrite run_bind in Hset by (apply run_mutate; exact Hupdate).
    injection Hset as <-.
    unfold P.updateDocument in Hupdate.
    destruct (P.findDocument (database world) _); [| discriminate].
    injection Hupdate as _ <-. repeat split; reflexivity. }
  set (world2 :=
         {| database := database world1;
            calls := (calls world1 ++
                      [ExtractData (P.Documents.filePath document)
                         (P.Documents.documentType document)])%list;
            clock := clock world1 |}).
  assert (processDocument document taxReturn world =
            (JS.Throw ("Document extraction failed: " ++ message), world2))
    as Hthrow.
  { unfold processDocument.
    erewrite run_bind by exact Hset.
    erewrite run_bind.
    2:{ unfold checkConfiguration. rewrite Hconfigured. reflexivity. }
    apply run_bind_throw. unfold extraction.
    erewrite run_bind by reflexivity.
    unfold tryCatch, lift. rewrite Hextract. reflexivity. }
  rewrite (POST_pipeline_throws _ _ _ _ _ _ _ _ _ Hsession Huser Hfound
             Hcompleted Hprocessing Hthrow).
  rewrite Hid in Hstored1.
  destruct (failure_run id ("Document extraction failed: " ++ message)
              world2 (proj1 Hstored1))
    as (report & database' & Hrun & Htype & _ & Hstatus & Hentries & HtaxReturns).
  exists report, (setDatabase world2 database').
  split; [exact Hrun |]. split; [exact Htype |].
  split; [exact Hstatus |]. cbn [calls database setDatabase world2].
  split; [rewrite Hcalls1; reflexivity |].
  cbn [world2 database] in Hentries, HtaxReturns. split; congruence.
Qed.

End ProcessFailures.

Section ProcessHelpers.

Import Server ProcessRoute.
Local Open Scope Q_scope.

Context `{runtime : JS.Runtime} `{federal : TaxCalculations.Federal}
        `{classifier : SD.Classifier} `{collaborators : Collaborators}
        `{environment : Environment}.

Lemma prefix_app (needle text rest : string) :
  String.prefix needle text = true ->
  String.prefix needle (text ++ rest) = true.
Proof.
  revert text. induction needle as [|c needle IH]; intros text.
  - intros _. destruct (text ++ rest); reflexivity.
  - destruct text as [|d text]; [discriminate |].
    change (String d text ++ rest) with (String d (text ++ rest)).
    cbn [String.prefix].
    destruct (Ascii.ascii_dec c d); [apply IH | discriminate].
Qed.

Lemma includes_app (needle text rest : string) :
  JS.includes needle text = true ->
  JS.includes needle (text ++ rest) = true.
Proof.
  induction text as [|c text IH]; cbn [JS.includes].
  - rewrite orb_false_r. intros Hprefix.
    destruct needle; [| discriminate]. destruct rest; reflexivity.
  - intros Hfound. apply orb_prop in Hfound as [Hprefix|Hlater].
    + rewrite <- (prefix_app _ _ rest Hprefix).
      change (String c text ++ rest) with (String c (text ++ rest)).
      cbn [JS.includes].
      change (String c (text ++ rest)) with (String c text ++ rest).
      rewrite (prefix_app _ _ rest Hprefix). reflexivity.
    + change (String c text ++ rest) with (String c (text ++ rest)).
      cbn [JS.includes]. rewrite (IH Hlater). apply orb_true_r.
Qed.

Lemma toLowerCase_app (text rest : string) :
  JS.toLowerCase (text ++ rest) = JS.toLowerCase text ++ JS.toLowerCase rest.
Proof.
  unfold JS.toLowerCase. induction text as [|c text IH]; [reflexivity |].
  change (String c text ++ rest) with (String c (text ++ rest)).
  cbn [JS.map_string]. rewrite IH. reflexivity.
Qed.

(** X25: every error falls in one of eight categories; the message shown to
    the user is the generic one for UNKNOWN_ERROR only; and a failure of
    the persistence step, whose message starts with [Database update
    failed], is a DATABASE_ERROR or an EXTRACTION_ERROR, never anything
    else. *)
Theorem categorizeError_categories (errorMessage : string) :
  In (categorizeError errorMessage)
    [ "EXTRACTION_ERROR"; "DATABASE_ERROR"; "STATE_DETECTION_ERROR";
      "DUPLICATE_DETECTION_ERROR"; "CALCULATION_ERROR"; "MAPPING_ERROR";
      "AUTH_ERROR"; "UNKNOWN_ERROR" ] /\
  (getUserFriendlyErrorMessage (categorizeError errorMessage)
     = "Document processing failed. Please try again or contact support."
   <-> categorizeError errorMessage = "UNKNOWN_ERROR") /\
  In (categorizeError ("Database update failed: " ++ errorMessage))
    ["EXTRACTION_ERROR"; "DATABASE_ERROR"].
Proof.
  split; [| split].
  - unfold categorizeError.
    repeat match goal with
           | |- context [if ?c then _ else _] => destruct c
           end; cbn; auto 10.
  - unfold categorizeError.
    repeat match goal with
           | |- context [if ?c then _ else _] => destruct c
           end; cbn; split; (discriminate || reflexivity).
  - unfold categorizeError. rewrite toLowerCase_app.
    assert (JS.includes "database"
              (JS.toLowerCase "Database update failed: "
               ++ JS.toLowerCase errorMessage) = true) as ->
      by (apply includes_app; reflexivity).
    destruct (_ || _); cbn; auto.
Qed.

(** X26: the suggested actions are never empty; they ask for a review of
    duplicates or of the state exactly when the response is flagged for
    manual review; and the plain success message appears exactly when
    the document is no duplicate, the state is certain and there is no
    optimization suggestion. *)
Theorem generateSuggestedActions_consistent
  (duplicateResult : option Duplicates.DuplicateCheck)
  (stateResult : option SD.StateDetectionResult)
  (taxResult : option ETC.E.EnhancedTaxCalculationResult) :
  let actions := generateSuggestedActions duplicateResult stateResult taxResult in
  actions <> [] /\
  (flaggedDuplicate duplicateResult || lowConfidence stateResult = true <->
   In "Review potential duplicate documents before proceeding" actions \/
   In "Verify state information for accurate tax calculations" actions) /\
  (In "Document processed successfully - review extracted data" actions <->
   flaggedDuplicate duplicateResult = false /\
   lowConfidence stateResult = false /\
   match taxResult with
   | Some result => ETC.E.taxOptimizationSuggestions result = []
   | None => True
   end).
Proof.
  unfold generateSuggestedActions.
  destruct (flaggedDuplicate duplicateResult), (lowConfidence stateResult);
    destruct taxResult as [result|];
    try destruct (ETC.E.taxOptimizationSuggestions result) as [|first rest];
    cbn; intuition (try discriminate; try congruence).
Qed.

End ProcessHelpers.

Section ProcessFailureExamples.

Import Server ProcessRoute.
Local Open Scope Q_scope.

Lemma POST_keeps_foreign_key_witness :
  Integrity.foreignKey
    (database (snd (Examples.processDoc2 Examples.flatFederal Prisma.PENDING)))
  = true.
Proof.
  apply (POST_keeps_foreign_key
           (runtime := ReferenceRuntime.runtime)
           (federal := Examples.flatFederal)
           (classifier := Examples.unreachableClassifier)
           (Some "alice@example.com") "doc2"
           (Examples.sampleWorld Prisma.PENDING)).
  reflexivity.
Defined.

Lemma POST_refuses_strangers_witness :
  exists status text,
    POST (runtime := ReferenceRuntime.runtime) (federal := Examples.flatFederal)
      (classifier := Examples.unreachableClassifier)
      (Some "bob@example.com") "doc2" Examples.sharedWorld =
      (JS.Ok {| status := status; body := Error text |}, Examples.sharedWorld) /\
    In status [401; 404]%Z.
Proof.
  apply (POST_refuses_strangers
           (runtime := ReferenceRuntime.runtime)
           (federal := Examples.flatFederal)
           (classifier := Examples.unreachableClassifier)
           (Some "bob@example.com") "doc2" Examples.sharedWorld).
  intros email user Hsession Huser.
  injection Hsession as <-. vm_compute in Huser. injection Huser as <-.
  reflexivity.
Defined.

Lemma POST_missing_configuration_witness :
  exists report world',
    POST (runtime := ReferenceRuntime.runtime) (federal := Examples.flatFederal)
      (classifier := Examples.unreachableClassifier)
      (environment := Examples.unconfigured)
      (Some "alice@example.com") "doc2" (Examples.sampleWorld Prisma.PENDING) =
      (JS.Ok {| status := 500; body := Failed report |}, world') /\
    Failure.errorType report = "EXTRACTION_ERROR" /\
    P.Documents.processingStatus <$> P.findDocument (database world') "doc2"
      = Some P.FAILED /\
    calls world' = [].
Proof.
  destruct (POST_missing_configuration
              (runtime := ReferenceRuntime.runtime)
              (federal := Examples.flatFederal)
              (classifier := Examples.unreachableClassifier)
              (environment := Examples.unconfigured)
              (Some "alice@example.com") "doc2"
              (Examples.sampleWorld Prisma.PENDING)
              "alice@example.com" Examples.alice
              (Examples.document "doc2" Prisma.PENDING) Examples.return2024
              eq_refl eq_refl eq_refl)
    as (report & world' & Hrun & Htype & Hstatus & Hcalls & _);
    [discriminate | discriminate | reflexivity |].
  exists report, world'. auto.
Defined.

Lemma POST_extraction_failure_witness :
  exists report world',
    POST (runtime := ReferenceRuntime.runtime) (federal := Examples.flatFederal)
      (classifier := Examples.unreachableClassifier)
      (collaborators := Examples.extractionDown)
      (Some "alice@example.com") "doc2" (Examples.sampleWorld Prisma.PENDING) =
      (JS.Ok {| status := 500; body := Failed report |}, world') /\
    Failure.errorType report = "UNKNOWN_ERROR" /\
    P.Documents.processingStatus <$> P.findDocument (database world') "doc2"
      = Some P.FAILED /\
    calls world' = [ExtractData "/uploads/doc2.pdf" "W2"].
Proof.
  destruct (POST_extraction_failure
              (runtime := ReferenceRuntime.runtime)
              (federal := Examples.flatFederal)
              (classifier := Examples.unreachableClassifier)
              (collaborators := Examples.extractionDown)
              (Some "alice@example.com") "doc2"
              (Examples.sampleWorld Prisma.PENDING)
              "alice@example.com" Examples.alice
              (Examples.document "doc2" Prisma.PENDING) Examples.return2024
              "request timed out"
              eq_refl eq_refl eq_refl)
    as (report & world' & Hrun & Htype & Hstatus & Hcalls & _);
    [discriminate | discriminate | reflexivity | reflexivity |].
  exists report, world'. auto.
Defined.

End ProcessFailureExamples.

(* ===================================================================== *)
(** * The deduction method of the enhanced calculation *)
(* ===================================================================== *)

Section DeductionMethod.

Import EnhancedTaxCalculations.
Local Open Scope Q_scope.

Context `{runtime : JS.Runtime} `{federal : TaxCalculations.Federal}.

Lemma calculateDeductionComparison_fields
  adjustedGrossIncome filingStatus itemizedDeductions dependents comparison :
  calculateDeductionComparison adjustedGrossIncome filingStatus
    itemizedDeductions dependents = JS.Ok comparison ->
  exists standardDeduction,
    T.getStandardDeduction filingStatus = JS.Ok standardDeduction /\
    T.calculateTaxLiability
      (JS.Math_max 0 (adjustedGrossIncome - standardDeduction)) filingStatus
      = JS.Ok (C.standardTaxLiability comparison) /\
    T.calculateTaxLiability
      (JS.Math_max 0 (adjustedGrossIncome - itemizedDeductions)) filingStatus
      = JS.Ok (C.itemizedTaxLiability comparison) /\
    C.standardDeduction comparison = standardDeduction /\
    C.itemizedDeduction comparison = itemizedDeductions /\
    C.recommendedMethod comparison =
      (if S.Qltb (C.itemizedTaxLiability comparison)
            (C.standardTaxLiability comparison)
       then itemized else standard) /\
    C.taxSavings comparison =
      JS.Math_abs (C.standardTaxLiability comparison
                   - C.itemizedTaxLiability comparison).
Proof.
  unfold calculateDeductionComparison. intros Hcomparison.
  destruct (T.getStandardDeduction filingStatus) as [deduction|];
    [| discriminate].
  cbn in Hcomparison.
  destruct (T.calculateTaxLiability
              (JS.Math_max 0 (adjustedGrossIncome - deduction)) filingStatus)
    as [standardLiability|] eqn:Hstandard; [| discriminate].
  cbn in Hcomparison.
  destruct (T.calculateTaxLiability
              (JS.Math_max 0 (adjustedGrossIncome - itemizedDeductions))
              filingStatus)
    as [itemizedLiability|] eqn:Hitemized; [| discriminate].
  cbn in Hcomparison. injection Hcomparison as <-.
  exists deduction. cbn. repeat split; assumption || reflexivity.
Qed.

Lemma recommendedLiability_lower (comparison : C.DeductionComparison) :
  C.recommendedMethod comparison =
    (if S.Qltb (C.itemizedTaxLiability comparison)
          (C.standardTaxLiability comparison)
     then itemized else standard) ->
  recommendedLiability comparison <= C.standardTaxLiability comparison /\
  recommendedLiability comparison <= C.itemizedTaxLiability comparison /\
  (recommendedLiability comparison = C.standardTaxLiability comparison \/
   recommendedLiability comparison = C.itemizedTaxLiability comparison).
Proof.
  unfold recommendedLiability. intros ->.
  destruct (S.Qltb _ _) eqn:Hlower; cbn.
  - apply Qltb_true_iff in Hlower. repeat split; auto; lra.
  - apply Qltb_false_iff in Hlower. repeat split; auto; lra.
Qed.

(** X27: the enhanced federal return is computed with the cheaper of the two
    deduction methods: its tax liability is the liability of the
    recommended method, which is at most the liability of either method;
    the reported saving is the gap to the other method; and the final
    tax, liability less credits, is never negative. *)
Theorem calculateEnhancedTaxReturn_cheaper_method
  (totalIncome : Q) (filingStatus : string) (dependents : list Dependent)
  (itemizedDeductions : Q) (totalWithholdings : option Q)
  (result : E.EnhancedTaxCalculationResult) :
  calculateEnhancedTaxReturn totalIncome filingStatus dependents
    itemizedDeductions totalWithholdings = JS.Ok result ->
  let comparison := E.deductionComparison result in
  E.taxLiability result = recommendedLiability comparison /\
  E.taxLiability result <= C.standardTaxLiability comparison /\
  E.taxLiability result <= C.itemizedTaxLiability comparison /\
  C.taxSavings comparison ==
    Qmax (C.standardTaxLiability comparison)
         (C.itemizedTaxLiability comparison) - E.taxLiability result /\
  (C.recommendedMethod comparison = itemized <->
   C.itemizedTaxLiability comparison < C.standardTaxLiability comparison) /\
  E.finalTax result ==
    Qmax 0 (E.taxLiability result - E.totalCredits result) /\
  0 <= E.finalTax result.
Proof.
  unfold calculateEnhancedTaxReturn. intros Hresult.
  destruct (T.calculateTaxReturn _ _ _ _ _) as [basic|]; [| discriminate].
  cbn in Hresult.
  destruct (calculateDeductionComparison _ _ _ _) as [comparison|] eqn:Hcomparison;
    [| discriminate].
  cbn in Hresult.
  destruct (calculateDeductionComparison_fields _ _ _ _ _ Hcomparison)
    as (deduction & Hdeduction & Hstandard & Hitemized & Hstd & Hitem
        & Hmethod & Hsavings).
  destruct (recommendedLiability_lower comparison Hmethod)
    as (Hle_standard & Hle_itemized & _).
  assert (T.calculateTaxLiability
            (JS.Math_max 0
               (T.adjustedGrossIncome basic
                - (if isItemized (C.recommendedMethod comparison)
                   then C.itemizedDeduction comparison
                   else C.standardDeduction comparison))) filingStatus
          = JS.Ok (recommendedLiability comparison)) as Hoptimized.
  { unfold recommendedLiability. rewrite Hstd, Hitem.
    destruct (isItemized (C.recommendedMethod comparison)); assumption. }
  rewrite Hoptimized in Hresult. cbn in Hresult.
  injection Hresult as <-. cbn.
  split; [reflexivity |]. split; [exact Hle_standard |].
  split; [exact Hle_itemized |].
  split; [| split; [| split]].
  - rewrite Hsavings. unfold JS.Math_abs, recommendedLiability.
    rewrite Hmethod.
    destruct (S.Qltb _ _) eqn:Hlower; cbn.
    + apply Qltb_true_iff in Hlower.
      rewrite (Qabs_pos (C.standardTaxLiability comparison
                         - C.itemizedTaxLiability comparison)) by lra.
      rewrite (Q.max_l (C.standardTaxLiability comparison)
                 (C.itemizedTaxLiability comparison)) by lra.
      lra.
    + apply Qltb_false_iff in Hlower.
      rewrite (Qabs_neg (C.standardTaxLiability comparison
                         - C.itemizedTaxLiability comparison)) by lra.
      rewrite (Q.max_r (C.standardTaxLiability comparison)
                 (C.itemizedTaxLiability comparison)) by lra.
      lra.
  - rewrite Hmethod. destruct (S.Qltb _ _) eqn:Hlower.
    + apply Qltb_true_iff in Hlower. split; auto.
    + apply Qltb_false_iff in Hlower. split; [discriminate | lra].
  - reflexivity.
  - apply Q.le_max_l.
Qed.

Lemma recommendedLiability_more_deductions
  adjustedGrossIncome filingStatus dependents fewer more before after :
  monotoneLiability ->
  fewer <= more ->
  calculateDeductionComparison adjustedGrossIncome filingStatus fewer
    dependents = JS.Ok before ->
  calculateDeductionComparison adjustedGrossIncome filingStatus more
    dependents = JS.Ok after ->
  recommendedLiability after <= recommendedLiability before.
Proof.
  intros Hmonotone Hmore Hbefore Hafter.
  destruct (calculateDeductionComparison_fields _ _ _ _ _ Hbefore)
    as (deduction & Hdeduction & Hstandard & Hitemized & _ & _ & Hmethod & _).
  destruct (calculateDeductionComparison_fields _ _ _ _ _ Hafter)
    as (deduction' & Hdeduction' & Hstandard' & Hitemized' & _ & _
        & Hmethod' & _).
  rewrite Hdeduction in Hdeduction'. injection Hdeduction' as <-.
  rewrite Hstandard in Hstandard'. injection Hstandard' as Hsame.
  assert (C.itemizedTaxLiability after <= C.itemizedTaxLiability before)
    as Hitemized_le.
  { refine (Hmonotone _ _ _ _ _ _ Hitemized' Hitemized).
    unfold JS.Math_max. apply Q.max_le_compat_l. lra. }
  destruct (recommendedLiability_lower before Hmethod)
    as (_ & _ & [-> | ->]);
    destruct (recommendedLiability_lower after Hmethod')
      as (Hle_standard & Hle_itemized & _).
  - rewrite Hsame. exact Hle_standard.
  - eapply Qle_trans; eassumption.
Qed.

(** X28: with a federal liability that does not decrease with taxable income,
    the what-if scenarios are the current deductions followed by the
    four increases in order, each scenario's liability is at most the
    one before it, and every reported saving is the drop from the
    current liability and is never negative. *)
Theorem calculateTaxImpactScenarios_savings
  (adjustedGrossIncome : Q) (filingStatus : string)
  (currentItemizedDeductions : Q) (dependents : list Dependent)
  (scenarios : list Scenario.TaxImpactScenario) :
  monotoneLiability ->
  calculateTaxImpactScenarios adjustedGrossIncome filingStatus
    currentItemizedDeductions dependents = JS.Ok scenarios ->
  exists current s1000 s2500 s5000 s10000,
    scenarios = [current; s1000; s2500; s5000; s10000] /\
    map Scenario.itemizedDeductions scenarios =
      [ currentItemizedDeductions;
        currentItemizedDeductions + 1000;
        currentItemizedDeductions + 2500;
        currentItemizedDeductions + 5000;
        currentItemizedDeductions + 10000 ] /\
    Scenario.taxLiability s10000 <= Scenario.taxLiability s5000 /\
    Scenario.taxLiability s5000 <= Scenario.taxLiability s2500 /\
    Scenario.taxLiability s2500 <= Scenario.taxLiability s1000 /\
    Scenario.taxLiability s1000 <= Scenario.taxLiability current /\
    Forall (fun scenario =>
              Scenario.savings scenario ==
                Scenario.taxLiability current - Scenario.taxLiability scenario
              /\ 0 <= Scenario.savings scenario) scenarios.
Proof.
  intros Hmonotone. unfold calculateTaxImpactScenarios, additionalDeductions.
  intros Hscenarios.
  destruct (calculateDeductionComparison _ _ currentItemizedDeductions _)
    as [base|] eqn:Hbase; [| discriminate].
  cbn in Hscenarios.
  destruct (calculateDeductionComparison _ _ (currentItemizedDeductions + 1000) _)
    as [c1000|] eqn:H1000; [| discriminate].
  cbn in Hscenarios.
  destruct (calculateDeductionComparison _ _ (currentItemizedDeductions + 2500) _)
    as [c2500|] eqn:H2500; [| discriminate].
  cbn in Hscenarios.
  destruct (calculateDeductionComparison _ _ (currentItemizedDeductions + 5000) _)
    as [c5000|] eqn:H5000; [| discriminate].
  cbn in Hscenarios.
  destruct (calculateDeductionComparison _ _ (currentItemizedDeductions + 10000) _)
    as [c10000|] eqn:H10000; [| discriminate].
  cbn in Hscenarios. injection Hscenarios as <-.
  assert (recommendedLiability c1000 <= recommendedLiability base) as Hle1
    by (eapply recommendedLiability_more_deductions;
        [exact Hmonotone | | exact Hbase | exact H1000]; lra).
  assert (recommendedLiability c2500 <= recommendedLiability c1000) as Hle2
    by (eapply recommendedLiability_more_deductions;
        [exact Hmonotone | | exact H1000 | exact H2500]; lra).
  assert (recommendedLiability c5000 <= recommendedLiability c2500) as Hle3
    by (eapply recommendedLiability_more_deductions;
        [exact Hmonotone | | exact H2500 | exact H5000]; lra).
  assert (recommendedLiability c10000 <= recommendedLiability c5000) as Hle4
    by (eapply recommendedLiability_more_deductions;
        [exact Hmonotone | | exact H5000 | exact H10000]; lra).
  do 5 eexists. split; [reflexivity |]. cbn.
  split; [reflexivity |].
  repeat (split; [assumption |]).
  repeat constructor; cbn; lra.
Qed.

End DeductionMethod.

Section DeductionMethodExamples.

Import EnhancedTaxCalculations.
Local Open Scope Q_scope.

Lemma calculateEnhancedTaxReturn_cheaper_method_witness :
  exists result,
    calculateEnhancedTaxReturn
      (runtime := ReferenceRuntime.runtime) (federal := Examples.flatFederal)
      60000 "SINGLE" [] 20000 (Some 7000) = JS.Ok result /\
    C.recommendedMethod (E.deductionComparison result) = itemized /\
    E.taxLiability result == 4000 /\
    C.taxSavings (E.deductionComparison result) == 540 /\
    0 <= E.finalTax result.
Proof.
  destruct (calculateEnhancedTaxReturn
              (runtime := ReferenceRuntime.runtime)
              (federal := Examples.flatFederal)
              60000 "SINGLE" [] 20000 (Some 7000))
    as [result|message] eqn:Hrun;
    [| vm_compute in Hrun; discriminate Hrun].
  exists result. split; [reflexivity |].
  destruct (calculateEnhancedTaxReturn_cheaper_method
              (runtime := ReferenceRuntime.runtime)
              (federal := Examples.flatFederal)
              60000 "SINGLE" [] 20000 (Some 7000) result Hrun)
    as (_ & _ & _ & _ & _ & _ & Hfinal).
  vm_compute in Hrun. injection Hrun as <-.
  split; [reflexivity |]. split; [reflexivity |].
  split; [reflexivity | exact Hfinal].
Defined.

Lemma flatFederal_monotone :
  monotoneLiability (federal := Examples.flatFederal).
Proof.
  intros low high filingStatus lowTax highTax Hle Hlow Hhigh.
  cbn in Hlow, Hhigh. injection Hlow as <-. injection Hhigh as <-. lra.
Qed.

Lemma calculateTaxImpactScenarios_savings_witness :
  exists scenarios,
    calculateTaxImpactScenarios
      (runtime := ReferenceRuntime.runtime) (federal := Examples.flatFederal)
      60000 "SINGLE" 12000 [] = JS.Ok scenarios /\
    map Scenario.itemizedDeductions scenarios =
      [12000; 12000 + 1000; 12000 + 2500; 12000 + 5000; 12000 + 10000] /\
    Forall (fun scenario => 0 <= Scenario.savings scenario) scenarios.
Proof.
  eexists. split; [vm_compute; reflexivity |].
  destruct (calculateTaxImpactScenarios_savings
              (runtime := ReferenceRuntime.runtime)
              (federal := Examples.flatFederal)
              60000 "SINGLE" 12000 [] _ flatFederal_monotone eq_refl)
    as (current & s1000 & s2500 & s5000 & s10000 & _ & Hdeductions & _ & _
        & _ & _ & Hsavings).
  split; [exact Hdeductions |].
  eapply List.Forall_impl; [| exact Hsavings]. intros scenario [_ Hnonneg].
  exact Hnonneg.
Defined.

End DeductionMethodExamples.

(* ===================================================================== *)
(** * States of the status stream *)
(* ===================================================================== *)

Section StreamInvariants.

Import StatusStream.

Lemma ongoing_snoc (events : list Event) (event : Event) :
  Forall ongoing events -> ongoing event ->
  Forall ongoing (events ++ [event]).
Proof.
  intros Hevents Hevent. apply Forall_app. split; [exact Hevents |].
  constructor; [exact Hevent | constructor].
Qed.

Lemma ongoing_update (update : StatusUpdate) : ongoing (Update update).
Proof. unfold ongoing. cbn. auto. Qed.

Lemma ongoing_error message documentId error date :
  ongoing (Error message documentId error date).
Proof. unfold ongoing. cbn. auto. Qed.

Lemma continue_settled (events : list Event) (count : nat)
  (update : StatusUpdate) (date : Z) :
  Forall ongoing events ->
  count < maxPolls ->
  settled
    (continue
       (sendUpdate (Update update)
          {| sent := events; closed := false; polls := count; timer := None |})
       date).
Proof.
  intros Hsent Hpolls. unfold continue, settled.
  cbn [countPoll sendUpdate polls sent closed timer].
  destruct (S count <? maxPolls)%nat eqn:Hmore;
    cbn [setTimeout close sendUpdate closed timer sent polls].
  - split; [eauto |]. split.
    + apply ongoing_snoc; [exact Hsent | apply ongoing_update].
    + apply Nat.ltb_lt. exact Hmore.
  - split; [reflexivity |].
    exists (events ++ [Update update])%list, (Timeout date).
    split; [reflexivity |]. split.
    + apply ongoing_snoc; [exact Hsent | apply ongoing_update].
    + unfold terminal. cbn. auto.
Qed.

Lemma fire_settled (observation : Observation) (stream : Stream) :
  closed stream = false ->
  Forall ongoing (sent stream) ->
  polls stream < maxPolls ->
  settled (fire observation stream).
Proof.
  destruct stream as [events isClosed count pending].
  cbn [closed sent polls]. intros -> Hsent Hpolls.
  unfold fire, pollDocument. cbn [sent closed polls timer].
  destruct (found observation) as [[currentDoc|]|message].
  - destruct (P.Documents.processingStatus currentDoc).
    + apply continue_settled; assumption.
    + apply continue_settled; assumption.
    + unfold settled. cbn [close sendUpdate closed timer sent].
      split; [reflexivity |].
      eexists _, _. split; [reflexivity |]. split.
      * apply ongoing_snoc; [exact Hsent | apply ongoing_update].
      * unfold terminal. cbn. auto.
    + unfold settled. cbn [close sendUpdate closed timer sent].
      split; [reflexivity |].
      eexists _, _. split; [reflexivity |]. split; [exact Hsent |].
      unfold terminal. cbn. auto.
  - unfold settled. cbn [close sendUpdate closed timer sent].
    split; [reflexivity |].
    eexists _, _. split; [reflexivity |]. split; [exact Hsent |].
    unfold terminal. cbn. auto.
  - cbn [sendUpdate polls sent closed timer].
    destruct (count <? 10)%nat; unfold settled;
      cbn [setTimeout close closed timer sent polls].
    + split; [eauto |]. split; [| exact Hpolls].
      apply ongoing_snoc; [exact Hsent | apply ongoing_error].
    + split; [reflexivity |].
      eexists _, _. split; [reflexivity |]. split; [exact Hsent |].
      unfold terminal. cbn. auto.
Qed.

Lemma run_settled (observe : nat -> Observation) (fuel : nat) :
  forall poll stream,
    settled stream -> settled (run fuel observe poll stream).
Proof.
  induction fuel as [|fuel IH]; intros poll stream Hsettled; [exact Hsettled |].
  cbn [run]. destruct (timer stream) as [delay|] eqn:Htimer;
    [| exact Hsettled].
  apply IH. unfold settled in Hsettled.
  destruct (closed stream) eqn:Hclosed.
  - destruct Hsettled as [Hnone _]. congruence.
  - destruct Hsettled as (_ & Hsent & Hpolls).
    apply fire_settled; assumption.
Qed.

(** X29: however the polls turn out and however long the stream is observed,
    it is in one of two states.  Open: a poll is scheduled, fewer than
    300 polls are counted, and nothing but [connected], [status_update]
    and [error] events was sent.  Closed: no poll is scheduled, so nothing
    is sent any more, and the last event sent is the only [completed] or
    [timeout] event, or an [error]. *)
Theorem stream_open_or_closed
  (observe : nat -> Observation) (document : P.Documents.Document)
  (date : Z) (fuel : nat) :
  let stream := run fuel observe 0 (start document date) in
  (closed stream = false /\
   is_Some (timer stream) /\
   polls stream < 300 /\
   Forall (fun event =>
             In (eventType event) [connected; status_update; error])
     (sent stream)) \/
  (closed stream = true /\
   timer stream = None /\
   (forall later, fuel <= later ->
                  run later observe 0 (start document date) = stream) /\
   exists earlier final,
     sent stream = (earlier ++ [final])%list /\
     Forall (fun event =>
               In (eventType event) [connected; status_update; error])
       earlier /\
     In (eventType final) [completed; error; timeout]).
Proof.
  cbv zeta.
  assert (settled (run fuel observe 0 (start document date))) as Hsettled.
  { apply run_settled. unfold settled. cbn.
    split; [eauto |]. split; [| unfold maxPolls; lia].
    constructor; [| constructor]. unfold ongoing. cbn. auto. }
  unfold settled in Hsettled.
  destruct (closed (run fuel observe 0 (start document date))) eqn:Hclosed.
  - right. destruct Hsettled as (Htimer & earlier & final & Hsent & Hearlier
                                 & Hfinal).
    split; [reflexivity |]. split; [exact Htimer |]. split.
    + intros later Hlater. replace later with (fuel + (later - fuel)) by lia.
      apply run_more. exact Htimer.
    + exists earlier, final. auto.
  - left. destruct Hsettled as (Htimer & Hsent & Hpolls). auto.
Qed.

(** X30: while the database keeps failing from the first poll on, the stream
    never closes: the count of polls stays at zero, so the limit of ten
    failures is never reached, every failure is reported as an [error]
    event and the next poll is scheduled five seconds later. *)
Theorem stream_retries_errors_without_bound
  (observe : nat -> Observation) (document : P.Documents.Document)
  (date : Z) (fuel : nat) :
  (forall poll, exists message, found (observe poll) = JS.Throw message) ->
  let stream := run (S fuel) observe 0 (start document date) in
  closed stream = false /\
  timer stream = Some 5000%Z /\
  polls stream = 0 /\
  exists errors,
    sent stream =
      Connected (P.Documents.id document)
        (P.Documents.processingStatus document) date :: errors /\
    length errors = S fuel /\
    Forall (fun event =>
              eventType event = error /\
              eventMessage event = Some "Error checking document status")
      errors.
Proof.
  intros Hfails. cbv zeta.
  assert (forall fuel poll stream,
            is_Some (timer stream) -> closed stream = false ->
            polls stream = 0 ->
            let final := run (S fuel) observe poll stream in
            closed final = false /\ timer final = Some 5000%Z /\
            polls final = 0 /\
            exists errors,
              sent final = (sent stream ++ errors)%list /\
              length errors = S fuel /\
              Forall (fun event =>
                        eventType event = error /\
                        eventMessage event
                          = Some "Error checking document status") errors)
    as Hrun.
  { clear fuel. induction fuel as [|fuel IH];
      intros poll stream [delay Htimer] Hopen Hpolls.
    - cbn [run]. rewrite Htimer. destruct (Hfails poll) as [message Hthrow].
      unfold fire, pollDocument. rewrite Hthrow.
      cbn [sendUpdate polls sent closed timer]. rewrite Hpolls.
      cbn [Nat.ltb Nat.leb setTimeout closed timer polls sent].
      split; [exact Hopen |]. split; [reflexivity |]. split; [reflexivity |].
      eexists. split; [reflexivity |]. split; [reflexivity |].
      repeat constructor.
    - change (run (S (S fuel)) observe poll stream)
        with (match timer stream with
              | Some _ =>
                  run (S fuel) observe (S poll) (fire (observe poll) stream)
              | None => stream
              end).
      rewrite Htimer. destruct (Hfails poll) as [message Hthrow].
      unfold fire, pollDocument. rewrite Hthrow.
      cbn [sendUpdate polls sent closed timer]. rewrite Hpolls.
      cbn [Nat.ltb Nat.leb].
      edestruct (IH (S poll)) as (Hclosed & Hnext & Hcount & errors & Hsent
                                  & Hlength & Herrors);
        [| | | cbv zeta in *; rewrite Hclosed, Hnext, Hcount, Hsent].
      + cbn. eauto.
      + cbn. exact Hopen.
      + reflexivity.
      + repeat (split; [reflexivity |]).
        exists (Error "Error checking document status" None (Some message)
                  (clock (observe poll)) :: errors).
        split; [cbn [setTimeout sendUpdate sent]; rewrite <- app_assoc; reflexivity |].
        split; [cbn [length]; rewrite Hlength; reflexivity |].
        constructor; [split; reflexivity | exact Herrors]. }
  destruct (Hrun fuel 0 (start document date))
    as (Hclosed & Htimer & Hpolls & errors & Hsent & Hlength & Herrors);
    [cbn; eauto | reflexivity | reflexivity |].
  cbv zeta in *. repeat (split; [assumption |]).
  exists errors. auto.
Qed.

End StreamInvariants.

Section StreamStateExamples.

Import StatusStream.

Lemma stream_retries_errors_without_bound_witness :
  exists errors,
    sent (run 1000 Examples.unreachable 0
            (start (Examples.document "doc2" Prisma.PROCESSING) 2000)) =
      Connected "doc2" Prisma.PROCESSING 2000 :: errors /\
    length errors = 1000 /\
    closed (run 1000 Examples.unreachable 0
              (start (Examples.document "doc2" Prisma.PROCESSING) 2000))
      = false.
Proof.
  destruct (stream_retries_errors_without_bound Examples.unreachable
              (Examples.document "doc2" Prisma.PROCESSING) 2000 999)
    as (Hclosed & _ & _ & errors & Hsent & Hlength & _).
  - intros poll. eexists. reflexivity.
  - exists errors. auto.
Defined.

End StreamStateExamples.
